(** * Debug-control core of the numicro_dap target (src/target/numicro_dap.c)

    A shallow embedding of the Cortex-M debug state machine: the target
    bundle is a record, every function of the C file is a computation in a
    state monad over that record and over a [world] that holds the probe
    (the answers of the DAP transport, the clock and the opaque
    collaborators) together with the trace of everything the core issued. *)

From Stdlib Require Import ZArith Bool Lia.
From stdpp Require Import base list.

Open Scope Z_scope.

(** ** Register map and bit encodings *)

(** Modelled from the spec: cortex_m.h is not under src/.  Section 6 fixes
    DBGKEY (0xA05F) in the upper half-word of a DHCSR write, the C_ flags in
    the lower half-word and the S_ flags in the upper one; the values below
    are the ARMv7-M encodings that section requires to match silicon. *)
Module Regs.
Definition DCB_DHCSR : Z := 0xE000EDF0.
Definition DCB_DCRSR : Z := 0xE000EDF4.
Definition DCB_DCRDR : Z := 0xE000EDF8.
Definition DCB_DEMCR : Z := 0xE000EDFC.
Definition DCB_DSCSR : Z := 0xE000EE08.

Definition NVIC_AIRCR : Z := 0xE000ED0C.
Definition NVIC_SHCSR : Z := 0xE000ED24.
Definition NVIC_CFSR : Z := 0xE000ED28.
Definition NVIC_HFSR : Z := 0xE000ED2C.
Definition NVIC_DFSR : Z := 0xE000ED30.
Definition NVIC_MMFAR : Z := 0xE000ED34.
Definition NVIC_BFAR : Z := 0xE000ED38.
Definition NVIC_SFSR : Z := 0xE000EDE4.
Definition NVIC_SFAR : Z := 0xE000EDE8.
Definition FP_CTRL : Z := 0xE0002000.

Definition DCRSR_WNR : Z := Z.shiftl 1 16.
Definition DBGKEY : Z := Z.shiftl 0xA05F 16.
Definition C_DEBUGEN : Z := Z.shiftl 1 0.
Definition C_HALT : Z := Z.shiftl 1 1.
Definition C_STEP : Z := Z.shiftl 1 2.
Definition C_MASKINTS : Z := Z.shiftl 1 3.
Definition S_REGRDY : Z := Z.shiftl 1 16.
Definition S_HALT : Z := Z.shiftl 1 17.
Definition S_SLEEP : Z := Z.shiftl 1 18.
Definition S_LOCKUP : Z := Z.shiftl 1 19.
Definition S_RETIRE_ST : Z := Z.shiftl 1 24.
Definition S_RESET_ST : Z := Z.shiftl 1 25.

Definition DSCSR_CDS : Z := Z.shiftl 1 16.

Definition AIRCR_VECTKEY : Z := Z.shiftl 0x5FA 16.
Definition AIRCR_SYSRESETREQ : Z := Z.shiftl 1 2.
Definition AIRCR_VECTRESET : Z := Z.shiftl 1 0.

Definition TRCENA : Z := Z.shiftl 1 24.
Definition VC_HARDERR : Z := Z.shiftl 1 10.
Definition VC_BUSERR : Z := Z.shiftl 1 8.
Definition VC_CORERESET : Z := Z.shiftl 1 0.

Definition DFSR_HALTED : Z := 1.
Definition DFSR_BKPT : Z := 2.
Definition DFSR_DWTTRAP : Z := 4.
Definition DFSR_VCATCH : Z := 8.
Definition DFSR_EXTERNAL : Z := 16.

(** jtag/jtag.h, enum reset_types *)
Definition RESET_HAS_SRST : Z := 0x2.
Definition RESET_SRST_PULLS_TRST : Z := 0x4.
Definition RESET_SRST_NO_GATING : Z := 0x40.
End Regs.
Import Regs.

(** Timeout for register r/w *)
Definition DHCSR_S_REGRDY_TIMEOUT : Z := 500.

(** A [uint32_t]: the value kept modulo 2^32. *)
Definition u32 (z : Z) : Z := z mod 2 ^ 32.

(** C truth value of [x & mask]. *)
Definition has_bits (x mask : Z) : bool := negb (Z.land x mask =? 0).

(** Modelled from the spec: helper/binarybuffer.h is not under src/.  A
    register value is a little-endian byte buffer, kept here as the number it
    encodes; [buf_get_u32 buf first num] reads [num] bits from bit [first],
    [buf_set_u32] replaces them, and [buf_cpy] copies [size] bits starting at
    byte [offset] of the source. *)
Definition buf_get_u32 (buf : Z) (first num : Z) : Z :=
  Z.land (Z.shiftr buf first) (Z.ones num).

Definition buf_set_u32 (buf : Z) (first num : Z) (value : Z) : Z :=
  Z.lor (Z.land buf (Z.lnot (Z.shiftl (Z.ones num) first)))
        (Z.shiftl (Z.land value (Z.ones num)) first).

Definition buf_cpy (from : Z) (offset : Z) (size : Z) : Z :=
  Z.land (Z.shiftr from (8 * offset)) (Z.ones size).

(** ** Enumerations *)

(** Return codes.  [ERROR_OTHER] stands for every code of the transport and
    of the collaborators that this file never tests for by name. *)
Inductive retcode :=
| ERROR_OK
| ERROR_FAIL
| ERROR_TIMEOUT_REACHED
| ERROR_TARGET_NOT_HALTED
| ERROR_TARGET_FAILURE
| ERROR_TARGET_UNALIGNED_ACCESS
| ERROR_OTHER (code : Z).

Definition is_ok (r : retcode) : bool :=
  match r with ERROR_OK => true | _ => false end.

Definition is_timeout (r : retcode) : bool :=
  match r with ERROR_TIMEOUT_REACHED => true | _ => false end.

Inductive target_state :=
| TARGET_UNKNOWN | TARGET_RUNNING | TARGET_HALTED | TARGET_RESET
| TARGET_DEBUG_RUNNING.

Inductive target_debug_reason :=
| DBG_REASON_DBGRQ | DBG_REASON_BREAKPOINT | DBG_REASON_WATCHPOINT
| DBG_REASON_WPTANDBKPT | DBG_REASON_SINGLESTEP | DBG_REASON_NOTHALTED
| DBG_REASON_EXIT | DBG_REASON_EXC_CATCH | DBG_REASON_UNDEFINED.

Inductive target_event :=
| TARGET_EVENT_HALTED | TARGET_EVENT_RESUMED
| TARGET_EVENT_DEBUG_HALTED | TARGET_EVENT_DEBUG_RESUMED
| TARGET_EVENT_RESET_ASSERT.

Inductive cortex_m_isrmasking_mode :=
| CORTEX_M_ISRMASK_AUTO | CORTEX_M_ISRMASK_OFF | CORTEX_M_ISRMASK_ON
| CORTEX_M_ISRMASK_STEPONLY.

Inductive cortex_m_soft_reset_config :=
| CORTEX_M_RESET_SYSRESETREQ | CORTEX_M_RESET_VECTRESET.

Inductive arm_arch :=
| ARM_ARCH_UNKNOWN | ARM_ARCH_V4 | ARM_ARCH_V6M | ARM_ARCH_V7M | ARM_ARCH_V8M.

Inductive arm_mode :=
| ARM_MODE_THREAD | ARM_MODE_USER_THREAD | ARM_MODE_HANDLER | ARM_MODE_ANY.

Inductive reg_map := armv7m_msp_reg_map | armv7m_psp_reg_map.

Inductive breakpoint_type := BKPT_HARD | BKPT_SOFT.

Definition state_eqb (a b : target_state) : bool :=
  match a, b with
  | TARGET_UNKNOWN, TARGET_UNKNOWN | TARGET_RUNNING, TARGET_RUNNING
  | TARGET_HALTED, TARGET_HALTED | TARGET_RESET, TARGET_RESET
  | TARGET_DEBUG_RUNNING, TARGET_DEBUG_RUNNING => true
  | _, _ => false
  end.

Definition reason_eqb (a b : target_debug_reason) : bool :=
  match a, b with
  | DBG_REASON_DBGRQ, DBG_REASON_DBGRQ
  | DBG_REASON_BREAKPOINT, DBG_REASON_BREAKPOINT
  | DBG_REASON_WATCHPOINT, DBG_REASON_WATCHPOINT
  | DBG_REASON_WPTANDBKPT, DBG_REASON_WPTANDBKPT
  | DBG_REASON_SINGLESTEP, DBG_REASON_SINGLESTEP
  | DBG_REASON_NOTHALTED, DBG_REASON_NOTHALTED
  | DBG_REASON_EXIT, DBG_REASON_EXIT
  | DBG_REASON_EXC_CATCH, DBG_REASON_EXC_CATCH
  | DBG_REASON_UNDEFINED, DBG_REASON_UNDEFINED => true
  | _, _ => false
  end.

Definition is_auto (m : cortex_m_isrmasking_mode) : bool :=
  match m with CORTEX_M_ISRMASK_AUTO => true | _ => false end.

Definition is_v6m (a : arm_arch) : bool :=
  match a with ARM_ARCH_V6M => true | _ => false end.

Definition is_v8m (a : arm_arch) : bool :=
  match a with ARM_ARCH_V8M => true | _ => false end.

(** ** The target bundle *)

(** [struct reg] of the register cache. *)
Record reg := mk_reg {
  exist : bool;
  size : Z;
  value : Z;
  dirty : bool;
  valid : bool
}.

Definition set_value (v : Z) (r : reg) : reg :=
  mk_reg (exist r) (size r) v (dirty r) (valid r).
Definition set_dirty (b : bool) (r : reg) : reg :=
  mk_reg (exist r) (size r) (value r) b (valid r).
Definition set_valid (b : bool) (r : reg) : reg :=
  mk_reg (exist r) (size r) (value r) (dirty r) b.

Definition no_reg : reg := mk_reg false 32 0 false false.

(** [struct breakpoint]. *)
Record breakpoint := mk_breakpoint {
  bp_address : Z;
  bp_length : Z;
  bp_type : breakpoint_type;
  bp_is_set : bool;
  bp_unique_id : Z
}.

(** [struct cortex_m_fp_comparator] and [struct cortex_m_dwt_comparator]. *)
Record cortex_m_fp_comparator := mk_fp_comparator {
  fpcr_address : Z;
  fpcr_value : Z
}.

Record cortex_m_dwt_comparator := mk_dwt_comparator {
  dwt_comparator_address : Z;
  dwt_comp : Z;
  dwt_mask : Z;
  dwt_function : Z
}.

(** [struct armv7m_common] with the embedded [struct arm]; [arm_pc] and
    [arm_cpsr] are the cache slots the pointers [arm.pc] and [arm.cpsr]
    designate. *)
Record armv7m_common := mk_armv7m {
  arch : arm_arch;
  core_mode : arm_mode;
  map : reg_map;
  core_cache : list reg;
  arm_pc : nat;
  arm_cpsr : nat;
  exception_number : Z;
  demcr : Z;
  debug_ap : bool
}.

(** [struct cortex_m_common]. *)
Record cortex_m_common := mk_cortex_m {
  dcb_dhcsr : Z;
  dcb_dhcsr_cumulated_sticky : Z;
  nvic_dfsr : Z;
  slow_register_read : bool;
  isrmasking_mode : cortex_m_isrmasking_mode;
  maskints_erratum : bool;
  vectreset_supported : bool;
  soft_reset_config : cortex_m_soft_reset_config;
  fp_rev : Z;
  fpb_enabled : bool;
  fp_num_code : nat;
  fp_num_lit : nat;
  fp_comparator_list : list cortex_m_fp_comparator;
  dwt_num_comp : nat;
  dwt_comparator_list : list cortex_m_dwt_comparator;
  armv7m : armv7m_common
}.

(** [struct target]; [coreid] names the target in the trace. *)
Record target := mk_target {
  coreid : nat;
  state : target_state;
  debug_reason : target_debug_reason;
  smp : bool;
  smp_halt_event_postponed : bool;
  examined : bool;
  defer_examine : bool;
  dbg_msg_enabled : bool;
  reset_halt : bool;
  reset_assert_action : bool;
  breakpoints : list breakpoint;
  cortex_m : cortex_m_common
}.

Definition set_core_mode (x : arm_mode) (a : armv7m_common) :=
  mk_armv7m (arch a) x (map a) (core_cache a) (arm_pc a) (arm_cpsr a)
            (exception_number a) (demcr a) (debug_ap a).
Definition set_map (x : reg_map) (a : armv7m_common) :=
  mk_armv7m (arch a) (core_mode a) x (core_cache a) (arm_pc a) (arm_cpsr a)
            (exception_number a) (demcr a) (debug_ap a).
Definition set_core_cache (x : list reg) (a : armv7m_common) :=
  mk_armv7m (arch a) (core_mode a) (map a) x (arm_pc a) (arm_cpsr a)
            (exception_number a) (demcr a) (debug_ap a).
Definition set_exception_number (x : Z) (a : armv7m_common) :=
  mk_armv7m (arch a) (core_mode a) (map a) (core_cache a) (arm_pc a)
            (arm_cpsr a) x (demcr a) (debug_ap a).

Definition set_dcb_dhcsr (x : Z) (c : cortex_m_common) :=
  mk_cortex_m x (dcb_dhcsr_cumulated_sticky c) (nvic_dfsr c)
    (slow_register_read c) (isrmasking_mode c) (maskints_erratum c)
    (vectreset_supported c) (soft_reset_config c) (fp_rev c) (fpb_enabled c)
    (fp_num_code c) (fp_num_lit c) (fp_comparator_list c) (dwt_num_comp c)
    (dwt_comparator_list c) (armv7m c).
Definition set_sticky (x : Z) (c : cortex_m_common) :=
  mk_cortex_m (dcb_dhcsr c) x (nvic_dfsr c)
    (slow_register_read c) (isrmasking_mode c) (maskints_erratum c)
    (vectreset_supported c) (soft_reset_config c) (fp_rev c) (fpb_enabled c)
    (fp_num_code c) (fp_num_lit c) (fp_comparator_list c) (dwt_num_comp c)
    (dwt_comparator_list c) (armv7m c).
Definition set_nvic_dfsr (x : Z) (c : cortex_m_common) :=
  mk_cortex_m (dcb_dhcsr c) (dcb_dhcsr_cumulated_sticky c) x
    (slow_register_read c) (isrmasking_mode c) (maskints_erratum c)
    (vectreset_supported c) (soft_reset_config c) (fp_rev c) (fpb_enabled c)
    (fp_num_code c) (fp_num_lit c) (fp_comparator_list c) (dwt_num_comp c)
    (dwt_comparator_list c) (armv7m c).
Definition set_slow_register_read (x : bool) (c : cortex_m_common) :=
  mk_cortex_m (dcb_dhcsr c) (dcb_dhcsr_cumulated_sticky c) (nvic_dfsr c)
    x (isrmasking_mode c) (maskints_erratum c)
    (vectreset_supported c) (soft_reset_config c) (fp_rev c) (fpb_enabled c)
    (fp_num_code c) (fp_num_lit c) (fp_comparator_list c) (dwt_num_comp c)
    (dwt_comparator_list c) (armv7m c).
Definition set_fpb_enabled (x : bool) (c : cortex_m_common) :=
  mk_cortex_m (dcb_dhcsr c) (dcb_dhcsr_cumulated_sticky c) (nvic_dfsr c)
    (slow_register_read c) (isrmasking_mode c) (maskints_erratum c)
    (vectreset_supported c) (soft_reset_config c) (fp_rev c) x
    (fp_num_code c) (fp_num_lit c) (fp_comparator_list c) (dwt_num_comp c)
    (dwt_comparator_list c) (armv7m c).
Definition set_armv7m (x : armv7m_common) (c : cortex_m_common) :=
  mk_cortex_m (dcb_dhcsr c) (dcb_dhcsr_cumulated_sticky c) (nvic_dfsr c)
    (slow_register_read c) (isrmasking_mode c) (maskints_erratum c)
    (vectreset_supported c) (soft_reset_config c) (fp_rev c) (fpb_enabled c)
    (fp_num_code c) (fp_num_lit c) (fp_comparator_list c) (dwt_num_comp c)
    (dwt_comparator_list c) x.

Definition set_state (x : target_state) (t : target) :=
  mk_target (coreid t) x (debug_reason t) (smp t)
    (smp_halt_event_postponed t) (examined t) (defer_examine t)
    (dbg_msg_enabled t) (reset_halt t) (reset_assert_action t)
    (breakpoints t) (cortex_m t).
Definition set_debug_reason (x : target_debug_reason) (t : target) :=
  mk_target (coreid t) (state t) x (smp t)
    (smp_halt_event_postponed t) (examined t) (defer_examine t)
    (dbg_msg_enabled t) (reset_halt t) (reset_assert_action t)
    (breakpoints t) (cortex_m t).
Definition set_smp_halt_event_postponed (x : bool) (t : target) :=
  mk_target (coreid t) (state t) (debug_reason t) (smp t)
    x (examined t) (defer_examine t)
    (dbg_msg_enabled t) (reset_halt t) (reset_assert_action t)
    (breakpoints t) (cortex_m t).
Definition set_examined (x : bool) (t : target) :=
  mk_target (coreid t) (state t) (debug_reason t) (smp t)
    (smp_halt_event_postponed t) x (defer_examine t)
    (dbg_msg_enabled t) (reset_halt t) (reset_assert_action t)
    (breakpoints t) (cortex_m t).
Definition set_breakpoints (x : list breakpoint) (t : target) :=
  mk_target (coreid t) (state t) (debug_reason t) (smp t)
    (smp_halt_event_postponed t) (examined t) (defer_examine t)
    (dbg_msg_enabled t) (reset_halt t) (reset_assert_action t)
    x (cortex_m t).
Definition set_cortex_m (x : cortex_m_common) (t : target) :=
  mk_target (coreid t) (state t) (debug_reason t) (smp t)
    (smp_halt_event_postponed t) (examined t) (defer_examine t)
    (dbg_msg_enabled t) (reset_halt t) (reset_assert_action t)
    (breakpoints t) x.

(** target_to_cm / target_to_armv7m and updates through them. *)
Definition target_to_cm (t : target) : cortex_m_common := cortex_m t.
Definition target_to_armv7m (t : target) : armv7m_common := armv7m (cortex_m t).

Definition upd_cm (f : cortex_m_common -> cortex_m_common) (t : target) :=
  set_cortex_m (f (cortex_m t)) t.
Definition upd_armv7m (f : armv7m_common -> armv7m_common) (t : target) :=
  upd_cm (fun c => set_armv7m (f (armv7m c)) c) t.

Definition reg_at (cache : list reg) (id : nat) : reg :=
  default no_reg (cache !! id).

Definition upd_reg (id : nat) (f : reg -> reg) (t : target) : target :=
  upd_armv7m (fun a =>
    set_core_cache (<[id := f (reg_at (core_cache a) id)]> (core_cache a)) a) t.

(** ** The world outside the core *)

(** Messages of LOG_TARGET_ERROR / WARNING / INFO (debug chatter is left out). *)
Inductive log_message :=
| LOG_timeout_dcrdr_transfer
| LOG_failed_to_enable_fpb
| LOG_clearing_lockup
| LOG_external_reset_detected
| LOG_external_resume_detected
| LOG_halt_in_unknown_state
| LOG_cant_halt_in_reset
| LOG_vectreset_not_supported
| LOG_target_not_halted
| LOG_context_restore_failed
| LOG_smp_resume_failed
| LOG_resume_failed
| LOG_no_debug_ap_will_not_halt
| LOG_no_debug_ap_reset_not_asserted
| LOG_ap_write_error_no_halt
| LOG_vectreset_using_sysresetreq
| LOG_only_resetting_core
| LOG_dp_init_failed.

(** Calls into the collaborators this file treats as opaque. *)
Inductive collab_call :=
| CALL_keep_alive
| CALL_alive_sleep (ms : Z)
| CALL_jtag_sleep (us : Z)
| CALL_arm_semihosting
| CALL_armv7m_maybe_skip_bkpt_inst
| CALL_armv7m_restore_context
| CALL_target_free_all_working_areas
| CALL_cortex_m_enable_breakpoints
| CALL_cortex_m_enable_watchpoints
| CALL_cortex_m_set_breakpoint (address : Z)
| CALL_cortex_m_unset_breakpoint (address : Z)
| CALL_breakpoint_add (address length : Z) (type : breakpoint_type)
| CALL_breakpoint_remove (address : Z)
| CALL_adapter_assert_reset
| CALL_adapter_deassert_reset
| CALL_target_examine_one
| CALL_target_handle_event (e : target_event)
| CALL_dap_dp_init_or_reconnect.

(** Everything the core issues, in issue order. *)
Inductive event :=
| EvApRead (atomic : bool) (address : Z)
| EvApWrite (atomic : bool) (address value : Z)
| EvDapRun
| EvMemApBuf (write : bool) (address size count : Z)
| EvTargetU32 (write : bool) (address value : Z)
| EvCall (c : collab_call)
| EvTargetEvent (core : nat) (e : target_event)
| EvLog (core : nat) (m : log_message).

(** The probe: what the transport, the clock and the collaborators answer.
    Every answer may depend on the number of consultations made so far, so a
    probe stands for any deterministic hardware behind the DAP.  The tables of
    armv7m.h that this file only uses ([armv7m_map_id_to_regsel],
    [armv7m_map_reg_packing], the cache slots of CONTROL and PRIMASK) are
    parameters of the probe as well. *)
Record probe := mk_probe {
  ap_read : nat -> Z -> retcode * Z;
  ap_write : nat -> Z -> Z -> retcode;
  ap_run : nat -> retcode;
  mem_buf : nat -> bool -> Z -> Z -> Z -> retcode;
  clock_ms : nat -> Z;
  collab : nat -> collab_call -> retcode;
  semihosting : nat -> bool * retcode;
  bkpt_inst_found : nat -> bool;
  jtag_reset_config : Z;
  jtag_srst : bool;
  wait_bound : nat;
  armv7m_map_id_to_regsel : nat -> Z;
  armv7m_map_reg_packing : nat -> option (nat * Z);
  ARMV7M_CONTROL : nat;
  ARMV7M_PRIMASK : nat
}.

Record world := mk_world {
  probe_of : probe;
  tick : nat;
  trace : list event
}.

(** ** The monad: state, world, and the bound on timed wait loops *)

Inductive outcome (A : Type) :=
| Done (a : A)
| OutOfFuel.
Arguments Done {A} a.
Arguments OutOfFuel {A}.

Definition ST (St A : Type) : Type := St -> world -> outcome A * St * world.

Definition ret {St A} (a : A) : ST St A := fun s w => (Done a, s, w).

Definition bind {St A B} (m : ST St A) (k : A -> ST St B) : ST St B :=
  fun s w =>
    match m s w with
    | (Done a, s', w') => k a s' w'
    | (OutOfFuel, s', w') => (OutOfFuel, s', w')
    end.

Notation "'do' x <- m ; k" := (bind m (fun x => k))
  (at level 10, x name, m at level 100, k at level 200).
Notation "'do' ' p <- m ; k" := (bind m (fun x => let 'p := x in k))
  (at level 10, p pattern, m at level 100, k at level 200).
Notation "'run' m ; k" := (bind m (fun _ => k))
  (at level 10, m at level 100, k at level 200).

Definition gets {St A} (f : St -> A) : ST St A := fun s w => (Done (f s), s, w).
Definition modify {St} (f : St -> St) : ST St unit := fun s w => (Done tt, f s, w).
Definition out_of_fuel {St A} : ST St A := fun s w => (OutOfFuel, s, w).

Definition emit {St} (e : event) : ST St unit :=
  fun s w => (Done tt, s, mk_world (probe_of w) (tick w) (trace w ++ [e])).

(** One consultation of the probe; the tick counts them. *)
Definition consult {St A} (f : probe -> nat -> A) : ST St A :=
  fun s w => (Done (f (probe_of w) (tick w)), s,
              mk_world (probe_of w) (S (tick w)) (trace w)).

Definition asks {St A} (f : probe -> A) : ST St A :=
  fun s w => (Done (f (probe_of w)), s, w).

(** [if (retval != ERROR_OK) return retval;] *)
Definition on_ok {St} (m : ST St retcode) (k : ST St retcode) : ST St retcode :=
  do r <- m; if is_ok r then k else ret r.
Notation "'must' m ; k" := (on_ok m k)
  (at level 10, m at level 100, k at level 200).

Definition M (A : Type) : Type := ST target A.
Definition G (A : Type) : Type := ST (list target) A.

(** ** Transport and collaborator primitives *)

(** A failed read leaves its destination untouched; the value of a queued
    read is taken when it is queued. *)
Definition mem_ap_read_u32 (address : Z) : M (retcode * Z) :=
  run emit (EvApRead false address);
  do rv <- consult (fun p n => ap_read p n address);
  ret (fst rv, u32 (snd rv)).

Definition mem_ap_read_atomic_u32 (address : Z) : M (retcode * Z) :=
  run emit (EvApRead true address);
  do rv <- consult (fun p n => ap_read p n address);
  ret (fst rv, u32 (snd rv)).

Definition mem_ap_write_u32 (address value : Z) : M retcode :=
  run emit (EvApWrite false address value);
  consult (fun p n => ap_write p n address value).

Definition mem_ap_write_atomic_u32 (address value : Z) : M retcode :=
  run emit (EvApWrite true address value);
  consult (fun p n => ap_write p n address value).

Definition dap_run : M retcode :=
  run emit EvDapRun; consult ap_run.

Definition mem_ap_read_buf (size count address : Z) : M retcode :=
  run emit (EvMemApBuf false address size count);
  consult (fun p n => mem_buf p n false address size count).

Definition mem_ap_write_buf (size count address : Z) : M retcode :=
  run emit (EvMemApBuf true address size count);
  consult (fun p n => mem_buf p n true address size count).

(** target_write_u32 / target_read_u32 of target.c: one word through the
    memory interface of the target. *)
Definition target_write_u32 (address value : Z) : M retcode :=
  run emit (EvTargetU32 true address value);
  consult (fun p n => ap_write p n address value).

Definition target_read_u32 (address : Z) : M (retcode * Z) :=
  run emit (EvTargetU32 false address 0);
  do rv <- consult (fun p n => ap_read p n address);
  ret (fst rv, u32 (snd rv)).

Definition timeval_ms : M Z := consult clock_ms.

Definition call (c : collab_call) : M retcode :=
  run emit (EvCall c); consult (fun p n => collab p n c).

Definition keep_alive : M unit := run call CALL_keep_alive; ret tt.
Definition alive_sleep (ms : Z) : M unit := run call (CALL_alive_sleep ms); ret tt.
Definition jtag_sleep (us : Z) : M unit := run call (CALL_jtag_sleep us); ret tt.

Definition log (m : log_message) : M unit :=
  do id <- gets coreid; emit (EvLog id m).

Definition target_call_event_callbacks (e : target_event) : M unit :=
  do id <- gets coreid; emit (EvTargetEvent id e).

(** Modelled from the spec: register.c is not under src/; invalidating the
    register cache clears [valid] and [dirty] of every register that exists. *)
Definition register_cache_invalidate : M unit :=
  modify (upd_armv7m (fun a =>
    set_core_cache
      (fmap (fun r => if exist r then set_dirty false (set_valid false r) else r)
            (core_cache a)) a)).

(** Modelled from the spec: breakpoints.c is not under src/;
    [breakpoint_find] returns the first breakpoint of the target whose address
    is the given one. *)
Definition breakpoint_find (t : target) (address : Z) : option breakpoint :=
  List.find (fun b => bp_address b =? address) (breakpoints t).

Definition is_some {A} (o : option A) : bool :=
  match o with Some _ => true | None => false end.

Definition mark_breakpoint (address : Z) (is_set : bool) (t : target) : target :=
  set_breakpoints
    (fmap (fun b => if bp_address b =? address
                    then mk_breakpoint (bp_address b) (bp_length b) (bp_type b)
                                       is_set (bp_unique_id b)
                    else b) (breakpoints t)) t.

(** Modelled from the spec: cortex_m_set_breakpoint / cortex_m_unset_breakpoint
    live in cortex_m.c, not under src/; they program or release the
    comparator of the breakpoint and record that in [is_set]. *)
Definition cortex_m_set_breakpoint (b : breakpoint) : M retcode :=
  do r <- call (CALL_cortex_m_set_breakpoint (bp_address b));
  run (if is_ok r then modify (mark_breakpoint (bp_address b) true) else ret tt);
  ret r.

Definition cortex_m_unset_breakpoint (b : breakpoint) : M retcode :=
  do r <- call (CALL_cortex_m_unset_breakpoint (bp_address b));
  run (if is_ok r then modify (mark_breakpoint (bp_address b) false) else ret tt);
  ret r.

(** Modelled from the spec: breakpoint_add / breakpoint_remove of
    breakpoints.c; a successful add appends the breakpoint to the store, a
    remove drops the breakpoints at the address. *)
Definition breakpoint_add (address length : Z) (type : breakpoint_type) : M retcode :=
  do r <- call (CALL_breakpoint_add address length type);
  run (if is_ok r
       then modify (fun t => set_breakpoints
              (breakpoints t ++ [mk_breakpoint address length type true 0]) t)
       else ret tt);
  ret r.

Definition breakpoint_remove (address : Z) : M unit :=
  run call (CALL_breakpoint_remove address);
  modify (fun t => set_breakpoints
    (List.filter (fun b => negb (bp_address b =? address)) (breakpoints t)) t).

Definition pc_value_of (t : target) : Z :=
  buf_get_u32 (value (reg_at (core_cache (target_to_armv7m t))
                             (arm_pc (target_to_armv7m t)))) 0 32.

(** Modelled from the spec: armv7m_maybe_skip_bkpt_inst of armv7m.c; when the
    disassembler finds a BKPT encoding at the program counter the cached PC
    moves over it (two bytes) and the caller is told so. *)
Definition armv7m_maybe_skip_bkpt_inst : M bool :=
  run emit (EvCall CALL_armv7m_maybe_skip_bkpt_inst);
  do found <- consult bkpt_inst_found;
  run (if found
       then modify (fun t => upd_reg (arm_pc (target_to_armv7m t))
              (fun r => set_valid true (set_dirty true
                 (set_value (buf_set_u32 (value r) 0 32 (u32 (pc_value_of t + 2))) r))) t)
       else ret tt);
  ret found.

Definition armv7m_restore_context : M retcode := call CALL_armv7m_restore_context.

(** arm_semihosting(target, &retval): whether it took the halt over, and the
    code it stored. *)
Definition arm_semihosting : M (bool * retcode) :=
  run emit (EvCall CALL_arm_semihosting); consult semihosting.

(** ** DHCSR status tracker and core-register transfer engine *)

Definition get_cm {A} (f : cortex_m_common -> A) : M A :=
  gets (fun t => f (target_to_cm t)).
Definition get_armv7m {A} (f : armv7m_common -> A) : M A :=
  gets (fun t => f (target_to_armv7m t)).
Definition get_reg (id : nat) : M reg :=
  gets (fun t => reg_at (core_cache (target_to_armv7m t)) id).

Definition cortex_m_cumulate_dhcsr_sticky (dhcsr : Z) : M unit :=
  modify (upd_cm (fun c =>
    set_sticky (Z.lor (dcb_dhcsr_cumulated_sticky c) dhcsr) c)).

Definition cortex_m_read_dhcsr_atomic_sticky : M retcode :=
  do '(retval, v) <- mem_ap_read_atomic_u32 DCB_DHCSR;
  if negb (is_ok retval) then ret retval else
  run modify (upd_cm (set_dcb_dhcsr v));
  do dhcsr <- get_cm dcb_dhcsr;
  run cortex_m_cumulate_dhcsr_sticky dhcsr;
  ret ERROR_OK.

(** The [while (1)] of cortex_m_load_core_reg_u32; [fuel] bounds the number
    of polls that are followed. *)
Fixpoint load_core_reg_wait (fuel : nat) (then_ : Z) : M (retcode * Z) :=
  match fuel with
  | O => out_of_fuel
  | S fuel' =>
    do '(retval, dhcsr) <- mem_ap_read_u32 DCB_DHCSR;
    if negb (is_ok retval) then ret (retval, 0) else
    run modify (upd_cm (set_dcb_dhcsr dhcsr));
    do '(retval, tmp_value) <- mem_ap_read_atomic_u32 DCB_DCRDR;
    if negb (is_ok retval) then ret (retval, 0) else
    do dhcsr <- get_cm dcb_dhcsr;
    run cortex_m_cumulate_dhcsr_sticky dhcsr;
    if has_bits dhcsr S_REGRDY then ret (ERROR_OK, tmp_value) else
    run modify (upd_cm (set_slow_register_read true));
    do now <- timeval_ms;
    if now >? then_ + DHCSR_S_REGRDY_TIMEOUT
    then run log LOG_timeout_dcrdr_transfer; ret (ERROR_TIMEOUT_REACHED, 0)
    else run keep_alive; load_core_reg_wait fuel' then_
  end.

(** Returns the code and, when the code is ERROR_OK or only the DCRDR
    restore failed, the value stored through [*value]. *)
Definition cortex_m_load_core_reg_u32 (regsel : Z) : M (retcode * Z) :=
  do dbg <- gets dbg_msg_enabled;
  do '(retval, dcrdr) <-
    (if dbg then mem_ap_read_u32 DCB_DCRDR else ret (ERROR_OK, 0));
  if negb (is_ok retval) then ret (retval, 0) else
  do retval <- mem_ap_write_u32 DCB_DCRSR regsel;
  if negb (is_ok retval) then ret (retval, 0) else
  do then_ <- timeval_ms;
  do fuel <- asks wait_bound;
  do '(retval, tmp_value) <- load_core_reg_wait fuel then_;
  if negb (is_ok retval) then ret (retval, 0) else
  if dbg
  then do retval <- mem_ap_write_atomic_u32 DCB_DCRDR dcrdr;
       ret (retval, tmp_value)
  else ret (retval, tmp_value).

(** Modelled from the spec: armv7m_read_core_reg of armv7m.c, reached through
    [arm.read_core_reg], is not under src/.  It is the per-register polled
    path of section 4.2: a 32-bit register is one transfer through
    [load_core_reg_u32] (installed by cortex_m_init_arch_info), a 64-bit one
    two transfers ([sel], [sel+1]), and a packed register is sliced out of
    its container, which is read first when it is not valid. *)
Definition read_reg_words (reg_id : nat) : M retcode :=
  do regsel <- asks (fun p => armv7m_map_id_to_regsel p reg_id);
  do '(retval, reg_value) <- cortex_m_load_core_reg_u32 regsel;
  if negb (is_ok retval) then ret retval else
  run modify (upd_reg reg_id
        (fun r => set_value (buf_set_u32 (value r) 0 32 reg_value) r));
  do r <- get_reg reg_id;
  if size r =? 64 then
    do '(retval, reg_value) <- cortex_m_load_core_reg_u32 (regsel + 1);
    if negb (is_ok retval)
    then run modify (upd_reg reg_id (set_valid false)); ret retval
    else
      run modify (upd_reg reg_id
            (fun r => set_value (buf_set_u32 (value r) 32 32 reg_value) r));
      run modify (upd_reg reg_id (set_valid true));
      ret ERROR_OK
  else
    run modify (upd_reg reg_id (set_valid true));
    ret ERROR_OK.

Definition armv7m_read_core_reg (reg_id : nat) : M retcode :=
  run modify (upd_reg reg_id (set_dirty false));
  do r <- get_reg reg_id;
  if size r <=? 8 then
    do packing <- asks (fun p => armv7m_map_reg_packing p reg_id);
    match packing with
    | None => ret ERROR_FAIL
    | Some (reg32_id, offset) =>
      do r32 <- get_reg reg32_id;
      must (if valid r32 then ret ERROR_OK
            else run modify (upd_reg reg32_id (set_dirty false));
                 read_reg_words reg32_id);
      do r32 <- get_reg reg32_id;
      run modify (upd_reg reg_id
            (fun r => set_valid true
                        (set_value (buf_cpy (value r32) offset (size r)) r)));
      ret ERROR_OK
    end
  else read_reg_words reg_id.

(** [for (i = ...; i < bound; i++)] with a body that returns on the first
    error; [n] is the number of indices still to visit. *)
Fixpoint for_index (n : nat) (reg_id : nat) (body : nat -> M retcode) : M retcode :=
  match n with
  | O => ret ERROR_OK
  | S n' => must body reg_id; for_index n' (S reg_id) body
  end.

Definition cortex_m_slow_read_all_regs : M retcode :=
  do num_regs <- get_armv7m (fun a => length (core_cache a));
  (* Opportunistically restore fast read, it'll revert to slow
     if any register needed polling in cortex_m_load_core_reg_u32(). *)
  run modify (upd_cm (set_slow_register_read false));
  must for_index num_regs 0 (fun reg_id =>
         do r <- get_reg reg_id;
         if exist r then armv7m_read_core_reg reg_id else ret ERROR_OK);
  ret ERROR_OK.

(** Returns the code, [*reg_value] and [*dhcsr]. *)
Definition cortex_m_queue_reg_read (regsel : Z) : M (retcode * Z * Z) :=
  do retval <- mem_ap_write_u32 DCB_DCRSR regsel;
  if negb (is_ok retval) then ret (retval, 0, 0) else
  do '(retval, dhcsr) <- mem_ap_read_u32 DCB_DHCSR;
  if negb (is_ok retval) then ret (retval, 0, 0) else
  do '(retval, reg_value) <- mem_ap_read_u32 DCB_DCRDR;
  ret (retval, reg_value, dhcsr).

(** First loop of cortex_m_fast_read_all_regs: queue the transfers.  The
    arrays [r_vals] and [dhcsr] grow at the write index [wi]. *)
Fixpoint fast_read_queue (n : nat) (reg_id : nat) (r_vals dhcsr : list Z)
  : M (retcode * list Z * list Z) :=
  match n with
  | O => ret (ERROR_OK, r_vals, dhcsr)
  | S n' =>
    do r <- get_reg reg_id;
    if negb (exist r) then fast_read_queue n' (S reg_id) r_vals dhcsr else
    if size r <=? 8 then fast_read_queue n' (S reg_id) r_vals dhcsr else
    do regsel <- asks (fun p => armv7m_map_id_to_regsel p reg_id);
    do '(retval, v, d) <- cortex_m_queue_reg_read regsel;
    if negb (is_ok retval) then ret (retval, r_vals, dhcsr) else
    if size r =? 32
    then fast_read_queue n' (S reg_id) (r_vals ++ [v]) (dhcsr ++ [d])
    else
      do '(retval, v', d') <- cortex_m_queue_reg_read (regsel + 1);
      if negb (is_ok retval) then ret (retval, r_vals ++ [v], dhcsr ++ [d]) else
      fast_read_queue n' (S reg_id) (r_vals ++ [v; v']) (dhcsr ++ [d; d'])
  end.

(** Second loop: look at every captured DHCSR. *)
Fixpoint fast_read_check (dhcsr : list Z) (not_ready : bool) : M bool :=
  match dhcsr with
  | [] => ret not_ready
  | d :: rest =>
    run cortex_m_cumulate_dhcsr_sticky d;
    fast_read_check rest (if Z.land d S_REGRDY =? 0 then true else not_ready)
  end.

(** Third loop: store the values into the cache; [ri] is the read index. *)
Fixpoint fast_read_unpack (n : nat) (reg_id ri : nat) (r_vals : list Z) : M unit :=
  match n with
  | O => ret tt
  | S n' =>
    do r <- get_reg reg_id;
    if negb (exist r) then fast_read_unpack n' (S reg_id) ri r_vals else
    run modify (upd_reg reg_id (set_dirty false));
    do packing <- asks (fun p => armv7m_map_reg_packing p reg_id);
    match packing with
    | Some (reg32_id, offset) =>
      do r32 <- get_reg reg32_id;
      run modify (upd_reg reg_id
            (fun r => set_valid true
                        (set_value (buf_cpy (value r32) offset (size r)) r)));
      fast_read_unpack n' (S reg_id) ri r_vals
    | None =>
      run modify (upd_reg reg_id (fun r =>
            set_value (buf_set_u32 (value r) 0 32 (default 0 (r_vals !! ri))) r));
      if size r =? 64 then
        run modify (upd_reg reg_id (fun r => set_valid true
              (set_value (buf_set_u32 (value r) 32 32
                            (default 0 (r_vals !! S ri))) r)));
        fast_read_unpack n' (S reg_id) (S (S ri)) r_vals
      else
        run modify (upd_reg reg_id (set_valid true));
        fast_read_unpack n' (S reg_id) (S ri) r_vals
    end
  end.

(** Lines 190-253 of cortex_m_fast_read_all_regs: save DCRDR, queue the
    pipelined transfers, flush once, restore DCRDR.  Returns the code, the
    register words and the DHCSR values captured. *)
Definition fast_read_capture : M (retcode * list Z * list Z) :=
  do dbg <- gets dbg_msg_enabled;
  do '(retval, dcrdr) <-
    (if dbg then mem_ap_read_u32 DCB_DCRDR else ret (ERROR_OK, 0));
  if negb (is_ok retval) then ret (retval, [], []) else
  do num_regs <- get_armv7m (fun a => length (core_cache a));
  do '(retval, r_vals, dhcsr) <- fast_read_queue num_regs 0 [] [];
  if negb (is_ok retval) then ret (retval, r_vals, dhcsr) else
  do retval <- dap_run;
  if negb (is_ok retval) then ret (retval, r_vals, dhcsr) else
  do retval <- (if dbg then mem_ap_write_atomic_u32 DCB_DCRDR dcrdr
                else ret ERROR_OK);
  ret (retval, r_vals, dhcsr).

Definition cortex_m_fast_read_all_regs : M retcode :=
  do '(retval, r_vals, dhcsr) <- fast_read_capture;
  if negb (is_ok retval) then ret retval else
  do not_ready <- fast_read_check dhcsr false;
  if not_ready then
    (* Any register was not ready,
       fall back to slow read with S_REGRDY polling *)
    ret ERROR_TIMEOUT_REACHED
  else
    do num_regs <- get_armv7m (fun a => length (core_cache a));
    run fast_read_unpack num_regs 0 0 r_vals;
    ret ERROR_OK.

(** The [while (1)] of cortex_m_store_core_reg_u32. *)
Fixpoint store_core_reg_wait (fuel : nat) (then_ : Z) : M retcode :=
  match fuel with
  | O => out_of_fuel
  | S fuel' =>
    must cortex_m_read_dhcsr_atomic_sticky;
    do dhcsr <- get_cm dcb_dhcsr;
    if has_bits dhcsr S_REGRDY then ret ERROR_OK else
    do now <- timeval_ms;
    if now >? then_ + DHCSR_S_REGRDY_TIMEOUT
    then run log LOG_timeout_dcrdr_transfer; ret ERROR_TIMEOUT_REACHED
    else run keep_alive; store_core_reg_wait fuel' then_
  end.

Definition cortex_m_store_core_reg_u32 (regsel value : Z) : M retcode :=
  do dbg <- gets dbg_msg_enabled;
  do '(retval, dcrdr) <-
    (if dbg then mem_ap_read_u32 DCB_DCRDR else ret (ERROR_OK, 0));
  if negb (is_ok retval) then ret retval else
  must mem_ap_write_u32 DCB_DCRDR value;
  must mem_ap_write_u32 DCB_DCRSR (Z.lor regsel DCRSR_WNR);
  do then_ <- timeval_ms;
  do fuel <- asks wait_bound;
  must store_core_reg_wait fuel then_;
  if dbg then mem_ap_write_atomic_u32 DCB_DCRDR dcrdr else ret ERROR_OK.

(** ** Halt/mask controller *)

Definition cortex_m_write_debug_halt_mask (mask_on mask_off : Z) : M retcode :=
  (* mask off status bits *)
  run modify (upd_cm (fun c => set_dcb_dhcsr
        (u32 (Z.land (dcb_dhcsr c)
                     (Z.lnot (Z.lor (Z.shiftl 0xFFFF 16) mask_off)))) c));
  (* create new register mask *)
  run modify (upd_cm (fun c => set_dcb_dhcsr
        (u32 (Z.lor (dcb_dhcsr c) (Z.lor (Z.lor DBGKEY C_DEBUGEN) mask_on))) c));
  do dhcsr <- get_cm dcb_dhcsr;
  mem_ap_write_atomic_u32 DCB_DHCSR dhcsr.

Definition cortex_m_set_maskints (mask : bool) : M retcode :=
  do dhcsr <- get_cm dcb_dhcsr;
  if negb (eqb (has_bits dhcsr C_MASKINTS) mask)
  then cortex_m_write_debug_halt_mask (if mask then C_MASKINTS else 0)
                                      (if mask then 0 else C_MASKINTS)
  else ret ERROR_OK.

Definition cortex_m_set_maskints_for_halt : M retcode :=
  do mode <- get_cm isrmasking_mode;
  do erratum <- get_cm maskints_erratum;
  match mode with
  | CORTEX_M_ISRMASK_AUTO => cortex_m_set_maskints false
  | CORTEX_M_ISRMASK_OFF => cortex_m_set_maskints false
  | CORTEX_M_ISRMASK_ON => cortex_m_set_maskints true
  | CORTEX_M_ISRMASK_STEPONLY => cortex_m_set_maskints erratum
  end.

Definition cortex_m_set_maskints_for_run : M retcode :=
  do mode <- get_cm isrmasking_mode;
  match mode with
  | CORTEX_M_ISRMASK_AUTO => cortex_m_set_maskints false
  | CORTEX_M_ISRMASK_OFF => cortex_m_set_maskints false
  | CORTEX_M_ISRMASK_ON => cortex_m_set_maskints true
  | CORTEX_M_ISRMASK_STEPONLY => cortex_m_set_maskints false
  end.

Definition cortex_m_set_maskints_for_step : M retcode :=
  do mode <- get_cm isrmasking_mode;
  match mode with
  | CORTEX_M_ISRMASK_AUTO => cortex_m_set_maskints true
  | CORTEX_M_ISRMASK_OFF => cortex_m_set_maskints false
  | CORTEX_M_ISRMASK_ON => cortex_m_set_maskints true
  | CORTEX_M_ISRMASK_STEPONLY => cortex_m_set_maskints true
  end.

Definition cortex_m_clear_halt : M retcode :=
  (* clear step if any *)
  run cortex_m_write_debug_halt_mask C_HALT C_STEP;
  (* Read Debug Fault Status Register *)
  do '(retval, dfsr) <- mem_ap_read_atomic_u32 NVIC_DFSR;
  if negb (is_ok retval) then ret retval else
  run modify (upd_cm (set_nvic_dfsr dfsr));
  (* Clear Debug Fault Status *)
  do dfsr <- get_cm nvic_dfsr;
  must mem_ap_write_atomic_u32 NVIC_DFSR dfsr;
  ret ERROR_OK.

Definition cortex_m_single_step_core : M retcode :=
  do dhcsr <- get_cm dcb_dhcsr;
  must (if negb (has_bits dhcsr C_MASKINTS)
        then cortex_m_write_debug_halt_mask C_MASKINTS 0
        else ret ERROR_OK);
  must cortex_m_write_debug_halt_mask C_STEP C_HALT;
  (* restore dhcsr reg *)
  run cortex_m_clear_halt;
  ret ERROR_OK.

(** ** End of reset, debug reason, debug entry *)

Definition cortex_m_enable_fpb : M retcode :=
  must target_write_u32 FP_CTRL 3;
  (* check the fpb is actually enabled *)
  do '(retval, fpctrl) <- target_read_u32 FP_CTRL;
  if negb (is_ok retval) then ret retval else
  if has_bits fpctrl 1 then ret ERROR_OK else ret ERROR_FAIL.

Definition cortex_m_endreset_event : M retcode :=
  do '(retval, dcb_demcr) <- mem_ap_read_atomic_u32 DCB_DEMCR;
  if negb (is_ok retval) then ret retval else
  (* this register is used for emulated dcc channel *)
  must mem_ap_write_u32 DCB_DCRDR 0;
  must cortex_m_read_dhcsr_atomic_sticky;
  do dhcsr <- get_cm dcb_dhcsr;
  must (if negb (has_bits dhcsr C_DEBUGEN)
        then (* Enable debug requests *)
             cortex_m_write_debug_halt_mask 0
               (Z.lor (Z.lor C_HALT C_STEP) C_MASKINTS)
        else ret ERROR_OK);
  (* Restore proper interrupt masking setting for running CPU. *)
  run cortex_m_set_maskints_for_run;
  do demcr <- get_armv7m demcr;
  must mem_ap_write_u32 DCB_DEMCR (Z.lor TRCENA demcr);
  (* Enable FPB *)
  do retval <- cortex_m_enable_fpb;
  if negb (is_ok retval)
  then run log LOG_failed_to_enable_fpb; ret retval
  else
  run modify (upd_cm (set_fpb_enabled true));
  (* Restore FPB registers *)
  do fp_list <- get_cm fp_comparator_list;
  do fp_num <- get_cm (fun c => (fp_num_code c + fp_num_lit c)%nat);
  must for_index fp_num 0 (fun i =>
         let fp := default (mk_fp_comparator 0 0) (fp_list !! i) in
         target_write_u32 (fpcr_address fp) (fpcr_value fp));
  (* Restore DWT registers *)
  do dwt_list <- get_cm dwt_comparator_list;
  do dwt_num <- get_cm dwt_num_comp;
  must for_index dwt_num 0 (fun i =>
         let dwt := default (mk_dwt_comparator 0 0 0 0) (dwt_list !! i) in
         must target_write_u32 (u32 (dwt_comparator_address dwt + 0)) (dwt_comp dwt);
         must target_write_u32 (u32 (dwt_comparator_address dwt + 4)) (dwt_mask dwt);
         target_write_u32 (u32 (dwt_comparator_address dwt + 8)) (dwt_function dwt));
  must dap_run;
  run register_cache_invalidate;
  (* make sure we have latest dhcsr flags *)
  cortex_m_read_dhcsr_atomic_sticky.

Definition cortex_m_examine_debug_reason : M retcode :=
  do reason <- gets debug_reason;
  do dfsr <- get_cm nvic_dfsr;
  (* only check the debug reason if we don't know it already *)
  run (if negb (reason_eqb reason DBG_REASON_DBGRQ)
          && negb (reason_eqb reason DBG_REASON_SINGLESTEP)
       then
         if has_bits dfsr DFSR_BKPT then
           run modify (set_debug_reason DBG_REASON_BREAKPOINT);
           if has_bits dfsr DFSR_DWTTRAP
           then modify (set_debug_reason DBG_REASON_WPTANDBKPT)
           else ret tt
         else if has_bits dfsr DFSR_DWTTRAP then
           modify (set_debug_reason DBG_REASON_WATCHPOINT)
         else if has_bits dfsr DFSR_VCATCH then
           modify (set_debug_reason DBG_REASON_BREAKPOINT)
         else if has_bits dfsr DFSR_EXTERNAL then
           modify (set_debug_reason DBG_REASON_DBGRQ)
         else (* HALTED *)
           modify (set_debug_reason DBG_REASON_UNDEFINED)
       else ret tt);
  ret ERROR_OK.

Definition read_status (atomic : bool) (address : Z) : M retcode :=
  do '(retval, _) <- (if atomic then mem_ap_read_atomic_u32 address
                      else mem_ap_read_u32 address);
  ret retval.

Definition cortex_m_examine_exception_reason : M retcode :=
  must read_status false NVIC_SHCSR;
  do n <- get_armv7m exception_number;
  must (match n with
        | 3 => (* Hard Fault *)
          do '(retval, except_sr) <- mem_ap_read_atomic_u32 NVIC_HFSR;
          if negb (is_ok retval) then ret retval else
          if has_bits except_sr 0x40000000
          then read_status false NVIC_CFSR
          else ret ERROR_OK
        | 4 => (* Memory Management *)
          must read_status false NVIC_CFSR; read_status false NVIC_MMFAR
        | 5 => (* Bus Fault *)
          must read_status false NVIC_CFSR; read_status false NVIC_BFAR
        | 6 => (* Usage Fault *)
          read_status false NVIC_CFSR
        | 7 => (* Secure Fault *)
          must read_status false NVIC_SFSR; read_status false NVIC_SFAR
        | 12 => (* Debug Monitor *)
          read_status false NVIC_DFSR
        | _ => ret ERROR_OK
        end);
  dap_run.

(** Lines 756-769 of cortex_m_debug_entry: load all registers to
    arm.core_cache, fast path first. *)
Definition debug_entry_load_regs : M retcode :=
  do slow <- get_cm slow_register_read;
  do retval <-
    (if negb slow then
       do retval <- cortex_m_fast_read_all_regs;
       run (if is_timeout retval
            then modify (upd_cm (set_slow_register_read true))
            else ret tt);
       ret retval
     else ret ERROR_OK);
  do slow <- get_cm slow_register_read;
  if slow then cortex_m_slow_read_all_regs else ret retval.

(** [armv7m->examine_debug_reason] is cortex_m_examine_debug_reason and
    [armv7m->post_debug_entry] is NULL (cortex_m_init_arch_info). *)
Definition cortex_m_debug_entry : M retcode :=
  (* Do this really early to minimize the window where the MASKINTS erratum
     can pile up pending interrupts. *)
  run cortex_m_set_maskints_for_halt;
  run cortex_m_clear_halt;
  must cortex_m_read_dhcsr_atomic_sticky;
  must cortex_m_examine_debug_reason;
  (* examine PE security state *)
  do a <- get_armv7m arch;
  must (if is_v8m a then read_status false DCB_DSCSR else ret ERROR_OK);
  must debug_entry_load_regs;
  do cpsr <- get_armv7m arm_cpsr;
  do r <- get_reg cpsr;
  let xpsr := buf_get_u32 (value r) 0 32 in
  (* Are we in an exception handler *)
  run (if has_bits xpsr 0x1FF then
         modify (upd_armv7m (fun a =>
           set_map armv7m_msp_reg_map
             (set_core_mode ARM_MODE_HANDLER
                (set_exception_number (Z.land xpsr 0x1FF) a))))
       else
         do control_id <- asks ARMV7M_CONTROL;
         do rc <- get_reg control_id;
         let control := buf_get_u32 (value rc) 0 3 in
         modify (upd_armv7m (fun a =>
           set_exception_number 0
             (set_map (if has_bits control 2 then armv7m_psp_reg_map
                       else armv7m_msp_reg_map)
                (set_core_mode (if has_bits control 1 then ARM_MODE_USER_THREAD
                                else ARM_MODE_THREAD) a)))));
  do n <- get_armv7m exception_number;
  run (if negb (n =? 0) then cortex_m_examine_exception_reason else ret ERROR_OK);
  ret ERROR_OK.

(** ** Poll state machine *)

(** Lines 875-900 of cortex_m_poll_one, the [if (dcb_dhcsr & S_HALT)] block.
    The flag of the result says that the function returns right there. *)
Definition poll_one_halted (prev_target_state : target_state) (retval : retcode)
  : M (retcode * bool) :=
  run modify (set_state TARGET_HALTED);
  do '(retval, returned) <-
    (if state_eqb prev_target_state TARGET_RUNNING
        || state_eqb prev_target_state TARGET_RESET
     then
       do retval <- cortex_m_debug_entry;
       (* arm_semihosting needs to know registers, don't run if debug entry
          returned error *)
       do '(handled, code) <-
         (if is_ok retval then arm_semihosting else ret (false, retval));
       if handled then ret (code, true) else
       do is_smp <- gets smp;
       run (if is_smp
            then modify (set_smp_halt_event_postponed true)
            else (* regardless of errors returned in previous code update state *)
                 target_call_event_callbacks TARGET_EVENT_HALTED);
       ret (retval, false)
     else ret (retval, false));
  if returned then ret (retval, true) else
  do retval <-
    (if state_eqb prev_target_state TARGET_DEBUG_RUNNING
     then do retval <- cortex_m_debug_entry;
          run target_call_event_callbacks TARGET_EVENT_DEBUG_HALTED;
          ret retval
     else ret retval);
  if negb (is_ok retval) then ret (retval, true) else ret (retval, false).

(** Lines 875-929 of cortex_m_poll_one: from the test of S_HALT to the end. *)
Definition poll_one_states (prev_target_state : target_state)
    (retval detected_failure : retcode) : M retcode :=
  do dhcsr <- get_cm dcb_dhcsr;
  do '(retval, returned) <-
    (if has_bits dhcsr S_HALT
     then poll_one_halted prev_target_state retval
     else ret (retval, false));
  if returned then ret retval else
  do st <- gets state;
  do dhcsr <- get_cm dcb_dhcsr;
  do retval <-
    (if state_eqb st TARGET_UNKNOWN
        && (has_bits dhcsr S_RETIRE_ST || has_bits dhcsr S_SLEEP)
     then run modify (set_state TARGET_RUNNING); ret ERROR_OK
     else ret retval);
  (* Check that target is truly halted, since the target could be resumed
     externally *)
  do retval <-
    (if state_eqb prev_target_state TARGET_HALTED && negb (has_bits dhcsr S_HALT)
     then
       (* registers are now invalid *)
       run register_cache_invalidate;
       run modify (set_state TARGET_RUNNING);
       run log LOG_external_resume_detected;
       run target_call_event_callbacks TARGET_EVENT_RESUMED;
       ret ERROR_OK
     else ret retval);
  (* Did we detect a failure condition that we cleared? *)
  if negb (is_ok detected_failure) then ret detected_failure else ret retval.

(** Lines 860-873 of cortex_m_poll_one: what follows the test of the sticky
    S_RESET_ST, the end of reset first. *)
Definition poll_one_tail (prev_target_state : target_state)
    (detected_failure : retcode) : M retcode :=
  do st <- gets state;
  if state_eqb st TARGET_RESET then
    (* Cannot switch context while running so endreset is
       called with target->state == TARGET_RESET *)
    do retval <- cortex_m_endreset_event;
    if negb (is_ok retval)
    then run modify (set_state TARGET_UNKNOWN); ret retval
    else run modify (set_state TARGET_RUNNING);
         poll_one_states TARGET_RUNNING retval detected_failure
  else poll_one_states prev_target_state ERROR_OK detected_failure.

Definition cortex_m_poll_one : M retcode :=
  do prev_target_state <- gets state;
  (* Read from Debug Halting Control and Status Register *)
  do retval <- cortex_m_read_dhcsr_atomic_sticky;
  if negb (is_ok retval)
  then run modify (set_state TARGET_UNKNOWN); ret retval
  else
  (* Recover from lockup. *)
  do dhcsr <- get_cm dcb_dhcsr;
  do '(retval, detected_failure) <-
    (if has_bits dhcsr S_LOCKUP then
       run log LOG_clearing_lockup;
       run cortex_m_write_debug_halt_mask C_HALT 0;
       run modify (set_debug_reason DBG_REASON_DBGRQ);
       (* refresh status bits *)
       do retval <- cortex_m_read_dhcsr_atomic_sticky;
       ret (retval, ERROR_FAIL)
     else ret (ERROR_OK, ERROR_OK));
  if negb (is_ok retval) then ret retval else
  do sticky <- get_cm dcb_dhcsr_cumulated_sticky;
  if has_bits sticky S_RESET_ST then
    run modify (upd_cm (fun c => set_sticky
          (Z.land (dcb_dhcsr_cumulated_sticky c) (Z.lnot S_RESET_ST)) c));
    do st <- gets state;
    run (if negb (state_eqb st TARGET_RESET)
         then run modify (set_state TARGET_RESET);
              log LOG_external_reset_detected
         else ret tt);
    ret ERROR_OK
  else poll_one_tail prev_target_state detected_failure.

(** ** Halt *)

Definition cortex_m_halt_one : M retcode :=
  do st <- gets state;
  if state_eqb st TARGET_HALTED then ret ERROR_OK else
  run (if state_eqb st TARGET_UNKNOWN
       then log LOG_halt_in_unknown_state else ret tt);
  if state_eqb st TARGET_RESET then
    do cfg <- asks jtag_reset_config;
    do srst <- asks jtag_srst;
    if has_bits cfg RESET_SRST_PULLS_TRST && srst
    then run log LOG_cant_halt_in_reset; ret ERROR_TARGET_FAILURE
    else
      (* we came here in a reset_halt or reset_init sequence
         debug entry was already prepared in cortex_m3_assert_reset() *)
      run modify (set_debug_reason DBG_REASON_DBGRQ);
      ret ERROR_OK
  else
  (* Write to Debug Halting Control and Status Register *)
  run cortex_m_write_debug_halt_mask C_HALT 0;
  (* Do this really early to minimize the window where the MASKINTS erratum
     can pile up pending interrupts. *)
  run cortex_m_set_maskints_for_halt;
  run modify (set_debug_reason DBG_REASON_DBGRQ);
  ret ERROR_OK.

(** ** SMP coordinator *)

(** [foreach_smp_target] with a body that acts on [curr] only and a loop
    that keeps the first error code and goes on. *)
Fixpoint foreach_smp_target (body : M retcode) (retval : retcode)
    (smp_targets : list target) (w : world)
  : outcome retcode * list target * world :=
  match smp_targets with
  | [] => (Done retval, [], w)
  | curr :: rest =>
    match body curr w with
    | (Done ret2, curr', w') =>
      let '(o, rest', w'') :=
        foreach_smp_target body (if is_ok retval then ret2 else retval) rest w' in
      (o, curr' :: rest', w'')
    | (OutOfFuel, curr', w') => (OutOfFuel, curr' :: rest, w')
    end
  end.

(** [foreach_smp_target] with a body that returns from the function on the
    first error; the body is told the position of [curr] in the list. *)
Fixpoint foreach_smp_target_until (body : nat -> M retcode) (idx : nat)
    (smp_targets : list target) (w : world)
  : outcome retcode * list target * world :=
  match smp_targets with
  | [] => (Done ERROR_OK, [], w)
  | curr :: rest =>
    match body idx curr w with
    | (Done retval, curr', w') =>
      if is_ok retval then
        let '(o, rest', w'') := foreach_smp_target_until body (S idx) rest w' in
        (o, curr' :: rest', w'')
      else (Done retval, curr' :: rest, w')
    | (OutOfFuel, curr', w') => (OutOfFuel, curr' :: rest, w')
    end
  end.

(** Run a single-target function on the [i]-th target of the group. *)
Definition on_target {A} (i : nat) (m : M A) (absent : A) : G A :=
  fun ts w =>
    match ts !! i with
    | Some t => let '(o, t', w') := m t w in (o, <[i := t']> ts, w')
    | None => (Done absent, ts, w)
    end.

(** Body of the loop of cortex_m_smp_halt_all; a [continue] leaves the
    stored code as it is. *)
Definition smp_halt_all_body : M retcode :=
  do curr <- gets id;
  if negb (examined curr) then ret ERROR_OK else
  if state_eqb (state curr) TARGET_HALTED then ret ERROR_OK else
  cortex_m_halt_one.

Definition cortex_m_smp_halt_all : G retcode :=
  foreach_smp_target smp_halt_all_body ERROR_OK.

(** Body of the loop of cortex_m_smp_post_halt_poll. *)
Definition smp_post_halt_poll_body : M retcode :=
  do curr <- gets id;
  if negb (examined curr) then ret ERROR_OK else
  (* skip targets that were already halted *)
  if state_eqb (state curr) TARGET_HALTED then ret ERROR_OK else
  cortex_m_poll_one.

Definition cortex_m_smp_post_halt_poll : G retcode :=
  foreach_smp_target smp_post_halt_poll_body ERROR_OK.

(** Body of the last loop of cortex_m_poll_smp (lines 994-1004). *)
Definition poll_smp_deliver : M retcode :=
  do curr <- gets id;
  if negb (smp_halt_event_postponed curr) then ret ERROR_OK else
  run modify (set_smp_halt_event_postponed false);
  run (if state_eqb (state curr) TARGET_HALTED
       then target_call_event_callbacks TARGET_EVENT_HALTED
       else ret tt);
  ret ERROR_OK.

Definition cortex_m_poll_smp : G retcode :=
  do halted <- gets (existsb smp_halt_event_postponed);
  if halted then
    do retval <- cortex_m_smp_halt_all;
    do ret2 <- cortex_m_smp_post_halt_poll;
    let retval := if is_ok retval then ret2 else retval in
    run foreach_smp_target poll_smp_deliver ERROR_OK;
    ret retval
  else ret ERROR_OK.

(** [target] is the [i]-th entry of its own [smp_targets]. *)
Definition cortex_m_poll (i : nat) : G retcode :=
  do retval <- on_target i cortex_m_poll_one ERROR_FAIL;
  do is_smp <- gets (fun ts => from_option smp false (ts !! i));
  do n <- gets (fun ts : list target => length ts);
  run (if is_smp && (S i =? n)%nat
       then (* After the last target in SMP group has been polled
               check for postponed halted events and eventually halt and
               re-poll other targets *)
            cortex_m_poll_smp
       else ret ERROR_OK);
  ret retval.

Definition cortex_m_halt (i : nat) : G retcode :=
  do is_smp <- gets (fun ts => from_option smp false (ts !! i));
  if is_smp then cortex_m_smp_halt_all
  else on_target i cortex_m_halt_one ERROR_FAIL.

(** ** Soft reset halt *)

(** Lines 1086-1110 of cortex_m_soft_reset_halt: request the core reset. *)
Definition soft_reset_halt_request : M retcode :=
  do vectreset <- get_cm vectreset_supported;
  if negb vectreset
  then run log LOG_vectreset_not_supported; ret ERROR_FAIL
  else
  (* Set C_DEBUGEN *)
  must cortex_m_write_debug_halt_mask 0 (Z.lor C_STEP C_MASKINTS);
  (* Enter debug state on reset; restore DEMCR in endreset_event() *)
  must mem_ap_write_u32 DCB_DEMCR
         (Z.lor (Z.lor (Z.lor TRCENA VC_HARDERR) VC_BUSERR) VC_CORERESET);
  (* Request a core-only reset *)
  must mem_ap_write_atomic_u32 NVIC_AIRCR (Z.lor AIRCR_VECTKEY AIRCR_VECTRESET);
  run modify (set_state TARGET_RESET);
  (* registers are now invalid *)
  run register_cache_invalidate;
  ret ERROR_OK.

(** What one turn of the [while (timeout < 100)] loop finds. *)
Inductive reset_halt_probe :=
| PROBE_ERROR (retval : retcode)
| PROBE_RESET_HALTED
| PROBE_WAITING.

Definition soft_reset_halt_probe : M reset_halt_probe :=
  do retval <- cortex_m_read_dhcsr_atomic_sticky;
  if is_ok retval then
    do '(retval, dfsr) <- mem_ap_read_atomic_u32 NVIC_DFSR;
    if negb (is_ok retval) then ret (PROBE_ERROR retval) else
    run modify (upd_cm (set_nvic_dfsr dfsr));
    do dhcsr <- get_cm dcb_dhcsr;
    if has_bits dhcsr S_HALT && has_bits dfsr DFSR_VCATCH
    then ret PROBE_RESET_HALTED
    else ret PROBE_WAITING
  else ret PROBE_WAITING.

(** The loop itself; [budget] is [100 - timeout]. *)
Fixpoint soft_reset_halt_wait (i : nat) (budget : nat) : G retcode :=
  match budget with
  | O => ret ERROR_OK
  | S budget' =>
    do probe <- on_target i soft_reset_halt_probe PROBE_WAITING;
    match probe with
    | PROBE_ERROR retval => ret retval
    | PROBE_RESET_HALTED =>
      run cortex_m_poll i;
      (* FIXME restore user's vector catch config *)
      ret ERROR_OK
    | PROBE_WAITING =>
      run on_target i (alive_sleep 1) tt;
      soft_reset_halt_wait i budget'
    end
  end.

Definition cortex_m_soft_reset_halt (i : nat) : G retcode :=
  must on_target i soft_reset_halt_request ERROR_FAIL;
  soft_reset_halt_wait i 100.

(** ** Resume / restore engine *)

Definition set_reg_bits (id : nat) (first num v : Z) : M unit :=
  modify (upd_reg id (fun r =>
    set_valid true (set_dirty true
      (set_value (buf_set_u32 (value r) first num v) r)))).

(** Returns the code and the content of [*address]. *)
Definition cortex_m_restore_one (current : bool) (address : Z)
    (handle_breakpoints debug_execution : bool) : M (retcode * Z) :=
  do st <- gets state;
  if negb (state_eqb st TARGET_HALTED)
  then run log LOG_target_not_halted; ret (ERROR_TARGET_NOT_HALTED, address)
  else
  run (if negb debug_execution then
         run call CALL_target_free_all_working_areas;
         run call CALL_cortex_m_enable_breakpoints;
         call CALL_cortex_m_enable_watchpoints
       else ret ERROR_OK);
  run (if debug_execution then
         (* Disable interrupts: PRIMASK instead of C_MASKINTS *)
         do primask <- asks ARMV7M_PRIMASK;
         run set_reg_bits primask 0 1 1;
         (* Make sure we are in Thumb mode, set xPSR.T bit *)
         do cpsr <- get_armv7m arm_cpsr;
         set_reg_bits cpsr 24 1 1
       else ret tt);
  (* current = 1: continue on current pc, otherwise continue at <address> *)
  do pc <- get_armv7m arm_pc;
  run (if negb current then set_reg_bits pc 0 32 address else ret tt);
  (* if we halted last time due to a bkpt instruction
     then we have to manually step over it, otherwise
     the core will break again *)
  do t <- gets id;
  run (if negb (is_some (breakpoint_find t (pc_value_of t)))
          && negb debug_execution
       then armv7m_maybe_skip_bkpt_inst else ret false);
  do resume_pc <- gets pc_value_of;
  let address := if current then resume_pc else address in
  do retval <- armv7m_restore_context;
  if negb (is_ok retval) then ret (retval, address) else
  (* the front-end may request us not to handle breakpoints *)
  if handle_breakpoints then
    (* Single step past breakpoint at current address *)
    do t <- gets id;
    match breakpoint_find t resume_pc with
    | Some breakpoint =>
      do retval <- cortex_m_unset_breakpoint breakpoint;
      do retval <- (if is_ok retval then cortex_m_single_step_core
                    else ret retval);
      do ret2 <- cortex_m_set_breakpoint breakpoint;
      if negb (is_ok retval) then ret (retval, address) else
      if negb (is_ok ret2) then ret (ret2, address) else
      ret (ERROR_OK, address)
    | None => ret (ERROR_OK, address)
    end
  else ret (ERROR_OK, address).

Definition cortex_m_restart_one (debug_execution : bool) : M retcode :=
  (* Restart core *)
  run cortex_m_set_maskints_for_run;
  run cortex_m_write_debug_halt_mask 0 C_HALT;
  run modify (set_debug_reason DBG_REASON_NOTHALTED);
  (* registers are now invalid *)
  run register_cache_invalidate;
  run (if negb debug_execution then
         run modify (set_state TARGET_RUNNING);
         target_call_event_callbacks TARGET_EVENT_RESUMED
       else
         run modify (set_state TARGET_DEBUG_RUNNING);
         target_call_event_callbacks TARGET_EVENT_DEBUG_RESUMED);
  ret ERROR_OK.

(** [target] is the [i]-th entry of its [smp_targets]. *)
Definition cortex_m_restore_smp (i : nat) (handle_breakpoints : bool) : G retcode :=
  foreach_smp_target_until
    (fun idx =>
       do curr <- gets id;
       (* skip calling target *)
       if (idx =? i)%nat then ret ERROR_OK else
       if negb (examined curr) then ret ERROR_OK else
       (* skip running targets *)
       if state_eqb (state curr) TARGET_RUNNING then ret ERROR_OK else
       do '(retval, address) <- cortex_m_restore_one true 0 handle_breakpoints false;
       if negb (is_ok retval) then ret retval else
       must cortex_m_restart_one false;
       ret ERROR_OK)
    0%nat.

Definition cortex_m_resume (i : nat) (current : bool) (address : Z)
    (handle_breakpoints debug_execution : bool) : G retcode :=
  do '(retval, address) <-
    on_target i (cortex_m_restore_one current address handle_breakpoints
                                      debug_execution) (ERROR_FAIL, address);
  if negb (is_ok retval)
  then run on_target i (log LOG_context_restore_failed) tt; ret retval
  else
  do is_smp <- gets (fun ts => from_option smp false (ts !! i));
  do retval <-
    (if is_smp && negb debug_execution then
       do retval <- cortex_m_restore_smp i handle_breakpoints;
       run (if negb (is_ok retval)
            then on_target i (log LOG_smp_resume_failed) tt
            else ret tt);
       ret retval
     else ret retval);
  run on_target i (cortex_m_restart_one debug_execution) ERROR_OK;
  if negb (is_ok retval)
  then run on_target i (log LOG_resume_failed) tt; ret retval
  else ret ERROR_OK.

(** ** Step engine *)

(** The [do ... while] of cortex_m_step: wait for pending handlers to
    complete or timeout.  The result is an early return code, if any, and
    [isr_timed_out]. *)
Fixpoint step_wait_halt (fuel : nat) (t_start : Z) : M (option retcode * bool) :=
  match fuel with
  | O => out_of_fuel
  | S fuel' =>
    do retval <- cortex_m_read_dhcsr_atomic_sticky;
    if negb (is_ok retval)
    then run modify (set_state TARGET_UNKNOWN); ret (Some retval, false)
    else
    do now <- timeval_ms;
    let isr_timed_out := (now - t_start) >? 500 in
    do dhcsr <- get_cm dcb_dhcsr;
    if has_bits dhcsr S_HALT || isr_timed_out
    then ret (None, isr_timed_out)
    else step_wait_halt fuel' t_start
  end.

(** Step over next instruction with interrupts disabled (the sequence the
    function uses at lines 1403-1407 and 1461-1467). *)
Definition step_masked : M unit :=
  run cortex_m_write_debug_halt_mask (Z.lor C_HALT C_MASKINTS) 0;
  run cortex_m_write_debug_halt_mask C_STEP C_HALT;
  (* Re-enable interrupts if appropriate *)
  run cortex_m_write_debug_halt_mask C_HALT 0;
  run cortex_m_set_maskints_for_halt;
  ret tt.

(** Lines 1361-1471 of cortex_m_step, the body of [if (!bkpt_inst_found)].
    The result is an early return code, if any, and [isr_timed_out]. *)
Definition step_core (pc_value : Z) (breakpoint : option breakpoint)
  : M (option retcode * bool) :=
  do mode <- get_cm isrmasking_mode;
  if negb (is_auto mode) then
    (* Automatic ISR masking mode off: Just step over the next
       instruction, with interrupts on or off as appropriate. *)
    run cortex_m_set_maskints_for_step;
    run cortex_m_write_debug_halt_mask C_STEP C_HALT;
    ret (None, false)
  else
    do t <- gets id;
    if has_bits pc_value 0x02
       && is_some (breakpoint_find t (Z.land pc_value (Z.lnot 0x03)))
    then
      run step_masked;
      ret (None, false)
    else
      (* Set a temporary break point *)
      do retval <-
        match breakpoint with
        | Some b => cortex_m_set_breakpoint b
        | None =>
          do rev <- get_cm fp_rev;
          let type := if (rev =? 0) && (pc_value >? 0x1FFFFFFF)
                      then BKPT_SOFT else BKPT_HARD in
          breakpoint_add pc_value 2 type
        end;
      let tmp_bp_set := is_ok retval in
      (* No more breakpoints left, just do a step *)
      if negb tmp_bp_set then
        run cortex_m_set_maskints_for_step;
        run cortex_m_write_debug_halt_mask C_STEP C_HALT;
        (* Re-enable interrupts if appropriate *)
        run cortex_m_write_debug_halt_mask C_HALT 0;
        run cortex_m_set_maskints_for_halt;
        ret (None, false)
      else
        (* Start the core *)
        do t_start <- timeval_ms;
        run cortex_m_set_maskints_for_run;
        run cortex_m_write_debug_halt_mask 0 (Z.lor C_HALT C_STEP);
        (* Wait for pending handlers to complete or timeout *)
        do fuel <- asks wait_bound;
        do '(early, isr_timed_out) <- step_wait_halt fuel t_start;
        match early with
        | Some retval => ret (Some retval, isr_timed_out)
        | None =>
          (* only remove breakpoint if we created it *)
          run match breakpoint with
              | Some b => run cortex_m_unset_breakpoint b; ret tt
              | None => breakpoint_remove pc_value
              end;
          if isr_timed_out then ret (None, true)
          else
            (* Step over next instruction with interrupts disabled *)
            run cortex_m_set_maskints_for_step;
            run step_masked;
            ret (None, false)
        end.

(** The gdb_service bookkeeping of an SMP step is not part of the model. *)
Definition cortex_m_step (current : bool) (address : Z)
    (handle_breakpoints : bool) : M retcode :=
  do st <- gets state;
  if negb (state_eqb st TARGET_HALTED)
  then run log LOG_target_not_halted; ret ERROR_TARGET_NOT_HALTED
  else
  (* current = 1: continue on current pc, otherwise continue at <address> *)
  do pc <- get_armv7m arm_pc;
  run (if negb current then set_reg_bits pc 0 32 address else ret tt);
  do pc_value <- gets pc_value_of;
  (* the front-end may request us not to handle breakpoints *)
  do breakpoint <-
    (if handle_breakpoints then
       do t <- gets id;
       match breakpoint_find t pc_value with
       | Some b => run cortex_m_unset_breakpoint b; ret (Some b)
       | None => ret None
       end
     else ret None);
  do bkpt_inst_found <- armv7m_maybe_skip_bkpt_inst;
  run modify (set_debug_reason DBG_REASON_SINGLESTEP);
  run armv7m_restore_context;
  run target_call_event_callbacks TARGET_EVENT_RESUMED;
  (* if no bkpt instruction is found at pc then we can perform
     a normal step, otherwise we have to manually step over the bkpt
     instruction - as such simulate a step *)
  do '(early, isr_timed_out) <-
    (if negb bkpt_inst_found then step_core pc_value breakpoint
     else ret (None, false));
  match early with
  | Some retval => ret retval
  | None =>
    must cortex_m_read_dhcsr_atomic_sticky;
    (* registers are now invalid *)
    run register_cache_invalidate;
    run match breakpoint with
        | Some b => cortex_m_set_breakpoint b
        | None => ret ERROR_OK
        end;
    if isr_timed_out then
      (* Leave the core running. The user has to stop execution manually. *)
      run modify (set_debug_reason DBG_REASON_NOTHALTED);
      run modify (set_state TARGET_RUNNING);
      ret ERROR_OK
    else
      must cortex_m_debug_entry;
      run target_call_event_callbacks TARGET_EVENT_HALTED;
      ret ERROR_OK
  end.

(** ** Reset sequencer *)

Definition is_vectreset (c : cortex_m_soft_reset_config) : bool :=
  match c with CORTEX_M_RESET_VECTRESET => true | _ => false end.

(** Modelled from the spec: target_examine_one of target.c is not under
    src/; one examination under reset which, when it succeeds, leaves the
    target examined with its debug AP found. *)
Definition target_examine_one : M retcode :=
  do retval <- call CALL_target_examine_one;
  run (if is_ok retval
       then modify (fun t => set_examined true
              (upd_armv7m (fun a =>
                 mk_armv7m (arch a) (core_mode a) (map a) (core_cache a)
                           (arm_pc a) (arm_cpsr a) (exception_number a)
                           (demcr a) true) t))
       else ret tt);
  ret retval.

(** cortex_m_assert_reset up to its last statement; the flag of the result
    says that [target_halt] is still to be called (line 1669). *)
Definition assert_reset_body : M (retcode * bool) :=
  do reset_config <- get_cm soft_reset_config;
  do jtag_reset_config <- asks jtag_reset_config;
  do scripted <- gets reset_assert_action;
  if scripted then
    (* allow scripts to override the reset event *)
    run call (CALL_target_handle_event TARGET_EVENT_RESET_ASSERT);
    run register_cache_invalidate;
    run modify (set_state TARGET_RESET);
    ret (ERROR_OK, false)
  else
  (* some cores support connecting while srst is asserted
     use that mode is it has been configured *)
  do ap <- get_armv7m debug_ap;
  do srst_asserted <-
    (if has_bits jtag_reset_config RESET_HAS_SRST
        && (has_bits jtag_reset_config RESET_SRST_NO_GATING || negb ap)
     then run call CALL_adapter_assert_reset; ret true
     else ret false);
  do was_examined <- gets examined;
  do deferred <- gets defer_examine;
  run (if negb was_examined && negb deferred && srst_asserted
          && has_bits jtag_reset_config RESET_SRST_NO_GATING
       then target_examine_one else ret ERROR_OK);
  (* We need at least debug_ap to go further. *)
  do ap <- get_armv7m debug_ap;
  if negb ap then
    if srst_asserted then
      do halt_wanted <- gets reset_halt;
      run (if halt_wanted then log LOG_no_debug_ap_will_not_halt else ret tt);
      (* Do not propagate error: reset was asserted, proceed to deassert! *)
      run modify (set_state TARGET_RESET);
      run register_cache_invalidate;
      ret (ERROR_OK, false)
    else
      run log LOG_no_debug_ap_reset_not_asserted;
      ret (ERROR_FAIL, false)
  else
  (* Enable debug requests *)
  do retval <- cortex_m_read_dhcsr_atomic_sticky;
  (* Store important errors instead of failing and proceed to reset assert *)
  do dhcsr <- get_cm dcb_dhcsr;
  do retval <-
    (if negb (is_ok retval) || negb (has_bits dhcsr C_DEBUGEN)
     then cortex_m_write_debug_halt_mask 0
            (Z.lor (Z.lor C_HALT C_STEP) C_MASKINTS)
     else ret retval);
  (* If the processor is sleeping in a WFI or WFE instruction, the
     C_HALT bit must be asserted to regain control *)
  do dhcsr <- get_cm dcb_dhcsr;
  do retval <-
    (if is_ok retval && has_bits dhcsr S_SLEEP
     then cortex_m_write_debug_halt_mask C_HALT 0
     else ret retval);
  run mem_ap_write_u32 DCB_DCRDR 0;
  (* Ignore less important errors *)
  do halt_wanted <- gets reset_halt;
  run (if negb halt_wanted then
         (* Set/Clear C_MASKINTS in a separate operation *)
         run cortex_m_set_maskints_for_run;
         (* clear any debug flags before resuming *)
         run cortex_m_clear_halt;
         (* clear C_HALT in dhcsr reg *)
         run cortex_m_write_debug_halt_mask 0 C_HALT;
         ret tt
       else
         (* Halt in debug on reset; endreset_event() restores DEMCR. *)
         do retval2 <- mem_ap_write_atomic_u32 DCB_DEMCR
           (Z.lor (Z.lor (Z.lor TRCENA VC_HARDERR) VC_BUSERR) VC_CORERESET);
         if negb (is_ok retval) || negb (is_ok retval2)
         then log LOG_ap_write_error_no_halt else ret tt);
  do retval <-
    (if has_bits jtag_reset_config RESET_HAS_SRST then
       (* default to asserting srst *)
       run (if negb srst_asserted then call CALL_adapter_assert_reset
            else ret ERROR_OK);
       (* srst is asserted, ignore AP access errors *)
       ret ERROR_OK
     else
       (* Use a standard Cortex-M3 software reset mechanism. *)
       do vectreset <- get_cm vectreset_supported;
       do reset_config <-
         (if negb vectreset && is_vectreset reset_config
          then run log LOG_vectreset_using_sysresetreq;
               ret CORTEX_M_RESET_SYSRESETREQ
          else ret reset_config);
       run (if is_vectreset reset_config then log LOG_only_resetting_core
            else ret tt);
       run mem_ap_write_atomic_u32 NVIC_AIRCR
             (Z.lor AIRCR_VECTKEY
                (if is_vectreset reset_config then AIRCR_VECTRESET
                 else AIRCR_SYSRESETREQ));
       do retval3 <- call CALL_dap_dp_init_or_reconnect;
       run (if negb (is_ok retval3)
            then (* The error return value must not be propagated in this
                    case. *)
                 log LOG_dp_init_failed
            else run mem_ap_read_atomic_u32 NVIC_AIRCR; ret tt);
       ret retval);
  run modify (set_state TARGET_RESET);
  run jtag_sleep 50000;
  run register_cache_invalidate;
  (* now return stored error code if any *)
  if negb (is_ok retval) then ret (retval, false) else
  do was_examined <- gets examined;
  if halt_wanted && was_examined then ret (ERROR_OK, true)
  else ret (ERROR_OK, false).

(** Modelled from the spec: target_halt of target.c is not under src/; for
    an examined target it is the [halt] entry of the target type. *)
Definition target_halt (i : nat) : G retcode :=
  do was_examined <- gets (fun ts => from_option examined false (ts !! i));
  if negb was_examined then ret ERROR_FAIL else cortex_m_halt i.

Definition cortex_m_assert_reset (i : nat) : G retcode :=
  do '(retval, halt_now) <- on_target i assert_reset_body (ERROR_FAIL, false);
  if halt_now then must target_halt i; ret ERROR_OK else ret retval.

Definition cortex_m_deassert_reset : M retcode :=
  (* deassert reset lines *)
  run call CALL_adapter_deassert_reset;
  do jtag_reset_config <- asks jtag_reset_config;
  do ap <- get_armv7m debug_ap;
  if has_bits jtag_reset_config RESET_HAS_SRST
     && negb (has_bits jtag_reset_config RESET_SRST_NO_GATING) && ap
  then
    do retval <- call CALL_dap_dp_init_or_reconnect;
    if negb (is_ok retval) then run log LOG_dp_init_failed; ret retval
    else ret ERROR_OK
  else ret ERROR_OK.

(** ** Memory access *)

Definition cortex_m_read_memory (address size count : Z) : M retcode :=
  do a <- get_armv7m arch;
  if is_v6m a
     && (* armv6m does not handle unaligned memory access *)
        (((size =? 4) && negb (Z.land address 0x3 =? 0))
         || ((size =? 2) && negb (Z.land address 0x1 =? 0)))
  then ret ERROR_TARGET_UNALIGNED_ACCESS
  else mem_ap_read_buf size count address.

Definition cortex_m_write_memory (address size count : Z) : M retcode :=
  do a <- get_armv7m arch;
  if is_v6m a
     && (((size =? 4) && negb (Z.land address 0x3 =? 0))
         || ((size =? 2) && negb (Z.land address 0x1 =? 0)))
  then ret ERROR_TARGET_UNALIGNED_ACCESS
  else mem_ap_write_buf size count address.

(** ** Watchpoint hit *)

(** [struct watchpoint], the fields this file reads. *)
Record watchpoint := mk_watchpoint {
  wp_address : Z;
  wp_number : nat;
  wp_is_set : bool;
  wp_unique_id : Z
}.

(** The [for (wp = target->watchpoints; wp; wp = wp->next)] of
    cortex_m_hit_watchpoint.  The comparator of a watchpoint is
    [dwt_comparator_list + wp->number]; the C code does not check the
    number against the list, and the model reads a zeroed comparator past
    its end. *)
Fixpoint hit_watchpoint_scan (dwt_list : list cortex_m_dwt_comparator)
    (watchpoints : list watchpoint) : M (retcode * option watchpoint) :=
  match watchpoints with
  | [] => ret (ERROR_FAIL, None)
  | wp :: rest =>
    if negb (wp_is_set wp) then hit_watchpoint_scan dwt_list rest else
    let comparator :=
      default (mk_dwt_comparator 0 0 0 0) (dwt_list !! wp_number wp) in
    do '(retval, dwt_function) <-
      target_read_u32 (u32 (dwt_comparator_address comparator + 8));
    if negb (is_ok retval) then ret (ERROR_FAIL, None) else
    (* check the MATCHED bit *)
    if has_bits dwt_function (Z.shiftl 1 24) then ret (ERROR_OK, Some wp)
    else hit_watchpoint_scan dwt_list rest
  end.

(** [target->watchpoints], owned by breakpoints.c and only read here, is
    passed in; the result holds the code and the content of
    [*hit_watchpoint]. *)
Definition cortex_m_hit_watchpoint (watchpoints : list watchpoint)
  : M (retcode * option watchpoint) :=
  do reason <- gets debug_reason;
  if negb (reason_eqb reason DBG_REASON_WATCHPOINT) then ret (ERROR_FAIL, None)
  else
  do dwt_list <- get_cm dwt_comparator_list;
  hit_watchpoint_scan dwt_list watchpoints.

(** ** The emulated DCC channel *)

(** mem_ap_read_buf_noincr / mem_ap_write_buf_noincr of arm_adi_v5.c on the
    one half-word at DCB_DCRDR, together with target_buffer_get_u16 /
    target_buffer_set_u16: the half-word the transport answers for the
    address, and the half-word stored there. *)
Definition dcc_read_halfword : M (retcode * Z) :=
  run emit (EvMemApBuf false DCB_DCRDR 2 1);
  do rv <- consult (fun p n => ap_read p n DCB_DCRDR);
  ret (fst rv, Z.land (snd rv) 0xFFFF).

Definition dcc_write_halfword (v : Z) : M retcode :=
  run emit (EvMemApBuf true DCB_DCRDR 2 1);
  consult (fun p n => ap_write p n DCB_DCRDR v).

(** Returns the code and the contents of [*value] and [*ctrl] (zero while
    the function has not stored them). *)
Definition cortex_m_dcc_read : M (retcode * Z * Z) :=
  do '(retval, dcrdr) <- dcc_read_halfword;
  if negb (is_ok retval) then ret (retval, 0, 0) else
  let ctrl := Z.land dcrdr 0xFF in
  let value := Z.land (Z.shiftr dcrdr 8) 0xFF in
  (* write ack back to software dcc register
     signify we have read data *)
  if has_bits dcrdr 1 then
    do retval <- dcc_write_halfword 0;
    if negb (is_ok retval) then ret (retval, value, ctrl)
    else ret (ERROR_OK, value, ctrl)
  else ret (ERROR_OK, value, ctrl).

(** The [for (i = 0; i < (size * 4); i++)] of cortex_m_target_request_data;
    [n] is the number of bytes still to fetch, [buffer] what has been stored
    so far. *)
Fixpoint target_request_data_loop (n : nat) (buffer : list Z)
  : M (retcode * list Z) :=
  match n with
  | O => ret (ERROR_OK, buffer)
  | S n' =>
    do '(retval, data, ctrl) <- cortex_m_dcc_read;
    if negb (is_ok retval) then ret (retval, buffer) else
    target_request_data_loop n' (buffer ++ [data])
  end.

(** [size * 4] is a [uint32_t] product. *)
Definition cortex_m_target_request_data (size : Z) : M (retcode * list Z) :=
  target_request_data_loop (Z.to_nat (u32 (size * 4))) [].

(** The [for (int i = 1; i <= 3; i++)] of cortex_m_handle_target_request;
    [n] is the number of bytes still to fetch. *)
Fixpoint target_request_word (n : nat) (i : Z) (request : Z) : M (retcode * Z) :=
  match n with
  | O => ret (ERROR_OK, request)
  | S n' =>
    do '(retval, data, ctrl) <- cortex_m_dcc_read;
    if negb (is_ok retval) then ret (retval, request) else
    target_request_word n' (i + 1) (Z.lor request (u32 (Z.shiftl data (i * 8))))
  end.

(** The result holds the code and the word handed to [target_request], when
    the function calls it. *)
Definition cortex_m_handle_target_request : M (retcode * option Z) :=
  do was_examined <- gets examined;
  if negb was_examined then ret (ERROR_OK, None) else
  do dbg <- gets dbg_msg_enabled;
  if negb dbg then ret (ERROR_OK, None) else
  do st <- gets state;
  if state_eqb st TARGET_RUNNING then
    do '(retval, data, ctrl) <- cortex_m_dcc_read;
    if negb (is_ok retval) then ret (retval, None) else
    (* check if we have data *)
    if has_bits ctrl 1 then
      (* we assume target is quick enough *)
      do '(retval, request) <- target_request_word 3 1 data;
      if negb (is_ok retval) then ret (retval, None) else
      ret (ERROR_OK, Some request)
    else ret (ERROR_OK, None)
  else ret (ERROR_OK, None).

(** ** Concrete probes and targets *)

(** Concrete inputs on which the model is run: a Cortex-M core without FPU
    whose cache holds r0-r12, sp, lr, pc, xPSR, MSP, PSP, the container of
    the special registers and the four registers packed in it. *)
Module Scenario.

Definition core_regs : list reg :=
  replicate 20 (mk_reg true 32 0 false false)
  ++ [mk_reg true 1 0 false false; mk_reg true 8 0 false false;
      mk_reg true 1 0 false false; mk_reg true 3 0 false false].

Definition regsel (id : nat) : Z :=
  if (id =? 19)%nat then 0x14 else Z.of_nat id.

Definition packing (id : nat) : option (nat * Z) :=
  match id with
  | 20%nat => Some (19%nat, 0)
  | 21%nat => Some (19%nat, 1)
  | 22%nat => Some (19%nat, 2)
  | 23%nat => Some (19%nat, 3)
  | _ => None
  end.

(** A probe whose transport never fails, with the DHCSR, DFSR and clock
    answers given per consultation. *)
Definition probe_with (dhcsr : nat -> Z) (dfsr : nat -> Z) (clock : nat -> Z)
    (add_bp : retcode) : probe :=
  {| ap_read := fun n a =>
       (ERROR_OK, if a =? DCB_DHCSR then dhcsr n
                  else if a =? NVIC_DFSR then dfsr n else 0);
     ap_write := fun _ _ _ => ERROR_OK;
     ap_run := fun _ => ERROR_OK;
     mem_buf := fun _ _ _ _ _ => ERROR_OK;
     clock_ms := clock;
     collab := fun _ c =>
       match c with CALL_breakpoint_add _ _ _ => add_bp | _ => ERROR_OK end;
     semihosting := fun _ => (false, ERROR_OK);
     bkpt_inst_found := fun _ => false;
     jtag_reset_config := 0;
     jtag_srst := false;
     wait_bound := 1000;
     armv7m_map_id_to_regsel := regsel;
     armv7m_map_reg_packing := packing;
     ARMV7M_CONTROL := 23;
     ARMV7M_PRIMASK := 20 |}.

Definition start (p : probe) : world := mk_world p 0 [].

Definition armv7m0 (a : arm_arch) (pc : Z) : armv7m_common :=
  mk_armv7m a ARM_MODE_THREAD armv7m_msp_reg_map
    (<[15%nat := mk_reg true 32 pc false true]> core_regs)
    15 16 0 0 true.

Definition cortex_m0 (mode : cortex_m_isrmasking_mode) (dhcsr sticky : Z)
    (a : arm_arch) (pc : Z) : cortex_m_common :=
  mk_cortex_m dhcsr sticky 0 false mode false true CORTEX_M_RESET_VECTRESET
    1 true 0 0 [] 0 [] (armv7m0 a pc).

Definition target0 (id : nat) (st : target_state) (is_smp postponed : bool)
    (bps : list breakpoint) (c : cortex_m_common) : target :=
  mk_target id st DBG_REASON_NOTHALTED is_smp postponed true false false
    false false bps c.

(** A core that keeps running: DHCSR always reads C_DEBUGEN | S_RETIRE_ST. *)
Definition running_dhcsr : Z := Z.lor C_DEBUGEN S_RETIRE_ST.
(** A halted core with its register transfers complete. *)
Definition halted_dhcsr : Z := Z.lor (Z.lor C_DEBUGEN C_HALT) (Z.lor S_HALT S_REGRDY).
(** A halted core whose register transfer is not complete yet. *)
Definition busy_dhcsr : Z := Z.lor (Z.lor C_DEBUGEN C_HALT) S_HALT.

(** A probe that answers every DHCSR read with [dhcsr], every DFSR read
    with 0, and whose clock advances by one millisecond per
    consultation. *)
Definition steady_world (dhcsr : Z) : world :=
  start (probe_with (fun _ => dhcsr) (fun _ => 0) (fun n => Z.of_nat n) ERROR_OK).

(** A core in the given state, stopped at [pc], in or outside an SMP group. *)
Definition core_at (id : nat) (st : target_state) (is_smp : bool)
    (mode : cortex_m_isrmasking_mode) (pc : Z) (bps : list breakpoint) : target :=
  target0 id st is_smp false bps
    (cortex_m0 mode halted_dhcsr 0 ARM_ARCH_V7M pc).

Definition halted_target : target :=
  core_at 0 TARGET_HALTED false CORTEX_M_ISRMASK_AUTO 0x1000 [].

(** An SMP group whose second core is held in reset. *)
Definition smp_pair : list target :=
  [core_at 0 TARGET_HALTED true CORTEX_M_ISRMASK_AUTO 0x1000 [];
   core_at 1 TARGET_RESET true CORTEX_M_ISRMASK_AUTO 0x2000 []].

(** A halted core whose program counter 0x1002 lies in the upper half-word
    of a word that carries a breakpoint at 0x1000. *)
Definition straddling_core (mode : cortex_m_isrmasking_mode) : target :=
  core_at 0 TARGET_HALTED false mode 0x1002
    [mk_breakpoint 0x1000 2 BKPT_HARD true 1].

(** A core whose register transfers are not complete during the first
    twelve consultations of the probe and complete from then on. *)
Definition settling_world : world :=
  start (probe_with (fun n => if (n <? 12)%nat then busy_dhcsr else halted_dhcsr)
                    (fun _ => 0) (fun n => Z.of_nat n) ERROR_OK).

(** A core of an SMP group, with its postponement flag. *)
Definition smp_core (id : nat) (st : target_state) (postponed : bool) : target :=
  target0 id st true postponed []
    (cortex_m0 CORTEX_M_ISRMASK_AUTO halted_dhcsr 0 ARM_ARCH_V7M 0x1000).

(** Core 0 runs and is about to be seen halted; core 1 has been HALTED for
    long, its event delivered. *)
Definition late_halt_group : list target :=
  [smp_core 0 TARGET_RUNNING false; smp_core 1 TARGET_HALTED false].

(** One polling round over a group of two: the first target, then the last. *)
Definition poll_round (ts : list target) (w : world)
  : outcome retcode * list target * world :=
  cortex_m_poll 1 (cortex_m_poll 0 ts w).1.2 (cortex_m_poll 0 ts w).2.

(** A probe on which the core shows halted at every DHCSR read and the
    Flash Patch control register reads back enabled, so that the end of a
    reset is handled without error. *)
Definition reset_exit_world : world :=
  start {| ap_read := fun _ a =>
             (ERROR_OK, if a =? DCB_DHCSR then halted_dhcsr
                        else if a =? FP_CTRL then 3 else 0);
           ap_write := fun _ _ _ => ERROR_OK;
           ap_run := fun _ => ERROR_OK;
           mem_buf := fun _ _ _ _ _ => ERROR_OK;
           clock_ms := fun n => Z.of_nat n;
           collab := fun _ _ => ERROR_OK;
           semihosting := fun _ => (false, ERROR_OK);
           bkpt_inst_found := fun _ => false;
           jtag_reset_config := 0;
           jtag_srst := false;
           wait_bound := 1000;
           armv7m_map_id_to_regsel := regsel;
           armv7m_map_reg_packing := packing;
           ARMV7M_CONTROL := 23;
           ARMV7M_PRIMASK := 20 |}.

End Scenario.

(** ** The operations of the target type *)

(** The entries of [struct target_type numicro_dap_target] that belong to
    the debug-control core; [i] is the position of the target in its group. *)
Inductive operation :=
| OP_poll (i : nat)
| OP_halt (i : nat)
| OP_resume (i : nat) (current : bool) (address : Z)
            (handle_breakpoints debug_execution : bool)
| OP_step (i : nat) (current : bool) (address : Z) (handle_breakpoints : bool)
| OP_assert_reset (i : nat)
| OP_deassert_reset (i : nat)
| OP_soft_reset_halt (i : nat)
| OP_read_memory (i : nat) (address size count : Z)
| OP_write_memory (i : nat) (address size count : Z).

Definition run_operation (op : operation) : G retcode :=
  match op with
  | OP_poll i => cortex_m_poll i
  | OP_halt i => cortex_m_halt i
  | OP_resume i current address handle_breakpoints debug_execution =>
    cortex_m_resume i current address handle_breakpoints debug_execution
  | OP_step i current address handle_breakpoints =>
    on_target i (cortex_m_step current address handle_breakpoints) ERROR_FAIL
  | OP_assert_reset i => cortex_m_assert_reset i
  | OP_deassert_reset i => on_target i cortex_m_deassert_reset ERROR_FAIL
  | OP_soft_reset_halt i => cortex_m_soft_reset_halt i
  | OP_read_memory i address size count =>
    on_target i (cortex_m_read_memory address size count) ERROR_FAIL
  | OP_write_memory i address size count =>
    on_target i (cortex_m_write_memory address size count) ERROR_FAIL
  end.

(** ** Vocabulary of the properties *)

(** Section 4.3 in the words of the spec:
    [(cached & ~(STATUS_MASK | clear_mask)) | DBGKEY | C_DEBUGEN | set_mask],
    with STATUS_MASK the upper 16 read-only status bits. *)
Definition STATUS_MASK : Z := 0xFFFF0000.

Definition spec_write_dhcsr (cached set_mask clear_mask : Z) : Z :=
  Z.lor (Z.lor (Z.lor (Z.land cached (Z.lnot (Z.lor STATUS_MASK clear_mask)))
                      DBGKEY) C_DEBUGEN) set_mask.

(** What cortex_m_write_debug_halt_mask leaves in [dcb_dhcsr] and writes. *)
Definition rebuilt_dhcsr (cached mask_on mask_off : Z) : Z :=
  u32 (Z.lor (u32 (Z.land cached (Z.lnot (Z.lor (Z.shiftl 0xFFFF 16) mask_off))))
             (Z.lor (Z.lor DBGKEY C_DEBUGEN) mask_on)).

(** The high half-word equals DBGKEY and C_DEBUGEN is set. *)
Definition dhcsr_write_ok (v : Z) : Prop :=
  Z.shiftr v 16 = 0xA05F /\ has_bits v C_DEBUGEN = true.

(** A mask made of control bits only (the lower half-word). *)
Definition low_half (m : Z) : Prop := 0 <= m < 2 ^ 16.

(** A value composed the way section 4.3 says, from control bits. *)
Definition from_write_dhcsr (v : Z) : Prop :=
  exists cached set_mask clear_mask,
    low_half set_mask /\ v = u32 (spec_write_dhcsr cached set_mask clear_mask).

(** Section 4.4, the debug-reason truth table, read from its first row
    down, over the DFSR bits BKPT, DWTTRAP, VCATCH and EXTERNAL. *)
Definition spec_debug_reason (bkpt dwttrap vcatch external : bool)
  : target_debug_reason :=
  match bkpt, dwttrap, vcatch, external with
  | true, false, _, _ => DBG_REASON_BREAKPOINT
  | true, true, _, _ => DBG_REASON_WPTANDBKPT
  | false, true, _, _ => DBG_REASON_WATCHPOINT
  | false, false, true, _ => DBG_REASON_BREAKPOINT
  | false, false, false, true => DBG_REASON_DBGRQ
  | false, false, false, false => DBG_REASON_UNDEFINED
  end.

(** Section 8: an access of size 2 or 4 whose address is not a multiple of
    its size. *)
Definition spec_misaligned (address size : Z) : bool :=
  ((size =? 4) && negb (address mod 4 =? 0))
  || ((size =? 2) && negb (address mod 2 =? 0)).

(** The events of a trace that are writes to DHCSR. *)
Definition dhcsr_writes (tr : list event) : list Z :=
  omap (fun e => match e with
                 | EvApWrite _ a v => if a =? DCB_DHCSR then Some v else None
                 | _ => None
                 end) tr.

Definition is_halted_event (e : event) : bool :=
  match e with EvTargetEvent _ TARGET_EVENT_HALTED => true | _ => false end.

(** The HALTED events cortex_m_poll_smp delivers for a group: one for each
    target whose event was postponed and that is HALTED, in list order. *)
Definition postponed_halted_events (ts : list target) : list event :=
  flat_map (fun t =>
    if smp_halt_event_postponed t && state_eqb (state t) TARGET_HALTED
    then [EvTargetEvent (coreid t) TARGET_EVENT_HALTED] else []) ts.

Definition clear_postponed (t : target) : target :=
  if smp_halt_event_postponed t then set_smp_halt_event_postponed false t else t.

Definition add_events (evs : list event) (w : world) : world :=
  mk_world (probe_of w) (tick w) (trace w ++ evs).

(** Events a function may issue when it is no [target_call_event_callbacks]
    caller: anything but target events, and DHCSR writes well formed. *)
Definition quiet (e : event) : Prop :=
  match e with
  | EvTargetEvent _ _ => False
  | EvApWrite _ a v => a = DCB_DHCSR -> from_write_dhcsr v
  | _ => True
  end.

(** Events any function of the core may issue. *)
Definition well_formed (e : event) : Prop :=
  match e with
  | EvApWrite _ a v => a = DCB_DHCSR -> from_write_dhcsr v
  | _ => True
  end.

(** Bitwise inclusion: every bit of [a] is a bit of [b]. *)
Definition bits_le (a b : Z) : Prop :=
  forall i, Z.testbit a i = true -> Z.testbit b i = true.

Definition sticky (t : target) : Z := dcb_dhcsr_cumulated_sticky (cortex_m t).

(** What the register-level functions leave alone. *)
Definition frame (t t' : target) : Prop :=
  coreid t' = coreid t /\ state t' = state t /\ smp t' = smp t
  /\ smp_halt_event_postponed t' = smp_halt_event_postponed t
  /\ examined t' = examined t
  /\ breakpoints t' = breakpoints t
  /\ isrmasking_mode (cortex_m t') = isrmasking_mode (cortex_m t)
  /\ bits_le (sticky t) (sticky t').

(** The sticky accumulator only grows. *)
Definition sticky_grows (t t' : target) : Prop := bits_le (sticky t) (sticky t').

Definition world_le (w w' : world) : Prop :=
  probe_of w' = probe_of w /\ (tick w <= tick w')%nat.

(** [steps P R m]: every run of [m] keeps the probe, lets the tick grow,
    relates the states by [R] and appends only events that satisfy [P],
    whether or not the run completes. *)
Definition steps {St A} (P : event -> Prop) (R : world -> St -> St -> Prop)
    (m : ST St A) : Prop :=
  forall s w,
    world_le w (m s w).2
    /\ R w s (m s w).1.2
    /\ exists new, trace (m s w).2 = trace w ++ new /\ Forall P new.

Class FrameRel {St} (R : world -> St -> St -> Prop) : Prop := {
  frame_refl : forall w s, R w s s;
  frame_trans : forall w w' s s' s'',
    world_le w w' -> R w s s' -> R w' s' s'' -> R w s s''
}.

(** The sticky accumulator after the DHCSR values [ds] went into it. *)
Definition cumulate_all (ds : list Z) (t : target) : target :=
  foldl (fun t d => upd_cm (fun c =>
           set_sticky (Z.lor (dcb_dhcsr_cumulated_sticky c) d) c) t) t ds.

(** Every DHCSR read the probe answers from [n] on shows S_REGRDY. *)
Definition ready_from (p : probe) (n : nat) : Prop :=
  forall m, (n <= m)%nat ->
    has_bits (u32 (ap_read p m DCB_DHCSR).2) S_REGRDY = true.

(** With the register transfers ready from now on, [slow_register_read]
    does not become set. *)
Definition stays_fast (w : world) (t t' : target) : Prop :=
  ready_from (probe_of w) (tick w) ->
  slow_register_read (cortex_m t) = false ->
  slow_register_read (cortex_m t') = false.

(** Probes whose transport and collaborators never report an error. *)
Definition transport_ok (p : probe) : Prop :=
  (forall n a, (ap_read p n a).1 = ERROR_OK)
  /\ (forall n a v, ap_write p n a v = ERROR_OK)
  /\ (forall n, ap_run p n = ERROR_OK)
  /\ (forall n c, collab p n c = ERROR_OK).

(** The core never shows the bit [mask] in DHCSR. *)
Definition never_shows (p : probe) (mask : Z) : Prop :=
  forall n, has_bits (u32 (ap_read p n DCB_DHCSR).2) mask = false.

(** ** Vocabulary of the sticky accumulator *)

(** A function that never clears a bit of the sticky accumulator. *)
Definition never_clears {A} (m : M A) : Prop :=
  forall t w, sticky_grows t (m t w).1.2.

(** The sticky accumulator lost at most S_RESET_ST. *)
Definition only_reset_st_cleared (t t' : target) : Prop :=
  forall i, i <> 25 -> Z.testbit (sticky t) i = true -> Z.testbit (sticky t') i = true.

(** ** Runs that complete *)

(** [yields Q m]: every run of [m] completes, with a result in [Q]. *)
Definition yields {St A} (Q : A -> Prop) (m : ST St A) : Prop :=
  forall s w, exists a, (m s w).1.1 = Done a /\ Q a.

(** ** Vocabulary of the step engine *)

(** The DHCSR value after a write with the given masks, per section 4.3. *)
Definition dhcsr_after (cached set_mask clear_mask : Z) : Z :=
  u32 (spec_write_dhcsr cached set_mask clear_mask).

Definition dhcsr_write (v : Z) : event := EvApWrite true DCB_DHCSR v.

(** ** Vocabulary of the SMP coordinator *)

(** A run that sets the postponement flag when it ends HALTED, and that
    delivers no target event. *)
Definition postpones (w : world) (r : outcome retcode * target * world) : Prop :=
  (exists new, trace r.2 = trace w ++ new /\ Forall quiet new)
  /\ (state r.1.2 = TARGET_HALTED ->
      forall x, r.1.1 = Done x -> smp_halt_event_postponed r.1.2 = true).

(** arm_semihosting never takes a halt over. *)
Definition never_semihosted (p : probe) : Prop :=
  forall n, (semihosting p n).1 = false.

(** ** Vocabulary of the bounded waits *)

(** The probe's clock passes the budget of 500 ms within [k] polls of a
    wait that is set up from consultation [n0] on. *)
Definition clock_expires (p : probe) (n0 k : nat) : Prop :=
  forall m n, (m <= n0 + 3)%nat -> (n0 + 3 * k + 4 <= n)%nat ->
    clock_ms p n > clock_ms p m + DHCSR_S_REGRDY_TIMEOUT.

(** One turn of the soft-reset-halt wait on a core that does not show
    S_HALT: two reads, then one millisecond of sleep. *)
Definition reset_halt_turn : list event :=
  [EvApRead true DCB_DHCSR; EvApRead true NVIC_DFSR; EvCall (CALL_alive_sleep 1)].

(** What soft_reset_halt issues to request the core reset. *)
Definition reset_halt_request (cached : Z) : list event :=
  [EvApWrite true DCB_DHCSR (rebuilt_dhcsr cached 0 (Z.lor C_STEP C_MASKINTS));
   EvApWrite false DCB_DEMCR
     (Z.lor (Z.lor (Z.lor TRCENA VC_HARDERR) VC_BUSERR) VC_CORERESET);
   EvApWrite true NVIC_AIRCR (Z.lor AIRCR_VECTKEY AIRCR_VECTRESET)].

(** More than 500 ms pass on the probe's clock within any [d]
    consultations. *)
Definition clock_runs (p : probe) (d : nat) : Prop :=
  forall m n, (m + d <= n)%nat -> clock_ms p n > clock_ms p m + 500.

(** The disassembler never finds a BKPT instruction at the program counter. *)
Definition no_bkpt_inst (p : probe) : Prop :=
  forall n, bkpt_inst_found p n = false.

(** ** Vocabulary of the runs that return *)

(** The polls that a timed wait is followed for ([wait_bound]) are enough:
    the probe's clock passes the budget of 500 ms within that many
    consultations, so the wait ends by its timeout if not before. *)
Definition timely (p : probe) : Prop := clock_runs p (wait_bound p).

(** [returns m]: on a timely probe every run of [m] returns, and the probe
    is the same after it. *)
Definition returns {St A} (m : ST St A) : Prop :=
  forall s w, timely (probe_of w) ->
    (exists a, (m s w).1.1 = Done a) /\ probe_of (m s w).2 = probe_of w.

(** A run that returned with the target HALTED and its HALTED event
    postponed: the flag is set and no target event was delivered. *)
Definition halt_postponed {A} (w : world) (r : outcome A * target * world) : Prop :=
  exists x new,
    r.1.1 = Done x
    /\ state r.1.2 = TARGET_HALTED
    /\ smp_halt_event_postponed r.1.2 = true
    /\ trace r.2 = trace w ++ new
    /\ Forall quiet new.

(** The DHCSR read that opens cortex_m_poll_one succeeds and shows no
    lockup and, with what the sticky accumulator holds, no reset. *)
Definition dhcsr_read_plain (t : target) (w : world) : Prop :=
  let rv := ap_read (probe_of w) (tick w) DCB_DHCSR in
  rv.1 = ERROR_OK
  /\ has_bits (u32 rv.2) S_LOCKUP = false
  /\ has_bits (Z.lor (sticky t) (u32 rv.2)) S_RESET_ST = false.

(** The target and the world after that read. *)
Definition after_dhcsr_read (t : target) (w : world) : target * world :=
  let v := u32 (ap_read (probe_of w) (tick w) DCB_DHCSR).2 in
  (upd_cm (fun c => set_sticky (Z.lor (dcb_dhcsr_cumulated_sticky c) v) c)
          (upd_cm (set_dcb_dhcsr v) t),
   mk_world (probe_of w) (S (tick w)) (trace w ++ [EvApRead true DCB_DHCSR])).

(** ** Vocabulary of the further properties *)

(** A memory that answers every read the same way at any time. *)
Definition steady_memory (p : probe) (mem : Z -> Z) : Prop :=
  forall n a, ap_read p n a = (ERROR_OK, mem a).

(** The watchpoint is set and the FUNCTION register of its comparator shows
    MATCHED in [mem]. *)
Definition watchpoint_matched (dwt_list : list cortex_m_dwt_comparator)
    (mem : Z -> Z) (wp : watchpoint) : bool :=
  wp_is_set wp
  && Z.testbit
       (mem (u32 (dwt_comparator_address
                    (default (mk_dwt_comparator 0 0 0 0)
                             (dwt_list !! wp_number wp)) + 8))) 24.

(** The reads of DWT FUNCTION registers cortex_m_hit_watchpoint may issue. *)
Definition is_function_read (e : event) : bool :=
  match e with EvTargetU32 false _ _ => true | _ => false end.

(** The half-word a target puts into DCRDR to send the byte [b]: the byte
    above the control byte, whose bit 0 says that data is there. *)
Definition dcc_packet (b : Z) : Z := Z.lor (Z.shiftl b 8) 1.

(** Byte [k] of a word, counted from the least significant one. *)
Definition byte_of (r : Z) (k : Z) : Z := Z.land (Z.shiftr r (8 * k)) 0xFF.

(** Events of the DCC channel: the reads of DCRDR and the acknowledging
    writes. *)
Definition dcc_poll : event := EvMemApBuf false DCB_DCRDR 2 1.

Definition dcc_ack : event := EvMemApBuf true DCB_DCRDR 2 1.

(** The target sends the word [r] through the DCC from consultation [n0]
    on: each of its four bytes is in DCRDR when the debugger reads it, the
    acknowledging writes in between succeed. *)
Definition sends_word (p : probe) (n0 : nat) (r : Z) : Prop :=
  (forall k, (k < 4)%nat ->
     ap_read p (n0 + 2 * k) DCB_DCRDR
     = (ERROR_OK, dcc_packet (byte_of r (Z.of_nat k))))
  /\ (forall n, ap_write p n DCB_DCRDR 0 = ERROR_OK).

(** What the isr-masking mode prescribes for C_MASKINTS while the core is
    halted, while it runs and while it steps (the three switch statements
    of cortex_m_set_maskints_for_halt / _for_run / _for_step). *)
Definition maskints_for_halt (c : cortex_m_common) : bool :=
  match isrmasking_mode c with
  | CORTEX_M_ISRMASK_AUTO => false
  | CORTEX_M_ISRMASK_OFF => false
  | CORTEX_M_ISRMASK_ON => true
  | CORTEX_M_ISRMASK_STEPONLY => maskints_erratum c
  end.

Definition maskints_for_run (c : cortex_m_common) : bool :=
  match isrmasking_mode c with
  | CORTEX_M_ISRMASK_ON => true
  | _ => false
  end.

Definition maskints_for_step (c : cortex_m_common) : bool :=
  match isrmasking_mode c with
  | CORTEX_M_ISRMASK_OFF => false
  | _ => true
  end.

(** The target after a DHCSR read that answered [d]. *)
Definition seen_dhcsr (d : Z) (t : target) : target :=
  upd_cm (fun c => set_sticky (Z.lor (dcb_dhcsr_cumulated_sticky c) (u32 d)) c)
         (upd_cm (set_dcb_dhcsr (u32 d)) t).

Definition after_read (a : Z) (w : world) : world :=
  mk_world (probe_of w) (S (tick w)) (trace w ++ [EvApRead true a]).

(** No register of the cache is valid or dirty any more. *)
Definition cache_invalid (t : target) : Prop :=
  Forall (fun r => exist r = true -> valid r = false /\ dirty r = false)
         (core_cache (target_to_armv7m t)).

(** The values written to DCRDR through the AP, in order. *)
Definition dcrdr_writes (tr : list event) : list Z :=
  omap (fun e => match e with
                 | EvApWrite _ a v => if a =? DCB_DCRDR then Some v else None
                 | _ => None
                 end) tr.

(** Events that are no write to DCRDR. *)
Definition leaves_dcrdr (e : event) : Prop :=
  match e with
  | EvApWrite _ a _ => a <> DCB_DCRDR
  | _ => True
  end.

(** What DCRDR holds when the transfer starts, as the debugger reads it. *)
Definition saved_dcrdr (w : world) : Z :=
  u32 (ap_read (probe_of w) (tick w) DCB_DCRDR).2.

(** What cortex_m_smp_halt_all makes of one core of the group. *)
Definition halt_requested (t t' : target) : Prop :=
  state t' = state t
  /\ (examined t = false \/ state t = TARGET_HALTED -> t' = t)
  /\ (examined t = true -> state t <> TARGET_HALTED -> state t <> TARGET_RESET ->
      debug_reason t' = DBG_REASON_DBGRQ
      /\ has_bits (dcb_dhcsr (cortex_m t')) C_HALT = true).

(** The only way a halt request fails: a core held in reset. *)
Definition halt_refused (r : retcode) (ts : list target) : Prop :=
  r = ERROR_TARGET_FAILURE
  /\ exists t, In t ts /\ examined t = true /\ state t = TARGET_RESET.

(** Events that neither assert SRST nor write AIRCR. *)
Definition no_reset_request (e : event) : Prop :=
  match e with
  | EvApWrite _ a _ => a <> NVIC_AIRCR
  | EvCall c => c <> CALL_adapter_assert_reset
  | _ => True
  end.

(** The reset method of the core is left as it is. *)
Definition same_reset_support (t t' : target) : Prop :=
  vectreset_supported (cortex_m t') = vectreset_supported (cortex_m t).

(** The word written to AIRCR for a software reset: VECTRESET when it is
    configured and the core has it, SYSRESETREQ otherwise. *)
Definition reset_request (t : target) : Z :=
  Z.lor AIRCR_VECTKEY
    (if vectreset_supported (cortex_m t) && is_vectreset (soft_reset_config (cortex_m t))
     then AIRCR_VECTRESET else AIRCR_SYSRESETREQ).

(** The words written through target_write_u32, with their addresses, in
    order. *)
Definition target_writes (tr : list event) : list (Z * Z) :=
  omap (fun e => match e with
                 | EvTargetU32 true a v => Some (a, v)
                 | _ => None
                 end) tr.

(** What cortex_m_endreset_event puts back into the FPB and the DWT: the
    cached comparators, the DWT ones as COMP, MASK and FUNCTION. *)
Definition fp_restores (c : cortex_m_common) : list (Z * Z) :=
  flat_map (fun i =>
              let fp := default (mk_fp_comparator 0 0) (fp_comparator_list c !! i) in
              [(fpcr_address fp, fpcr_value fp)])
           (seq 0 (fp_num_code c + fp_num_lit c)).

Definition dwt_restores (c : cortex_m_common) : list (Z * Z) :=
  flat_map (fun i =>
              let dwt := default (mk_dwt_comparator 0 0 0 0)
                                 (dwt_comparator_list c !! i) in
              [(u32 (dwt_comparator_address dwt + 0), dwt_comp dwt);
               (u32 (dwt_comparator_address dwt + 4), dwt_mask dwt);
               (u32 (dwt_comparator_address dwt + 8), dwt_function dwt)])
           (seq 0 (dwt_num_comp c)).

(** Events that are no write through target_write_u32. *)
Definition no_target_write (e : event) : Prop :=
  match e with
  | EvTargetU32 true _ _ => False
  | _ => True
  end.

(** The FPB and DWT units as the cache describes them. *)
Definition same_debug_units (t t' : target) : Prop :=
  fp_comparator_list (cortex_m t') = fp_comparator_list (cortex_m t)
  /\ fp_num_code (cortex_m t') = fp_num_code (cortex_m t)
  /\ fp_num_lit (cortex_m t') = fp_num_lit (cortex_m t)
  /\ dwt_num_comp (cortex_m t') = dwt_num_comp (cortex_m t)
  /\ dwt_comparator_list (cortex_m t') = dwt_comparator_list (cortex_m t)
  /\ fpb_enabled (cortex_m t') = fpb_enabled (cortex_m t)
  /\ demcr (armv7m (cortex_m t')) = demcr (armv7m (cortex_m t)).

(** What cortex_m_debug_entry derives from the registers it has loaded:
    handler mode with the exception number of xPSR and the main stack, or
    thread mode with privilege and stack as CONTROL says. *)
Definition mode_of_registers (p : probe) (a : armv7m_common) : Prop :=
  let xpsr := buf_get_u32 (value (reg_at (core_cache a) (arm_cpsr a))) 0 32 in
  let control :=
    buf_get_u32 (value (reg_at (core_cache a) (ARMV7M_CONTROL p))) 0 3 in
  if has_bits xpsr 0x1FF
  then core_mode a = ARM_MODE_HANDLER
       /\ exception_number a = Z.land xpsr 0x1FF
       /\ map a = armv7m_msp_reg_map
  else core_mode a = (if has_bits control 1 then ARM_MODE_USER_THREAD
                      else ARM_MODE_THREAD)
       /\ exception_number a = 0
       /\ map a = (if has_bits control 2 then armv7m_psp_reg_map
                   else armv7m_msp_reg_map).

(** The breakpoints released ([false]) and programmed ([true]) in a trace,
    by address, in order. *)
Definition breakpoint_calls (tr : list event) : list (bool * Z) :=
  omap (fun e => match e with
                 | EvCall (CALL_cortex_m_unset_breakpoint a) => Some (false, a)
                 | EvCall (CALL_cortex_m_set_breakpoint a) => Some (true, a)
                 | _ => None
                 end) tr.

(** Events that neither release nor program a breakpoint. *)
Definition keeps_breakpoints (e : event) : Prop :=
  match e with
  | EvCall (CALL_cortex_m_unset_breakpoint _) => False
  | EvCall (CALL_cortex_m_set_breakpoint _) => False
  | _ => True
  end.

(** ** Further concrete inputs *)

(** Inputs for the watchpoint, DCC, masking and poll properties, built on
    the core of [Scenario]. *)
Module Samples.

(** A probe with the given transport answers; everything else is as in
    [Scenario.probe_with]. *)
Definition transport (rd : nat -> Z -> retcode * Z) (wr : nat -> Z -> Z -> retcode)
    : probe :=
  {| ap_read := rd;
     ap_write := wr;
     ap_run := fun _ => ERROR_OK;
     mem_buf := fun _ _ _ _ _ => ERROR_OK;
     clock_ms := fun n => Z.of_nat n;
     collab := fun _ _ => ERROR_OK;
     semihosting := fun _ => (false, ERROR_OK);
     bkpt_inst_found := fun _ => false;
     jtag_reset_config := 0;
     jtag_srst := false;
     wait_bound := 1000;
     armv7m_map_id_to_regsel := Scenario.regsel;
     armv7m_map_reg_packing := Scenario.packing;
     ARMV7M_CONTROL := 23;
     ARMV7M_PRIMASK := 20 |}.

(** Two DWT comparators at 0xE0001020 and 0xE0001030; the FUNCTION register
    of the second one shows MATCHED. *)
Definition comparators : list cortex_m_dwt_comparator :=
  [mk_dwt_comparator 0xE0001020 0x20000000 0 5;
   mk_dwt_comparator 0xE0001030 0x20000100 0 5].

Definition watch_memory (a : Z) : Z :=
  if a =? 0xE0001038 then Z.lor (Z.shiftl 1 24) 5 else 5.

Definition watch_world : world :=
  Scenario.start (transport (fun _ a => (ERROR_OK, watch_memory a))
                            (fun _ _ _ => ERROR_OK)).

(** A core halted by a watchpoint, with the two comparators in use. *)
Definition watch_core : target :=
  mk_target 0 TARGET_HALTED DBG_REASON_WATCHPOINT false false true false false
    false false []
    (mk_cortex_m Scenario.halted_dhcsr 0 0 false CORTEX_M_ISRMASK_AUTO false true
       CORTEX_M_RESET_VECTRESET 1 true 0 0 [] 2 comparators
       (Scenario.armv7m0 ARM_ARCH_V7M 0x1000)).

(** A watchpoint that is not set, one on the first comparator, one on the
    second. *)
Definition watchpoints : list watchpoint :=
  [mk_watchpoint 0x20000200 1 false 1;
   mk_watchpoint 0x20000000 0 true 2;
   mk_watchpoint 0x20000100 1 true 3].

(** A running core with debug messages enabled. *)
Definition dcc_core : target :=
  mk_target 0 TARGET_RUNNING DBG_REASON_NOTHALTED false false true false true
    false false []
    (Scenario.cortex_m0 CORTEX_M_ISRMASK_AUTO Scenario.running_dhcsr 0
       ARM_ARCH_V7M 0x1000).

(** A target that sends the word 0x12345678 through the DCC: DCRDR holds
    the next byte at every second consultation. *)
Definition dcc_world : world :=
  Scenario.start
    (transport
       (fun n a => (ERROR_OK,
                    if a =? DCB_DCRDR
                    then dcc_packet (byte_of 0x12345678 (Z.of_nat (n / 2)))
                    else 0))
       (fun _ _ _ => ERROR_OK)).

(** A transport on which every read and every write fails. *)
Definition dead_world : world :=
  Scenario.start (transport (fun _ _ => (ERROR_FAIL, 0)) (fun _ _ _ => ERROR_FAIL)).

(** A halted core with the isr-masking mode ON and C_MASKINTS cached. *)
Definition masked_core : target :=
  Scenario.target0 0 TARGET_HALTED false false []
    (Scenario.cortex_m0 CORTEX_M_ISRMASK_ON
       (Z.lor Scenario.halted_dhcsr C_MASKINTS) 0 ARM_ARCH_V7M 0x1000).

(** A halted core that does not implement VECTRESET. *)
Definition no_vectreset_core : target :=
  Scenario.target0 0 TARGET_HALTED false false []
    (mk_cortex_m Scenario.halted_dhcsr 0 0 false CORTEX_M_ISRMASK_AUTO false false
       CORTEX_M_RESET_VECTRESET 1 true 0 0 [] 0 []
       (Scenario.armv7m0 ARM_ARCH_V6M 0x1000)).

(** A halted core whose register transfers are complete at once, with
    0xBEEF in DCRDR. *)
Definition ready_world : world :=
  Scenario.start
    (transport (fun _ a => (ERROR_OK, if a =? DCB_DCRDR then 0xBEEF
                                      else Scenario.halted_dhcsr))
               (fun _ _ _ => ERROR_OK)).

(** An adapter with SRST. *)
Definition srst_world : world :=
  Scenario.start
    {| ap_read := fun _ _ => (ERROR_OK, Scenario.halted_dhcsr);
       ap_write := fun _ _ _ => ERROR_OK;
       ap_run := fun _ => ERROR_OK;
       mem_buf := fun _ _ _ _ _ => ERROR_OK;
       clock_ms := fun n => Z.of_nat n;
       collab := fun _ _ => ERROR_OK;
       semihosting := fun _ => (false, ERROR_OK);
       bkpt_inst_found := fun _ => false;
       jtag_reset_config := RESET_HAS_SRST;
       jtag_srst := false;
       wait_bound := 1000;
       armv7m_map_id_to_regsel := Scenario.regsel;
       armv7m_map_reg_packing := Scenario.packing;
       ARMV7M_CONTROL := 23;
       ARMV7M_PRIMASK := 20 |}.

(** A core whose debug AP has not been found. *)
Definition no_ap_core : target :=
  Scenario.target0 0 TARGET_RUNNING false false []
    (mk_cortex_m Scenario.running_dhcsr 0 0 false CORTEX_M_ISRMASK_AUTO false true
       CORTEX_M_RESET_VECTRESET 1 true 0 0 [] 0 []
       (mk_armv7m ARM_ARCH_V7M ARM_MODE_THREAD armv7m_msp_reg_map
          Scenario.core_regs 15 16 0 0 false)).

(** A core in reset with one FPB comparator and the two DWT comparators
    in its cache, behind a transport on which FP_CTRL reads as enabled. *)
Definition debug_core : target :=
  mk_target 0 TARGET_RESET DBG_REASON_NOTHALTED false false true false false
    false false []
    (mk_cortex_m Scenario.running_dhcsr 0 0 false CORTEX_M_ISRMASK_AUTO false true
       CORTEX_M_RESET_VECTRESET 1 false 1 0
       [mk_fp_comparator 0xE0002008 0x08000101] 2 comparators
       (Scenario.armv7m0 ARM_ARCH_V7M 0x1000)).

Definition fpb_world : world :=
  Scenario.start
    (transport (fun _ a => (ERROR_OK, if a =? FP_CTRL then 1
                                      else Scenario.running_dhcsr))
               (fun _ _ _ => ERROR_OK)).

(** A core that has locked up after a double fault. *)
Definition lockup_dhcsr : Z := Z.lor (Z.lor C_DEBUGEN S_LOCKUP) S_RETIRE_ST.

End Samples.

(** * Proofs *)

(** ** Bits *)

Lemma u32_testbit z i : 0 <= i ->
  Z.testbit (u32 z) i = (i <? 32) && Z.testbit z i.
Proof.
  intros Hi. unfold u32.
  destruct (Z.ltb_spec i 32).
  - rewrite Z.mod_pow2_bits_low by lia. reflexivity.
  - rewrite Z.mod_pow2_bits_high by lia. reflexivity.
Qed.

Lemma has_bits_testbit x k : 0 <= k ->
  has_bits x (Z.shiftl 1 k) = Z.testbit x k.
Proof.
  intros Hk. unfold has_bits.
  assert (E : Z.land x (Z.shiftl 1 k) = Z.shiftl (Z.b2z (Z.testbit x k)) k).
  { apply Z.bits_inj'. intros n Hn.
    rewrite Z.land_spec, !Z.shiftl_spec by lia.
    destruct (Z.eq_dec n k) as [->|Hne].
    - rewrite Z.sub_diag. change (Z.testbit 1 0) with true.
      rewrite andb_true_r. destruct (Z.testbit x k); reflexivity.
    - destruct (Z.ltb_spec n k).
      + rewrite (Z.testbit_neg_r 1 (n - k)), (Z.testbit_neg_r _ (n - k)) by lia.
        apply andb_false_r.
      + assert (Z.testbit 1 (n - k) = false) as ->.
        { change 1 with (Z.ones 1). apply Z.ones_spec_high. lia. }
        rewrite andb_false_r.
        destruct (Z.testbit x k); simpl.
        * change 1 with (Z.ones 1). symmetry. apply Z.ones_spec_high. lia.
        * symmetry. apply Z.testbit_0_l. }
  rewrite E. destruct (Z.testbit x k); simpl.
  - rewrite Z.shiftl_1_l. destruct (Z.eqb_spec (2 ^ k) 0); [|reflexivity].
    pose proof (Z.pow_pos_nonneg 2 k). lia.
  - rewrite Z.shiftl_0_l. reflexivity.
Qed.

Lemma testbit_low_half m i : low_half m -> 16 <= i -> Z.testbit m i = false.
Proof.
  intros [H0 H1] Hi.
  destruct (Z.eq_dec m 0) as [->|Hne]; [apply Z.testbit_0_l|].
  apply Z.bits_above_log2; [lia|].
  assert (Z.log2 m < 16); [|lia].
  apply Z.log2_lt_pow2; lia.
Qed.

Lemma rebuilt_dhcsr_testbit c on off i : 0 <= i ->
  Z.testbit (rebuilt_dhcsr c on off) i =
  (i <? 32) && ((Z.testbit c i && negb ((16 <=? i) || Z.testbit off i))
                || (Z.testbit 0xA05F (i - 16) || (i =? 0) || Z.testbit on i)).
Proof.
  intros Hi. unfold rebuilt_dhcsr.
  rewrite u32_testbit, Z.lor_spec, u32_testbit, Z.land_spec, Z.lnot_spec,
    !Z.lor_spec by lia.
  unfold DBGKEY, C_DEBUGEN.
  rewrite !Z.shiftl_spec by lia.
  assert (Z.testbit 0xFFFF (i - 16) = (16 <=? i) && (i <? 32)) as ->.
  { change 0xFFFF with (Z.ones 16).
    destruct (Z.leb_spec 16 i); simpl.
    - destruct (Z.ltb_spec i 32).
      + apply Z.ones_spec_low. lia.
      + apply Z.ones_spec_high. lia.
    - apply Z.testbit_neg_r. lia. }
  assert (Z.testbit 1 (i - 0) = (i =? 0)) as ->.
  { rewrite Z.sub_0_r. destruct (Z.eqb_spec i 0) as [->|]; [reflexivity|].
    change 1 with (Z.ones 1). apply Z.ones_spec_high. lia. }
  destruct (i <? 32); simpl; [|reflexivity].
  rewrite andb_true_r. reflexivity.
Qed.

Lemma rebuilt_dhcsr_ok c on off : low_half on -> dhcsr_write_ok (rebuilt_dhcsr c on off).
Proof.
  intros Hon. split.
  - apply Z.bits_inj'. intros n Hn.
    rewrite Z.shiftr_spec, rebuilt_dhcsr_testbit by lia.
    replace (n + 16 - 16) with n by lia.
    destruct (Z.ltb_spec (n + 16) 32); simpl.
    + assert ((16 <=? n + 16) = true) as -> by (apply Z.leb_le; lia).
      rewrite (testbit_low_half on) by (auto; lia).
      assert ((n + 16 =? 0) = false) as -> by (apply Z.eqb_neq; lia).
      simpl. rewrite andb_false_r. simpl. rewrite !orb_false_r. reflexivity.
    + symmetry. apply Z.bits_above_log2; [lia|].
      change (Z.log2 0xA05F) with 15. lia.
  - unfold C_DEBUGEN. rewrite has_bits_testbit, rebuilt_dhcsr_testbit by lia.
    simpl. rewrite orb_true_r. reflexivity.
Qed.

Lemma rebuilt_dhcsr_spec c on off : rebuilt_dhcsr c on off = u32 (spec_write_dhcsr c on off).
Proof.
  apply Z.bits_inj'. intros n Hn.
  unfold rebuilt_dhcsr, spec_write_dhcsr, STATUS_MASK.
  rewrite !u32_testbit by lia.
  rewrite !Z.lor_spec, u32_testbit, !Z.land_spec by lia.
  change (Z.shiftl 0xFFFF 16) with 0xFFFF0000.
  destruct (n <? 32); simpl; [|reflexivity].
  destruct (Z.testbit c n), (Z.testbit (Z.lnot (Z.lor 0xFFFF0000 off)) n),
    (Z.testbit DBGKEY n), (Z.testbit C_DEBUGEN n), (Z.testbit on n); reflexivity.
Qed.

(** ** Runs: the structural rules *)

Lemma world_le_refl w : world_le w w.
Proof. split; [reflexivity|lia]. Qed.

Lemma world_le_trans w1 w2 w3 : world_le w1 w2 -> world_le w2 w3 -> world_le w1 w3.
Proof. intros [E1 L1] [E2 L2]. split; [congruence|lia]. Qed.

Section StepsRules.
Context {St : Type} (P : event -> Prop) (R : world -> St -> St -> Prop).
Context `{!FrameRel R}.

Lemma steps_ret {A} (a : A) : steps P R (ret a).
Proof.
  intros s w. simpl. split; [apply world_le_refl|].
  split; [apply frame_refl|]. exists []. rewrite app_nil_r. auto.
Qed.

Lemma steps_out_of_fuel {A} : steps P R (@out_of_fuel St A).
Proof.
  intros s w. simpl. split; [apply world_le_refl|].
  split; [apply frame_refl|]. exists []. rewrite app_nil_r. auto.
Qed.

Lemma steps_gets {A} (f : St -> A) : steps P R (gets f).
Proof.
  intros s w. simpl. split; [apply world_le_refl|].
  split; [apply frame_refl|]. exists []. rewrite app_nil_r. auto.
Qed.

Lemma steps_asks {A} (f : probe -> A) : steps P R (asks f).
Proof.
  intros s w. simpl. split; [apply world_le_refl|].
  split; [apply frame_refl|]. exists []. rewrite app_nil_r. auto.
Qed.

Lemma steps_consult {A} (f : probe -> nat -> A) : steps P R (consult f).
Proof.
  intros s w. simpl. split; [split; simpl; [reflexivity|lia]|].
  split; [apply frame_refl|]. exists []. rewrite app_nil_r. auto.
Qed.

Lemma steps_emit (e : event) : P e -> steps P R (emit e).
Proof.
  intros He s w. simpl. split; [split; simpl; [reflexivity|lia]|].
  split; [apply frame_refl|]. exists [e]. auto.
Qed.

Lemma steps_modify (f : St -> St) : (forall w s, R w s (f s)) -> steps P R (modify f).
Proof.
  intros Hf s w. simpl. split; [apply world_le_refl|].
  split; [apply Hf|]. exists []. rewrite app_nil_r. auto.
Qed.

Lemma steps_bind {A B} (m : ST St A) (k : A -> ST St B) :
  steps P R m -> (forall a, steps P R (k a)) -> steps P R (bind m k).
Proof.
  intros Hm Hk s w. unfold bind.
  specialize (Hm s w). destruct (m s w) as [[o s'] w'].
  simpl in Hm. destruct Hm as (Hw & Hr & new & Ht & Hn).
  destruct o as [a|]; simpl.
  - specialize (Hk a s' w'). destruct (k a s' w') as [[o' s''] w''].
    simpl in *. destruct Hk as (Hw' & Hr' & new' & Ht' & Hn').
    split; [eapply world_le_trans; eauto|].
    split; [eapply frame_trans; eauto|].
    exists (new ++ new'). rewrite Ht', Ht, app_assoc. split; [reflexivity|].
    apply Forall_app; auto.
  - split; [assumption|]. split; [assumption|]. eauto.
Qed.

Lemma steps_on_ok (m k : ST St retcode) :
  steps P R m -> steps P R k -> steps P R (on_ok m k).
Proof.
  intros Hm Hk. unfold on_ok. apply steps_bind; [assumption|].
  intros r. destruct (is_ok r); [assumption|apply steps_ret].
Qed.

End StepsRules.

(** ** Relations between states *)

Lemma bits_le_refl a : bits_le a a.
Proof. intros i H. exact H. Qed.

Lemma bits_le_trans a b c : bits_le a b -> bits_le b c -> bits_le a c.
Proof. intros H1 H2 i H. auto. Qed.

Lemma bits_le_lor a d : bits_le a (Z.lor a d).
Proof. intros i H. rewrite Z.lor_spec, H. reflexivity. Qed.

#[global] Instance frame_rel : FrameRel (fun _ : world => frame).
Proof.
  split.
  - intros _ s. unfold frame. repeat split; auto using bits_le_refl.
  - intros _ _ s s' s'' _ H1 H2. unfold frame in *.
    destruct H1 as (?&?&?&?&?&?&?&?), H2 as (?&?&?&?&?&?&?&?).
    repeat split; try congruence. eapply bits_le_trans; eauto.
Qed.

#[global] Instance sticky_grows_rel : FrameRel (fun _ : world => sticky_grows).
Proof.
  split.
  - intros _ s. apply bits_le_refl.
  - intros _ _ s s' s'' _ H1 H2. eapply bits_le_trans; eauto.
Qed.

#[global] Instance any_rel {St} : FrameRel (fun (_ : world) (_ _ : St) => True).
Proof. split; auto. Qed.

Lemma ready_from_le p n m : (n <= m)%nat -> ready_from p n -> ready_from p m.
Proof. intros Hle H k Hk. apply H. lia. Qed.

#[global] Instance stays_fast_rel : FrameRel stays_fast.
Proof.
  split.
  - intros w s _ H. exact H.
  - intros w w' s s' s'' [Ep Ht] H1 H2 Hr Hs. apply H2.
    + rewrite Ep. eapply ready_from_le; eauto.
    + auto.
Qed.

Lemma steps_weaken {St A} (P P' : event -> Prop) (R R' : world -> St -> St -> Prop)
    (m : ST St A) :
  (forall e, P e -> P' e) -> (forall w s s', R w s s' -> R' w s s') ->
  steps P R m -> steps P' R' m.
Proof.
  intros HP HR Hm s w. destruct (Hm s w) as (Hw & Hr & new & Ht & Hn).
  split; [assumption|]. split; [auto|]. exists new. split; [assumption|].
  eapply Forall_impl; eauto.
Qed.

(** ** Automation *)

Create HintDb steps_db.

Ltac low_half_tac :=
  unfold low_half; split; [apply Z.leb_le | apply Z.ltb_lt]; reflexivity.

#[global] Hint Extern 1 (low_half _) => low_half_tac : steps_db.

Ltac solve_event :=
  simpl; first
    [ exact I
    | let E := fresh in intros E; vm_compute in E; discriminate E
    | auto with steps_db ].

Ltac solve_frame :=
  intros; unfold frame, sticky_grows, sticky, stays_fast; simpl;
  repeat split; auto using bits_le_refl, bits_le_lor.

Ltac steps_struct :=
  lazymatch goal with
  | |- steps _ _ (bind _ _) => apply steps_bind; try exact _; [ | intros ? ]
  | |- steps _ _ (on_ok _ _) => apply steps_on_ok; try exact _
  | |- steps _ _ (ret _) => apply steps_ret; exact _
  | |- steps _ _ out_of_fuel => apply steps_out_of_fuel; exact _
  | |- steps _ _ (gets _) => apply steps_gets; exact _
  | |- steps _ _ (get_cm _) => apply steps_gets; exact _
  | |- steps _ _ (get_armv7m _) => apply steps_gets; exact _
  | |- steps _ _ (get_reg _) => apply steps_gets; exact _
  | |- steps _ _ (asks _) => apply steps_asks; exact _
  | |- steps _ _ (consult _) => apply steps_consult; exact _
  | |- steps _ _ timeval_ms => apply steps_consult; exact _
  | |- steps _ _ (emit _) => apply steps_emit; try exact _; solve_event
  | |- steps _ _ (modify _) => apply steps_modify; try exact _; solve_frame
  | |- steps _ _ (if ?b then _ else _) => destruct b
  | |- steps _ _ (match ?x with _ => _ end) => destruct x
  end.

Ltac steps_auto :=
  repeat first [ solve [auto 2 with steps_db nocore] | steps_struct ].

(** ** Register-level functions: quiet and framed *)

Abbreviation quietly m := (steps quiet (fun _ : world => frame) m).

Lemma mem_ap_read_u32_quiet a : quietly (mem_ap_read_u32 a).
Proof. unfold mem_ap_read_u32. steps_auto. Qed.
Lemma mem_ap_read_atomic_u32_quiet a : quietly (mem_ap_read_atomic_u32 a).
Proof. unfold mem_ap_read_atomic_u32. steps_auto. Qed.
Lemma mem_ap_write_u32_quiet a v :
  a <> DCB_DHCSR -> quietly (mem_ap_write_u32 a v).
Proof.
  intros Ha. unfold mem_ap_write_u32.
  apply steps_bind; try exact _;
    [apply steps_emit; try exact _; simpl; intros; contradiction|].
  intros _. steps_auto.
Qed.
Lemma mem_ap_write_atomic_u32_quiet a v :
  a <> DCB_DHCSR \/ from_write_dhcsr v -> quietly (mem_ap_write_atomic_u32 a v).
Proof.
  intros Ha. unfold mem_ap_write_atomic_u32.
  apply steps_bind; try exact _;
    [apply steps_emit; try exact _; simpl; intros;
     destruct Ha; [contradiction|assumption]|].
  intros _. steps_auto.
Qed.
Lemma dap_run_quiet : quietly dap_run.
Proof. unfold dap_run. steps_auto. Qed.
Lemma target_write_u32_quiet a v : quietly (target_write_u32 a v).
Proof. unfold target_write_u32. steps_auto. Qed.
Lemma target_read_u32_quiet a : quietly (target_read_u32 a).
Proof. unfold target_read_u32. steps_auto. Qed.
Lemma call_quiet c : quietly (call c).
Proof. unfold call. steps_auto. Qed.
Lemma keep_alive_quiet : quietly keep_alive.
Proof. unfold keep_alive, call. steps_auto. Qed.
Lemma log_quiet m : quietly (log m).
Proof. unfold log. steps_auto. Qed.

Ltac addr_ne := let E := fresh in intros E; vm_compute in E; discriminate E.
#[global] Hint Extern 1 (_ <> DCB_DHCSR) => addr_ne : steps_db.
#[global] Hint Extern 1 (_ <> DCB_DHCSR \/ _) => left; addr_ne : steps_db.

#[global] Hint Resolve mem_ap_read_u32_quiet mem_ap_read_atomic_u32_quiet
  mem_ap_write_u32_quiet mem_ap_write_atomic_u32_quiet dap_run_quiet
  target_write_u32_quiet target_read_u32_quiet call_quiet keep_alive_quiet
  log_quiet : steps_db.

Lemma register_cache_invalidate_quiet : quietly register_cache_invalidate.
Proof. unfold register_cache_invalidate. steps_auto. Qed.

Lemma cumulate_quiet d : quietly (cortex_m_cumulate_dhcsr_sticky d).
Proof. unfold cortex_m_cumulate_dhcsr_sticky. steps_auto. Qed.
#[global] Hint Resolve register_cache_invalidate_quiet cumulate_quiet : steps_db.

Lemma read_dhcsr_quiet : quietly cortex_m_read_dhcsr_atomic_sticky.
Proof. unfold cortex_m_read_dhcsr_atomic_sticky. steps_auto. Qed.
#[global] Hint Resolve read_dhcsr_quiet : steps_db.

Lemma load_core_reg_wait_quiet fuel then_ : quietly (load_core_reg_wait fuel then_).
Proof.
  induction fuel as [|fuel IH]; cbn [load_core_reg_wait]; steps_auto.
Qed.
#[global] Hint Resolve load_core_reg_wait_quiet : steps_db.

Lemma load_core_reg_u32_quiet regsel : quietly (cortex_m_load_core_reg_u32 regsel).
Proof. unfold cortex_m_load_core_reg_u32. steps_auto. Qed.
#[global] Hint Resolve load_core_reg_u32_quiet : steps_db.

Lemma steps_for_index P R `{!FrameRel R} n i (body : nat -> M retcode) :
  (forall j, steps P R (body j)) -> steps P R (for_index n i body).
Proof.
  intros Hb. revert i. induction n as [|n IH]; intros i; cbn [for_index].
  - apply steps_ret; exact _.
  - apply steps_on_ok; try exact _; auto.
Qed.

Lemma read_reg_words_quiet id : quietly (read_reg_words id).
Proof. unfold read_reg_words. steps_auto. Qed.
#[global] Hint Resolve read_reg_words_quiet : steps_db.

Lemma armv7m_read_core_reg_quiet id : quietly (armv7m_read_core_reg id).
Proof. unfold armv7m_read_core_reg. steps_auto. Qed.
#[global] Hint Resolve armv7m_read_core_reg_quiet : steps_db.

Lemma slow_read_all_regs_quiet : quietly cortex_m_slow_read_all_regs.
Proof.
  unfold cortex_m_slow_read_all_regs. steps_auto.
  apply steps_for_index; [exact _|]. intros j. steps_auto.
Qed.
#[global] Hint Resolve slow_read_all_regs_quiet : steps_db.

Lemma queue_reg_read_quiet regsel : quietly (cortex_m_queue_reg_read regsel).
Proof. unfold cortex_m_queue_reg_read. steps_auto. Qed.
#[global] Hint Resolve queue_reg_read_quiet : steps_db.

Lemma fast_read_queue_quiet n id r_vals dhcsr :
  quietly (fast_read_queue n id r_vals dhcsr).
Proof.
  revert id r_vals dhcsr.
  induction n as [|n IH]; intros id r_vals dhcsr; cbn [fast_read_queue]; steps_auto.
Qed.

Lemma fast_read_check_quiet dhcsr b : quietly (fast_read_check dhcsr b).
Proof.
  revert b. induction dhcsr as [|d rest IH]; intros b; cbn [fast_read_check]; steps_auto.
Qed.

Lemma fast_read_unpack_quiet n id ri r_vals :
  quietly (fast_read_unpack n id ri r_vals).
Proof.
  revert id ri. induction n as [|n IH]; intros id ri; cbn [fast_read_unpack]; steps_auto.
Qed.
#[global] Hint Resolve fast_read_queue_quiet fast_read_check_quiet
  fast_read_unpack_quiet : steps_db.

Lemma fast_read_capture_quiet : quietly fast_read_capture.
Proof. unfold fast_read_capture. steps_auto. Qed.
#[global] Hint Resolve fast_read_capture_quiet : steps_db.

Lemma fast_read_all_regs_quiet : quietly cortex_m_fast_read_all_regs.
Proof. unfold cortex_m_fast_read_all_regs. steps_auto. Qed.
#[global] Hint Resolve fast_read_all_regs_quiet : steps_db.

Lemma store_core_reg_wait_quiet fuel then_ : quietly (store_core_reg_wait fuel then_).
Proof.
  induction fuel as [|fuel IH]; cbn [store_core_reg_wait]; steps_auto.
Qed.
#[global] Hint Resolve store_core_reg_wait_quiet : steps_db.

Lemma store_core_reg_u32_quiet regsel v : quietly (cortex_m_store_core_reg_u32 regsel v).
Proof. unfold cortex_m_store_core_reg_u32. steps_auto. Qed.
#[global] Hint Resolve store_core_reg_u32_quiet : steps_db.

(** What cortex_m_write_debug_halt_mask does, in one equation. *)
Lemma write_debug_halt_mask_eq mask_on mask_off t w :
  cortex_m_write_debug_halt_mask mask_on mask_off t w =
  let v := rebuilt_dhcsr (dcb_dhcsr (cortex_m t)) mask_on mask_off in
  (Done (ap_write (probe_of w) (tick w) DCB_DHCSR v),
   upd_cm (set_dcb_dhcsr v) t,
   mk_world (probe_of w) (S (tick w)) (trace w ++ [EvApWrite true DCB_DHCSR v])).
Proof. reflexivity. Qed.

Lemma write_debug_halt_mask_quiet mask_on mask_off :
  low_half mask_on -> quietly (cortex_m_write_debug_halt_mask mask_on mask_off).
Proof.
  intros Hon t w. rewrite write_debug_halt_mask_eq. simpl.
  split; [split; simpl; [reflexivity|lia]|].
  split; [solve_frame|].
  eexists. split; [reflexivity|].
  constructor; [|constructor]. simpl. intros _.
  eexists _, _, _. split; [exact Hon|apply rebuilt_dhcsr_spec].
Qed.
#[global] Hint Resolve write_debug_halt_mask_quiet : steps_db.

Lemma set_maskints_quiet mask : quietly (cortex_m_set_maskints mask).
Proof. unfold cortex_m_set_maskints. destruct mask; steps_auto. Qed.
#[global] Hint Resolve set_maskints_quiet : steps_db.

Lemma set_maskints_for_halt_quiet : quietly cortex_m_set_maskints_for_halt.
Proof. unfold cortex_m_set_maskints_for_halt. steps_auto. Qed.
Lemma set_maskints_for_run_quiet : quietly cortex_m_set_maskints_for_run.
Proof. unfold cortex_m_set_maskints_for_run. steps_auto. Qed.
Lemma set_maskints_for_step_quiet : quietly cortex_m_set_maskints_for_step.
Proof. unfold cortex_m_set_maskints_for_step. steps_auto. Qed.
#[global] Hint Resolve set_maskints_for_halt_quiet set_maskints_for_run_quiet
  set_maskints_for_step_quiet : steps_db.

Lemma clear_halt_quiet : quietly cortex_m_clear_halt.
Proof. unfold cortex_m_clear_halt. steps_auto. Qed.
#[global] Hint Resolve clear_halt_quiet : steps_db.

Lemma single_step_core_quiet : quietly cortex_m_single_step_core.
Proof. unfold cortex_m_single_step_core. steps_auto. Qed.
#[global] Hint Resolve single_step_core_quiet : steps_db.

Lemma enable_fpb_quiet : quietly cortex_m_enable_fpb.
Proof. unfold cortex_m_enable_fpb. steps_auto. Qed.
#[global] Hint Resolve enable_fpb_quiet : steps_db.

Lemma endreset_event_quiet : quietly cortex_m_endreset_event.
Proof.
  unfold cortex_m_endreset_event. steps_auto.
  - apply steps_for_index; [exact _|]. intros j. steps_auto.
  - apply steps_for_index; [exact _|]. intros j. steps_auto.
Qed.
#[global] Hint Resolve endreset_event_quiet : steps_db.

Lemma examine_debug_reason_quiet : quietly cortex_m_examine_debug_reason.
Proof. unfold cortex_m_examine_debug_reason. steps_auto. Qed.
Lemma read_status_quiet b a : quietly (read_status b a).
Proof. unfold read_status. steps_auto. Qed.
#[global] Hint Resolve examine_debug_reason_quiet read_status_quiet : steps_db.

Lemma examine_exception_reason_quiet : quietly cortex_m_examine_exception_reason.
Proof. unfold cortex_m_examine_exception_reason. steps_auto. Qed.
#[global] Hint Resolve examine_exception_reason_quiet : steps_db.

Lemma debug_entry_load_regs_quiet : quietly debug_entry_load_regs.
Proof. unfold debug_entry_load_regs. steps_auto. Qed.
#[global] Hint Resolve debug_entry_load_regs_quiet : steps_db.

Lemma debug_entry_quiet : quietly cortex_m_debug_entry.
Proof. unfold cortex_m_debug_entry. steps_auto. Qed.
#[global] Hint Resolve debug_entry_quiet : steps_db.

(** ** Target-level functions: well-formed writes, growing sticky bits *)

Abbreviation orderly m := (steps well_formed (fun _ : world => sticky_grows) m).
Abbreviation lawful m := (steps well_formed (fun (_ : world) _ _ => True) m).

Lemma quiet_well_formed e : quiet e -> well_formed e.
Proof. destruct e; simpl; auto. Qed.

Lemma quiet_orderly {A} (m : M A) : quietly m -> orderly m.
Proof.
  apply steps_weaken; [apply quiet_well_formed|].
  intros _ s s' H. apply H.
Qed.

Lemma orderly_lawful {A} (m : M A) : orderly m -> lawful m.
Proof. apply steps_weaken; auto. Qed.

Lemma quiet_lawful {A} (m : M A) : quietly m -> lawful m.
Proof. intros H. apply orderly_lawful, quiet_orderly, H. Qed.

Ltac steps_lift :=
  first [ solve [auto 2 with steps_db nocore]
        | solve [apply quiet_orderly; auto 2 with steps_db nocore]
        | solve [apply orderly_lawful; auto 2 with steps_db nocore]
        | solve [apply quiet_lawful; auto 2 with steps_db nocore] ].

Ltac steps_high := repeat first [ steps_lift | steps_struct ].

Lemma target_call_event_callbacks_orderly e : orderly (target_call_event_callbacks e).
Proof. unfold target_call_event_callbacks. steps_high. Qed.
Lemma mem_ap_read_buf_orderly s c a : orderly (mem_ap_read_buf s c a).
Proof. unfold mem_ap_read_buf. steps_high. Qed.
Lemma mem_ap_write_buf_orderly s c a : orderly (mem_ap_write_buf s c a).
Proof. unfold mem_ap_write_buf. steps_high. Qed.
Lemma alive_sleep_orderly ms : orderly (alive_sleep ms).
Proof. unfold alive_sleep. steps_high. Qed.
Lemma jtag_sleep_orderly us : orderly (jtag_sleep us).
Proof. unfold jtag_sleep. steps_high. Qed.
Lemma set_breakpoint_orderly b : orderly (cortex_m_set_breakpoint b).
Proof. unfold cortex_m_set_breakpoint. steps_high. Qed.
Lemma unset_breakpoint_orderly b : orderly (cortex_m_unset_breakpoint b).
Proof. unfold cortex_m_unset_breakpoint. steps_high. Qed.
Lemma breakpoint_add_orderly a l ty : orderly (breakpoint_add a l ty).
Proof. unfold breakpoint_add. steps_high. Qed.
Lemma breakpoint_remove_orderly a : orderly (breakpoint_remove a).
Proof. unfold breakpoint_remove. steps_high. Qed.
Lemma maybe_skip_bkpt_inst_orderly : orderly armv7m_maybe_skip_bkpt_inst.
Proof. unfold armv7m_maybe_skip_bkpt_inst. steps_high. Qed.
Lemma restore_context_orderly : orderly armv7m_restore_context.
Proof. unfold armv7m_restore_context. steps_high. Qed.
Lemma arm_semihosting_orderly : orderly arm_semihosting.
Proof. unfold arm_semihosting. steps_high. Qed.
Lemma set_reg_bits_orderly id f n v : orderly (set_reg_bits id f n v).
Proof. unfold set_reg_bits. steps_high. Qed.
Lemma target_examine_one_orderly : orderly target_examine_one.
Proof. unfold target_examine_one. steps_high. Qed.
#[global] Hint Resolve target_call_event_callbacks_orderly mem_ap_read_buf_orderly
  mem_ap_write_buf_orderly alive_sleep_orderly jtag_sleep_orderly
  set_breakpoint_orderly unset_breakpoint_orderly breakpoint_add_orderly
  breakpoint_remove_orderly maybe_skip_bkpt_inst_orderly restore_context_orderly
  arm_semihosting_orderly set_reg_bits_orderly target_examine_one_orderly : steps_db.

Lemma halt_one_orderly : orderly cortex_m_halt_one.
Proof. unfold cortex_m_halt_one. steps_high. Qed.
Lemma restart_one_orderly de : orderly (cortex_m_restart_one de).
Proof. unfold cortex_m_restart_one. steps_high. Qed.
Lemma restore_one_orderly c a hb de : orderly (cortex_m_restore_one c a hb de).
Proof. unfold cortex_m_restore_one. steps_high. Qed.
#[global] Hint Resolve halt_one_orderly restart_one_orderly restore_one_orderly : steps_db.

Lemma step_wait_halt_orderly fuel t_start : orderly (step_wait_halt fuel t_start).
Proof. induction fuel as [|fuel IH]; cbn [step_wait_halt]; steps_high. Qed.
Lemma step_masked_orderly : orderly step_masked.
Proof. unfold step_masked. steps_high. Qed.
#[global] Hint Resolve step_wait_halt_orderly step_masked_orderly : steps_db.

Lemma step_core_orderly pc b : orderly (step_core pc b).
Proof. unfold step_core. steps_high. Qed.
#[global] Hint Resolve step_core_orderly : steps_db.

Lemma step_orderly c a hb : orderly (cortex_m_step c a hb).
Proof. unfold cortex_m_step. steps_high. Qed.

Lemma soft_reset_halt_request_orderly : orderly soft_reset_halt_request.
Proof. unfold soft_reset_halt_request. steps_high. Qed.
Lemma soft_reset_halt_probe_orderly : orderly soft_reset_halt_probe.
Proof. unfold soft_reset_halt_probe. steps_high. Qed.
Lemma assert_reset_body_orderly : orderly assert_reset_body.
Proof. unfold assert_reset_body. steps_high. Qed.
Lemma deassert_reset_orderly : orderly cortex_m_deassert_reset.
Proof. unfold cortex_m_deassert_reset. steps_high. Qed.
Lemma read_memory_orderly a s c : orderly (cortex_m_read_memory a s c).
Proof. unfold cortex_m_read_memory. steps_high. Qed.
Lemma write_memory_orderly a s c : orderly (cortex_m_write_memory a s c).
Proof. unfold cortex_m_write_memory. steps_high. Qed.
#[global] Hint Resolve step_orderly soft_reset_halt_request_orderly
  soft_reset_halt_probe_orderly assert_reset_body_orderly deassert_reset_orderly
  read_memory_orderly write_memory_orderly : steps_db.

Lemma poll_one_halted_orderly prev r : orderly (poll_one_halted prev r).
Proof. unfold poll_one_halted. steps_high. Qed.
#[global] Hint Resolve poll_one_halted_orderly : steps_db.

Lemma poll_one_states_orderly prev r df : orderly (poll_one_states prev r df).
Proof. unfold poll_one_states. steps_high. Qed.
#[global] Hint Resolve poll_one_states_orderly : steps_db.

Lemma poll_one_tail_orderly prev df : orderly (poll_one_tail prev df).
Proof. unfold poll_one_tail. steps_high. Qed.
#[global] Hint Resolve poll_one_tail_orderly : steps_db.

Lemma poll_one_lawful : lawful cortex_m_poll_one.
Proof. unfold cortex_m_poll_one. steps_high. Qed.
#[global] Hint Resolve poll_one_lawful : steps_db.

(** ** Group-level functions *)

Lemma on_target_lawful {A} i (m : M A) absent :
  lawful m -> lawful (on_target i m absent).
Proof.
  intros Hm ts w. unfold on_target. destruct (ts !! i) as [t|].
  - specialize (Hm t w). destruct (m t w) as [[o t'] w']. simpl in *.
    destruct Hm as (Hw & _ & Hn). auto.
  - simpl. split; [apply world_le_refl|]. split; [exact I|].
    exists []. rewrite app_nil_r. auto.
Qed.

Lemma foreach_smp_target_lawful body r :
  lawful body -> lawful (foreach_smp_target body r).
Proof.
  intros Hb ts. revert r. induction ts as [|curr rest IH]; intros r w.
  - simpl. split; [apply world_le_refl|]. split; [exact I|].
    exists []. rewrite app_nil_r. auto.
  - cbn [foreach_smp_target]. specialize (Hb curr w).
    destruct (body curr w) as [[o curr'] w']. simpl in Hb.
    destruct Hb as (Hw & _ & new & Ht & Hn).
    destruct o as [ret2|]; simpl.
    + specialize (IH (if is_ok r then ret2 else r) w').
      destruct (foreach_smp_target body _ rest w') as [[o' rest'] w''].
      simpl in *. destruct IH as (Hw' & _ & new' & Ht' & Hn').
      split; [eapply world_le_trans; eauto|]. split; [exact I|].
      exists (new ++ new'). rewrite Ht', Ht, app_assoc. split; [reflexivity|].
      apply Forall_app; auto.
    + split; [assumption|]. split; [exact I|]. eauto.
Qed.

Lemma foreach_smp_target_until_lawful body idx :
  (forall j, lawful (body j)) -> lawful (foreach_smp_target_until body idx).
Proof.
  intros Hb ts. revert idx. induction ts as [|curr rest IH]; intros idx w.
  - simpl. split; [apply world_le_refl|]. split; [exact I|].
    exists []. rewrite app_nil_r. auto.
  - cbn [foreach_smp_target_until]. specialize (Hb idx curr w).
    destruct (body idx curr w) as [[o curr'] w']. simpl in Hb.
    destruct Hb as (Hw & _ & new & Ht & Hn).
    destruct o as [r|]; simpl.
    + destruct (is_ok r); simpl.
      * specialize (IH (S idx) w').
        destruct (foreach_smp_target_until body _ rest w') as [[o' rest'] w''].
        simpl in *. destruct IH as (Hw' & _ & new' & Ht' & Hn').
        split; [eapply world_le_trans; eauto|]. split; [exact I|].
        exists (new ++ new'). rewrite Ht', Ht, app_assoc. split; [reflexivity|].
        apply Forall_app; auto.
      * split; [assumption|]. split; [exact I|]. eauto.
    + split; [assumption|]. split; [exact I|]. eauto.
Qed.

Ltac steps_group :=
  repeat first
    [ steps_lift
    | apply on_target_lawful
    | apply foreach_smp_target_lawful
    | apply foreach_smp_target_until_lawful; intros ?
    | steps_struct ].

Lemma smp_halt_all_lawful : lawful cortex_m_smp_halt_all.
Proof. unfold cortex_m_smp_halt_all, smp_halt_all_body. steps_group. Qed.
Lemma smp_post_halt_poll_lawful : lawful cortex_m_smp_post_halt_poll.
Proof. unfold cortex_m_smp_post_halt_poll, smp_post_halt_poll_body. steps_group. Qed.
#[global] Hint Resolve smp_halt_all_lawful smp_post_halt_poll_lawful : steps_db.

Lemma poll_smp_lawful : lawful cortex_m_poll_smp.
Proof. unfold cortex_m_poll_smp, poll_smp_deliver. steps_group. Qed.
#[global] Hint Resolve poll_smp_lawful : steps_db.

Lemma poll_lawful i : lawful (cortex_m_poll i).
Proof. unfold cortex_m_poll. steps_group. Qed.
Lemma halt_lawful i : lawful (cortex_m_halt i).
Proof. unfold cortex_m_halt. steps_group. Qed.
#[global] Hint Resolve poll_lawful halt_lawful : steps_db.

Lemma soft_reset_halt_wait_lawful i budget : lawful (soft_reset_halt_wait i budget).
Proof.
  induction budget as [|budget IH]; cbn [soft_reset_halt_wait]; steps_group.
Qed.
#[global] Hint Resolve soft_reset_halt_wait_lawful : steps_db.

Lemma soft_reset_halt_lawful i : lawful (cortex_m_soft_reset_halt i).
Proof. unfold cortex_m_soft_reset_halt. steps_group. Qed.
Lemma restore_smp_lawful i hb : lawful (cortex_m_restore_smp i hb).
Proof. unfold cortex_m_restore_smp. steps_group. Qed.
#[global] Hint Resolve soft_reset_halt_lawful restore_smp_lawful : steps_db.

Lemma resume_lawful i c a hb de : lawful (cortex_m_resume i c a hb de).
Proof. unfold cortex_m_resume. steps_group. Qed.
Lemma target_halt_lawful i : lawful (target_halt i).
Proof. unfold target_halt. steps_group. Qed.
#[global] Hint Resolve resume_lawful target_halt_lawful : steps_db.

Lemma assert_reset_lawful i : lawful (cortex_m_assert_reset i).
Proof. unfold cortex_m_assert_reset. steps_group. Qed.
#[global] Hint Resolve assert_reset_lawful : steps_db.

Lemma run_operation_lawful op : lawful (run_operation op).
Proof. destruct op; simpl; steps_group. Qed.

(** ** Runs that complete *)

Lemma yields_ret {St A} (Q : A -> Prop) (a : A) : Q a -> yields (St:=St) Q (ret a).
Proof. intros H s w. exists a. auto. Qed.

Lemma yields_bind {St A B} (Q : B -> Prop) (m : ST St A) (k : A -> ST St B) :
  yields (fun _ => True) m -> (forall a, yields Q (k a)) -> yields Q (bind m k).
Proof.
  intros Hm Hk s w. unfold bind.
  destruct (Hm s w) as (a & Ha & _). destruct (m s w) as [[o s'] w'].
  simpl in Ha. subst o. apply Hk.
Qed.

Lemma yields_weaken {St A} (Q Q' : A -> Prop) (m : ST St A) :
  (forall a, Q a -> Q' a) -> yields Q m -> yields Q' m.
Proof. intros HQ Hm s w. destruct (Hm s w) as (a & Ha & Hq). eauto. Qed.

Lemma yields_any {St A} (Q : A -> Prop) (m : ST St A) :
  yields Q m -> yields (fun _ => True) m.
Proof. apply yields_weaken. auto. Qed.

Lemma yields_gets {St A} (f : St -> A) : yields (fun _ => True) (gets f).
Proof. intros s w. eexists. split; [reflexivity|exact I]. Qed.
Lemma yields_asks {St A} (f : probe -> A) : yields (St:=St) (fun _ => True) (asks f).
Proof. intros s w. eexists. split; [reflexivity|exact I]. Qed.
Lemma yields_consult {St A} (f : probe -> nat -> A) :
  yields (St:=St) (fun _ => True) (consult f).
Proof. intros s w. eexists. split; [reflexivity|exact I]. Qed.
Lemma yields_emit {St} e : yields (St:=St) (fun _ => True) (emit e).
Proof. intros s w. eexists. split; [reflexivity|exact I]. Qed.
Lemma yields_modify {St} (f : St -> St) : yields (fun _ => True) (modify f).
Proof. intros s w. eexists. split; [reflexivity|exact I]. Qed.

Create HintDb yields_db.
#[global] Hint Resolve yields_gets yields_asks yields_consult yields_emit
  yields_modify : yields_db.

Ltac yields_struct :=
  lazymatch goal with
  | |- yields _ (bind _ _) => apply yields_bind; [ | intros ? ]
  | |- yields _ (on_ok _ _) => unfold on_ok
  | |- yields _ (ret _) => apply yields_ret; first [exact I | reflexivity]
  | |- yields _ (get_cm _) => apply yields_gets
  | |- yields _ (get_armv7m _) => apply yields_gets
  | |- yields _ (get_reg _) => apply yields_gets
  | |- yields _ timeval_ms => apply yields_consult
  | |- yields _ (if ?b then _ else _) => destruct b
  | |- yields _ (match ?x with _ => _ end) => destruct x
  end.

Ltac yields_auto :=
  repeat first [ solve [auto 2 with yields_db nocore]
               | solve [eapply yields_any; auto 2 with yields_db nocore]
               | yields_struct ].

Abbreviation completes m := (yields (fun _ => True) m).

Lemma mem_ap_write_atomic_u32_completes a v : completes (mem_ap_write_atomic_u32 a v).
Proof. unfold mem_ap_write_atomic_u32. yields_auto. Qed.
Lemma mem_ap_write_u32_completes a v : completes (mem_ap_write_u32 a v).
Proof. unfold mem_ap_write_u32. yields_auto. Qed.
Lemma mem_ap_read_atomic_u32_completes a : completes (mem_ap_read_atomic_u32 a).
Proof. unfold mem_ap_read_atomic_u32. yields_auto. Qed.
Lemma mem_ap_read_u32_completes a : completes (mem_ap_read_u32 a).
Proof. unfold mem_ap_read_u32. yields_auto. Qed.
Lemma call_completes c : completes (call c).
Proof. unfold call. yields_auto. Qed.
Lemma log_completes m : completes (log m).
Proof. unfold log. yields_auto. Qed.
Lemma target_call_event_callbacks_completes e : completes (target_call_event_callbacks e).
Proof. unfold target_call_event_callbacks. yields_auto. Qed.
Lemma register_cache_invalidate_completes : completes register_cache_invalidate.
Proof. unfold register_cache_invalidate. yields_auto. Qed.
#[global] Hint Resolve mem_ap_write_atomic_u32_completes mem_ap_write_u32_completes
  mem_ap_read_atomic_u32_completes mem_ap_read_u32_completes call_completes
  log_completes target_call_event_callbacks_completes
  register_cache_invalidate_completes : yields_db.

Lemma write_debug_halt_mask_completes on off :
  completes (cortex_m_write_debug_halt_mask on off).
Proof. unfold cortex_m_write_debug_halt_mask. yields_auto. Qed.
#[global] Hint Resolve write_debug_halt_mask_completes : yields_db.
Lemma set_maskints_completes mask : completes (cortex_m_set_maskints mask).
Proof. unfold cortex_m_set_maskints. yields_auto. Qed.
#[global] Hint Resolve set_maskints_completes : yields_db.
Lemma set_maskints_for_halt_completes : completes cortex_m_set_maskints_for_halt.
Proof. unfold cortex_m_set_maskints_for_halt. yields_auto. Qed.
Lemma set_maskints_for_run_completes : completes cortex_m_set_maskints_for_run.
Proof. unfold cortex_m_set_maskints_for_run. yields_auto. Qed.
Lemma set_maskints_for_step_completes : completes cortex_m_set_maskints_for_step.
Proof. unfold cortex_m_set_maskints_for_step. yields_auto. Qed.
#[global] Hint Resolve set_maskints_for_halt_completes set_maskints_for_run_completes
  set_maskints_for_step_completes : yields_db.

Lemma restart_one_yields_ok de : yields (fun r => r = ERROR_OK) (cortex_m_restart_one de).
Proof. unfold cortex_m_restart_one. yields_auto. Qed.

Lemma on_target_log_keeps i m ts w :
  exists w', on_target i (log m) tt ts w = (Done tt, ts, w').
Proof.
  unfold on_target. destruct (ts !! i) as [t|] eqn:E; [|eauto].
  unfold log, bind, gets, emit. simpl. rewrite list_insert_id by exact E. eauto.
Qed.

(** ** Fast read, fall back, and the way back *)


Lemma fast_read_check_run dhcsr b t w :
  fast_read_check dhcsr b t w =
  (Done (b || existsb (fun d => Z.land d S_REGRDY =? 0) dhcsr),
   cumulate_all dhcsr t, w).
Proof.
  revert b t. induction dhcsr as [|d rest IH]; intros b t.
  - simpl. rewrite orb_false_r. reflexivity.
  - cbn [fast_read_check]. unfold bind, cortex_m_cumulate_dhcsr_sticky, modify.
    rewrite IH. cbn [existsb cumulate_all foldl].
    destruct (Z.land d S_REGRDY =? 0), b; reflexivity.
Qed.

Lemma exists_not_ready dhcsr :
  Exists (fun d => has_bits d S_REGRDY = false) dhcsr ->
  existsb (fun d => Z.land d S_REGRDY =? 0) dhcsr = true.
Proof.
  induction 1 as [d rest Hd|d rest _ IH]; cbn [existsb].
  - unfold has_bits in Hd. apply negb_false_iff in Hd. rewrite Hd. reflexivity.
  - rewrite IH. apply orb_true_r.
Qed.

Lemma load_core_reg_wait_stays_fast fuel then_ t w :
  stays_fast w t (load_core_reg_wait fuel then_ t w).1.2.
Proof.
  intros Hready Hslow. destruct fuel as [|fuel]; [exact Hslow|].
  cbn [load_core_reg_wait].
  unfold bind at 1. unfold mem_ap_read_u32 at 1.
  unfold bind, emit, consult, ret. cbn beta iota. cbn [probe_of tick fst snd].
  specialize (Hready (tick w) (le_n _)).
  destruct (ap_read (probe_of w) (tick w) DCB_DHCSR) as [r1 v1]. cbn [fst snd] in *.
  destruct (is_ok r1); cbn [negb]; [|exact Hslow].
  unfold modify, mem_ap_read_atomic_u32, bind, emit, consult, ret.
  cbn beta iota. cbn [probe_of tick fst snd].
  destruct (ap_read (probe_of w) (S (tick w)) DCB_DCRDR) as [r2 v2]. cbn [fst snd].
  destruct (is_ok r2); cbn [negb]; [|exact Hslow].
  unfold get_cm, gets, cortex_m_cumulate_dhcsr_sticky, modify.
  cbn beta iota. cbn [target_to_cm cortex_m upd_cm set_cortex_m dcb_dhcsr set_dcb_dhcsr].
  rewrite Hready. exact Hslow.
Qed.

Lemma steps_with {St A} P (R R' : world -> St -> St -> Prop) (m : ST St A) :
  steps P R m -> (forall s w, R' w s (m s w).1.2) -> steps P R' m.
Proof.
  intros Hm HR s w. destruct (Hm s w) as (Hw & _ & Hn). auto.
Qed.

Abbreviation fast_kept m := (steps quiet stays_fast m).

Lemma load_core_reg_wait_fast_kept fuel then_ : fast_kept (load_core_reg_wait fuel then_).
Proof.
  eapply steps_with; [apply load_core_reg_wait_quiet|].
  intros. apply load_core_reg_wait_stays_fast.
Qed.

Lemma mem_ap_read_u32_fast_kept a : fast_kept (mem_ap_read_u32 a).
Proof. unfold mem_ap_read_u32. steps_auto. Qed.
Lemma mem_ap_write_u32_fast_kept a v : a <> DCB_DHCSR -> fast_kept (mem_ap_write_u32 a v).
Proof.
  intros Ha. eapply steps_with; [apply mem_ap_write_u32_quiet, Ha|].
  intros s w H. exact id.
Qed.
Lemma mem_ap_write_atomic_u32_fast_kept a v :
  a <> DCB_DHCSR -> fast_kept (mem_ap_write_atomic_u32 a v).
Proof.
  intros Ha. eapply steps_with; [apply mem_ap_write_atomic_u32_quiet; left; exact Ha|].
  intros s w H. exact id.
Qed.
#[global] Hint Resolve load_core_reg_wait_fast_kept mem_ap_read_u32_fast_kept
  mem_ap_write_u32_fast_kept mem_ap_write_atomic_u32_fast_kept : steps_db.

Lemma load_core_reg_u32_fast_kept regsel : fast_kept (cortex_m_load_core_reg_u32 regsel).
Proof. unfold cortex_m_load_core_reg_u32. steps_auto. Qed.
#[global] Hint Resolve load_core_reg_u32_fast_kept : steps_db.

Lemma read_reg_words_fast_kept id : fast_kept (read_reg_words id).
Proof. unfold read_reg_words. steps_auto. Qed.
#[global] Hint Resolve read_reg_words_fast_kept : steps_db.

Lemma armv7m_read_core_reg_fast_kept id : fast_kept (armv7m_read_core_reg id).
Proof. unfold armv7m_read_core_reg. steps_auto. Qed.
#[global] Hint Resolve armv7m_read_core_reg_fast_kept : steps_db.

Lemma slow_read_all_regs_recovers t w :
  ready_from (probe_of w) (tick w) ->
  slow_register_read (cortex_m (cortex_m_slow_read_all_regs t w).1.2) = false.
Proof.
  intros Hready. unfold cortex_m_slow_read_all_regs.
  unfold bind at 1. unfold get_armv7m at 1, gets at 1. cbn beta iota.
  unfold bind at 1. unfold modify at 1. cbn beta iota.
  match goal with
  | |- context [?m (upd_cm (set_slow_register_read false) t) w] =>
    assert (Hk : fast_kept m)
  end.
  { steps_auto. apply steps_for_index; [exact _|intros ?]. steps_auto. }
  apply Hk; [exact Hready|reflexivity].
Qed.

Lemma fast_read_all_regs_timeout t w r_vals dhcsr t1 w1 :
  fast_read_capture t w = (Done (ERROR_OK, r_vals, dhcsr), t1, w1) ->
  Exists (fun d => has_bits d S_REGRDY = false) dhcsr ->
  cortex_m_fast_read_all_regs t w =
  (Done ERROR_TIMEOUT_REACHED, cumulate_all dhcsr t1, w1).
Proof.
  intros Hc Hn. unfold cortex_m_fast_read_all_regs.
  unfold bind at 1. rewrite Hc. cbn [is_ok negb].
  unfold bind at 1. rewrite fast_read_check_run.
  rewrite exists_not_ready by exact Hn. reflexivity.
Qed.

Lemma cumulate_all_slow dhcsr t :
  slow_register_read (cortex_m (cumulate_all dhcsr t)) = slow_register_read (cortex_m t).
Proof.
  revert t. induction dhcsr as [|d rest IH]; intros t; [reflexivity|].
  cbn [cumulate_all foldl]. 
  change (foldl _ ?x rest) with (cumulate_all rest x). rewrite IH. reflexivity.
Qed.

(** ** Postponed HALTED events in an SMP group *)


Lemma add_events_nil w : add_events [] w = w.
Proof. destruct w. unfold add_events. simpl. rewrite app_nil_r. reflexivity. Qed.

Lemma add_events_app e1 e2 w : add_events e2 (add_events e1 w) = add_events (e1 ++ e2) w.
Proof. unfold add_events. simpl. rewrite app_assoc. reflexivity. Qed.

Lemma postponed_halted_events_cons t ts :
  postponed_halted_events (t :: ts) =
  postponed_halted_events [t] ++ postponed_halted_events ts.
Proof. unfold postponed_halted_events. simpl. rewrite app_nil_r. reflexivity. Qed.

Lemma poll_smp_deliver_run t w :
  poll_smp_deliver t w =
  (Done ERROR_OK, clear_postponed t, add_events (postponed_halted_events [t]) w).
Proof.
  unfold poll_smp_deliver, clear_postponed, postponed_halted_events, bind, gets,
    modify, target_call_event_callbacks, emit, ret. simpl.
  destruct (smp_halt_event_postponed t); simpl.
  - destruct (state_eqb (state t) TARGET_HALTED); simpl.
    + reflexivity.
    + rewrite add_events_nil. reflexivity.
  - rewrite add_events_nil. reflexivity.
Qed.

Lemma poll_smp_deliver_all ts r w :
  foreach_smp_target poll_smp_deliver r ts w =
  (Done r, clear_postponed <$> ts, add_events (postponed_halted_events ts) w).
Proof.
  revert r w. induction ts as [|t ts IH]; intros r w.
  - simpl. rewrite add_events_nil. reflexivity.
  - cbn [foreach_smp_target]. rewrite poll_smp_deliver_run.
    rewrite IH, add_events_app, <- postponed_halted_events_cons.
    destruct (is_ok r) eqn:Er; [|reflexivity].
    destruct r; try discriminate Er. reflexivity.
Qed.

Lemma clear_postponed_cleared t : smp_halt_event_postponed (clear_postponed t) = false.
Proof.
  unfold clear_postponed. destruct (smp_halt_event_postponed t) eqn:E; [reflexivity|exact E].
Qed.

(** What cortex_m_poll_smp does, given the runs of its two helpers. *)
Lemma poll_smp_run ts w :
  (existsb smp_halt_event_postponed ts = false ->
   cortex_m_poll_smp ts w = (Done ERROR_OK, ts, w))
  /\ (existsb smp_halt_event_postponed ts = true ->
      forall r1 ts1 w1 r2 ts2 w2,
        cortex_m_smp_halt_all ts w = (Done r1, ts1, w1) ->
        cortex_m_smp_post_halt_poll ts1 w1 = (Done r2, ts2, w2) ->
        cortex_m_poll_smp ts w =
        (Done (if is_ok r1 then r2 else r1), clear_postponed <$> ts2,
         add_events (postponed_halted_events ts2) w2)).
Proof.
  unfold cortex_m_poll_smp. split.
  - intros E. unfold bind, gets. rewrite E. reflexivity.
  - intros E r1 ts1 w1 r2 ts2 w2 H1 H2.
    unfold bind at 1. unfold gets. rewrite E.
    unfold bind at 1. rewrite H1. unfold bind at 1. rewrite H2.
    unfold bind. rewrite poll_smp_deliver_all. reflexivity.
Qed.

(** The loops over the group visit every target once, in order: each target
    of the result is what the body made of it at some world. *)
Lemma foreach_smp_target_each body r ts w r' ts' w' :
  foreach_smp_target body r ts w = (Done r', ts', w') ->
  Forall2 (fun t t' => exists w0, t' = (body t w0).1.2) ts ts'.
Proof.
  revert r w r' ts' w'. induction ts as [|t ts IH]; intros r w r' ts' w' H.
  - simpl in H. injection H as <- <- <-. constructor.
  - cbn [foreach_smp_target] in H.
    destruct (body t w) as [[[ret2|] t1] w1] eqn:Eb; [|discriminate H].
    destruct (foreach_smp_target body _ ts w1) as [[o rest'] w''] eqn:Er.
    injection H as -> <- <-.
    constructor; [|eapply IH; eauto].
    exists w. rewrite Eb. reflexivity.
Qed.

Lemma bind_run {St A B} (m : ST St A) (k : A -> ST St B) s w :
  bind m k s w =
  match m s w with
  | (Done a, s', w') => k a s' w'
  | (OutOfFuel, s', w') => (OutOfFuel, s', w')
  end.
Proof. reflexivity. Qed.

Lemma arm_semihosting_run t w :
  arm_semihosting t w =
  (Done (semihosting (probe_of w) (tick w)), t,
   mk_world (probe_of w) (S (tick w)) (trace w ++ [EvCall CALL_arm_semihosting])).
Proof. reflexivity. Qed.

Lemma quiet_app new1 new2 :
  Forall quiet new1 -> Forall quiet new2 -> Forall quiet (new1 ++ new2).
Proof. intros. apply Forall_app; auto. Qed.

Lemma poll_one_halted_postpones prev retval t w r :
  smp t = true -> prev = TARGET_RUNNING \/ prev = TARGET_RESET ->
  never_semihosted (probe_of w) ->
  poll_one_halted prev retval t w = r ->
  (exists new, trace r.2 = trace w ++ new /\ Forall quiet new)
  /\ world_le w r.2
  /\ state r.1.2 = TARGET_HALTED
  /\ (forall x, r.1.1 = Done x -> smp_halt_event_postponed r.1.2 = true).
Proof.
  intros Hsmp Hprev Hsemi Hr. unfold poll_one_halted in Hr.
  assert (state_eqb prev TARGET_RUNNING || state_eqb prev TARGET_RESET = true) as E1
    by (destruct Hprev as [-> | ->]; reflexivity).
  assert (state_eqb prev TARGET_DEBUG_RUNNING = false) as E2
    by (destruct Hprev as [-> | ->]; reflexivity).
  rewrite E1, E2 in Hr. unfold bind, modify, gets, ret in Hr. cbn beta iota in Hr.
  pose proof (debug_entry_quiet (set_state TARGET_HALTED t) w) as Hde.
  destruct (cortex_m_debug_entry (set_state TARGET_HALTED t) w) as [[o1 t1] w1].
  simpl in Hde. destruct Hde as ((Hp & Ht) & Hf & new & Htr & Hq).
  destruct Hf as (_ & Hst & Hs & _).
  destruct o1 as [r1|].
  2:{ subst r. simpl. split; [eauto|]. split; [split; assumption|].
      split; [exact Hst|]. intros x Hx; discriminate Hx. }
  destruct (is_ok r1) eqn:Er1.
  - rewrite arm_semihosting_run in Hr. cbn iota beta in Hr.
    specialize (Hsemi (tick w1)). rewrite Hp in Hr.
    destruct (semihosting (probe_of w) (tick w1)) as [handled code].
    simpl in Hsemi. subst handled. cbn beta iota in Hr.
    rewrite Hs in Hr. cbn [smp set_state] in Hr. rewrite Hsmp in Hr.
    cbn beta iota in Hr.
    rewrite Er1 in Hr. cbn [negb] in Hr. subst r.
    cbn [fst snd smp_halt_event_postponed set_smp_halt_event_postponed state trace].
    split.
    { exists (new ++ [EvCall CALL_arm_semihosting]). rewrite Htr, app_assoc.
      split; [reflexivity|]. apply quiet_app; [exact Hq|]. repeat constructor. }
    split; [split; simpl; [reflexivity|lia]|].
    split; [exact Hst|]. reflexivity.
  - cbn beta iota in Hr. rewrite Hs in Hr. cbn [smp set_state] in Hr.
    rewrite Hsmp in Hr.
    cbn beta iota in Hr. rewrite Er1 in Hr. cbn [negb] in Hr. subst r.
    cbn [fst snd smp_halt_event_postponed set_smp_halt_event_postponed state trace].
    split; [eauto|]. split; [split; assumption|]. split; [exact Hst|]. reflexivity.
Qed.

Lemma poll_one_states_postpones retval df t w r :
  smp t = true -> state t = TARGET_RUNNING ->
  never_semihosted (probe_of w) ->
  poll_one_states TARGET_RUNNING retval df t w = r ->
  postpones w r.
Proof.
  intros Hsmp Hst Hsemi Hr. unfold poll_one_states in Hr.
  unfold bind at 1 in Hr. unfold get_cm at 1, gets at 1 in Hr. cbn beta iota in Hr.
  destruct (has_bits (dcb_dhcsr (target_to_cm t)) S_HALT).
  - unfold bind at 1 in Hr.
    destruct (poll_one_halted_postpones TARGET_RUNNING retval t w _ Hsmp
                (or_introl eq_refl) Hsemi eq_refl) as (Hev & Hw & Hh & Hflag).
    destruct (poll_one_halted TARGET_RUNNING retval t w) as [[o1 t1] w1].
    cbn [fst snd] in *.
    destruct o1 as [[r1 returned]|].
    2:{ subst r. split; [exact Hev|]. intros _ x Hx. discriminate Hx. }
    specialize (Hflag _ eq_refl).
    destruct returned.
    + subst r. split; [exact Hev|]. intros _ x _. exact Hflag.
    + unfold bind, gets, get_cm, ret, modify in Hr. cbn beta iota in Hr.
      rewrite Hh in Hr. cbn [state_eqb andb] in Hr.
      destruct (negb (is_ok df)); subst r; (split; [exact Hev|]); intros _ x _; exact Hflag.
  - unfold bind, gets, get_cm, ret, modify in Hr. cbn beta iota in Hr.
    rewrite Hst in Hr. cbn [state_eqb andb] in Hr.
    assert (Hn : state r.1.2 = TARGET_RUNNING /\ trace r.2 = trace w).
    { destruct (negb (is_ok df)); subst r; split; assumption || reflexivity. }
    destruct Hn as (Hn & Htr). split.
    + exists []. rewrite app_nil_r. split; [exact Htr|constructor].
    + intros Hh. rewrite Hn in Hh. discriminate Hh.
Qed.

Lemma postpones_extend w w1 new r :
  trace w1 = trace w ++ new -> Forall quiet new -> postpones w1 r -> postpones w r.
Proof.
  intros Ht Hq ((new' & Ht' & Hq') & Hf). split; [|exact Hf].
  exists (new ++ new'). rewrite Ht', Ht, app_assoc. split; [reflexivity|].
  apply quiet_app; assumption.
Qed.

Lemma poll_one_tail_postpones df t w r :
  smp t = true -> state t = TARGET_RUNNING \/ state t = TARGET_RESET ->
  never_semihosted (probe_of w) ->
  poll_one_tail (state t) df t w = r ->
  postpones w r.
Proof.
  intros Hsmp Hst Hsemi Hr. unfold poll_one_tail in Hr.
  unfold bind at 1 in Hr. unfold gets at 1 in Hr. cbn beta iota in Hr.
  destruct Hst as [Hst|Hst]; rewrite Hst in Hr; cbn [state_eqb] in Hr.
  - eapply poll_one_states_postpones; eauto.
  - unfold bind at 1 in Hr.
    pose proof (endreset_event_quiet t w) as He.
    destruct (cortex_m_endreset_event t w) as [[o1 t1] w1].
    simpl in He. destruct He as ((Hp & Ht) & Hf & new & Htr & Hq).
    destruct Hf as (_ & Hst1 & Hs & _).
    destruct o1 as [r1|].
    2:{ subst r. split; [eauto|]. simpl. rewrite Hst1, Hst. discriminate. }
    destruct (is_ok r1); cbn [negb] in Hr.
    + unfold bind at 1, modify at 1 in Hr. cbn beta iota in Hr.
      eapply postpones_extend; [exact Htr|exact Hq|].
      eapply poll_one_states_postpones; [| |rewrite Hp; exact Hsemi|exact Hr].
      * simpl. rewrite Hs. exact Hsmp.
      * reflexivity.
    + unfold bind, modify, ret in Hr. cbn beta iota in Hr. subst r.
      split; [eauto|]. simpl. discriminate.
Qed.

Lemma poll_one_postpones t w :
  smp t = true -> state t = TARGET_RUNNING \/ state t = TARGET_RESET ->
  never_semihosted (probe_of w) ->
  postpones w (cortex_m_poll_one t w).
Proof.
  intros Hsmp Hst Hsemi.
  assert (Hne : state t <> TARGET_HALTED) by (destruct Hst as [-> | ->]; discriminate).
  remember (cortex_m_poll_one t w) as r eqn:Hr. symmetry in Hr.
  unfold cortex_m_poll_one in Hr.
  unfold bind at 1 in Hr. unfold gets at 1 in Hr. cbn beta iota in Hr.
  unfold bind at 1 in Hr.
  pose proof (read_dhcsr_quiet t w) as H1.
  destruct (cortex_m_read_dhcsr_atomic_sticky t w) as [[o1 t1] w1].
  simpl in H1. destruct H1 as ((Hp1 & _) & Hf1 & new1 & Htr1 & Hq1).
  destruct Hf1 as (_ & Hst1 & Hs1 & _).
  destruct o1 as [r1|].
  2:{ subst r. split; [eauto|]. simpl. rewrite Hst1. intros Hh. contradiction. }
  destruct (is_ok r1); cbn [negb] in Hr.
  2:{ unfold bind, modify, ret in Hr. cbn beta iota in Hr. subst r.
      split; [eauto|]. simpl. discriminate. }
  unfold bind at 1 in Hr. unfold get_cm at 1, gets at 1 in Hr. cbn beta iota in Hr.
  unfold bind at 1 in Hr.
  (* the lockup recovery, whichever way it goes, is quiet and framed *)
  assert (Hl : steps quiet (fun _ : world => frame)
    (if has_bits (dcb_dhcsr (target_to_cm t1)) S_LOCKUP
     then run log LOG_clearing_lockup;
          run cortex_m_write_debug_halt_mask C_HALT 0;
          run modify (set_debug_reason DBG_REASON_DBGRQ);
          do retval <- cortex_m_read_dhcsr_atomic_sticky;
          ret (retval, ERROR_FAIL)
     else ret (ERROR_OK, ERROR_OK))) by steps_auto.
  specialize (Hl t1 w1).
  match type of Hr with
  | context [match ?m t1 w1 with _ => _ end] => destruct (m t1 w1) as [[o2 t2] w2]
  end.
  simpl in Hl. destruct Hl as ((Hp2 & _) & Hf2 & new2 & Htr2 & Hq2).
  destruct Hf2 as (_ & Hst2 & Hs2 & _).
  assert (Hev2 : exists new, trace w2 = trace w ++ new /\ Forall quiet new).
  { exists (new1 ++ new2). rewrite Htr2, Htr1, app_assoc. split; [reflexivity|].
    apply quiet_app; assumption. }
  destruct o2 as [[r2 df]|].
  2:{ subst r. split; [exact Hev2|]. simpl. rewrite Hst2, Hst1.
      intros Hh. contradiction. }
  cbn beta iota in Hr.
  destruct (is_ok r2); cbn [negb] in Hr.
  2:{ unfold ret in Hr. subst r. split; [exact Hev2|]. simpl. rewrite Hst2, Hst1.
      intros Hh. contradiction. }
  unfold bind at 1 in Hr. unfold get_cm at 1, gets at 1 in Hr. cbn beta iota in Hr.
  destruct (has_bits _ S_RESET_ST).
  - (* external reset detected: the poll ends in RESET or stays there *)
    unfold log in Hr. unfold bind, modify, gets, ret, emit in Hr.
    cbn beta iota in Hr.
    destruct (state_eqb _ TARGET_RESET) eqn:Ers; cbn [negb] in Hr; subst r.
    + split; [exact Hev2|]. cbn [fst snd state upd_cm set_cortex_m] in *.
      intros Hh. rewrite Hh in Ers. discriminate Ers.
    + split.
      * destruct Hev2 as (new & Htr & Hq). eexists. cbn [snd trace].
        rewrite Htr, <- app_assoc. split; [reflexivity|].
        apply quiet_app; [exact Hq|]. repeat constructor.
      * cbn [fst snd state set_state]. discriminate.
  - destruct Hev2 as (new & Htr & Hq).
    eapply postpones_extend; [exact Htr|exact Hq|].
    assert (Est : state t = state t2) by (rewrite Hst2, Hst1; reflexivity).
    rewrite Est in Hr.
    eapply poll_one_tail_postpones; [| | |exact Hr].
    + rewrite Hs2, Hs1. exact Hsmp.
    + rewrite <- Est. exact Hst.
    + rewrite Hp2, Hp1. exact Hsemi.
Qed.

Lemma smp_halt_all_body_run t w :
  smp_halt_all_body t w =
  if negb (examined t) || state_eqb (state t) TARGET_HALTED
  then (Done ERROR_OK, t, w) else cortex_m_halt_one t w.
Proof.
  unfold smp_halt_all_body, bind, gets, ret, id. cbn beta iota.
  destruct (examined t); cbn [negb orb]; [|reflexivity].
  destruct (state_eqb (state t) TARGET_HALTED); reflexivity.
Qed.

Lemma smp_post_halt_poll_body_run t w :
  smp_post_halt_poll_body t w =
  if negb (examined t) || state_eqb (state t) TARGET_HALTED
  then (Done ERROR_OK, t, w) else cortex_m_poll_one t w.
Proof.
  unfold smp_post_halt_poll_body, bind, gets, ret, id. cbn beta iota.
  destruct (examined t); cbn [negb orb]; [|reflexivity].
  destruct (state_eqb (state t) TARGET_HALTED); reflexivity.
Qed.

Lemma clear_postponed_all ts :
  Forall (fun t => smp_halt_event_postponed t = false) (clear_postponed <$> ts).
Proof.
  induction ts as [|t ts IH]; [constructor|].
  rewrite fmap_cons. constructor; [apply clear_postponed_cleared|exact IH].
Qed.

(** ** The sticky S_RESET_ST *)

Lemma orderly_never_clears {A} (m : M A) :
  steps well_formed (fun _ : world => sticky_grows) m -> never_clears m.
Proof. intros H t w. apply H. Qed.

Lemma testbit_clear_reset_st s i :
  i <> 25 -> Z.testbit (Z.land s (Z.lnot S_RESET_ST)) i = Z.testbit s i.
Proof.
  intros Hi. destruct (Z.ltb_spec i 0) as [Hneg|Hpos].
  - rewrite !Z.testbit_neg_r by lia. reflexivity.
  - rewrite Z.land_spec, Z.lnot_spec by lia. unfold S_RESET_ST.
    rewrite Z.shiftl_spec by lia.
    assert (Z.testbit 1 (i - 25) = false) as ->.
    { destruct (Z.ltb_spec i 25).
      - apply Z.testbit_neg_r. lia.
      - change 1 with (Z.ones 1). apply Z.ones_spec_high. lia. }
    apply andb_true_r.
Qed.

Lemma poll_one_sticky t w :
  sticky_grows t (cortex_m_poll_one t w).1.2
  \/ ((cortex_m_poll_one t w).1.1 = Done ERROR_OK
      /\ state (cortex_m_poll_one t w).1.2 = TARGET_RESET
      /\ only_reset_st_cleared t (cortex_m_poll_one t w).1.2).
Proof.
  remember (cortex_m_poll_one t w) as r eqn:Hr. symmetry in Hr.
  unfold cortex_m_poll_one in Hr.
  unfold bind at 1 in Hr. unfold gets at 1 in Hr. cbn beta iota in Hr.
  unfold bind at 1 in Hr.
  pose proof (read_dhcsr_quiet t w) as H1.
  destruct (cortex_m_read_dhcsr_atomic_sticky t w) as [[o1 t1] w1].
  simpl in H1. destruct H1 as (_ & Hf1 & _).
  destruct Hf1 as (_ & _ & _ & _ & _ & _ & _ & Hg1).
  destruct o1 as [r1|]; [|subst r; left; exact Hg1].
  destruct (is_ok r1); cbn [negb] in Hr.
  2:{ unfold bind, modify, ret in Hr. cbn beta iota in Hr. subst r.
      left. exact Hg1. }
  unfold bind at 1 in Hr. unfold get_cm at 1, gets at 1 in Hr. cbn beta iota in Hr.
  unfold bind at 1 in Hr.
  assert (Hl : steps quiet (fun _ : world => frame)
    (if has_bits (dcb_dhcsr (target_to_cm t1)) S_LOCKUP
     then run log LOG_clearing_lockup;
          run cortex_m_write_debug_halt_mask C_HALT 0;
          run modify (set_debug_reason DBG_REASON_DBGRQ);
          do retval <- cortex_m_read_dhcsr_atomic_sticky;
          ret (retval, ERROR_FAIL)
     else ret (ERROR_OK, ERROR_OK))) by steps_auto.
  specialize (Hl t1 w1).
  match type of Hr with
  | context [match ?m t1 w1 with _ => _ end] => destruct (m t1 w1) as [[o2 t2] w2]
  end.
  simpl in Hl. destruct Hl as (_ & Hf2 & _).
  destruct Hf2 as (_ & _ & _ & _ & _ & _ & _ & Hg2).
  assert (Hg : sticky_grows t t2) by (eapply bits_le_trans; eauto).
  destruct o2 as [[r2 df]|]; [|subst r; left; exact Hg].
  cbn beta iota in Hr.
  destruct (is_ok r2); cbn [negb] in Hr; [|unfold ret in Hr; subst r; left; exact Hg].
  unfold bind at 1 in Hr. unfold get_cm at 1, gets at 1 in Hr. cbn beta iota in Hr.
  destruct (has_bits _ S_RESET_ST).
  - right. unfold log in Hr. unfold bind, modify, gets, ret, emit in Hr.
    cbn beta iota in Hr.
    assert (Hc : only_reset_st_cleared t
      (upd_cm (fun c => set_sticky
         (Z.land (dcb_dhcsr_cumulated_sticky c) (Z.lnot S_RESET_ST)) c) t2)).
    { intros i Hi Hb. unfold sticky. simpl.
      rewrite testbit_clear_reset_st by exact Hi. apply Hg, Hb. }
    destruct (state_eqb _ TARGET_RESET) eqn:Ers; cbn [negb] in Hr; subst r;
      cbn [fst snd].
    + split; [reflexivity|]. split; [|exact Hc].
      cbn [state upd_cm set_cortex_m] in *.
      destruct (state t2); try discriminate Ers. reflexivity.
    + split; [reflexivity|]. split; [reflexivity|]. exact Hc.
  - left. pose proof (poll_one_tail_orderly (state t) df t2 w2) as Ht.
    rewrite Hr in Ht. destruct Ht as (_ & Ht & _).
    eapply bits_le_trans; [exact Hg|exact Ht].
Qed.

(** ** What happens when a bounded wait expires *)

Lemma read_dhcsr_run t w :
  cortex_m_read_dhcsr_atomic_sticky t w =
  let rv := ap_read (probe_of w) (tick w) DCB_DHCSR in
  let w' := mk_world (probe_of w) (S (tick w))
                     (trace w ++ [EvApRead true DCB_DHCSR]) in
  if is_ok rv.1
  then (Done ERROR_OK,
        upd_cm (fun c => set_sticky
                  (Z.lor (dcb_dhcsr_cumulated_sticky c) (u32 rv.2)) c)
               (upd_cm (set_dcb_dhcsr (u32 rv.2)) t), w')
  else (Done rv.1, t, w').
Proof.
  unfold cortex_m_read_dhcsr_atomic_sticky, mem_ap_read_atomic_u32, bind, emit,
    consult, ret, modify, get_cm, gets, cortex_m_cumulate_dhcsr_sticky.
  cbn beta iota zeta. cbn [probe_of tick trace fst snd].
  destruct (is_ok (ap_read (probe_of w) (tick w) DCB_DHCSR).1); reflexivity.
Qed.

(** The S_REGRDY wait of a register read expires: TIMEOUT. *)
Lemma load_core_reg_wait_expires k : forall fuel then_ t w,
  (k < fuel)%nat ->
  transport_ok (probe_of w) ->
  never_shows (probe_of w) S_REGRDY ->
  (forall n, (tick w + 4 * k + 2 <= n)%nat ->
             clock_ms (probe_of w) n > then_ + DHCSR_S_REGRDY_TIMEOUT) ->
  exists t' w',
    load_core_reg_wait fuel then_ t w = (Done (ERROR_TIMEOUT_REACHED, 0), t', w')
    /\ slow_register_read (cortex_m t') = true.
Proof.
  induction k as [|k IH]; intros fuel then_ t w Hfuel Hok Hnr Hclock;
    (destruct fuel as [|fuel]; [lia|]);
    cbn [load_core_reg_wait];
    unfold bind at 1; unfold mem_ap_read_u32 at 1;
    unfold bind, emit, consult, ret; cbn beta iota; cbn [probe_of tick trace fst snd];
    pose proof (proj1 Hok (tick w) DCB_DHCSR) as E1;
    pose proof (Hnr (tick w)) as N1;
    destruct (ap_read (probe_of w) (tick w) DCB_DHCSR) as [r1 v1];
    cbn [fst snd] in *; subst r1; cbn [is_ok negb];
    unfold modify, mem_ap_read_atomic_u32, bind, emit, consult, ret;
    cbn beta iota; cbn [probe_of tick trace fst snd];
    pose proof (proj1 Hok (S (tick w)) DCB_DCRDR) as E2;
    destruct (ap_read (probe_of w) (S (tick w)) DCB_DCRDR) as [r2 v2];
    cbn [fst snd] in *; subst r2; cbn [is_ok negb];
    unfold get_cm, gets, cortex_m_cumulate_dhcsr_sticky, modify, timeval_ms, consult;
    cbn beta iota;
    cbn [target_to_cm cortex_m upd_cm set_cortex_m dcb_dhcsr set_dcb_dhcsr
         probe_of tick trace];
    rewrite N1; cbn beta iota; cbn [probe_of tick trace].
  - assert (Hc : clock_ms (probe_of w) (S (S (tick w))) > then_ + DHCSR_S_REGRDY_TIMEOUT)
      by (apply Hclock; lia).
    apply Z.gt_lt, Z.gtb_lt in Hc. rewrite Hc.
    unfold log, bind, gets, emit. cbn beta iota. eexists _, _. split; reflexivity.
  - destruct (clock_ms (probe_of w) (S (S (tick w))) >? then_ + DHCSR_S_REGRDY_TIMEOUT).
    + unfold log, bind, gets, emit. cbn beta iota. eexists _, _. split; reflexivity.
    + unfold keep_alive, call, bind, emit, consult, ret. cbn beta iota.
      cbn [probe_of tick trace].
      apply IH; cbn [probe_of tick]; [lia|exact Hok|exact Hnr|].
      intros n Hn. apply Hclock. lia.
Qed.

(** The S_REGRDY wait of a register write expires: TIMEOUT. *)
Lemma store_core_reg_wait_expires k : forall fuel then_ t w,
  (k < fuel)%nat ->
  transport_ok (probe_of w) ->
  never_shows (probe_of w) S_REGRDY ->
  (forall n, (tick w + 3 * k + 1 <= n)%nat ->
             clock_ms (probe_of w) n > then_ + DHCSR_S_REGRDY_TIMEOUT) ->
  exists t' w',
    store_core_reg_wait fuel then_ t w = (Done ERROR_TIMEOUT_REACHED, t', w').
Proof.
  induction k as [|k IH]; intros fuel then_ t w Hfuel Hok Hnr Hclock;
    (destruct fuel as [|fuel]; [lia|]);
    cbn [store_core_reg_wait];
    unfold on_ok; unfold bind at 1; rewrite read_dhcsr_run; cbv zeta;
    pose proof (proj1 Hok (tick w) DCB_DHCSR) as E1;
    pose proof (Hnr (tick w)) as N1;
    destruct (ap_read (probe_of w) (tick w) DCB_DHCSR) as [r1 v1];
    cbn [fst snd] in *; subst r1; cbn [is_ok];
    unfold bind, get_cm, gets, timeval_ms, consult; cbn beta iota;
    cbn [target_to_cm cortex_m upd_cm set_cortex_m dcb_dhcsr set_dcb_dhcsr
         set_sticky probe_of tick trace];
    rewrite N1; cbn beta iota; cbn [probe_of tick trace].
  - assert (Hc : clock_ms (probe_of w) (S (tick w)) > then_ + DHCSR_S_REGRDY_TIMEOUT)
      by (apply Hclock; lia).
    apply Z.gt_lt, Z.gtb_lt in Hc. rewrite Hc.
    unfold log, bind, gets, emit. cbn beta iota. eexists _, _. reflexivity.
  - destruct (clock_ms (probe_of w) (S (tick w)) >? then_ + DHCSR_S_REGRDY_TIMEOUT).
    + unfold log, bind, gets, emit. cbn beta iota. eexists _, _. reflexivity.
    + unfold keep_alive, call, bind, emit, consult, ret. cbn beta iota.
      cbn [probe_of tick trace].
      apply IH; cbn [probe_of tick]; [lia|exact Hok|exact Hnr|].
      intros n Hn. apply Hclock. lia.
Qed.

Lemma load_core_reg_u32_expires regsel k t w :
  (k < wait_bound (probe_of w))%nat ->
  transport_ok (probe_of w) ->
  never_shows (probe_of w) S_REGRDY ->
  clock_expires (probe_of w) (tick w) k ->
  exists t' w',
    cortex_m_load_core_reg_u32 regsel t w = (Done (ERROR_TIMEOUT_REACHED, 0), t', w').
Proof.
  intros Hk Hok Hnr Hclock. unfold cortex_m_load_core_reg_u32.
  unfold bind at 1. unfold gets at 1. cbn beta iota.
  destruct (dbg_msg_enabled t).
  - unfold bind at 1. unfold mem_ap_read_u32 at 1.
    unfold bind at 1 2, emit, consult, ret. cbn beta iota.
    cbn [probe_of tick trace fst snd].
    rewrite (proj1 Hok). cbn [is_ok negb].
    unfold bind at 1. unfold mem_ap_write_u32 at 1.
    unfold bind at 1, emit, consult. cbn beta iota. cbn [probe_of tick trace].
    rewrite (proj1 (proj2 Hok)). cbn [is_ok negb].
    unfold bind at 1. unfold timeval_ms at 1, consult. cbn beta iota.
    cbn [probe_of tick trace].
    unfold bind at 1. unfold asks at 1. cbn beta iota. cbn [probe_of].
    unfold bind at 1.
    match goal with
    | |- context [load_core_reg_wait ?f ?th ?s ?w0] =>
      destruct (load_core_reg_wait_expires k f th s w0) as (t' & w' & E & _);
        [exact Hk|exact Hok|exact Hnr| |rewrite E]
    end.
    + cbn [probe_of tick]. intros n Hn. apply Hclock; lia.
    + cbn [is_ok negb]. eexists _, _. reflexivity.
  - unfold bind at 1. unfold ret at 1. cbn beta iota. cbn [is_ok negb].
    unfold bind at 1. unfold mem_ap_write_u32 at 1.
    unfold bind at 1, emit, consult. cbn beta iota. cbn [probe_of tick trace].
    rewrite (proj1 (proj2 Hok)). cbn [is_ok negb].
    unfold bind at 1. unfold timeval_ms at 1, consult. cbn beta iota.
    cbn [probe_of tick trace].
    unfold bind at 1. unfold asks at 1. cbn beta iota. cbn [probe_of].
    unfold bind at 1.
    match goal with
    | |- context [load_core_reg_wait ?f ?th ?s ?w0] =>
      destruct (load_core_reg_wait_expires k f th s w0) as (t' & w' & E & _);
        [exact Hk|exact Hok|exact Hnr| |rewrite E]
    end.
    + cbn [probe_of tick]. intros n Hn. apply Hclock; lia.
    + cbn [is_ok negb]. eexists _, _. reflexivity.
Qed.

Lemma store_core_reg_u32_expires regsel v k t w :
  (k < wait_bound (probe_of w))%nat ->
  transport_ok (probe_of w) ->
  never_shows (probe_of w) S_REGRDY ->
  clock_expires (probe_of w) (tick w) k ->
  exists t' w',
    cortex_m_store_core_reg_u32 regsel v t w = (Done ERROR_TIMEOUT_REACHED, t', w').
Proof.
  intros Hk Hok Hnr Hclock. unfold cortex_m_store_core_reg_u32.
  unfold bind at 1. unfold gets at 1. cbn beta iota.
  destruct (dbg_msg_enabled t).
  - unfold bind at 1. unfold mem_ap_read_u32 at 1.
    unfold bind at 1 2, emit, consult, ret. cbn beta iota.
    cbn [probe_of tick trace fst snd].
    rewrite (proj1 Hok). cbn [is_ok negb].
    unfold on_ok at 1. unfold bind at 1. unfold mem_ap_write_u32 at 1.
    unfold bind at 1, emit, consult. cbn beta iota. cbn [probe_of tick trace].
    rewrite (proj1 (proj2 Hok)). cbn [is_ok negb].
    unfold on_ok at 1. unfold bind at 1. unfold mem_ap_write_u32 at 1.
    unfold bind at 1, emit, consult. cbn beta iota. cbn [probe_of tick trace].
    rewrite (proj1 (proj2 Hok)). cbn [is_ok negb].
    unfold bind at 1. unfold timeval_ms at 1, consult. cbn beta iota.
    cbn [probe_of tick trace].
    unfold bind at 1. unfold asks at 1. cbn beta iota. cbn [probe_of].
    unfold on_ok at 1. unfold bind at 1.
    match goal with
    | |- context [store_core_reg_wait ?f ?th ?s ?w0] =>
      destruct (store_core_reg_wait_expires k f th s w0) as (t' & w' & E);
        [exact Hk|exact Hok|exact Hnr| |rewrite E]
    end.
    + cbn [probe_of tick]. intros n Hn. apply Hclock; lia.
    + cbn [is_ok negb]. eexists _, _. reflexivity.
  - unfold bind at 1. unfold ret at 1. cbn beta iota. cbn [is_ok negb].
    unfold on_ok at 1. unfold bind at 1. unfold mem_ap_write_u32 at 1.
    unfold bind at 1, emit, consult. cbn beta iota. cbn [probe_of tick trace].
    rewrite (proj1 (proj2 Hok)). cbn [is_ok negb].
    unfold on_ok at 1. unfold bind at 1. unfold mem_ap_write_u32 at 1.
    unfold bind at 1, emit, consult. cbn beta iota. cbn [probe_of tick trace].
    rewrite (proj1 (proj2 Hok)). cbn [is_ok negb].
    unfold bind at 1. unfold timeval_ms at 1, consult. cbn beta iota.
    cbn [probe_of tick trace].
    unfold bind at 1. unfold asks at 1. cbn beta iota. cbn [probe_of].
    unfold on_ok at 1. unfold bind at 1.
    match goal with
    | |- context [store_core_reg_wait ?f ?th ?s ?w0] =>
      destruct (store_core_reg_wait_expires k f th s w0) as (t' & w' & E);
        [exact Hk|exact Hok|exact Hnr| |rewrite E]
    end.
    + cbn [probe_of tick]. intros n Hn. apply Hclock; lia.
    + cbn [is_ok negb]. eexists _, _. reflexivity.
Qed.

Lemma soft_reset_halt_probe_waits t w :
  transport_ok (probe_of w) -> never_shows (probe_of w) S_HALT ->
  exists t',
    soft_reset_halt_probe t w =
    (Done PROBE_WAITING, t',
     mk_world (probe_of w) (S (S (tick w)))
       (trace w ++ [EvApRead true DCB_DHCSR; EvApRead true NVIC_DFSR]))
    /\ state t' = state t.
Proof.
  intros Hok Hnh. unfold soft_reset_halt_probe.
  unfold bind at 1. rewrite read_dhcsr_run. cbv zeta.
  pose proof (proj1 Hok (tick w) DCB_DHCSR) as E1.
  pose proof (Hnh (tick w)) as N1.
  destruct (ap_read (probe_of w) (tick w) DCB_DHCSR) as [r1 v1].
  cbn [fst snd] in *. subst r1. cbn [is_ok].
  unfold mem_ap_read_atomic_u32, bind, emit, consult, ret, modify, get_cm, gets.
  cbn beta iota. cbn [probe_of tick trace fst snd].
  rewrite (proj1 Hok). cbn [is_ok negb].
  cbn [target_to_cm cortex_m upd_cm set_cortex_m dcb_dhcsr set_dcb_dhcsr
       set_sticky set_nvic_dfsr].
  rewrite N1. cbn [andb]. rewrite <- app_assoc.
  eexists. split; reflexivity.
Qed.

Lemma on_target_run {A} i (m : M A) absent ts t w :
  ts !! i = Some t ->
  on_target i m absent ts w =
  let '(o, t', w') := m t w in (o, <[i := t']> ts, w').
Proof. intros E. unfold on_target. rewrite E. reflexivity. Qed.

Lemma soft_reset_halt_wait_exhausts budget : forall i ts w t,
  ts !! i = Some t ->
  transport_ok (probe_of w) -> never_shows (probe_of w) S_HALT ->
  exists ts' w' t',
    soft_reset_halt_wait i budget ts w = (Done ERROR_OK, ts', w')
    /\ trace w' = trace w ++ concat (replicate budget reset_halt_turn)
    /\ ts' !! i = Some t' /\ state t' = state t.
Proof.
  induction budget as [|budget IH]; intros i ts w t Hi Hok Hnh.
  - exists ts, w, t. cbn [soft_reset_halt_wait replicate concat].
    rewrite app_nil_r. auto.
  - cbn [soft_reset_halt_wait]. unfold bind at 1.
    rewrite (on_target_run _ _ _ _ _ _ Hi).
    destruct (soft_reset_halt_probe_waits t w Hok Hnh) as (t1 & E1 & Hs1).
    rewrite E1. cbn beta iota.
    assert (Hi1 : <[i := t1]> ts !! i = Some t1).
    { apply list_lookup_insert_eq. apply lookup_lt_Some in Hi. exact Hi. }
    unfold bind at 1. rewrite (on_target_run _ _ _ _ _ _ Hi1).
    unfold alive_sleep, call, bind, emit, consult, ret. cbn beta iota.
    cbn [probe_of tick trace].
    rewrite list_insert_insert_eq.
    match goal with
    | |- context [soft_reset_halt_wait i budget ?ts0 ?w0] =>
      destruct (IH i ts0 w0 t1) as (ts' & w' & t' & E & Ht & Hi' & Hs')
    end; [exact Hi1|exact Hok|exact Hnh|].
    rewrite E. exists ts', w', t'. split; [reflexivity|].
    split; [|split; [exact Hi'|congruence]].
    rewrite Ht. cbn [trace replicate concat]. unfold reset_halt_turn at 2.
    rewrite <- !app_assoc. reflexivity.
Qed.

(** soft_reset_halt on a core that never reaches the halted state: after
    its 100 turns the function returns OK. *)
Lemma soft_reset_halt_budget_exhausted i ts w t :
  ts !! i = Some t ->
  vectreset_supported (cortex_m t) = true ->
  transport_ok (probe_of w) -> never_shows (probe_of w) S_HALT ->
  exists ts' w' t',
    cortex_m_soft_reset_halt i ts w = (Done ERROR_OK, ts', w')
    /\ trace w' = trace w ++ reset_halt_request (dcb_dhcsr (cortex_m t))
                          ++ concat (replicate 100 reset_halt_turn)
    /\ ts' !! i = Some t' /\ state t' = TARGET_RESET.
Proof.
  intros Hi Hv Hok Hnh. unfold cortex_m_soft_reset_halt, on_ok.
  generalize 100%nat. intros budget.
  unfold bind at 1. rewrite (on_target_run _ _ _ _ _ _ Hi).
  unfold soft_reset_halt_request.
  unfold bind at 1. unfold get_cm at 1, gets at 1. cbn beta iota.
  unfold target_to_cm. rewrite Hv. cbn [negb].
  unfold on_ok at 1. unfold bind at 1. rewrite write_debug_halt_mask_eq. cbv zeta.
  rewrite (proj1 (proj2 Hok)). cbn [is_ok].
  unfold on_ok, mem_ap_write_u32, mem_ap_write_atomic_u32, register_cache_invalidate,
    bind, emit, consult, ret, modify.
  repeat (progress (cbn beta iota; cbn [probe_of tick trace is_ok];
                    rewrite ?(proj1 (proj2 Hok)))).
  match goal with
  | |- context [soft_reset_halt_wait i budget (<[i := ?t0]> ts) ?w0] =>
    destruct (soft_reset_halt_wait_exhausts budget i (<[i := t0]> ts) w0 t0)
      as (ts' & w' & t' & E & Ht & Hi' & Hs')
  end.
  - apply list_lookup_insert_eq. apply lookup_lt_Some in Hi. exact Hi.
  - exact Hok.
  - exact Hnh.
  - rewrite E. exists ts', w', t'. split; [reflexivity|].
    split; [|split; [exact Hi'|rewrite Hs'; reflexivity]].
    rewrite Ht. cbn [trace]. unfold reset_halt_request.
    rewrite <- !app_assoc. reflexivity.
Qed.

Lemma clock_runs_expires p d n0 : clock_runs p d -> clock_expires p n0 d.
Proof.
  intros H m n Hm Hn. unfold DHCSR_S_REGRDY_TIMEOUT. apply H. lia.
Qed.

Lemma call_run c t w :
  call c t w = (Done (collab (probe_of w) (tick w) c), t,
                mk_world (probe_of w) (S (tick w)) (trace w ++ [EvCall c])).
Proof. reflexivity. Qed.

(** The wait of the interrupt-aware step on a core that does not halt
    again: the loop ends with [isr_timed_out] set. *)
Lemma step_wait_halt_expires k : forall fuel t_start t w,
  (k < fuel)%nat ->
  transport_ok (probe_of w) ->
  never_shows (probe_of w) S_HALT ->
  (forall n, (tick w + 2 * k + 1 <= n)%nat -> clock_ms (probe_of w) n - t_start > 500) ->
  exists t' w',
    step_wait_halt fuel t_start t w = (Done (None, true), t', w')
    /\ probe_of w' = probe_of w.
Proof.
  induction k as [|k IH]; intros fuel t_start t w Hfuel Hok Hnh Hclock;
    (destruct fuel as [|fuel]; [lia|]);
    cbn [step_wait_halt];
    unfold bind at 1; rewrite read_dhcsr_run; cbv zeta;
    pose proof (proj1 Hok (tick w) DCB_DHCSR) as E1;
    pose proof (Hnh (tick w)) as N1;
    destruct (ap_read (probe_of w) (tick w) DCB_DHCSR) as [r1 v1];
    cbn [fst snd] in *; subst r1; cbn [is_ok negb];
    unfold bind at 1; unfold timeval_ms at 1, consult at 1; cbn beta iota;
    cbn [probe_of tick trace];
    unfold bind at 1; unfold get_cm at 1, gets at 1; cbn beta iota;
    cbn [target_to_cm cortex_m upd_cm set_cortex_m dcb_dhcsr set_dcb_dhcsr set_sticky];
    rewrite N1; cbn [orb].
  - assert (Hc : clock_ms (probe_of w) (S (tick w)) - t_start > 500)
      by (apply Hclock; lia).
    apply Z.gt_lt, Z.gtb_lt in Hc. rewrite Hc.
    eexists _, _. split; reflexivity.
  - destruct (clock_ms (probe_of w) (S (tick w)) - t_start >? 500).
    + eexists _, _. split; reflexivity.
    + match goal with
      | |- context [step_wait_halt fuel t_start ?t0 ?w0] =>
        destruct (IH fuel t_start t0 w0) as (t' & w' & E & Hp)
      end.
      * lia.
      * exact Hok.
      * exact Hnh.
      * cbn [tick probe_of]. intros n Hn. apply Hclock. lia.
      * rewrite E. eexists _, _. split; [reflexivity|exact Hp].
Qed.

Lemma breakpoint_add_completes a l ty : completes (breakpoint_add a l ty).
Proof. unfold breakpoint_add. yields_auto. Qed.
Lemma breakpoint_remove_completes a : completes (breakpoint_remove a).
Proof. unfold breakpoint_remove. yields_auto. Qed.
Lemma set_breakpoint_completes b : completes (cortex_m_set_breakpoint b).
Proof. unfold cortex_m_set_breakpoint. yields_auto. Qed.
Lemma unset_breakpoint_completes b : completes (cortex_m_unset_breakpoint b).
Proof. unfold cortex_m_unset_breakpoint. yields_auto. Qed.
#[global] Hint Resolve breakpoint_add_completes breakpoint_remove_completes
  set_breakpoint_completes unset_breakpoint_completes : yields_db.

(** A temporary breakpoint is always granted when no collaborator fails. *)
Lemma temporary_breakpoint_set pc_value (breakpoint : option breakpoint) t w :
  transport_ok (probe_of w) ->
  exists t' w',
    match breakpoint with
    | Some b => cortex_m_set_breakpoint b
    | None =>
      do rev <- get_cm fp_rev;
      breakpoint_add pc_value 2
        (if (rev =? 0) && (pc_value >? 0x1FFFFFFF) then BKPT_SOFT else BKPT_HARD)
    end t w = (Done ERROR_OK, t', w')
    /\ world_le w w'
    /\ isrmasking_mode (cortex_m t') = isrmasking_mode (cortex_m t).
Proof.
  intros Hok. destruct Hok as (_ & _ & _ & Hc).
  destruct breakpoint as [b|].
  - unfold cortex_m_set_breakpoint. unfold bind at 1. rewrite call_run, Hc.
    cbn [is_ok]. unfold bind, modify, ret. cbn beta iota.
    eexists _, _. split; [reflexivity|].
    split; [split; simpl; [reflexivity|lia]|reflexivity].
  - unfold bind at 1. unfold get_cm at 1, gets at 1. cbn beta iota zeta.
    unfold breakpoint_add. unfold bind at 1. rewrite call_run, Hc.
    cbn [is_ok]. unfold bind, modify, ret. cbn beta iota.
    eexists _, _. split; [reflexivity|].
    split; [split; simpl; [reflexivity|lia]|reflexivity].
Qed.

(** The interrupt-aware step of the AUTO mode on a core that does not halt
    again within the budget: the wait expires and the block reports
    [isr_timed_out]. *)
Lemma step_core_times_out pc_value breakpoint t w d :
  isrmasking_mode (cortex_m t) = CORTEX_M_ISRMASK_AUTO ->
  has_bits pc_value 0x02 = false ->
  transport_ok (probe_of w) ->
  never_shows (probe_of w) S_HALT ->
  clock_runs (probe_of w) d -> (d < wait_bound (probe_of w))%nat ->
  exists t' w',
    step_core pc_value breakpoint t w = (Done (None, true), t', w')
    /\ probe_of w' = probe_of w.
Proof.
  intros Hmode Hpc Hok Hnh Hclock Hd. unfold step_core.
  unfold bind at 1. unfold get_cm at 1, gets at 1. cbn beta iota.
  unfold target_to_cm. rewrite Hmode. cbn [is_auto negb].
  unfold bind at 1. unfold gets at 1. cbn beta iota.
  rewrite Hpc. cbn [andb].
  unfold bind at 1.
  destruct (temporary_breakpoint_set pc_value breakpoint t w Hok)
    as (t1 & w1 & E1 & (Hp1 & Hk1) & Hm1).
  match goal with
  | |- context [match ?m t w with _ => _ end] =>
    assert (E1' : m t w = (Done ERROR_OK, t1, w1)) by exact E1; rewrite E1'
  end.
  cbn [is_ok negb].
  unfold bind at 1. unfold timeval_ms at 1, consult at 1. cbn beta iota.
  unfold bind at 1.
  pose proof (set_maskints_for_run_quiet t1
                (mk_world (probe_of w1) (S (tick w1)) (trace w1))) as Hq.
  destruct (set_maskints_for_run_completes t1
              (mk_world (probe_of w1) (S (tick w1)) (trace w1))) as (a2 & Ha2 & _).
  destruct (cortex_m_set_maskints_for_run t1 _) as [[o2 t2] w2].
  cbn [fst snd] in *. subst o2.
  destruct Hq as ((Hp2 & Hk2) & _ & _). cbn [probe_of tick] in *.
  unfold bind at 1. rewrite write_debug_halt_mask_eq. cbv zeta.
  unfold bind at 1. unfold asks at 1. cbn beta iota. cbn [probe_of].
  unfold bind at 1.
  match goal with
  | |- context [step_wait_halt ?f ?th ?s ?w0] =>
    destruct (step_wait_halt_expires d f th s w0) as (t3 & w3 & E3 & Hp3)
  end.
  - rewrite Hp2, Hp1. exact Hd.
  - cbn [probe_of]. rewrite Hp2, Hp1. exact Hok.
  - cbn [probe_of]. rewrite Hp2, Hp1. exact Hnh.
  - cbn [probe_of tick]. rewrite Hp2, Hp1. intros n Hn.
    pose proof (Hclock (tick w1) n). lia.
  - rewrite E3. cbn beta iota.
    unfold bind at 1.
    match goal with
    | |- context [match ?m t3 w3 with _ => _ end] =>
      assert (Hc : completes m) by (destruct breakpoint; yields_auto);
      assert (Ho : orderly m) by (destruct breakpoint; steps_high);
      destruct (Hc t3 w3) as (a4 & Ha4 & _);
      destruct (Ho t3 w3) as ((Hp4 & _) & _);
      destruct (m t3 w3) as [[o4 t4] w4]
    end.
    cbn [fst snd] in *. subst o4. unfold ret.
    eexists _, _. split; [reflexivity|].
    rewrite Hp4, Hp3. cbn [probe_of]. rewrite Hp2, Hp1. reflexivity.
Qed.

(** The breakpoint at the program counter, released for the step. *)
Lemma step_releases_breakpoint (handle_breakpoints : bool) pc_value t w :
  exists bp t' w',
    (if handle_breakpoints then
       do t <- gets id;
       match breakpoint_find t pc_value with
       | Some b => run cortex_m_unset_breakpoint b; ret (Some b)
       | None => ret None
       end
     else ret None) t w = (Done bp, t', w')
    /\ world_le w w'
    /\ isrmasking_mode (cortex_m t') = isrmasking_mode (cortex_m t).
Proof.
  destruct handle_breakpoints.
  - unfold bind at 1. unfold gets at 1. cbn beta iota. unfold id.
    destruct (breakpoint_find t pc_value) as [b|].
    + unfold cortex_m_unset_breakpoint. unfold bind at 1 2. rewrite call_run.
      destruct (is_ok _); unfold bind, modify, ret; cbn beta iota;
        (eexists _, _, _; split; [reflexivity|];
         split; [split; simpl; [reflexivity|lia]|reflexivity]).
    + eexists _, _, _. split; [reflexivity|]. split; [apply world_le_refl|reflexivity].
  - eexists _, _, _. split; [reflexivity|]. split; [apply world_le_refl|reflexivity].
Qed.

(** The step of AUTO mode on a core that does not halt again: the wait
    expires, the core is left running, and the step returns OK. *)
Lemma step_times_out address handle_breakpoints t w d :
  state t = TARGET_HALTED ->
  isrmasking_mode (cortex_m t) = CORTEX_M_ISRMASK_AUTO ->
  has_bits (pc_value_of t) 0x02 = false ->
  transport_ok (probe_of w) ->
  never_shows (probe_of w) S_HALT ->
  no_bkpt_inst (probe_of w) ->
  clock_runs (probe_of w) d -> (d < wait_bound (probe_of w))%nat ->
  exists t' w',
    cortex_m_step true address handle_breakpoints t w = (Done ERROR_OK, t', w')
    /\ state t' = TARGET_RUNNING
    /\ debug_reason t' = DBG_REASON_NOTHALTED.
Proof.
  intros Hst Hmode Hpc Hok Hnh Hnb Hclock Hd. unfold cortex_m_step.
  unfold bind at 1. unfold gets at 1. cbn beta iota. rewrite Hst.
  cbn [state_eqb negb].
  unfold bind at 1. unfold get_armv7m at 1, gets at 1. cbn beta iota.
  cbn [negb]. unfold bind at 1. unfold ret at 1. cbn beta iota.
  unfold bind at 1. unfold gets at 1. cbn beta iota.
  unfold bind at 1.
  destruct (step_releases_breakpoint handle_breakpoints (pc_value_of t) t w)
    as (bp & t1 & w1 & E1 & (Hp1 & Hk1) & Hm1).
  match goal with
  | |- context [match ?m t w with _ => _ end] =>
    assert (E1' : m t w = (Done bp, t1, w1)) by exact E1; rewrite E1'
  end.
  unfold bind at 1. unfold armv7m_maybe_skip_bkpt_inst at 1.
  unfold bind at 1 2, emit at 1, consult at 1. cbn beta iota.
  cbn [probe_of tick trace]. rewrite Hp1, Hnb.
  unfold bind at 1. unfold ret at 1. cbn beta iota. unfold ret at 1.
  cbn beta iota.
  unfold bind at 1. unfold modify at 1. cbn beta iota.
  unfold bind at 1. unfold armv7m_restore_context. rewrite call_run.
  unfold bind at 1. unfold target_call_event_callbacks at 1.
  unfold bind at 1, gets at 1, emit at 1. cbn beta iota.
  cbn [probe_of tick trace negb].
  unfold bind at 1.
  match goal with
  | |- context [step_core ?pc ?b ?s ?w0] =>
    destruct (step_core_times_out pc b s w0 d) as (t2 & w2 & E2 & Hp2)
  end.
  - cbn [cortex_m set_debug_reason]. rewrite Hm1. exact Hmode.
  - exact Hpc.
  - cbn [probe_of]. rewrite ?Hp1. exact Hok.
  - cbn [probe_of]. rewrite ?Hp1. exact Hnh.
  - cbn [probe_of]. rewrite ?Hp1. exact Hclock.
  - cbn [probe_of]. rewrite ?Hp1. exact Hd.
  - rewrite E2. cbn beta iota. cbn [probe_of] in Hp2.
    unfold on_ok at 1. unfold bind at 1. rewrite read_dhcsr_run. cbv zeta.
    rewrite Hp2, ?Hp1. rewrite (proj1 Hok). cbn [is_ok].
    unfold bind at 1. unfold register_cache_invalidate at 1, modify at 1.
    cbn beta iota.
    unfold bind at 1.
    match goal with
    | |- context [match ?m ?s ?w0 with _ => _ end] =>
      assert (Hc : completes m) by (destruct bp; yields_auto);
      destruct (Hc s w0) as (a4 & Ha4 & _);
      destruct (m s w0) as [[o4 t4] w4]
    end.
    cbn [fst snd] in *. subst o4.
    unfold bind, modify, ret. cbn beta iota.
    eexists _, _. split; [reflexivity|]. split; reflexivity.
Qed.

(** The probes of the scenarios: the transport never fails, the clock
    advances by one millisecond per consultation. *)
Lemma steady_transport_ok dhcsr :
  transport_ok (probe_of (Scenario.steady_world dhcsr)).
Proof.
  repeat split; intros; try reflexivity. destruct c; reflexivity.
Qed.

Lemma steady_clock_runs dhcsr :
  clock_runs (probe_of (Scenario.steady_world dhcsr)) 501.
Proof. intros m n H. cbn. lia. Qed.

(** ** The masked-step shortcut *)


(** A control bit of a rebuilt DHCSR value: set by the set mask, else kept
    from the cache unless the clear mask removes it. *)
Lemma rebuilt_dhcsr_control_bit c on off k :
  0 < k < 16 ->
  has_bits (rebuilt_dhcsr c on off) (Z.shiftl 1 k) =
  (Z.testbit c k && negb (Z.testbit off k)) || Z.testbit on k.
Proof.
  intros Hk. rewrite has_bits_testbit, rebuilt_dhcsr_testbit by lia.
  assert ((k <? 32) = true) as -> by (apply Z.ltb_lt; lia).
  assert ((16 <=? k) = false) as -> by (apply Z.leb_gt; lia).
  assert ((k =? 0) = false) as -> by (apply Z.eqb_neq; lia).
  rewrite (Z.testbit_neg_r 0xA05F) by lia. reflexivity.
Qed.

Lemma set_maskints_for_halt_auto_unmasks t w :
  isrmasking_mode (cortex_m t) = CORTEX_M_ISRMASK_AUTO ->
  has_bits (dcb_dhcsr (cortex_m t)) C_MASKINTS = true ->
  cortex_m_set_maskints_for_halt t w =
  cortex_m_write_debug_halt_mask 0 C_MASKINTS t w.
Proof.
  intros Hm Hb. unfold cortex_m_set_maskints_for_halt, cortex_m_set_maskints,
    bind, get_cm, gets, target_to_cm. cbn beta iota.
  rewrite Hm. cbn beta iota. rewrite Hb. reflexivity.
Qed.

Lemma dhcsr_after_rebuilt c on off : rebuilt_dhcsr c on off = dhcsr_after c on off.
Proof. apply rebuilt_dhcsr_spec. Qed.


(** ** Resume: what the restart of the current target issues *)

Lemma foreach_smp_target_until_length body : forall ts idx w,
  length (foreach_smp_target_until body idx ts w).1.2 = length ts.
Proof.
  induction ts as [|curr rest IH]; intros idx w; [reflexivity|].
  cbn [foreach_smp_target_until].
  destruct (body idx curr w) as [[[retval|] curr'] w1]; [|reflexivity].
  destruct (is_ok retval); [|reflexivity].
  specialize (IH (S idx) w1).
  destruct (foreach_smp_target_until body (S idx) rest w1) as [[o rest'] w2].
  cbn [fst snd length] in *. rewrite IH. reflexivity.
Qed.

Lemma on_target_length {A} i (m : M A) absent ts w :
  length (on_target i m absent ts w).1.2 = length ts.
Proof.
  unfold on_target. destruct (ts !! i) as [t|]; [|reflexivity].
  destruct (m t w) as [[o t'] w']. cbn [fst snd]. apply length_insert.
Qed.

(** cortex_m_restart_one always answers OK: it adjusts C_MASKINTS, writes
    DHCSR with C_HALT clear, marks the target running and delivers the
    RESUMED (DEBUG_RESUMED) event last. *)
Lemma restart_one_restarts de t w :
  exists t' w' pre v,
    cortex_m_restart_one de t w = (Done ERROR_OK, t', w')
    /\ state t' = (if de then TARGET_DEBUG_RUNNING else TARGET_RUNNING)
    /\ debug_reason t' = DBG_REASON_NOTHALTED
    /\ dcb_dhcsr (cortex_m t') = v /\ has_bits v C_HALT = false
    /\ trace w' = trace w ++ pre
                  ++ [EvApWrite true DCB_DHCSR v;
                      EvTargetEvent (coreid t)
                        (if de then TARGET_EVENT_DEBUG_RESUMED
                         else TARGET_EVENT_RESUMED)]
    /\ Forall quiet pre.
Proof.
  unfold cortex_m_restart_one. unfold bind at 1.
  destruct (set_maskints_for_run_completes t w) as (r1 & Er & _).
  pose proof (set_maskints_for_run_quiet t w) as (_ & Hf & new1 & Htr1 & Hq1).
  destruct (cortex_m_set_maskints_for_run t w) as [[o1 t1] w1].
  cbn [fst snd] in *. subst o1.
  destruct Hf as (Hid & _).
  unfold bind at 1. rewrite write_debug_halt_mask_eq. cbv zeta.
  unfold bind at 1, modify at 1. cbn beta iota.
  unfold bind at 1, register_cache_invalidate at 1, modify at 1. cbn beta iota.
  set (v := rebuilt_dhcsr (dcb_dhcsr (cortex_m t1)) 0 C_HALT).
  assert (Hh : has_bits v C_HALT = false).
  { unfold v. change C_HALT with (Z.shiftl 1 1).
    rewrite rebuilt_dhcsr_control_bit by lia.
    change (Z.testbit (Z.shiftl 1 1) 1) with true.
    rewrite andb_false_r. reflexivity. }
  destruct de; cbn [negb];
    unfold target_call_event_callbacks, bind, modify, gets, emit, ret;
    cbn beta iota;
    cbn [coreid set_state set_debug_reason upd_armv7m upd_cm set_cortex_m
         set_armv7m cortex_m probe_of tick trace];
    (eexists _, _, new1, v;
     split; [reflexivity|];
     cbn [state debug_reason cortex_m dcb_dhcsr set_dcb_dhcsr set_armv7m];
     split; [reflexivity|]; split; [reflexivity|];
     split; [reflexivity|]; split; [exact Hh|];
     split; [rewrite Htr1, Hid, <- !app_assoc; reflexivity|exact Hq1]).
Qed.

(** The restore path has no timed wait: it always returns. *)
Lemma clear_halt_completes : completes cortex_m_clear_halt.
Proof. unfold cortex_m_clear_halt. yields_auto. Qed.
#[global] Hint Resolve clear_halt_completes : yields_db.
Lemma single_step_core_completes : completes cortex_m_single_step_core.
Proof. unfold cortex_m_single_step_core. yields_auto. Qed.
Lemma maybe_skip_bkpt_inst_completes : completes armv7m_maybe_skip_bkpt_inst.
Proof. unfold armv7m_maybe_skip_bkpt_inst. yields_auto. Qed.
Lemma restore_context_completes : completes armv7m_restore_context.
Proof. unfold armv7m_restore_context. yields_auto. Qed.
Lemma set_reg_bits_completes id f n v : completes (set_reg_bits id f n v).
Proof. unfold set_reg_bits. yields_auto. Qed.
#[global] Hint Resolve single_step_core_completes maybe_skip_bkpt_inst_completes
  restore_context_completes set_reg_bits_completes : yields_db.

Lemma restore_one_completes c a hb de : completes (cortex_m_restore_one c a hb de).
Proof. unfold cortex_m_restore_one. yields_auto. Qed.
Lemma restart_one_completes de : completes (cortex_m_restart_one de).
Proof. eapply yields_any. apply restart_one_yields_ok. Qed.
#[global] Hint Resolve restore_one_completes restart_one_completes : yields_db.

Lemma foreach_smp_target_until_completes body idx :
  (forall j, completes (body j)) -> completes (foreach_smp_target_until body idx).
Proof.
  intros Hb ts. revert idx. induction ts as [|curr rest IH]; intros idx w.
  - eexists. split; [reflexivity|exact I].
  - cbn [foreach_smp_target_until].
    destruct (Hb idx curr w) as (r & Hr & _).
    destruct (body idx curr w) as [[o curr'] w']. cbn [fst snd] in Hr. subst o.
    destruct (is_ok r); [|eexists; split; [reflexivity|exact I]].
    destruct (IH (S idx) w') as (r' & Hr' & _).
    destruct (foreach_smp_target_until body (S idx) rest w') as [[o' rest'] w''].
    cbn [fst snd] in *. exists r'. split; [exact Hr'|exact I].
Qed.

Lemma restore_smp_completes i hb : completes (cortex_m_restore_smp i hb).
Proof.
  unfold cortex_m_restore_smp. apply foreach_smp_target_until_completes.
  intros j. yields_auto.
Qed.

(** cortex_m_resume once the context of the current target is restored. *)
Lemma resume_after_restore
    i current address hb de ts w addr1 ts1 w1 :
  on_target i (cortex_m_restore_one current address hb de) (ERROR_FAIL, address)
            ts w = (Done (ERROR_OK, addr1), ts1, w1) ->
  exists r2 ts2 w2 t2 t3 w3 w4 pre v,
    (* the SMP restore returns, with the code that is stored *)
    (if from_option smp false (ts1 !! i) && negb de
     then cortex_m_restore_smp i hb else ret ERROR_OK) ts1 w1
    = (Done r2, ts2, w2)
    /\ ts2 !! i = Some t2
    (* the warning, and nothing else, when the SMP restore failed *)
    /\ w3 = (if is_ok r2 then w2
             else add_events [EvLog (coreid t2) LOG_smp_resume_failed] w2)
    (* the restart of the current target *)
    /\ cortex_m_restart_one de t2 w3 = (Done ERROR_OK, t3, w4)
    /\ state t3 = (if de then TARGET_DEBUG_RUNNING else TARGET_RUNNING)
    /\ debug_reason t3 = DBG_REASON_NOTHALTED
    /\ has_bits v C_HALT = false
    /\ trace w4 = trace w3 ++ pre
                  ++ [EvApWrite true DCB_DHCSR v;
                      EvTargetEvent (coreid t2)
                        (if de then TARGET_EVENT_DEBUG_RESUMED
                         else TARGET_EVENT_RESUMED)]
    /\ Forall quiet pre
    (* the whole resume: the stored code, the restarted target, the trace *)
    /\ cortex_m_resume i current address hb de ts w =
       (Done r2, <[i := t3]> ts2,
        if is_ok r2 then w4
        else add_events [EvLog (coreid t3) LOG_resume_failed] w4).
Proof.
  intros H1.
  assert (H2 : exists r2 ts2 w2,
             (if from_option smp false (ts1 !! i) && negb de
              then cortex_m_restore_smp i hb else ret ERROR_OK) ts1 w1
             = (Done r2, ts2, w2)).
  { destruct (from_option smp false (ts1 !! i) && negb de).
    - destruct (restore_smp_completes i hb ts1 w1) as (r2 & Hr & _).
      destruct (cortex_m_restore_smp i hb ts1 w1) as [[o ts2] w2].
      cbn [fst snd] in Hr. subst o. eauto.
    - eexists _, _, _. reflexivity. }
  destruct H2 as (r2 & ts2 & w2 & H2).
  assert (Hi : is_Some (ts !! i)).
  { destruct (ts !! i) as [t|] eqn:E; [eexists; reflexivity|].
    unfold on_target in H1. rewrite E in H1. discriminate H1. }
  destruct Hi as (t & Hi).
  assert (Hlen1 : length ts1 = length ts).
  { pose proof (on_target_length i (cortex_m_restore_one current address hb de)
                  (ERROR_FAIL, address) ts w) as H.
    rewrite H1 in H. exact H. }
  assert (Hlen2 : length ts2 = length ts1).
  { destruct (from_option smp false (ts1 !! i) && negb de).
    - pose proof (foreach_smp_target_until_length
        (fun idx =>
           do curr <- gets id;
           if (idx =? i)%nat then ret ERROR_OK else
           if negb (examined curr) then ret ERROR_OK else
           if state_eqb (state curr) TARGET_RUNNING then ret ERROR_OK else
           do '(retval, address) <- cortex_m_restore_one true 0 hb false;
           if negb (is_ok retval) then ret retval else
           must cortex_m_restart_one false;
           ret ERROR_OK) ts1 0%nat w1) as Hl.
      unfold cortex_m_restore_smp in H2. rewrite H2 in Hl. exact Hl.
    - unfold ret in H2. injection H2 as _ <- _. reflexivity. }
  assert (Hi2 : exists t2, ts2 !! i = Some t2).
  { apply lookup_lt_is_Some. rewrite Hlen2, Hlen1.
    apply lookup_lt_Some in Hi. exact Hi. }
  destruct Hi2 as (t2 & Hi2).
  set (w3 := if is_ok r2 then w2
             else add_events [EvLog (coreid t2) LOG_smp_resume_failed] w2).
  destruct (restart_one_restarts de t2 w3)
    as (t3 & w4 & pre & v & E3 & Hs & Hr & Hv & Hh & Htr & Hq).
  exists r2, ts2, w2, t2, t3, w3, w4, pre, v.
  split; [exact H2|]. split; [exact Hi2|]. split; [reflexivity|]. split; [exact E3|].
  split; [exact Hs|]. split; [exact Hr|]. split; [exact Hh|].
  split; [exact Htr|]. split; [exact Hq|].
  assert (Hlog : (if is_ok r2 then ret tt
                  else on_target i (log LOG_smp_resume_failed) tt) ts2 w2
                 = (Done tt, ts2, w3)).
  { unfold w3. destruct (is_ok r2); [reflexivity|].
    rewrite (on_target_run _ _ _ _ _ _ Hi2).
    unfold log, bind, gets, emit. cbn beta iota.
    rewrite list_insert_id by exact Hi2. reflexivity. }
  assert (Hrestart : on_target i (cortex_m_restart_one de) ERROR_OK ts2 w3
                     = (Done ERROR_OK, <[i := t3]> ts2, w4)).
  { rewrite (on_target_run _ _ _ _ _ _ Hi2), E3. reflexivity. }
  assert (Hi3 : <[i := t3]> ts2 !! i = Some t3).
  { apply list_lookup_insert_eq. apply lookup_lt_Some in Hi2. exact Hi2. }
  assert (Hfail : on_target i (log LOG_resume_failed) tt (<[i := t3]> ts2) w4
                  = (Done tt, <[i := t3]> ts2,
                     add_events [EvLog (coreid t3) LOG_resume_failed] w4)).
  { rewrite (on_target_run _ _ _ _ _ _ Hi3).
    unfold log, bind, gets, emit. cbn beta iota.
    rewrite list_insert_id by exact Hi3. reflexivity. }
  clearbody w3.
  unfold cortex_m_resume.
  unfold bind at 1. rewrite H1. cbn [is_ok negb].
  unfold bind at 1. unfold gets at 1. cbn beta iota.
  unfold bind at 1.
  destruct (from_option smp false (ts1 !! i) && negb de).
  - unfold bind at 1. rewrite H2. unfold bind at 1.
    destruct (is_ok r2) eqn:Er2; cbn [negb].
    + unfold ret at 1 in Hlog. injection Hlog as <-.
      unfold ret at 1 2. cbn beta iota. unfold bind at 1. rewrite Hrestart.
      rewrite Er2. cbn [negb].
      destruct r2; try discriminate Er2. reflexivity.
    + rewrite Hlog. unfold ret at 1. cbn beta iota.
      unfold bind at 1. rewrite Hrestart. rewrite Er2. cbn [negb].
      unfold bind. rewrite Hfail. reflexivity.
  - unfold ret at 1 in H2. injection H2 as <- <- <-.
    cbn [is_ok] in Hlog |- *. unfold ret at 1 in Hlog. injection Hlog as <-.
    unfold ret at 1. cbn beta iota. unfold bind at 1. rewrite Hrestart.
    reflexivity.
Qed.

(** ** Halting what is halted *)

(** cortex_m_smp_halt_all leaves a HALTED target of the group as it is. *)
Lemma smp_halt_all_keeps_halted ts : forall r w i t,
  ts !! i = Some t -> state t = TARGET_HALTED ->
  (foreach_smp_target smp_halt_all_body r ts w).1.2 !! i = Some t.
Proof.
  induction ts as [|curr rest IH]; intros r w i t Hi Hs; [discriminate Hi|].
  cbn [foreach_smp_target].
  destruct i as [|i].
  - injection Hi as ->. rewrite smp_halt_all_body_run.
    rewrite Hs. cbn [state_eqb]. rewrite orb_true_r.
    destruct (foreach_smp_target smp_halt_all_body _ rest w) as [[o rest'] w'].
    reflexivity.
  - cbn [lookup list_lookup] in Hi.
    destruct (smp_halt_all_body curr w) as [[[ret2|] curr'] w1].
    + specialize (IH (if is_ok r then ret2 else r) w1 i t Hi Hs).
      destruct (foreach_smp_target smp_halt_all_body _ rest w1) as [[o rest'] w'].
      exact IH.
    + exact Hi.
Qed.

(** ** Runs that return on a timely probe *)

Lemma returns_ret {St A} (a : A) : returns (St:=St) (ret a).
Proof. intros s w _. split; [exists a|]; reflexivity. Qed.
Lemma returns_gets {St A} (f : St -> A) : returns (gets f).
Proof. intros s w _. split; [eexists|]; reflexivity. Qed.
Lemma returns_asks {St A} (f : probe -> A) : returns (St:=St) (asks f).
Proof. intros s w _. split; [eexists|]; reflexivity. Qed.
Lemma returns_consult {St A} (f : probe -> nat -> A) : returns (St:=St) (consult f).
Proof. intros s w _. split; [eexists|]; reflexivity. Qed.
Lemma returns_emit {St} e : returns (St:=St) (emit e).
Proof. intros s w _. split; [eexists|]; reflexivity. Qed.
Lemma returns_modify {St} (f : St -> St) : returns (modify f).
Proof. intros s w _. split; [eexists|]; reflexivity. Qed.

Lemma returns_bind {St A B} (m : ST St A) (k : A -> ST St B) :
  returns m -> (forall a, returns (k a)) -> returns (bind m k).
Proof.
  intros Hm Hk s w Hw. unfold bind.
  destruct (Hm s w Hw) as ((a & Ha) & Hp). destruct (m s w) as [[o s'] w'].
  cbn [fst snd] in *. subst o.
  destruct (Hk a s' w') as (Hd & Hp'); [rewrite Hp; exact Hw|].
  split; [exact Hd|]. rewrite Hp'. exact Hp.
Qed.

Lemma returns_on_ok {St} (m k : ST St retcode) :
  returns m -> returns k -> returns (on_ok m k).
Proof.
  intros Hm Hk. unfold on_ok. apply returns_bind; [exact Hm|].
  intros r. destruct (is_ok r); [exact Hk|apply returns_ret].
Qed.

Lemma returns_run {St A} (m : ST St A) :
  (forall s w, timely (probe_of w) ->
     exists a s' w', m s w = (Done a, s', w') /\ probe_of w' = probe_of w) <->
  returns m.
Proof.
  split; intros H s w Hw.
  - destruct (H s w Hw) as (a & s' & w' & E & Hp). rewrite E.
    split; [exists a; reflexivity|exact Hp].
  - destruct (H s w Hw) as ((a & Ha) & Hp). destruct (m s w) as [[o s'] w'].
    cbn [fst snd] in *. subst o. eauto.
Qed.

Create HintDb returns_db.
#[global] Hint Resolve returns_gets returns_asks returns_consult returns_emit
  returns_modify : returns_db.

Ltac returns_struct :=
  lazymatch goal with
  | |- returns (bind _ _) => apply returns_bind; [ | intros ? ]
  | |- returns (on_ok _ _) => apply returns_on_ok
  | |- returns (ret _) => apply returns_ret
  | |- returns (get_cm _) => apply returns_gets
  | |- returns (get_armv7m _) => apply returns_gets
  | |- returns (get_reg _) => apply returns_gets
  | |- returns timeval_ms => apply returns_consult
  | |- returns (if ?b then _ else _) => destruct b
  | |- returns (match ?x with _ => _ end) => destruct x
  end.

Ltac returns_auto :=
  repeat first [ solve [auto 2 with returns_db nocore] | returns_struct ].

Lemma mem_ap_read_u32_returns a : returns (mem_ap_read_u32 a).
Proof. unfold mem_ap_read_u32. returns_auto. Qed.
Lemma mem_ap_read_atomic_u32_returns a : returns (mem_ap_read_atomic_u32 a).
Proof. unfold mem_ap_read_atomic_u32. returns_auto. Qed.
Lemma mem_ap_write_u32_returns a v : returns (mem_ap_write_u32 a v).
Proof. unfold mem_ap_write_u32. returns_auto. Qed.
Lemma mem_ap_write_atomic_u32_returns a v : returns (mem_ap_write_atomic_u32 a v).
Proof. unfold mem_ap_write_atomic_u32. returns_auto. Qed.
Lemma dap_run_returns : returns dap_run.
Proof. unfold dap_run. returns_auto. Qed.
Lemma target_write_u32_returns a v : returns (target_write_u32 a v).
Proof. unfold target_write_u32. returns_auto. Qed.
Lemma target_read_u32_returns a : returns (target_read_u32 a).
Proof. unfold target_read_u32. returns_auto. Qed.
Lemma call_returns c : returns (call c).
Proof. unfold call. returns_auto. Qed.
Lemma log_returns m : returns (log m).
Proof. unfold log. returns_auto. Qed.
Lemma target_call_event_callbacks_returns e : returns (target_call_event_callbacks e).
Proof. unfold target_call_event_callbacks. returns_auto. Qed.
Lemma register_cache_invalidate_returns : returns register_cache_invalidate.
Proof. unfold register_cache_invalidate. returns_auto. Qed.
Lemma arm_semihosting_returns : returns arm_semihosting.
Proof. unfold arm_semihosting. returns_auto. Qed.
Lemma cumulate_returns d : returns (cortex_m_cumulate_dhcsr_sticky d).
Proof. unfold cortex_m_cumulate_dhcsr_sticky. returns_auto. Qed.
#[global] Hint Resolve mem_ap_read_u32_returns mem_ap_read_atomic_u32_returns
  mem_ap_write_u32_returns mem_ap_write_atomic_u32_returns dap_run_returns
  target_write_u32_returns target_read_u32_returns call_returns log_returns
  target_call_event_callbacks_returns register_cache_invalidate_returns
  arm_semihosting_returns cumulate_returns : returns_db.

Lemma read_dhcsr_returns : returns cortex_m_read_dhcsr_atomic_sticky.
Proof. unfold cortex_m_read_dhcsr_atomic_sticky. returns_auto. Qed.
Lemma write_debug_halt_mask_returns on off :
  returns (cortex_m_write_debug_halt_mask on off).
Proof. unfold cortex_m_write_debug_halt_mask. returns_auto. Qed.
#[global] Hint Resolve read_dhcsr_returns write_debug_halt_mask_returns : returns_db.

Lemma set_maskints_returns mask : returns (cortex_m_set_maskints mask).
Proof. unfold cortex_m_set_maskints. returns_auto. Qed.
#[global] Hint Resolve set_maskints_returns : returns_db.
Lemma set_maskints_for_halt_returns : returns cortex_m_set_maskints_for_halt.
Proof. unfold cortex_m_set_maskints_for_halt. returns_auto. Qed.
Lemma set_maskints_for_run_returns : returns cortex_m_set_maskints_for_run.
Proof. unfold cortex_m_set_maskints_for_run. returns_auto. Qed.
Lemma clear_halt_returns : returns cortex_m_clear_halt.
Proof. unfold cortex_m_clear_halt. returns_auto. Qed.
Lemma enable_fpb_returns : returns cortex_m_enable_fpb.
Proof. unfold cortex_m_enable_fpb. returns_auto. Qed.
#[global] Hint Resolve set_maskints_for_halt_returns set_maskints_for_run_returns
  clear_halt_returns enable_fpb_returns : returns_db.

Lemma for_index_returns n i (body : nat -> M retcode) :
  (forall j, returns (body j)) -> returns (for_index n i body).
Proof.
  intros Hb. revert i. induction n as [|n IH]; intros i; cbn [for_index].
  - apply returns_ret.
  - apply returns_on_ok; auto.
Qed.

Lemma endreset_event_returns : returns cortex_m_endreset_event.
Proof.
  unfold cortex_m_endreset_event. returns_auto.
  - apply for_index_returns. intros j. returns_auto.
  - apply for_index_returns. intros j. returns_auto.
Qed.
#[global] Hint Resolve endreset_event_returns : returns_db.

(** A clock that runs leaves the waits at least one poll. *)
Lemma timely_bound p : timely p -> (0 < wait_bound p)%nat.
Proof.
  intros H. destruct (wait_bound p) as [|n] eqn:E; [|lia].
  unfold timely in H. rewrite E in H.
  specialize (H 0%nat 0%nat ltac:(lia)). lia.
Qed.

(** The S_REGRDY wait of a register read returns before its polls are used
    up: each poll takes four consultations of the probe, and the clock has
    passed the budget once [d] consultations were made. *)
Lemma load_core_reg_wait_returns p d n0 :
  clock_runs p d ->
  forall fuel t w,
    probe_of w = p -> (0 < fuel)%nat -> (n0 + d + 2 <= tick w + 4 * fuel)%nat ->
    exists a t' w',
      load_core_reg_wait fuel (clock_ms p n0) t w = (Done a, t', w')
      /\ probe_of w' = p.
Proof.
  intros Hc. induction fuel as [|fuel IH]; intros t w Hp Hf Hn; [lia|].
  cbn [load_core_reg_wait].
  unfold bind at 1; unfold mem_ap_read_u32 at 1;
    unfold bind, emit, consult, ret; cbn beta iota; cbn [probe_of tick trace fst snd].
  destruct (ap_read (probe_of w) (tick w) DCB_DHCSR) as [r1 v1]. cbn [fst snd].
  destruct (is_ok r1); cbn [negb]; [|eexists _, _, _; split; [reflexivity|exact Hp]].
  unfold modify, mem_ap_read_atomic_u32, bind, emit, consult, ret;
    cbn beta iota; cbn [probe_of tick trace fst snd].
  destruct (ap_read (probe_of w) (S (tick w)) DCB_DCRDR) as [r2 v2]. cbn [fst snd].
  destruct (is_ok r2); cbn [negb]; [|eexists _, _, _; split; [reflexivity|exact Hp]].
  unfold get_cm, gets, cortex_m_cumulate_dhcsr_sticky, modify, timeval_ms, consult;
    cbn beta iota;
    cbn [target_to_cm cortex_m upd_cm set_cortex_m dcb_dhcsr set_dcb_dhcsr
         probe_of tick trace].
  destruct (has_bits (u32 v1) S_REGRDY);
    [eexists _, _, _; split; [reflexivity|exact Hp]|].
  cbn beta iota; cbn [probe_of tick trace].
  rewrite Hp.
  destruct (clock_ms p (S (S (tick w))) >? clock_ms p n0 + DHCSR_S_REGRDY_TIMEOUT)
    eqn:Et.
  - unfold log, bind, gets, emit. cbn beta iota.
    eexists _, _, _. split; reflexivity.
  - unfold keep_alive, call, bind, emit, consult, ret. cbn beta iota.
    cbn [probe_of tick trace].
    assert (Hlt : (S (S (tick w)) < n0 + d)%nat).
    { destruct (Nat.lt_ge_cases (S (S (tick w))) (n0 + d)) as [H|H]; [exact H|].
      specialize (Hc n0 (S (S (tick w))) H).
      rewrite Z.gtb_ltb in Et. apply Z.ltb_ge in Et.
      unfold DHCSR_S_REGRDY_TIMEOUT in Et. lia. }
    apply IH; cbn [probe_of tick]; [reflexivity|lia|lia].
Qed.

Lemma load_core_reg_u32_returns regsel : returns (cortex_m_load_core_reg_u32 regsel).
Proof.
  unfold cortex_m_load_core_reg_u32.
  apply returns_bind; [returns_auto|]. intros dbg.
  apply returns_bind; [returns_auto|]. intros [retval dcrdr].
  destruct (negb (is_ok retval)); [returns_auto|].
  apply returns_bind; [returns_auto|]. intros retval2.
  destruct (negb (is_ok retval2)); [returns_auto|].
  apply returns_run. intros t w Hw.
  pose proof (timely_bound _ Hw) as Hb.
  unfold bind at 1. unfold timeval_ms at 1, consult. cbn beta iota.
  unfold bind at 1. unfold asks at 1. cbn beta iota. cbn [probe_of].
  unfold bind at 1.
  match goal with
  | |- context [load_core_reg_wait ?f (clock_ms ?p ?n) ?s ?w0] =>
    destruct (load_core_reg_wait_returns p f n Hw f s w0)
      as (a & t1 & w1 & E & Hp);
      [reflexivity|exact Hb|cbn [tick]; lia|rewrite E]
  end.
  destruct a as [r3 v3].
  assert (Hw1 : timely (probe_of w1)) by (rewrite Hp; exact Hw).
  destruct (negb (is_ok r3)); [eexists _, _, _; split; [reflexivity|exact Hp]|].
  destruct dbg.
  - destruct (proj2 (returns_run _) (mem_ap_write_atomic_u32_returns DCB_DCRDR dcrdr)
                t1 w1 Hw1) as (a & t2 & w2 & E2 & Hp2).
    unfold bind. rewrite E2. eexists _, _, _. split; [reflexivity|congruence].
  - eexists _, _, _. split; [reflexivity|exact Hp].
Qed.
#[global] Hint Resolve load_core_reg_u32_returns : returns_db.

Lemma read_reg_words_returns id : returns (read_reg_words id).
Proof. unfold read_reg_words. returns_auto. Qed.
#[global] Hint Resolve read_reg_words_returns : returns_db.

Lemma armv7m_read_core_reg_returns id : returns (armv7m_read_core_reg id).
Proof. unfold armv7m_read_core_reg. returns_auto. Qed.
#[global] Hint Resolve armv7m_read_core_reg_returns : returns_db.

Lemma slow_read_all_regs_returns : returns cortex_m_slow_read_all_regs.
Proof.
  unfold cortex_m_slow_read_all_regs. returns_auto.
  apply for_index_returns. intros j. returns_auto.
Qed.
#[global] Hint Resolve slow_read_all_regs_returns : returns_db.

Lemma queue_reg_read_returns regsel : returns (cortex_m_queue_reg_read regsel).
Proof. unfold cortex_m_queue_reg_read. returns_auto. Qed.
#[global] Hint Resolve queue_reg_read_returns : returns_db.

Lemma fast_read_queue_returns n id r_vals dhcsr :
  returns (fast_read_queue n id r_vals dhcsr).
Proof.
  revert id r_vals dhcsr.
  induction n as [|n IH]; intros id r_vals dhcsr; cbn [fast_read_queue]; returns_auto.
Qed.

Lemma fast_read_check_returns dhcsr b : returns (fast_read_check dhcsr b).
Proof.
  revert b. induction dhcsr as [|d rest IH]; intros b; cbn [fast_read_check];
    returns_auto.
Qed.

Lemma fast_read_unpack_returns n id ri r_vals :
  returns (fast_read_unpack n id ri r_vals).
Proof.
  revert id ri. induction n as [|n IH]; intros id ri; cbn [fast_read_unpack];
    returns_auto.
Qed.
#[global] Hint Resolve fast_read_queue_returns fast_read_check_returns
  fast_read_unpack_returns : returns_db.

Lemma fast_read_capture_returns : returns fast_read_capture.
Proof. unfold fast_read_capture. returns_auto. Qed.
#[global] Hint Resolve fast_read_capture_returns : returns_db.

Lemma fast_read_all_regs_returns : returns cortex_m_fast_read_all_regs.
Proof. unfold cortex_m_fast_read_all_regs. returns_auto. Qed.
#[global] Hint Resolve fast_read_all_regs_returns : returns_db.

Lemma examine_debug_reason_returns : returns cortex_m_examine_debug_reason.
Proof. unfold cortex_m_examine_debug_reason. returns_auto. Qed.
Lemma read_status_returns b a : returns (read_status b a).
Proof. unfold read_status. returns_auto. Qed.
#[global] Hint Resolve examine_debug_reason_returns read_status_returns : returns_db.

Lemma examine_exception_reason_returns : returns cortex_m_examine_exception_reason.
Proof. unfold cortex_m_examine_exception_reason. returns_auto. Qed.
Lemma debug_entry_load_regs_returns : returns debug_entry_load_regs.
Proof. unfold debug_entry_load_regs. returns_auto. Qed.
#[global] Hint Resolve examine_exception_reason_returns
  debug_entry_load_regs_returns : returns_db.

Lemma debug_entry_returns : returns cortex_m_debug_entry.
Proof. unfold cortex_m_debug_entry. returns_auto. Qed.
#[global] Hint Resolve debug_entry_returns : returns_db.

Lemma poll_one_halted_returns prev r : returns (poll_one_halted prev r).
Proof. unfold poll_one_halted. returns_auto. Qed.
#[global] Hint Resolve poll_one_halted_returns : returns_db.

Lemma poll_one_states_returns prev r df : returns (poll_one_states prev r df).
Proof. unfold poll_one_states. returns_auto. Qed.
#[global] Hint Resolve poll_one_states_returns : returns_db.

Lemma poll_one_tail_returns prev df : returns (poll_one_tail prev df).
Proof. unfold poll_one_tail. returns_auto. Qed.
#[global] Hint Resolve poll_one_tail_returns : returns_db.

Lemma poll_one_returns : returns cortex_m_poll_one.
Proof. unfold cortex_m_poll_one. returns_auto. Qed.

Lemma halt_one_returns : returns cortex_m_halt_one.
Proof. unfold cortex_m_halt_one. returns_auto. Qed.
#[global] Hint Resolve poll_one_returns halt_one_returns : returns_db.

Lemma foreach_smp_target_returns body r :
  returns body -> returns (foreach_smp_target body r).
Proof.
  intros Hb ts. revert r. induction ts as [|curr rest IH]; intros r w Hw.
  - split; [eexists|]; reflexivity.
  - cbn [foreach_smp_target].
    destruct (Hb curr w Hw) as ((a & Ha) & Hp).
    destruct (body curr w) as [[o curr'] w']. cbn [fst snd] in *. subst o.
    destruct (IH (if is_ok r then a else r) w') as (Hd & Hp');
      [rewrite Hp; exact Hw|].
    destruct (foreach_smp_target body _ rest w') as [[o' rest'] w''].
    cbn [fst snd] in *. split; [exact Hd|congruence].
Qed.

Lemma smp_halt_all_returns : returns cortex_m_smp_halt_all.
Proof.
  unfold cortex_m_smp_halt_all. apply foreach_smp_target_returns.
  unfold smp_halt_all_body. returns_auto.
Qed.
Lemma smp_post_halt_poll_returns : returns cortex_m_smp_post_halt_poll.
Proof.
  unfold cortex_m_smp_post_halt_poll. apply foreach_smp_target_returns.
  unfold smp_post_halt_poll_body. returns_auto.
Qed.
#[global] Hint Resolve smp_halt_all_returns smp_post_halt_poll_returns : returns_db.

Lemma poll_smp_returns : returns cortex_m_poll_smp.
Proof.
  unfold cortex_m_poll_smp. returns_auto.
  apply foreach_smp_target_returns. unfold poll_smp_deliver. returns_auto.
Qed.
#[global] Hint Resolve poll_smp_returns : returns_db.

(** ** The postponed event, positively *)

Lemma halt_postponed_extend {A} w w1 new (r : outcome A * target * world) :
  trace w1 = trace w ++ new -> Forall quiet new ->
  halt_postponed w1 r -> halt_postponed w r.
Proof.
  intros Ht Hq (x & new' & Hx & Hst & Hfl & Ht' & Hq').
  exists x, (new ++ new'). rewrite Ht', Ht, app_assoc.
  repeat split; try assumption. apply quiet_app; assumption.
Qed.

(** The [if (dcb_dhcsr & S_HALT)] block on a target of an SMP group that was
    RUNNING or RESET: it returns, the target is HALTED, its flag is set and
    no target event went out. *)
Lemma poll_one_halted_postponed prev retval t w :
  smp t = true -> prev = TARGET_RUNNING \/ prev = TARGET_RESET ->
  never_semihosted (probe_of w) -> timely (probe_of w) ->
  halt_postponed w (poll_one_halted prev retval t w).
Proof.
  intros Hsmp Hprev Hsemi Hw.
  destruct (poll_one_halted_postpones prev retval t w _ Hsmp Hprev Hsemi eq_refl)
    as ((new & Htr & Hq) & _ & Hst & Hflag).
  destruct (poll_one_halted_returns prev retval t w Hw) as ((x & Hx) & _).
  exists x, new. repeat split; try assumption. exact (Hflag x Hx).
Qed.

Lemma poll_one_states_postponed prev retval df t w :
  smp t = true -> prev = TARGET_RUNNING \/ prev = TARGET_RESET ->
  has_bits (dcb_dhcsr (cortex_m t)) S_HALT = true ->
  never_semihosted (probe_of w) -> timely (probe_of w) ->
  halt_postponed w (poll_one_states prev retval df t w).
Proof.
  intros Hsmp Hprev Hh Hsemi Hw.
  destruct (poll_one_halted_postponed prev retval t w Hsmp Hprev Hsemi Hw)
    as ([r1 returned] & new & Hx & Hst & Hfl & Htr & Hq).
  unfold poll_one_states.
  unfold bind at 1. unfold get_cm at 1, gets at 1. cbn beta iota.
  unfold target_to_cm at 1. rewrite Hh.
  unfold bind at 1.
  destruct (poll_one_halted prev retval t w) as [[o1 t1] w1].
  cbn [fst snd] in *. subst o1. cbn beta iota.
  destruct returned.
  - exists r1, new. repeat split; assumption.
  - unfold bind, gets, get_cm, ret, modify. cbn beta iota.
    rewrite Hst. cbn [state_eqb andb].
    assert (E : state_eqb prev TARGET_HALTED = false)
      by (destruct Hprev as [-> | ->]; reflexivity).
    rewrite E. cbn [andb].
    destruct (negb (is_ok df)); eexists _, new; repeat split; eassumption.
Qed.

(** cortex_m_poll_one after a plain first read of DHCSR. *)
Lemma poll_one_after_read t w :
  dhcsr_read_plain t w ->
  cortex_m_poll_one t w =
  poll_one_tail (state t) ERROR_OK (after_dhcsr_read t w).1 (after_dhcsr_read t w).2.
Proof.
  unfold dhcsr_read_plain, after_dhcsr_read, sticky. cbv zeta.
  intros (Hok & Hl & Hr).
  unfold cortex_m_poll_one.
  unfold bind at 1. unfold gets at 1. cbn beta iota.
  unfold bind at 1. rewrite read_dhcsr_run. cbv zeta. rewrite Hok.
  cbn [is_ok negb]. cbn beta iota.
  unfold bind at 1. unfold get_cm at 1, gets at 1. cbn beta iota.
  cbn [target_to_cm cortex_m upd_cm set_cortex_m dcb_dhcsr set_sticky set_dcb_dhcsr].
  rewrite Hl. unfold bind at 1. unfold ret at 1. cbn beta iota. cbn [is_ok negb].
  unfold bind at 1. unfold get_cm at 1, gets at 1. cbn beta iota.
  cbn [target_to_cm cortex_m upd_cm set_cortex_m dcb_dhcsr_cumulated_sticky
       set_sticky set_dcb_dhcsr].
  rewrite Hr. reflexivity.
Qed.

Lemma after_dhcsr_read_facts t w :
  state (after_dhcsr_read t w).1 = state t
  /\ smp (after_dhcsr_read t w).1 = smp t
  /\ dcb_dhcsr (cortex_m (after_dhcsr_read t w).1)
     = u32 (ap_read (probe_of w) (tick w) DCB_DHCSR).2
  /\ probe_of (after_dhcsr_read t w).2 = probe_of w
  /\ trace (after_dhcsr_read t w).2 = trace w ++ [EvApRead true DCB_DHCSR].
Proof. repeat split; reflexivity. Qed.

Lemma quiet_dhcsr_read : Forall quiet [EvApRead true DCB_DHCSR].
Proof. repeat constructor. Qed.

(** A RUNNING target of an SMP group whose DHCSR shows S_HALT. *)
Lemma poll_one_running_postponed t w :
  smp t = true -> state t = TARGET_RUNNING ->
  never_semihosted (probe_of w) -> timely (probe_of w) ->
  dhcsr_read_plain t w ->
  has_bits (u32 (ap_read (probe_of w) (tick w) DCB_DHCSR).2) S_HALT = true ->
  halt_postponed w (cortex_m_poll_one t w).
Proof.
  intros Hsmp Hst Hsemi Hw Hplain Hh.
  rewrite (poll_one_after_read t w Hplain).
  destruct (after_dhcsr_read_facts t w) as (Es & Esmp & Ed & Ep & Etr).
  destruct (after_dhcsr_read t w) as [t0 w0]. cbn [fst snd] in *.
  eapply halt_postponed_extend; [exact Etr|exact quiet_dhcsr_read|].
  unfold poll_one_tail. unfold bind at 1. unfold gets at 1. cbn beta iota.
  rewrite Es, Hst. cbn [state_eqb].
  apply poll_one_states_postponed.
  - congruence.
  - left; reflexivity.
  - congruence.
  - rewrite Ep. exact Hsemi.
  - rewrite Ep. exact Hw.
Qed.

(** A target of an SMP group in RESET: the end of the reset is handled
    first, and the S_HALT that counts is the one of the DHCSR read that
    closes cortex_m_endreset_event; when that handling fails the poll ends
    there, the state UNKNOWN. *)
Lemma poll_one_reset_postponed t w :
  smp t = true -> state t = TARGET_RESET ->
  never_semihosted (probe_of w) -> timely (probe_of w) ->
  dhcsr_read_plain t w ->
  exists r1 t1 w1,
    cortex_m_endreset_event (after_dhcsr_read t w).1 (after_dhcsr_read t w).2
    = (Done r1, t1, w1)
    /\ (r1 = ERROR_OK ->
        has_bits (dcb_dhcsr (cortex_m t1)) S_HALT = true ->
        halt_postponed w (cortex_m_poll_one t w))
    /\ (r1 <> ERROR_OK ->
        cortex_m_poll_one t w = (Done r1, set_state TARGET_UNKNOWN t1, w1)).
Proof.
  intros Hsmp Hst Hsemi Hw Hplain.
  rewrite (poll_one_after_read t w Hplain).
  destruct (after_dhcsr_read_facts t w) as (Es & Esmp & _ & Ep & Etr).
  destruct (after_dhcsr_read t w) as [t0 w0]. cbn [fst snd] in *.
  destruct (proj2 (returns_run _) endreset_event_returns t0 w0)
    as (r1 & t1 & w1 & Hend & _); [rewrite Ep; exact Hw|].
  exists r1, t1, w1. split; [exact Hend|].
  assert (Etail : poll_one_tail (state t) ERROR_OK t0 w0 =
                  if negb (is_ok r1)
                  then (Done r1, set_state TARGET_UNKNOWN t1, w1)
                  else poll_one_states TARGET_RUNNING r1 ERROR_OK
                         (set_state TARGET_RUNNING t1) w1).
  { unfold poll_one_tail. unfold bind at 1. unfold gets at 1. cbn beta iota.
    rewrite Es, Hst. cbn [state_eqb]. unfold bind at 1. rewrite Hend.
    destruct (negb (is_ok r1)); reflexivity. }
  rewrite Etail. split.
  - intros -> Hh. cbn [is_ok negb].
    eapply halt_postponed_extend; [exact Etr|exact quiet_dhcsr_read|].
    pose proof (endreset_event_quiet t0 w0) as He. rewrite Hend in He.
    cbn [fst snd] in He. destruct He as ((Hp & _) & Hf & new & Htr & Hq).
    destruct Hf as (_ & _ & Hs & _).
    eapply halt_postponed_extend; [exact Htr|exact Hq|].
    apply poll_one_states_postponed.
    + cbn [smp set_state]. congruence.
    + left; reflexivity.
    + exact Hh.
    + rewrite Hp, Ep. exact Hsemi.
    + rewrite Hp, Ep. exact Hw.
  - intros Hne. destruct r1; try congruence; reflexivity.
Qed.

(** cortex_m_poll: the target is polled; after the last target of an SMP
    group cortex_m_poll_smp runs; the code returned is that of the poll of
    the target. *)
Lemma poll_run i ts w t :
  ts !! i = Some t -> timely (probe_of w) ->
  exists r t' w' ts2 w2,
    cortex_m_poll_one t w = (Done r, t', w')
    /\ (if smp t' && (S i =? length ts)%nat
        then exists r2, cortex_m_poll_smp (<[i := t']> ts) w' = (Done r2, ts2, w2)
        else ts2 = <[i := t']> ts /\ w2 = w')
    /\ cortex_m_poll i ts w = (Done r, ts2, w2).
Proof.
  intros Hi Hw.
  destruct (proj2 (returns_run _) poll_one_returns t w Hw) as (r & t' & w' & E & Hp).
  assert (Hi' : <[i := t']> ts !! i = Some t').
  { apply list_lookup_insert_eq. apply lookup_lt_Some in Hi. exact Hi. }
  unfold cortex_m_poll. unfold bind at 1.
  rewrite (on_target_run _ _ _ _ _ _ Hi), E.
  unfold bind at 1. unfold gets at 1. cbn beta iota.
  unfold bind at 1. unfold gets at 1. cbn beta iota.
  rewrite Hi', length_insert. cbn [from_option].
  destruct (smp t' && (S i =? length ts)%nat) eqn:Ec.
  - destruct (proj2 (returns_run _) poll_smp_returns (<[i := t']> ts) w')
      as (r2 & ts2 & w2 & E2 & _); [rewrite Hp; exact Hw|].
    exists r, t', w', ts2, w2. split; [reflexivity|]. rewrite Ec.
    split; [exists r2; exact E2|].
    unfold bind. rewrite E2. reflexivity.
  - exists r, t', w', (<[i := t']> ts), w'. split; [reflexivity|]. rewrite Ec.
    split; [split; reflexivity|reflexivity].
Qed.

(** cortex_m_poll_smp with a flag set: both loops return, and then the
    events are delivered and the flags cleared. *)
Lemma poll_smp_flagged ts w :
  existsb smp_halt_event_postponed ts = true -> timely (probe_of w) ->
  exists r1 ts1 w1 r2 ts2 w2,
    foreach_smp_target smp_halt_all_body ERROR_OK ts w = (Done r1, ts1, w1)
    /\ foreach_smp_target smp_post_halt_poll_body ERROR_OK ts1 w1
       = (Done r2, ts2, w2)
    /\ cortex_m_poll_smp ts w =
       (Done (if is_ok r1 then r2 else r1), clear_postponed <$> ts2,
        add_events (postponed_halted_events ts2) w2)
    /\ Forall2 (fun t t' => exists w0, t' = (smp_halt_all_body t w0).1.2) ts ts1
    /\ Forall2 (fun t t' => exists w0, t' = (smp_post_halt_poll_body t w0).1.2)
               ts1 ts2.
Proof.
  intros E Hw.
  destruct (proj2 (returns_run _) smp_halt_all_returns ts w Hw)
    as (r1 & ts1 & w1 & E1 & Hp1).
  destruct (proj2 (returns_run _) smp_post_halt_poll_returns ts1 w1)
    as (r2 & ts2 & w2 & E2 & Hp2); [rewrite Hp1; exact Hw|].
  exists r1, ts1, w1, r2, ts2, w2.
  split; [exact E1|]. split; [exact E2|].
  split; [exact (proj2 (poll_smp_run ts w) E r1 ts1 w1 r2 ts2 w2 E1 E2)|].
  split; eapply foreach_smp_target_each; eassumption.
Qed.

(** The clocks of the scenarios advance by one millisecond per
    consultation: the waits, followed for a thousand polls, see them pass
    the budget. *)
Lemma steady_timely dhcsr : timely (probe_of (Scenario.steady_world dhcsr)).
Proof. intros m n H. cbn in *. lia. Qed.

Lemma reset_exit_timely : timely (probe_of Scenario.reset_exit_world).
Proof. intros m n H. cbn in *. lia. Qed.

(** ** DHCSR writes and alignment *)

Lemma from_write_dhcsr_ok v : from_write_dhcsr v -> dhcsr_write_ok v.
Proof.
  intros (c & on & off & Hon & ->). rewrite <- rebuilt_dhcsr_spec.
  apply rebuilt_dhcsr_ok, Hon.
Qed.

Lemma well_formed_dhcsr_writes new :
  Forall well_formed new ->
  Forall (fun v => from_write_dhcsr v /\ dhcsr_write_ok v) (dhcsr_writes new).
Proof.
  induction 1 as [|e new He _ IH]; [constructor|].
  unfold dhcsr_writes in *. destruct e; simpl; try exact IH.
  destruct (Z.eqb_spec address DCB_DHCSR) as [Ea|_]; [|exact IH].
  constructor; [|exact IH]. simpl in He.
  split; [auto|apply from_write_dhcsr_ok; auto].
Qed.

Lemma land_3_mod address : Z.land address 0x3 = address mod 4.
Proof. change 0x3 with (Z.ones 2). rewrite Z.land_ones by lia. reflexivity. Qed.

Lemma land_1_mod address : Z.land address 0x1 = address mod 2.
Proof. change 0x1 with (Z.ones 1). rewrite Z.land_ones by lia. reflexivity. Qed.


(** * Claims *)

(** C1: every DHCSR write of the core is composed by
    cortex_m_write_debug_halt_mask, which caches and writes, as one atomic
    AP write, the 32-bit word
    [(cached & ~(STATUS_MASK | clear_mask)) | DBGKEY | C_DEBUGEN | set_mask];
    hence in every DHCSR write issued by any operation of the target type
    (poll, halt, resume, step, assert_reset, deassert_reset,
    soft_reset_halt, read_memory, write_memory) the high half-word equals
    DBGKEY and C_DEBUGEN is set. *)
Theorem C1_dhcsr_writes_carry_dbgkey :
  (forall mask_on mask_off t w,
     let v := u32 (spec_write_dhcsr (dcb_dhcsr (cortex_m t)) mask_on mask_off) in
     cortex_m_write_debug_halt_mask mask_on mask_off t w =
     (Done (ap_write (probe_of w) (tick w) DCB_DHCSR v),
      upd_cm (set_dcb_dhcsr v) t,
      mk_world (probe_of w) (S (tick w))
               (trace w ++ [EvApWrite true DCB_DHCSR v])))
  /\ (forall op ts w, exists new,
        trace (run_operation op ts w).2 = trace w ++ new
        /\ Forall (fun v => from_write_dhcsr v /\ dhcsr_write_ok v)
                  (dhcsr_writes new)).
Proof.
  split.
  - intros mask_on mask_off t w. rewrite write_debug_halt_mask_eq.
    cbv zeta. rewrite rebuilt_dhcsr_spec. reflexivity.
  - intros op ts w.
    destruct (run_operation_lawful op ts w) as (_ & _ & new & Ht & Hn).
    exists new. split; [exact Ht|]. apply well_formed_dhcsr_writes, Hn.
Qed.

(** C2: cortex_m_examine_debug_reason leaves a reason pinned to DBGRQ or
    SINGLESTEP unchanged and otherwise sets it from the snapshotted DFSR bits
    by the truth table: BKPT alone BREAKPOINT, BKPT with DWTTRAP
    WPT_AND_BKPT, DWTTRAP without BKPT WATCHPOINT, else VCATCH BREAKPOINT,
    else EXTERNAL DBGRQ, none UNDEFINED; nothing else changes and the
    function returns OK. *)
Theorem C2_debug_reason_truth_table t w :
  cortex_m_examine_debug_reason t w =
  (Done ERROR_OK,
   (if reason_eqb (debug_reason t) DBG_REASON_DBGRQ
       || reason_eqb (debug_reason t) DBG_REASON_SINGLESTEP
    then t
    else set_debug_reason
           (spec_debug_reason (has_bits (nvic_dfsr (cortex_m t)) DFSR_BKPT)
                              (has_bits (nvic_dfsr (cortex_m t)) DFSR_DWTTRAP)
                              (has_bits (nvic_dfsr (cortex_m t)) DFSR_VCATCH)
                              (has_bits (nvic_dfsr (cortex_m t)) DFSR_EXTERNAL)) t),
   w).
Proof.
  unfold cortex_m_examine_debug_reason, bind, gets, get_cm, ret, modify,
    target_to_cm. simpl.
  destruct (reason_eqb (debug_reason t) DBG_REASON_DBGRQ); simpl; [reflexivity|].
  destruct (reason_eqb (debug_reason t) DBG_REASON_SINGLESTEP); simpl; [reflexivity|].
  destruct (has_bits (nvic_dfsr (cortex_m t)) DFSR_BKPT),
    (has_bits (nvic_dfsr (cortex_m t)) DFSR_DWTTRAP),
    (has_bits (nvic_dfsr (cortex_m t)) DFSR_VCATCH),
    (has_bits (nvic_dfsr (cortex_m t)) DFSR_EXTERNAL); reflexivity.
Qed.

(** C3: on a V6M target a read or write of size 4 at an address that is not
    4-aligned, or of size 2 at an address that is not 2-aligned, returns
    UNALIGNED and leaves target and world untouched, so no AP transaction is
    issued; every other access is handed to mem_ap_read_buf /
    mem_ap_write_buf, whose answer is returned. *)
Theorem C3_v6m_unaligned_rejected t w address size count :
  cortex_m_read_memory address size count t w =
  (if is_v6m (arch (target_to_armv7m t)) && spec_misaligned address size
   then (Done ERROR_TARGET_UNALIGNED_ACCESS, t, w)
   else (Done (mem_buf (probe_of w) (tick w) false address size count), t,
         mk_world (probe_of w) (S (tick w))
                  (trace w ++ [EvMemApBuf false address size count])))
  /\ cortex_m_write_memory address size count t w =
  (if is_v6m (arch (target_to_armv7m t)) && spec_misaligned address size
   then (Done ERROR_TARGET_UNALIGNED_ACCESS, t, w)
   else (Done (mem_buf (probe_of w) (tick w) true address size count), t,
         mk_world (probe_of w) (S (tick w))
                  (trace w ++ [EvMemApBuf true address size count]))).
Proof.
  unfold cortex_m_read_memory, cortex_m_write_memory, spec_misaligned,
    bind, get_armv7m, gets. simpl.
  rewrite land_3_mod, land_1_mod.
  split.
  - destruct (is_v6m _ && _); reflexivity.
  - destruct (is_v6m _ && _); reflexivity.
Qed.

(** C4 (amended): when the fast bulk read has captured its DHCSR values and
    one of them has S_REGRDY clear, the fast read fails with TIMEOUT; the
    register load of debug entry then sets slow_register_read and re-reads
    the register file through cortex_m_slow_read_all_regs, the per-register
    polled path.  That re-read starts by clearing slow_register_read, so
    when every register transfer is ready from then on the flag is clear
    again afterwards and the next debug entry takes the fast path. *)
Theorem C4_fast_read_timeout_falls_back t w r_vals dhcsr t1 w1 :
  slow_register_read (cortex_m t) = false ->
  fast_read_capture t w = (Done (ERROR_OK, r_vals, dhcsr), t1, w1) ->
  Exists (fun d => has_bits d S_REGRDY = false) dhcsr ->
  cortex_m_fast_read_all_regs t w =
    (Done ERROR_TIMEOUT_REACHED, cumulate_all dhcsr t1, w1)
  /\ debug_entry_load_regs t w =
     cortex_m_slow_read_all_regs
       (upd_cm (set_slow_register_read true) (cumulate_all dhcsr t1)) w1
  /\ (ready_from (probe_of w1) (tick w1) ->
      slow_register_read (cortex_m (debug_entry_load_regs t w).1.2) = false).
Proof.
  intros Hslow Hc Hn.
  pose proof (fast_read_all_regs_timeout _ _ _ _ _ _ Hc Hn) as Hf.
  assert (Hl : debug_entry_load_regs t w =
     cortex_m_slow_read_all_regs
       (upd_cm (set_slow_register_read true) (cumulate_all dhcsr t1)) w1).
  { unfold debug_entry_load_regs.
    unfold bind at 1. unfold get_cm at 1, gets at 1. cbn beta iota.
    unfold target_to_cm. rewrite Hslow. cbn [negb].
    unfold bind at 1. unfold bind at 1. rewrite Hf. cbn [is_timeout].
    unfold bind, modify, ret, get_cm, gets. cbn beta iota. reflexivity. }
  split; [exact Hf|]. split; [exact Hl|].
  intros Hready. rewrite Hl. apply slow_read_all_regs_recovers. exact Hready.
Qed.

Lemma C4_fast_read_timeout_witness :
  (cortex_m_fast_read_all_regs Scenario.halted_target Scenario.settling_world).1.1
    = Done ERROR_TIMEOUT_REACHED
  /\ slow_register_read
       (cortex_m (debug_entry_load_regs Scenario.halted_target
                    Scenario.settling_world).1.2) = false.
Proof.
  edestruct (C4_fast_read_timeout_falls_back Scenario.halted_target
               Scenario.settling_world) as (Hf & _ & Hs).
  - reflexivity.
  - vm_compute. reflexivity.
  - apply Exists_cons_hd. reflexivity.
  - split; [rewrite Hf; reflexivity|]. apply Hs.
    change (ready_from (probe_of Scenario.settling_world) 61).
    intros m Hm. cbn [Scenario.settling_world Scenario.start
      probe_of Scenario.probe_with ap_read snd].
    change (DCB_DHCSR =? DCB_DHCSR) with true. cbn iota.
    destruct (Nat.ltb_spec m 12) as [Hlt|_]; [lia|reflexivity].
Defined.

(** The fall-back does not stick: on a core whose transfers complete after
    the fast read has timed out, the register load that fell back ends with
    slow_register_read clear, and the next register load is the fast bulk
    read again. *)
Lemma C4_next_debug_entry_reads_fast :
  (cortex_m_fast_read_all_regs Scenario.halted_target Scenario.settling_world).1.1
    = Done ERROR_TIMEOUT_REACHED
  /\ (debug_entry_load_regs Scenario.halted_target Scenario.settling_world).1.1
     = Done ERROR_OK
  /\ slow_register_read
       (cortex_m (debug_entry_load_regs Scenario.halted_target
                    Scenario.settling_world).1.2) = false
  /\ debug_entry_load_regs
       (debug_entry_load_regs Scenario.halted_target Scenario.settling_world).1.2
       (debug_entry_load_regs Scenario.halted_target Scenario.settling_world).2
     = cortex_m_fast_read_all_regs
         (debug_entry_load_regs Scenario.halted_target Scenario.settling_world).1.2
         (debug_entry_load_regs Scenario.halted_target Scenario.settling_world).2
  /\ (cortex_m_debug_entry Scenario.halted_target Scenario.settling_world).1.1
     = Done ERROR_OK
  /\ slow_register_read
       (cortex_m (cortex_m_debug_entry Scenario.halted_target
                    Scenario.settling_world).1.2) = false.
Proof. vm_compute. repeat split; reflexivity. Qed.

(** C5 (amended): in an SMP group, when poll_one observes S_HALT on a target
    that was RUNNING or RESET (and arm_semihosting does not take the halt
    over), it sets the target's halt_event_postponed flag instead of
    delivering the HALTED event: the block under the S_HALT test, the code
    from that test on, a whole poll_one of a RUNNING target whose DHCSR
    shows S_HALT, and one of a target in RESET once the end of reset is
    handled, all return with the target HALTED, the flag set and no target
    event delivered; any poll_one of such a target returns without a target
    event.  cortex_m_poll runs cortex_m_poll_smp after the poll of the last
    target of an SMP group, and only then, and returns the code of the
    poll.  cortex_m_poll_smp does nothing when no flag is set; otherwise
    cortex_m_smp_halt_all, whose body halts the examined targets that are
    not HALTED, and cortex_m_smp_post_halt_poll, whose body polls them, both
    return, and then the HALTED event is delivered for exactly the targets
    whose flag is set and that ended HALTED, in group order, and every flag
    is left clear.  The runs are those on a timely probe, where the timed
    register waits of the debug entry are followed to their end. *)
Theorem C5_postponed_halted_events :
  (* the block under the S_HALT test *)
  (forall prev retval t w,
     smp t = true ->
     prev = TARGET_RUNNING \/ prev = TARGET_RESET ->
     never_semihosted (probe_of w) -> timely (probe_of w) ->
     halt_postponed w (poll_one_halted prev retval t w))
  (* from the S_HALT test to the end of poll_one *)
  /\ (forall prev retval detected_failure t w,
        smp t = true ->
        prev = TARGET_RUNNING \/ prev = TARGET_RESET ->
        has_bits (dcb_dhcsr (cortex_m t)) S_HALT = true ->
        never_semihosted (probe_of w) -> timely (probe_of w) ->
        halt_postponed w (poll_one_states prev retval detected_failure t w))
  (* poll_one of a RUNNING target *)
  /\ (forall t w,
        smp t = true -> state t = TARGET_RUNNING ->
        never_semihosted (probe_of w) -> timely (probe_of w) ->
        dhcsr_read_plain t w ->
        has_bits (u32 (ap_read (probe_of w) (tick w) DCB_DHCSR).2) S_HALT = true ->
        halt_postponed w (cortex_m_poll_one t w))
  (* poll_one of a target in RESET *)
  /\ (forall t w,
        smp t = true -> state t = TARGET_RESET ->
        never_semihosted (probe_of w) -> timely (probe_of w) ->
        dhcsr_read_plain t w ->
        exists r1 t1 w1,
          cortex_m_endreset_event (after_dhcsr_read t w).1
                                  (after_dhcsr_read t w).2
          = (Done r1, t1, w1)
          /\ (r1 = ERROR_OK ->
              has_bits (dcb_dhcsr (cortex_m t1)) S_HALT = true ->
              halt_postponed w (cortex_m_poll_one t w))
          /\ (r1 <> ERROR_OK ->
              cortex_m_poll_one t w
              = (Done r1, set_state TARGET_UNKNOWN t1, w1)))
  (* any poll_one of such a target *)
  /\ (forall t w,
        smp t = true ->
        state t = TARGET_RUNNING \/ state t = TARGET_RESET ->
        never_semihosted (probe_of w) -> timely (probe_of w) ->
        (exists x, (cortex_m_poll_one t w).1.1 = Done x)
        /\ postpones w (cortex_m_poll_one t w))
  (* cortex_m_poll *)
  /\ (forall i ts w t,
        ts !! i = Some t -> timely (probe_of w) ->
        exists r t' w' ts2 w2,
          cortex_m_poll_one t w = (Done r, t', w')
          /\ (if smp t' && (S i =? length ts)%nat
              then exists r2,
                cortex_m_poll_smp (<[i := t']> ts) w' = (Done r2, ts2, w2)
              else ts2 = <[i := t']> ts /\ w2 = w')
          /\ cortex_m_poll i ts w = (Done r, ts2, w2))
  (* cortex_m_poll_smp *)
  /\ (forall ts w,
        existsb smp_halt_event_postponed ts = false ->
        cortex_m_poll_smp ts w = (Done ERROR_OK, ts, w))
  /\ (forall ts w,
        existsb smp_halt_event_postponed ts = true -> timely (probe_of w) ->
        exists r1 ts1 w1 r2 ts2 w2,
          foreach_smp_target smp_halt_all_body ERROR_OK ts w = (Done r1, ts1, w1)
          /\ foreach_smp_target smp_post_halt_poll_body ERROR_OK ts1 w1
             = (Done r2, ts2, w2)
          /\ cortex_m_poll_smp ts w =
             (Done (if is_ok r1 then r2 else r1), clear_postponed <$> ts2,
              add_events (postponed_halted_events ts2) w2)
          /\ Forall (fun t => smp_halt_event_postponed t = false)
                    (clear_postponed <$> ts2)
          /\ Forall2 (fun t t' => exists w0, t' = (smp_halt_all_body t w0).1.2)
                     ts ts1
          /\ Forall2 (fun t t' => exists w0,
                        t' = (smp_post_halt_poll_body t w0).1.2) ts1 ts2)
  /\ (forall t w,
        smp_halt_all_body t w =
        if negb (examined t) || state_eqb (state t) TARGET_HALTED
        then (Done ERROR_OK, t, w) else cortex_m_halt_one t w)
  /\ (forall t w,
        smp_post_halt_poll_body t w =
        if negb (examined t) || state_eqb (state t) TARGET_HALTED
        then (Done ERROR_OK, t, w) else cortex_m_poll_one t w).
Proof.
  split; [exact poll_one_halted_postponed|].
  split; [exact poll_one_states_postponed|].
  split; [exact poll_one_running_postponed|].
  split; [exact poll_one_reset_postponed|].
  split.
  { intros t w Hsmp Hst Hsemi Hw.
    split; [exact (proj1 (poll_one_returns t w Hw))|].
    apply poll_one_postpones; assumption. }
  split; [exact poll_run|].
  split; [intros ts w; apply poll_smp_run|].
  split; [|split; [exact smp_halt_all_body_run|exact smp_post_halt_poll_body_run]].
  intros ts w E Hw.
  destruct (poll_smp_flagged ts w E Hw)
    as (r1 & ts1 & w1 & r2 & ts2 & w2 & E1 & E2 & E3 & F1 & F2).
  exists r1, ts1, w1, r2, ts2, w2.
  repeat (split; [assumption|]).
  split; [apply clear_postponed_all|]. split; assumption.
Qed.

Lemma C5_postponed_halted_witness :
  halt_postponed (Scenario.steady_world Scenario.halted_dhcsr)
    (cortex_m_poll_one (Scenario.smp_core 1 TARGET_RUNNING false)
       (Scenario.steady_world Scenario.halted_dhcsr))
  /\ halt_postponed Scenario.reset_exit_world
       (cortex_m_poll_one (Scenario.smp_core 1 TARGET_RESET false)
          Scenario.reset_exit_world)
  /\ exists ts2 w2,
       cortex_m_poll 1
         [Scenario.smp_core 0 TARGET_HALTED true;
          Scenario.smp_core 1 TARGET_RUNNING false]
         (Scenario.steady_world Scenario.halted_dhcsr)
       = (Done ERROR_OK, ts2, w2)
       /\ state <$> ts2 = [TARGET_HALTED; TARGET_HALTED]
       /\ smp_halt_event_postponed <$> ts2 = [false; false]
       /\ List.filter is_halted_event (trace w2)
          = [EvTargetEvent 0 TARGET_EVENT_HALTED;
             EvTargetEvent 1 TARGET_EVENT_HALTED].
Proof.
  destruct C5_postponed_halted_events
    as (_ & _ & Hrun & Hreset & _ & Hpoll & _ & Hsmp & _).
  split; [|split].
  - apply Hrun; [reflexivity|reflexivity|intros n; reflexivity
                |apply steady_timely|vm_compute; auto|vm_compute; reflexivity].
  - destruct (Hreset (Scenario.smp_core 1 TARGET_RESET false)
                     Scenario.reset_exit_world)
      as (r1 & t1 & w1 & E & Hok & _);
      [reflexivity|reflexivity|intros n; reflexivity
      |apply reset_exit_timely|vm_compute; auto|].
    pose proof (f_equal (fun x => x.1.1) E) as Er.
    pose proof (f_equal (fun x => x.1.2) E) as Et.
    cbn [fst snd] in Er, Et. vm_compute in Er. injection Er as <-. subst t1.
    apply Hok; [reflexivity|vm_compute; reflexivity].
  - destruct (Hpoll 1%nat
                [Scenario.smp_core 0 TARGET_HALTED true;
                 Scenario.smp_core 1 TARGET_RUNNING false]
                (Scenario.steady_world Scenario.halted_dhcsr)
                (Scenario.smp_core 1 TARGET_RUNNING false) eq_refl
                (steady_timely _))
      as (r & t' & w' & ts2 & w2 & _ & _ & E).
    pose proof (f_equal (fun x => x.1.1) E) as Er.
    pose proof (f_equal (fun x => x.1.2) E) as Ets.
    pose proof (f_equal snd E) as Ew.
    cbn [fst snd] in Er, Ets, Ew. vm_compute in Er. injection Er as <-.
    exists ts2, w2. split; [exact E|]. subst ts2 w2.
    vm_compute. repeat split; reflexivity.
Defined.

(** A target that is HALTED with its flag clear gets no HALTED event: core
    0 halts while core 1 has been HALTED for long; polling the two in turn
    ends with both HALTED and delivers the event of core 0 alone. *)
Lemma C5_halted_target_without_event :
  (cortex_m_poll 0 Scenario.late_halt_group
     (Scenario.steady_world Scenario.halted_dhcsr)).1.1 = Done ERROR_OK
  /\ (Scenario.poll_round Scenario.late_halt_group
        (Scenario.steady_world Scenario.halted_dhcsr)).1.1 = Done ERROR_OK
  /\ state <$> (Scenario.poll_round Scenario.late_halt_group
                  (Scenario.steady_world Scenario.halted_dhcsr)).1.2
     = [TARGET_HALTED; TARGET_HALTED]
  /\ smp_halt_event_postponed <$>
       (Scenario.poll_round Scenario.late_halt_group
          (Scenario.steady_world Scenario.halted_dhcsr)).1.2
     = [false; false]
  /\ List.filter is_halted_event
       (trace (Scenario.poll_round Scenario.late_halt_group
                 (Scenario.steady_world Scenario.halted_dhcsr)).2)
     = [EvTargetEvent 0 TARGET_EVENT_HALTED].
Proof. vm_compute. repeat split; reflexivity. Qed.

(** C6: no function of the core clears a bit of the sticky DHCSR
    accumulator, except cortex_m_poll_one, and a poll that clears
    S_RESET_ST clears that bit alone, leaves the target in state RESET and
    returns OK right there: the bit is consumed by the transition to RESET
    and by nothing else. *)
Theorem C6_reset_st_cleared_with_reset_transition :
  (forall t w,
     sticky_grows t (cortex_m_poll_one t w).1.2
     \/ ((cortex_m_poll_one t w).1.1 = Done ERROR_OK
         /\ state (cortex_m_poll_one t w).1.2 = TARGET_RESET
         /\ only_reset_st_cleared t (cortex_m_poll_one t w).1.2))
  /\ never_clears cortex_m_read_dhcsr_atomic_sticky
  /\ (forall regsel, never_clears (cortex_m_load_core_reg_u32 regsel))
  /\ (forall regsel v, never_clears (cortex_m_store_core_reg_u32 regsel v))
  /\ never_clears cortex_m_fast_read_all_regs
  /\ never_clears cortex_m_slow_read_all_regs
  /\ never_clears cortex_m_endreset_event
  /\ never_clears cortex_m_debug_entry
  /\ never_clears cortex_m_halt_one
  /\ (forall c a hb de, never_clears (cortex_m_restore_one c a hb de))
  /\ (forall de, never_clears (cortex_m_restart_one de))
  /\ (forall c a hb, never_clears (cortex_m_step c a hb))
  /\ never_clears soft_reset_halt_request
  /\ never_clears soft_reset_halt_probe
  /\ never_clears assert_reset_body
  /\ never_clears cortex_m_deassert_reset
  /\ (forall a s c, never_clears (cortex_m_read_memory a s c))
  /\ (forall a s c, never_clears (cortex_m_write_memory a s c)).
Proof.
  split; [exact poll_one_sticky|].
  repeat split; intros; apply orderly_never_clears; steps_high.
Qed.

(** C7 (amended): when the S_REGRDY wait of a register read or write
    expires, the transfer fails with TIMEOUT.  The other two bounded waits
    do not fail: cortex_m_soft_reset_halt on a core that has not reached
    the halted state after the 100 turns of its loop (each a DHCSR read, a
    DFSR read and one millisecond of sleep) returns OK, the target left in
    state RESET; and the interrupt-aware step of AUTO mode whose core does
    not halt again within 500 ms returns OK, the target left RUNNING with
    debug reason NOTHALTED. *)
Theorem C7_expired_waits :
  (forall regsel t w d,
     (d < wait_bound (probe_of w))%nat ->
     transport_ok (probe_of w) ->
     never_shows (probe_of w) S_REGRDY ->
     clock_runs (probe_of w) d ->
     exists t' w',
       cortex_m_load_core_reg_u32 regsel t w
       = (Done (ERROR_TIMEOUT_REACHED, 0), t', w'))
  /\ (forall regsel v t w d,
        (d < wait_bound (probe_of w))%nat ->
        transport_ok (probe_of w) ->
        never_shows (probe_of w) S_REGRDY ->
        clock_runs (probe_of w) d ->
        exists t' w',
          cortex_m_store_core_reg_u32 regsel v t w
          = (Done ERROR_TIMEOUT_REACHED, t', w'))
  /\ (forall i ts w t,
        ts !! i = Some t ->
        vectreset_supported (cortex_m t) = true ->
        transport_ok (probe_of w) ->
        never_shows (probe_of w) S_HALT ->
        exists ts' w' t',
          cortex_m_soft_reset_halt i ts w = (Done ERROR_OK, ts', w')
          /\ trace w' = trace w ++ reset_halt_request (dcb_dhcsr (cortex_m t))
                                ++ concat (replicate 100 reset_halt_turn)
          /\ ts' !! i = Some t' /\ state t' = TARGET_RESET)
  /\ (forall address handle_breakpoints t w d,
        state t = TARGET_HALTED ->
        isrmasking_mode (cortex_m t) = CORTEX_M_ISRMASK_AUTO ->
        has_bits (pc_value_of t) 0x02 = false ->
        transport_ok (probe_of w) ->
        never_shows (probe_of w) S_HALT ->
        no_bkpt_inst (probe_of w) ->
        clock_runs (probe_of w) d -> (d < wait_bound (probe_of w))%nat ->
        exists t' w',
          cortex_m_step true address handle_breakpoints t w
          = (Done ERROR_OK, t', w')
          /\ state t' = TARGET_RUNNING
          /\ debug_reason t' = DBG_REASON_NOTHALTED).
Proof.
  split; [|split; [|split]].
  - intros regsel t w d Hd Hok Hnr Hclock.
    apply (load_core_reg_u32_expires regsel d); auto using clock_runs_expires.
  - intros regsel v t w d Hd Hok Hnr Hclock.
    apply (store_core_reg_u32_expires regsel v d); auto using clock_runs_expires.
  - exact soft_reset_halt_budget_exhausted.
  - exact step_times_out.
Qed.

Lemma C7_expired_waits_witness :
  (exists t' w',
     cortex_m_load_core_reg_u32 0 Scenario.halted_target
       (Scenario.steady_world Scenario.busy_dhcsr)
     = (Done (ERROR_TIMEOUT_REACHED, 0), t', w'))
  /\ (exists t' w',
        cortex_m_store_core_reg_u32 0 7 Scenario.halted_target
          (Scenario.steady_world Scenario.busy_dhcsr)
        = (Done ERROR_TIMEOUT_REACHED, t', w'))
  /\ (exists ts' w',
        cortex_m_soft_reset_halt 0 [Scenario.halted_target]
          (Scenario.steady_world Scenario.running_dhcsr)
        = (Done ERROR_OK, ts', w'))
  /\ (exists t' w',
        cortex_m_step true 0 true Scenario.halted_target
          (Scenario.steady_world Scenario.running_dhcsr)
        = (Done ERROR_OK, t', w')
        /\ state t' = TARGET_RUNNING).
Proof.
  destruct C7_expired_waits as (Hload & Hstore & Hreset & Hstep).
  split; [|split; [|split]].
  - apply (Hload 0 _ _ 501%nat).
    + cbn. lia.
    + apply steady_transport_ok.
    + intros n. reflexivity.
    + apply steady_clock_runs.
  - apply (Hstore 0 7 _ _ 501%nat).
    + cbn. lia.
    + apply steady_transport_ok.
    + intros n. reflexivity.
    + apply steady_clock_runs.
  - destruct (Hreset 0%nat [Scenario.halted_target]
                (Scenario.steady_world Scenario.running_dhcsr)
                Scenario.halted_target) as (ts' & w' & _ & E & _).
    + reflexivity.
    + reflexivity.
    + apply steady_transport_ok.
    + intros n. reflexivity.
    + exists ts', w'. exact E.
  - destruct (Hstep 0 true Scenario.halted_target
                (Scenario.steady_world Scenario.running_dhcsr) 501%nat)
      as (t' & w' & E & Hs & _).
    + reflexivity.
    + reflexivity.
    + reflexivity.
    + apply steady_transport_ok.
    + intros n. reflexivity.
    + intros n. reflexivity.
    + apply steady_clock_runs.
    + cbn. lia.
    + exists t', w'. split; [exact E|exact Hs].
Defined.

(** On a core that keeps running, soft_reset_halt uses up its 100 turns
    and returns OK, and the step of AUTO mode gives up its wait and returns
    OK with the target RUNNING: neither reports TIMEOUT. *)
Lemma C7_soft_reset_halt_and_step_return_ok :
  (cortex_m_soft_reset_halt 0 [Scenario.halted_target]
     (Scenario.steady_world Scenario.running_dhcsr)).1.1 = Done ERROR_OK
  /\ trace (cortex_m_soft_reset_halt 0 [Scenario.halted_target]
              (Scenario.steady_world Scenario.running_dhcsr)).2
     = reset_halt_request Scenario.halted_dhcsr
       ++ concat (replicate 100 reset_halt_turn)
  /\ (cortex_m_step true 0 true Scenario.halted_target
        (Scenario.steady_world Scenario.running_dhcsr)).1.1 = Done ERROR_OK
  /\ state (cortex_m_step true 0 true Scenario.halted_target
              (Scenario.steady_world Scenario.running_dhcsr)).1.2
     = TARGET_RUNNING
  /\ 500 < clock_ms (probe_of (Scenario.steady_world Scenario.running_dhcsr))
             (tick (cortex_m_step true 0 true Scenario.halted_target
                      (Scenario.steady_world Scenario.running_dhcsr)).2).
Proof. vm_compute. repeat split; reflexivity. Qed.

(** C8 (amended): in AUTO isr-masking mode, when the step is actually
    performed (no BKPT instruction was skipped), a program counter with bit 1
    set and a breakpoint at [pc & ~3] make the step engine take the
    masked-step shortcut: it issues exactly four DHCSR writes - halt with
    C_MASKINTS, the masked step (C_STEP and C_MASKINTS set, C_HALT clear),
    re-halt, and the unmasking of maskints_for_halt - and nothing else: no
    temporary breakpoint, no wait, the core is never let run. *)
Theorem C8_masked_step_shortcut t w pc_value breakpoint :
  isrmasking_mode (cortex_m t) = CORTEX_M_ISRMASK_AUTO ->
  has_bits pc_value 0x02 = true ->
  is_some (breakpoint_find t (Z.land pc_value (Z.lnot 0x03))) = true ->
  let v1 := dhcsr_after (dcb_dhcsr (cortex_m t)) (Z.lor C_HALT C_MASKINTS) 0 in
  let v2 := dhcsr_after v1 C_STEP C_HALT in
  let v3 := dhcsr_after v2 C_HALT 0 in
  let v4 := dhcsr_after v3 0 C_MASKINTS in
  step_core pc_value breakpoint t w =
    (Done (None, false), upd_cm (set_dcb_dhcsr v4) t,
     mk_world (probe_of w) (4 + tick w)
       (trace w ++ [dhcsr_write v1; dhcsr_write v2; dhcsr_write v3; dhcsr_write v4]))
  /\ has_bits v1 C_HALT = true /\ has_bits v1 C_MASKINTS = true
  /\ has_bits v2 C_STEP = true /\ has_bits v2 C_MASKINTS = true
  /\ has_bits v2 C_HALT = false
  /\ has_bits v3 C_HALT = true
  /\ has_bits v4 C_MASKINTS = false.
Proof.
  intros Hmode Hpc Hbp v1 v2 v3 v4.
  assert (B1 : has_bits v1 C_HALT = true /\ has_bits v1 C_MASKINTS = true).
  { unfold v1, C_HALT, C_MASKINTS. rewrite <- dhcsr_after_rebuilt.
    rewrite !rebuilt_dhcsr_control_bit by lia. split; apply orb_true_r. }
  assert (B2 : has_bits v2 C_STEP = true /\ has_bits v2 C_MASKINTS = true
               /\ has_bits v2 C_HALT = false).
  { destruct B1 as (_ & B1). unfold C_MASKINTS in B1.
    rewrite has_bits_testbit in B1 by lia.
    unfold v2, C_STEP, C_MASKINTS, C_HALT. rewrite <- dhcsr_after_rebuilt.
    rewrite !rebuilt_dhcsr_control_bit by lia. rewrite B1.
    split; [apply orb_true_r|]. split; [reflexivity|].
    change (Z.testbit (Z.shiftl 1 1) 1) with true.
    rewrite andb_false_r. reflexivity. }
  assert (B3 : has_bits v3 C_HALT = true /\ has_bits v3 C_MASKINTS = true).
  { destruct B2 as (_ & B2 & _). unfold C_MASKINTS in B2.
    rewrite has_bits_testbit in B2 by lia.
    unfold v3, C_MASKINTS, C_HALT. rewrite <- dhcsr_after_rebuilt.
    rewrite !rebuilt_dhcsr_control_bit by lia. rewrite B2.
    split; [apply orb_true_r|reflexivity]. }
  assert (B4 : has_bits v4 C_MASKINTS = false).
  { unfold v4, C_MASKINTS. rewrite <- dhcsr_after_rebuilt.
    rewrite !rebuilt_dhcsr_control_bit by lia.
    change (Z.testbit (Z.shiftl 1 3) 3) with true.
    rewrite andb_false_r. reflexivity. }
  split; [|tauto].
  unfold step_core. unfold bind at 1. unfold get_cm at 1, gets at 1.
  cbn beta iota. unfold target_to_cm. rewrite Hmode. cbn [is_auto negb].
  unfold bind at 1. unfold gets at 1. cbn beta iota. unfold id.
  rewrite Hpc, Hbp. cbn [andb].
  unfold bind at 1. unfold step_masked.
  unfold bind at 1. rewrite write_debug_halt_mask_eq. cbv zeta.
  unfold bind at 1. rewrite write_debug_halt_mask_eq. cbv zeta.
  unfold bind at 1. rewrite write_debug_halt_mask_eq. cbv zeta.
  unfold bind at 1.
  rewrite set_maskints_for_halt_auto_unmasks.
  - rewrite write_debug_halt_mask_eq. cbv zeta.
    cbn [cortex_m upd_cm set_cortex_m dcb_dhcsr set_dcb_dhcsr probe_of tick trace].
    rewrite !dhcsr_after_rebuilt. fold v1. fold v2. fold v3. fold v4.
    unfold ret. cbn beta iota. rewrite <- !app_assoc. reflexivity.
  - exact Hmode.
  - cbn [cortex_m upd_cm set_cortex_m dcb_dhcsr set_dcb_dhcsr].
    rewrite !dhcsr_after_rebuilt. fold v1. fold v2. fold v3. apply B3.
Qed.

Lemma C8_masked_step_witness :
  exists v1 v2 v3 v4,
    step_core 0x1002 None (Scenario.straddling_core CORTEX_M_ISRMASK_AUTO)
      (Scenario.steady_world Scenario.halted_dhcsr)
    = (Done (None, false),
       upd_cm (set_dcb_dhcsr v4) (Scenario.straddling_core CORTEX_M_ISRMASK_AUTO),
       mk_world (probe_of (Scenario.steady_world Scenario.halted_dhcsr)) 4
         [dhcsr_write v1; dhcsr_write v2; dhcsr_write v3; dhcsr_write v4])
    /\ has_bits v2 C_STEP = true /\ has_bits v2 C_MASKINTS = true.
Proof.
  destruct (C8_masked_step_shortcut
              (Scenario.straddling_core CORTEX_M_ISRMASK_AUTO)
              (Scenario.steady_world Scenario.halted_dhcsr) 0x1002 None
              eq_refl eq_refl eq_refl) as (H & _ & _ & B1 & B2 & _).
  eexists _, _, _, _. split; [exact H|]. split; [exact B1|exact B2].
Defined.

(** With isr masking OFF the same program counter and breakpoint do not
    lead to the shortcut: the step is one DHCSR write with C_STEP set and
    C_MASKINTS clear, followed only by the write of cortex_m_clear_halt in
    the debug entry. *)
Lemma C8_mode_off_steps_unmasked :
  isrmasking_mode (cortex_m (Scenario.straddling_core CORTEX_M_ISRMASK_OFF))
    = CORTEX_M_ISRMASK_OFF
  /\ has_bits (pc_value_of (Scenario.straddling_core CORTEX_M_ISRMASK_OFF)) 0x02
     = true
  /\ is_some (breakpoint_find (Scenario.straddling_core CORTEX_M_ISRMASK_OFF)
       (Z.land (pc_value_of (Scenario.straddling_core CORTEX_M_ISRMASK_OFF))
               (Z.lnot 0x03))) = true
  /\ (cortex_m_step true 0 true (Scenario.straddling_core CORTEX_M_ISRMASK_OFF)
        (Scenario.steady_world Scenario.halted_dhcsr)).1.1 = Done ERROR_OK
  /\ dhcsr_writes (trace
       (cortex_m_step true 0 true (Scenario.straddling_core CORTEX_M_ISRMASK_OFF)
          (Scenario.steady_world Scenario.halted_dhcsr)).2)
     = [Z.lor (Z.lor DBGKEY C_DEBUGEN) C_STEP; Z.lor (Z.lor DBGKEY C_DEBUGEN) C_HALT]
  /\ has_bits (Z.lor (Z.lor DBGKEY C_DEBUGEN) C_STEP) C_MASKINTS = false
  /\ has_bits (Z.lor (Z.lor DBGKEY C_DEBUGEN) C_HALT) C_MASKINTS = false.
Proof. vm_compute. repeat split; reflexivity. Qed.

(** C9: in cortex_m_resume, once the context of the current target is
    restored, a failure of cortex_m_restore_smp only logs a warning; the
    current target is restarted by cortex_m_restart_one all the same (DHCSR
    is written with C_HALT clear, the target is marked running, the RESUMED
    event is delivered), and the code the caller gets is the one stored
    before the restart (the SMP restore error, then with the resume-failed
    log line, or OK), never the one of that restart. *)
Theorem C9_resume_returns_stored_error i current address hb de ts w :
  exists r1 addr1 ts1 w1,
    (* the restore of the current target returns *)
    on_target i (cortex_m_restore_one current address hb de) (ERROR_FAIL, address)
              ts w = (Done (r1, addr1), ts1, w1)
    /\ (r1 = ERROR_OK ->
       exists r2 ts2 w2 t2 t3 w3 w4 pre v,
         (* the SMP restore returns, with the code that is stored *)
         (if from_option smp false (ts1 !! i) && negb de
          then cortex_m_restore_smp i hb else ret ERROR_OK) ts1 w1
         = (Done r2, ts2, w2)
         /\ ts2 !! i = Some t2
         (* the warning, and nothing else, when the SMP restore failed *)
         /\ w3 = (if is_ok r2 then w2
                  else add_events [EvLog (coreid t2) LOG_smp_resume_failed] w2)
         (* the restart of the current target *)
         /\ cortex_m_restart_one de t2 w3 = (Done ERROR_OK, t3, w4)
         /\ state t3 = (if de then TARGET_DEBUG_RUNNING else TARGET_RUNNING)
         /\ debug_reason t3 = DBG_REASON_NOTHALTED
         /\ has_bits v C_HALT = false
         /\ trace w4 = trace w3 ++ pre
                       ++ [EvApWrite true DCB_DHCSR v;
                           EvTargetEvent (coreid t2)
                             (if de then TARGET_EVENT_DEBUG_RESUMED
                              else TARGET_EVENT_RESUMED)]
         /\ Forall quiet pre
         (* the whole resume: the stored code, the restarted target, the trace *)
         /\ cortex_m_resume i current address hb de ts w =
            (Done r2, <[i := t3]> ts2,
             if is_ok r2 then w4
             else add_events [EvLog (coreid t3) LOG_resume_failed] w4)).
Proof.
  assert (H1 : exists r1 addr1 ts1 w1,
             on_target i (cortex_m_restore_one current address hb de)
                       (ERROR_FAIL, address) ts w = (Done (r1, addr1), ts1, w1)).
  { unfold on_target. destruct (ts !! i) as [t|]; [|eexists _, _, _, _; reflexivity].
    destruct (restore_one_completes current address hb de t w) as ([r1 a1] & Hr & _).
    destruct (cortex_m_restore_one current address hb de t w) as [[o t'] w'].
    cbn [fst snd] in Hr. subst o. eexists _, _, _, _. reflexivity. }
  destruct H1 as (r1 & addr1 & ts1 & w1 & H1).
  exists r1, addr1, ts1, w1. split; [exact H1|].
  intros ->. exact (resume_after_restore _ _ _ _ _ _ _ _ _ _ H1).
Qed.

Lemma C9_resume_witness :
  exists ts3 w5,
    cortex_m_resume 0 true 0 true false Scenario.smp_pair
      (Scenario.steady_world Scenario.halted_dhcsr)
    = (Done ERROR_TARGET_NOT_HALTED, ts3, w5)
    /\ state <$> ts3 = [TARGET_RUNNING; TARGET_RESET]
    /\ List.filter (fun e => match e with
                             | EvLog _ _ | EvApWrite _ _ _
                             | EvTargetEvent _ _ => true
                             | _ => false
                             end) (trace w5)
       = [EvLog 1 LOG_target_not_halted;
          EvLog 0 LOG_smp_resume_failed;
          EvApWrite true DCB_DHCSR 0xA05F0001;
          EvTargetEvent 0 TARGET_EVENT_RESUMED;
          EvLog 0 LOG_resume_failed].
Proof.
  destruct (C9_resume_returns_stored_error 0 true 0 true false
              Scenario.smp_pair (Scenario.steady_world Scenario.halted_dhcsr))
    as (r1 & addr1 & ts1 & w1 & H1 & H).
  pose proof (f_equal (fun x => x.1.1) H1) as Er1.
  pose proof (f_equal (fun x => x.1.2) H1) as Ets1.
  pose proof (f_equal snd H1) as Ew1.
  cbn [fst snd] in Er1, Ets1, Ew1. vm_compute in Er1.
  injection Er1 as <- <-. subst ts1 w1.
  destruct (H eq_refl)
    as (r2 & ts2 & w2 & t2 & t3 & w3 & w4 & pre & v
        & H2 & Hi2 & Hw3 & E3 & _ & _ & _ & _ & _ & Hres).
  pose proof (f_equal (fun x => x.1.1) H2) as Er2.
  pose proof (f_equal (fun x => x.1.2) H2) as Ets2.
  pose proof (f_equal snd H2) as Ew2.
  cbn [fst snd] in Er2, Ets2, Ew2. vm_compute in Er2. injection Er2 as <-.
  subst ts2 w2.
  vm_compute in Hi2. injection Hi2 as <-. subst w3.
  pose proof (f_equal (fun x => x.1.2) E3) as Et3.
  pose proof (f_equal snd E3) as Ew4.
  cbn [fst snd] in Et3, Ew4. subst t3 w4.
  rewrite Hres. eexists _, _. split; [reflexivity|].
  split; vm_compute; reflexivity.
Defined.

(** C10: halting a target that is already HALTED returns OK and changes
    neither the target (state, debug reason, cached debug registers) nor
    the world: no DHCSR write, no AP transaction, no event at all.  The same
    holds for the [halt] entry on a target outside an SMP group; inside an
    SMP group the entry halts the other cores and leaves the HALTED target
    as it is. *)
Theorem C10_halt_when_halted_is_noop t w :
  state t = TARGET_HALTED ->
  cortex_m_halt_one t w = (Done ERROR_OK, t, w)
  /\ (forall i ts, ts !! i = Some t -> smp t = false ->
        cortex_m_halt i ts w = (Done ERROR_OK, ts, w))
  /\ (forall i ts, ts !! i = Some t ->
        (cortex_m_halt i ts w).1.2 !! i = Some t).
Proof.
  intros Hs.
  assert (E : cortex_m_halt_one t w = (Done ERROR_OK, t, w)).
  { unfold cortex_m_halt_one, bind, gets. simpl. rewrite Hs. reflexivity. }
  split; [exact E|]. split.
  - intros i ts Hi Hsmp.
    unfold cortex_m_halt, bind, gets. cbn beta iota. rewrite Hi.
    cbn [from_option]. rewrite Hsmp. unfold on_target.
    rewrite Hi, E, list_insert_id by exact Hi. reflexivity.
  - intros i ts Hi.
    unfold cortex_m_halt, bind, gets. cbn beta iota. rewrite Hi.
    cbn [from_option]. destruct (smp t).
    + apply smp_halt_all_keeps_halted; assumption.
    + unfold on_target. rewrite Hi, E. cbn [fst snd].
      rewrite list_insert_id by exact Hi. exact Hi.
Qed.

Lemma C10_halt_when_halted_witness :
  cortex_m_halt_one Scenario.halted_target
    (Scenario.steady_world Scenario.halted_dhcsr)
  = (Done ERROR_OK, Scenario.halted_target,
     Scenario.steady_world Scenario.halted_dhcsr)
  /\ cortex_m_halt 0 [Scenario.halted_target]
       (Scenario.steady_world Scenario.halted_dhcsr)
     = (Done ERROR_OK, [Scenario.halted_target],
        Scenario.steady_world Scenario.halted_dhcsr).
Proof.
  destruct (C10_halt_when_halted_is_noop Scenario.halted_target
              (Scenario.steady_world Scenario.halted_dhcsr) eq_refl)
    as (H1 & H2 & _).
  split; [exact H1|]. apply H2; reflexivity.
Defined.

(** * Further properties of the code *)

(** ** Watchpoint hit *)

Lemma u32_testbit_low z i : 0 <= i < 32 -> Z.testbit (u32 z) i = Z.testbit z i.
Proof.
  intros Hi. rewrite u32_testbit by lia.
  assert ((i <? 32) = true) as -> by (apply Z.ltb_lt; lia).
  reflexivity.
Qed.

Lemma target_read_u32_run a t w :
  target_read_u32 a t w =
  (Done ((ap_read (probe_of w) (tick w) a).1, u32 (ap_read (probe_of w) (tick w) a).2),
   t, mk_world (probe_of w) (S (tick w)) (trace w ++ [EvTargetU32 false a 0])).
Proof. reflexivity. Qed.

Lemma hit_watchpoint_scan_sound dwt_list wps : forall t w o t' w',
  hit_watchpoint_scan dwt_list wps t w = (o, t', w') ->
  exists new,
    t' = t /\ probe_of w' = probe_of w /\ trace w' = trace w ++ new
    /\ forallb is_function_read new = true
    /\ (length new <= length (List.filter wp_is_set wps))%nat
    /\ ((exists wp, o = Done (ERROR_OK, Some wp) /\ In wp wps /\ wp_is_set wp = true)
        \/ o = Done (ERROR_FAIL, None)).
Proof.
  induction wps as [|wp rest IH]; intros t w o t' w' H.
  - injection H as <- <- <-. exists []. rewrite app_nil_r.
    split; [reflexivity|]. split; [reflexivity|]. split; [reflexivity|].
    split; [reflexivity|]. split; [cbn; lia|]. right. reflexivity.
  - cbn [hit_watchpoint_scan] in H. cbn [List.filter].
    destruct (wp_is_set wp) eqn:Eset; cbn [negb] in H.
    + unfold bind at 1 in H. rewrite target_read_u32_run in H.
      destruct (is_ok _); cbn [negb] in H.
      * destruct (has_bits _ (Z.shiftl 1 24)).
        -- injection H as <- <- <-. eexists [_]. cbn [trace probe_of].
           split; [reflexivity|]. split; [reflexivity|]. split; [reflexivity|].
           split; [reflexivity|]. split; [cbn; lia|].
           left. exists wp. split; [reflexivity|]. split; [left; reflexivity|exact Eset].
        -- apply IH in H. destruct H as (new & Ht & Hp & Htr & Hall & Hlen & Hres).
           cbn [trace probe_of] in *. eexists (_ :: new).
           split; [exact Ht|]. split; [exact Hp|].
           split; [rewrite Htr, <- app_assoc; reflexivity|].
           split; [exact Hall|]. split; [cbn [length]; lia|].
           destruct Hres as [(wp' & E & Hin & Hs)|E]; [left|right; exact E].
           exists wp'. split; [exact E|]. split; [right; exact Hin|exact Hs].
      * injection H as <- <- <-. eexists [_]. cbn [trace probe_of].
        split; [reflexivity|]. split; [reflexivity|]. split; [reflexivity|].
        split; [reflexivity|]. split; [cbn; lia|]. right. reflexivity.
    + apply IH in H. destruct H as (new & Ht & Hp & Htr & Hall & Hlen & Hres).
      exists new.
      split; [exact Ht|]. split; [exact Hp|]. split; [exact Htr|].
      split; [exact Hall|]. split; [exact Hlen|].
      destruct Hres as [(wp' & E & Hin & Hs)|E]; [left|right; exact E].
      exists wp'. split; [exact E|]. split; [right; exact Hin|exact Hs].
Qed.



Lemma hit_watchpoint_scan_first dwt_list mem wps : forall t w,
  steady_memory (probe_of w) mem ->
  (hit_watchpoint_scan dwt_list wps t w).1 =
  (Done (match List.find (watchpoint_matched dwt_list mem) wps with
         | Some wp => (ERROR_OK, Some wp)
         | None => (ERROR_FAIL, None)
         end), t).
Proof.
  induction wps as [|wp rest IH]; intros t w Hmem; [reflexivity|].
  cbn [hit_watchpoint_scan List.find]. unfold watchpoint_matched at 1.
  destruct (wp_is_set wp); cbn [negb andb]; [|apply IH; exact Hmem].
  unfold bind at 1. rewrite target_read_u32_run, Hmem. cbn [fst snd is_ok negb].
  rewrite has_bits_testbit, u32_testbit_low by lia.
  destruct (Z.testbit _ 24); [reflexivity|]. apply IH. exact Hmem.
Qed.

(** X2: over a memory whose answers do not change while the list is
    walked, cortex_m_hit_watchpoint on a target halted for WATCHPOINT
    answers the first watchpoint of the list that is set and whose
    comparator shows the MATCHED bit (bit 24 of its FUNCTION register), and
    ERROR_FAIL when there is none. *)
Theorem hit_watchpoint_first_match wps t w mem :
  debug_reason t = DBG_REASON_WATCHPOINT ->
  steady_memory (probe_of w) mem ->
  (cortex_m_hit_watchpoint wps t w).1 =
  (Done (match List.find (watchpoint_matched (dwt_comparator_list (cortex_m t)) mem)
                         wps with
         | Some wp => (ERROR_OK, Some wp)
         | None => (ERROR_FAIL, None)
         end), t).
Proof.
  intros Hr Hmem. unfold cortex_m_hit_watchpoint, bind, gets, get_cm.
  cbn beta iota. rewrite Hr. cbn [reason_eqb negb].
  apply hit_watchpoint_scan_first. exact Hmem.
Qed.

Lemma hit_watchpoint_first_match_witness :
  (cortex_m_hit_watchpoint Samples.watchpoints Samples.watch_core
     Samples.watch_world).1
  = (Done (ERROR_OK, Some (mk_watchpoint 0x20000100 1 true 3)), Samples.watch_core).
Proof.
  rewrite (hit_watchpoint_first_match Samples.watchpoints Samples.watch_core
             Samples.watch_world Samples.watch_memory).
  - reflexivity.
  - reflexivity.
  - intros n a. reflexivity.
Defined.

(** ** Debug communication channel *)

Lemma dcc_read_run t w :
  cortex_m_dcc_read t w =
  let rv := ap_read (probe_of w) (tick w) DCB_DCRDR in
  let h := Z.land rv.2 0xFFFF in
  if is_ok rv.1 then
    if has_bits h 1 then
      (Done (ap_write (probe_of w) (S (tick w)) DCB_DCRDR 0,
             Z.land (Z.shiftr h 8) 0xFF, Z.land h 0xFF), t,
       mk_world (probe_of w) (S (S (tick w))) (trace w ++ [dcc_poll; dcc_ack]))
    else
      (Done (ERROR_OK, Z.land (Z.shiftr h 8) 0xFF, Z.land h 0xFF), t,
       mk_world (probe_of w) (S (tick w)) (trace w ++ [dcc_poll]))
  else (Done (rv.1, 0, 0), t,
        mk_world (probe_of w) (S (tick w)) (trace w ++ [dcc_poll])).
Proof.
  unfold cortex_m_dcc_read, dcc_read_halfword, dcc_write_halfword, bind, emit,
    consult, ret. cbn beta iota zeta. cbn [probe_of tick trace fst snd].
  destruct (is_ok (ap_read (probe_of w) (tick w) DCB_DCRDR).1); cbn [negb];
    [|reflexivity].
  destruct (has_bits _ 1); [|reflexivity].
  cbn [probe_of tick trace].
  destruct (ap_write (probe_of w) (S (tick w)) DCB_DCRDR 0);
    cbn [is_ok negb]; cbn [probe_of tick trace];
    rewrite <- app_assoc; reflexivity.
Qed.

Lemma land_255_range x : 0 <= Z.land x 0xFF < 256.
Proof.
  change 0xFF with (Z.ones 8). rewrite Z.land_ones by lia.
  apply Z.mod_pos_bound. lia.
Qed.

Lemma dcc_read_frame t w :
  exists r value ctrl w',
    cortex_m_dcc_read t w = (Done (r, value, ctrl), t, w')
    /\ 0 <= value < 256.
Proof.
  rewrite dcc_read_run. cbv zeta.
  destruct (is_ok _); [destruct (has_bits _ 1)|];
    eexists _, _, _, _; (split; [reflexivity|]);
    first [apply land_255_range | lia].
Qed.

Lemma target_request_data_loop_bytes n : forall buffer t w,
  Forall (fun b => 0 <= b < 256) buffer ->
  exists r buffer' w',
    target_request_data_loop n buffer t w = (Done (r, buffer'), t, w')
    /\ Forall (fun b => 0 <= b < 256) buffer'
    /\ (length buffer <= length buffer' <= length buffer + n)%nat
    /\ (r = ERROR_OK -> length buffer' = (length buffer + n)%nat).
Proof.
  induction n as [|n IH]; intros buffer t w Hb.
  - exists ERROR_OK, buffer, w. cbn. split; [reflexivity|]. split; [exact Hb|].
    split; lia.
  - cbn [target_request_data_loop]. unfold bind at 1.
    destruct (dcc_read_frame t w) as (r & value & ctrl & w1 & E & Hv).
    rewrite E. cbn beta iota. destruct (is_ok r) eqn:Er; cbn [negb].
    + destruct (IH (buffer ++ [value]) t w1) as (r' & b' & w' & E' & Hb' & Hl & Hok).
      { apply Forall_app. split; [exact Hb|]. constructor; [exact Hv|constructor]. }
      rewrite E'. exists r', b', w'. rewrite length_app in *. cbn [length] in *.
      split; [reflexivity|]. split; [exact Hb'|]. split; [lia|].
      intros Hr. rewrite Hok by exact Hr. lia.
    + exists r, buffer, w1. split; [reflexivity|]. split; [exact Hb|].
      split; [lia|]. intros ->. discriminate Er.
Qed.


Lemma byte_of_testbit r k i :
  0 <= k -> 0 <= i ->
  Z.testbit (byte_of r k) i = (i <? 8) && Z.testbit r (i + 8 * k).
Proof.
  intros Hk Hi. unfold byte_of. change 0xFF with (Z.ones 8).
  rewrite Z.land_spec, Z.shiftr_spec by lia.
  destruct (Z.ltb_spec i 8).
  - rewrite Z.ones_spec_low by lia. apply andb_true_r.
  - rewrite Z.ones_spec_high by lia. apply andb_false_r.
Qed.

Lemma byte_of_range r k : 0 <= byte_of r k < 256.
Proof. apply land_255_range. Qed.

(** What cortex_m_dcc_read makes of the packet of a byte. *)
Lemma dcc_packet_fields b :
  0 <= b < 256 ->
  has_bits (Z.land (dcc_packet b) 0xFFFF) 1 = true
  /\ Z.land (Z.shiftr (Z.land (dcc_packet b) 0xFFFF) 8) 0xFF = b
  /\ has_bits (Z.land (Z.land (dcc_packet b) 0xFFFF) 0xFF) 1 = true.
Proof.
  intros Hb. unfold dcc_packet.
  assert (T : forall i, 0 <= i ->
            Z.testbit (Z.land (Z.lor (Z.shiftl b 8) 1) 0xFFFF) i =
            (i =? 0) || ((8 <=? i) && Z.testbit b (i - 8))).
  { intros i Hi. change 0xFFFF with (Z.ones 16).
    rewrite Z.land_spec, Z.lor_spec.
    destruct (Z.ltb_spec i 8) as [H8|H8].
    - rewrite Z.shiftl_spec_low by lia. cbn [orb].
      rewrite Z.ones_spec_low by lia. rewrite andb_true_r.
      assert ((8 <=? i) = false) as -> by (apply Z.leb_gt; lia). cbn [andb].
      rewrite orb_false_r.
      destruct (Z.eqb_spec i 0) as [->|Hne]; [reflexivity|].
      change 1 with (Z.ones 1). apply Z.ones_spec_high. lia.
    - rewrite Z.shiftl_spec by lia.
      assert ((8 <=? i) = true) as -> by (apply Z.leb_le; lia). cbn [andb].
      assert ((i =? 0) = false) as -> by (apply Z.eqb_neq; lia). cbn [orb].
      assert (Z.testbit 1 i = false) as ->
        by (change 1 with (Z.ones 1); apply Z.ones_spec_high; lia).
      rewrite orb_false_r.
      destruct (Z.ltb_spec i 16).
      + rewrite Z.ones_spec_low by lia. apply andb_true_r.
      + rewrite Z.ones_spec_high by lia. rewrite andb_false_r.
        symmetry. apply (Z.bits_above_log2 b (i - 8)); [lia|].
        destruct (Z.eq_dec b 0) as [->|Hb0]; [cbn; lia|].
        apply Z.log2_lt_pow2; [lia|].
        apply Z.lt_le_trans with (2 ^ 8); [lia|].
        apply Z.pow_le_mono_r; lia. }
  assert (B0 : forall x, Z.testbit x 0 = true -> has_bits x 1 = true).
  { intros x Hx. change 1 with (Z.shiftl 1 0). rewrite has_bits_testbit by lia.
    exact Hx. }
  split; [apply B0; rewrite T by lia; reflexivity|]. split.
  - apply Z.bits_inj'. intros i Hi. change 0xFF with (Z.ones 8).
    rewrite Z.land_spec, Z.shiftr_spec, T by lia.
    assert ((i + 8 =? 0) = false) as -> by (apply Z.eqb_neq; lia).
    assert ((8 <=? i + 8) = true) as -> by (apply Z.leb_le; lia).
    cbn [orb andb]. replace (i + 8 - 8) with i by lia.
    destruct (Z.ltb_spec i 8).
    + rewrite Z.ones_spec_low by lia. apply andb_true_r.
    + rewrite Z.ones_spec_high by lia. rewrite andb_false_r.
      symmetry. apply (Z.bits_above_log2 b i); [lia|].
      destruct (Z.eq_dec b 0) as [->|Hb0]; [cbn; lia|].
      apply Z.log2_lt_pow2; [lia|].
      apply Z.lt_le_trans with (2 ^ 8); [lia|].
      apply Z.pow_le_mono_r; lia.
  - apply B0. change 0xFF with (Z.ones 8).
    rewrite Z.land_spec, T by lia. reflexivity.
Qed.

(** The four bytes of a word, put together the way
    cortex_m_handle_target_request does, give the word back. *)
Lemma request_bytes_round_trip r :
  0 <= r < 2 ^ 32 ->
  Z.lor (Z.lor (Z.lor (byte_of r 0) (u32 (Z.shiftl (byte_of r 1) (1 * 8))))
               (u32 (Z.shiftl (byte_of r 2) ((1 + 1) * 8))))
        (u32 (Z.shiftl (byte_of r 3) ((1 + 1 + 1) * 8))) = r.
Proof.
  intros Hr. apply Z.bits_inj'. intros i Hi.
  rewrite !Z.lor_spec, !u32_testbit by lia.
  change (1 * 8) with 8. change ((1 + 1) * 8) with 16.
  change ((1 + 1 + 1) * 8) with 24.
  rewrite byte_of_testbit by lia. replace (i + 8 * 0) with i by lia.
  destruct (Z.ltb_spec i 32) as [H32|H32].
  - cbn [andb].
    destruct (Z.ltb_spec i 8) as [H8|H8].
    + rewrite !Z.shiftl_spec_low by lia. cbn [andb]. rewrite !orb_false_r.
      reflexivity.
    + cbn [andb orb]. rewrite !Z.shiftl_spec by lia.
      rewrite !byte_of_testbit by lia.
      replace (i - 8 + 8 * 1) with i by lia.
      destruct (Z.ltb_spec (i - 8) 8) as [H16|H16].
      * cbn [andb]. destruct (Z.testbit r i); [reflexivity|]. cbn [orb].
        rewrite (Z.testbit_neg_r _ (i - 16)) by lia.
        rewrite (Z.testbit_neg_r _ (i - 24)) by lia. reflexivity.
      * cbn [andb orb]. rewrite !byte_of_testbit by lia.
        replace (i - 16 + 8 * 2) with i by lia.
        destruct (Z.ltb_spec (i - 16) 8) as [H24|H24].
        -- cbn [andb]. destruct (Z.testbit r i); [reflexivity|]. cbn [orb].
           rewrite (Z.testbit_neg_r _ (i - 24)) by lia. reflexivity.
        -- cbn [andb orb]. rewrite !byte_of_testbit by lia.
           replace (i - 24 + 8 * 3) with i by lia.
           assert ((i - 24 <? 8) = true) as -> by (apply Z.ltb_lt; lia).
           reflexivity.
  - cbn [andb orb]. assert ((i <? 8) = false) as -> by (apply Z.ltb_ge; lia).
    cbn [andb]. symmetry. apply (Z.bits_above_log2 r i); [lia|].
    destruct (Z.eq_dec r 0) as [->|Hr0]; [cbn; lia|].
    apply Z.log2_lt_pow2; [lia|].
    apply Z.lt_le_trans with (2 ^ 32); [lia|].
    apply Z.pow_le_mono_r; lia.
Qed.

(** One DCC read of a byte the target has sent. *)
Lemma dcc_read_packet t w b :
  0 <= b < 256 ->
  ap_read (probe_of w) (tick w) DCB_DCRDR = (ERROR_OK, dcc_packet b) ->
  ap_write (probe_of w) (S (tick w)) DCB_DCRDR 0 = ERROR_OK ->
  exists ctrl,
    cortex_m_dcc_read t w =
    (Done (ERROR_OK, b, ctrl), t,
     mk_world (probe_of w) (S (S (tick w))) (trace w ++ [dcc_poll; dcc_ack]))
    /\ has_bits ctrl 1 = true.
Proof.
  intros Hb Hr Hw. rewrite dcc_read_run. cbv zeta. rewrite Hr, Hw.
  cbn [fst snd is_ok].
  destruct (dcc_packet_fields b Hb) as (H1 & H2 & H3).
  rewrite H1, H2. eexists. split; [reflexivity|exact H3].
Qed.

(** X4: on an examined, RUNNING target with debug messages enabled, a word
    the target sends byte by byte through the DCC, least significant byte
    first, is the word cortex_m_handle_target_request hands to
    target_request; the four reads are acknowledged one by one and the
    target is left as it is. *)
Theorem handle_target_request_assembles_word t w r :
  examined t = true -> dbg_msg_enabled t = true -> state t = TARGET_RUNNING ->
  0 <= r < 2 ^ 32 ->
  sends_word (probe_of w) (tick w) r ->
  cortex_m_handle_target_request t w =
  (Done (ERROR_OK, Some r), t,
   mk_world (probe_of w) (tick w + 8)
     (trace w ++ [dcc_poll; dcc_ack; dcc_poll; dcc_ack;
                  dcc_poll; dcc_ack; dcc_poll; dcc_ack])).
Proof.
  intros He Hd Hs Hr (Hreads & Hacks).
  unfold cortex_m_handle_target_request.
  unfold bind at 1. unfold gets at 1. cbn beta iota. rewrite He. cbn [negb].
  unfold bind at 1. unfold gets at 1. cbn beta iota. rewrite Hd. cbn [negb].
  unfold bind at 1. unfold gets at 1. cbn beta iota. rewrite Hs. cbn [state_eqb].
  unfold bind at 1.
  destruct (dcc_read_packet t w (byte_of r 0) (byte_of_range r 0))
    as (c0 & E0 & B0).
  { specialize (Hreads 0%nat ltac:(lia)). rewrite Nat.add_0_r in Hreads.
    exact Hreads. }
  { apply Hacks. }
  rewrite E0. cbn [is_ok negb]. cbn beta iota. rewrite B0.
  unfold bind at 1. cbn [target_request_word].
  unfold bind at 1.
  match goal with
  | |- context [cortex_m_dcc_read t ?w0] =>
    destruct (dcc_read_packet t w0 (byte_of r 1) (byte_of_range r 1))
      as (c1 & E1 & _)
  end.
  { cbn [probe_of tick]. specialize (Hreads 1%nat ltac:(lia)).
    replace (S (S (tick w))) with (tick w + 2 * 1)%nat by lia. exact Hreads. }
  { apply Hacks. }
  rewrite E1. cbn [is_ok negb]. cbn beta iota. cbn [probe_of tick trace].
  unfold bind at 1.
  match goal with
  | |- context [cortex_m_dcc_read t ?w0] =>
    destruct (dcc_read_packet t w0 (byte_of r 2) (byte_of_range r 2))
      as (c2 & E2 & _)
  end.
  { cbn [probe_of tick]. specialize (Hreads 2%nat ltac:(lia)).
    replace (S (S (S (S (tick w))))) with (tick w + 2 * 2)%nat by lia.
    exact Hreads. }
  { apply Hacks. }
  rewrite E2. cbn [is_ok negb]. cbn beta iota. cbn [probe_of tick trace].
  unfold bind at 1.
  match goal with
  | |- context [cortex_m_dcc_read t ?w0] =>
    destruct (dcc_read_packet t w0 (byte_of r 3) (byte_of_range r 3))
      as (c3 & E3 & _)
  end.
  { cbn [probe_of tick]. specialize (Hreads 3%nat ltac:(lia)).
    replace (S (S (S (S (S (S (tick w))))))) with (tick w + 2 * 3)%nat by lia.
    exact Hreads. }
  { apply Hacks. }
  rewrite E3. cbn [is_ok negb]. cbn beta iota. cbn [probe_of tick trace].
  unfold ret. cbn beta iota.
  rewrite request_bytes_round_trip by exact Hr.
  rewrite <- !app_assoc. cbn [app].
  replace (S (S (S (S (S (S (S (S (tick w))))))))) with (tick w + 8)%nat by lia.
  reflexivity.
Qed.

Lemma handle_target_request_witness :
  (cortex_m_handle_target_request Samples.dcc_core Samples.dcc_world).1
  = (Done (ERROR_OK, Some 0x12345678), Samples.dcc_core).
Proof.
  rewrite (handle_target_request_assembles_word Samples.dcc_core
             Samples.dcc_world 0x12345678).
  - reflexivity.
  - reflexivity.
  - reflexivity.
  - reflexivity.
  - lia.
  - split.
    + intros k Hk.
      destruct k as [|[|[|[|k]]]]; [reflexivity..|lia].
    + intros n. reflexivity.
Defined.

(** X5: cortex_m_handle_target_request leaves the DCC alone, answers OK
    and calls nothing unless the target is examined, has debug messages
    enabled and is RUNNING; and when the control byte it reads does not
    announce data (bit 0 clear) it stops after that one read, without an
    acknowledging write and without a request. *)
Theorem handle_target_request_idle t w :
  (examined t && dbg_msg_enabled t && state_eqb (state t) TARGET_RUNNING = false ->
   cortex_m_handle_target_request t w = (Done (ERROR_OK, None), t, w))
  /\ (examined t = true -> dbg_msg_enabled t = true -> state t = TARGET_RUNNING ->
      (ap_read (probe_of w) (tick w) DCB_DCRDR).1 = ERROR_OK ->
      Z.testbit (ap_read (probe_of w) (tick w) DCB_DCRDR).2 0 = false ->
      cortex_m_handle_target_request t w =
      (Done (ERROR_OK, None), t,
       mk_world (probe_of w) (S (tick w)) (trace w ++ [dcc_poll]))).
Proof.
  split.
  - intros H. unfold cortex_m_handle_target_request, bind, gets. cbn beta iota.
    destruct (examined t); cbn [negb]; [|reflexivity].
    destruct (dbg_msg_enabled t); cbn [negb]; [|reflexivity].
    cbn [andb] in H. rewrite H. reflexivity.
  - intros He Hd Hs Hok Hbit. unfold cortex_m_handle_target_request.
    unfold bind at 1. unfold gets at 1. cbn beta iota. rewrite He. cbn [negb].
    unfold bind at 1. unfold gets at 1. cbn beta iota. rewrite Hd. cbn [negb].
    unfold bind at 1. unfold gets at 1. cbn beta iota. rewrite Hs.
    cbn [state_eqb]. unfold bind at 1. rewrite dcc_read_run. cbv zeta.
    rewrite Hok. cbn [is_ok].
    assert (B : forall x, Z.testbit x 0 = false -> has_bits x 1 = false).
    { intros x Hx. change 1 with (Z.shiftl 1 0).
      rewrite has_bits_testbit by lia. exact Hx. }
    assert (T : Z.testbit (Z.land (ap_read (probe_of w) (tick w) DCB_DCRDR).2 0xFFFF) 0
                = false).
    { rewrite Z.land_spec, Hbit. reflexivity. }
    rewrite (B _ T). cbn [is_ok negb]. cbn beta iota.
    assert (B2 : has_bits (Z.land (Z.land (ap_read (probe_of w) (tick w) DCB_DCRDR).2
                                          0xFFFF) 0xFF) 1 = false).
    { apply B. rewrite Z.land_spec, T. reflexivity. }
    rewrite B2. reflexivity.
Qed.

Lemma handle_target_request_idle_witness :
  cortex_m_handle_target_request Scenario.halted_target Samples.dcc_world
  = (Done (ERROR_OK, None), Scenario.halted_target, Samples.dcc_world)
  /\ cortex_m_handle_target_request Samples.dcc_core
       (Scenario.steady_world Scenario.running_dhcsr)
     = (Done (ERROR_OK, None), Samples.dcc_core,
        mk_world (probe_of (Scenario.steady_world Scenario.running_dhcsr)) 1
                 [dcc_poll]).
Proof.
  split.
  - apply (handle_target_request_idle Scenario.halted_target Samples.dcc_world).
    reflexivity.
  - apply (handle_target_request_idle Samples.dcc_core
             (Scenario.steady_world Scenario.running_dhcsr));
      reflexivity.
Defined.

(** ** Interrupt masking by phase *)

Lemma set_maskints_run mask t w :
  cortex_m_set_maskints mask t w =
  if eqb (has_bits (dcb_dhcsr (cortex_m t)) C_MASKINTS) mask
  then (Done ERROR_OK, t, w)
  else cortex_m_write_debug_halt_mask (if mask then C_MASKINTS else 0)
                                      (if mask then 0 else C_MASKINTS) t w.
Proof.
  unfold cortex_m_set_maskints, bind, get_cm, gets, target_to_cm. cbn beta iota.
  destruct (eqb _ mask); reflexivity.
Qed.

Lemma set_maskints_for_halt_run t w :
  cortex_m_set_maskints_for_halt t w =
  cortex_m_set_maskints (maskints_for_halt (cortex_m t)) t w.
Proof.
  unfold cortex_m_set_maskints_for_halt, maskints_for_halt, bind, get_cm, gets,
    target_to_cm. cbn beta iota.
  destruct (isrmasking_mode (cortex_m t)); reflexivity.
Qed.

Lemma set_maskints_for_run_run t w :
  cortex_m_set_maskints_for_run t w =
  cortex_m_set_maskints (maskints_for_run (cortex_m t)) t w.
Proof.
  unfold cortex_m_set_maskints_for_run, maskints_for_run, bind, get_cm, gets,
    target_to_cm. cbn beta iota.
  destruct (isrmasking_mode (cortex_m t)); reflexivity.
Qed.

Lemma set_maskints_for_step_run t w :
  cortex_m_set_maskints_for_step t w =
  cortex_m_set_maskints (maskints_for_step (cortex_m t)) t w.
Proof.
  unfold cortex_m_set_maskints_for_step, maskints_for_step, bind, get_cm, gets,
    target_to_cm. cbn beta iota.
  destruct (isrmasking_mode (cortex_m t)); reflexivity.
Qed.

Lemma maskints_bit : C_MASKINTS = Z.shiftl 1 3.
Proof. reflexivity. Qed.

(** What cortex_m_set_maskints leaves behind: C_MASKINTS as asked, every
    other control bit of the cached DHCSR as it was. *)
Lemma set_maskints_post mask t w :
  has_bits (dcb_dhcsr (cortex_m (cortex_m_set_maskints mask t w).1.2)) C_MASKINTS
  = mask
  /\ (forall k, 0 < k < 16 -> k <> 3 ->
      has_bits (dcb_dhcsr (cortex_m (cortex_m_set_maskints mask t w).1.2))
               (Z.shiftl 1 k)
      = has_bits (dcb_dhcsr (cortex_m t)) (Z.shiftl 1 k))
  /\ (cortex_m_set_maskints mask t w).1.1 <> OutOfFuel
  /\ state (cortex_m_set_maskints mask t w).1.2 = state t
  /\ debug_reason (cortex_m_set_maskints mask t w).1.2 = debug_reason t
  /\ isrmasking_mode (cortex_m (cortex_m_set_maskints mask t w).1.2)
     = isrmasking_mode (cortex_m t)
  /\ maskints_erratum (cortex_m (cortex_m_set_maskints mask t w).1.2)
     = maskints_erratum (cortex_m t).
Proof.
  rewrite set_maskints_run.
  destruct (eqb (has_bits (dcb_dhcsr (cortex_m t)) C_MASKINTS) mask) eqn:E.
  - apply eqb_prop in E. cbn [fst snd].
    split; [exact E|]. split; [reflexivity|]. split; [discriminate|].
    repeat split.
  - rewrite write_debug_halt_mask_eq. cbv zeta.
    cbn [fst snd cortex_m upd_cm set_cortex_m dcb_dhcsr set_dcb_dhcsr state
         debug_reason isrmasking_mode maskints_erratum].
    split.
    + rewrite maskints_bit, rebuilt_dhcsr_control_bit by lia.
      rewrite maskints_bit, has_bits_testbit in E by lia.
      destruct mask; cbn [C_MASKINTS].
      * change (Z.testbit (Z.shiftl 1 3) 3) with true. apply orb_true_r.
      * change (Z.testbit (Z.shiftl 1 3) 3) with true.
        rewrite andb_false_r. reflexivity.
    + split; [|split; [discriminate|repeat split]].
      intros k Hk Hne. rewrite rebuilt_dhcsr_control_bit by lia.
      rewrite has_bits_testbit by lia.
      assert (B : Z.testbit C_MASKINTS k = false).
      { rewrite maskints_bit. rewrite Z.shiftl_spec by lia.
        destruct (Z.ltb_spec k 3).
        - apply Z.testbit_neg_r. lia.
        - change 1 with (Z.ones 1). apply Z.ones_spec_high. lia. }
      destruct mask; rewrite ?B, ?Z.testbit_0_l; cbn [negb];
        rewrite ?andb_true_r, ?orb_false_r; reflexivity.
Qed.

(** X6: after cortex_m_set_maskints_for_halt, _for_run and _for_step the
    cached DHCSR carries C_MASKINTS exactly as the isr-masking mode
    prescribes for that phase (AUTO: step only; OFF: never; ON: always;
    STEPONLY: step, and halt when the core has the MASKINTS erratum),
    whatever the transport answered; and a call that finds the bit already
    so issues nothing at all. *)
Theorem set_maskints_follows_mode t w :
  has_bits (dcb_dhcsr (cortex_m (cortex_m_set_maskints_for_halt t w).1.2)) C_MASKINTS
    = maskints_for_halt (cortex_m t)
  /\ has_bits (dcb_dhcsr (cortex_m (cortex_m_set_maskints_for_run t w).1.2)) C_MASKINTS
    = maskints_for_run (cortex_m t)
  /\ has_bits (dcb_dhcsr (cortex_m (cortex_m_set_maskints_for_step t w).1.2)) C_MASKINTS
    = maskints_for_step (cortex_m t)
  /\ (has_bits (dcb_dhcsr (cortex_m t)) C_MASKINTS = maskints_for_halt (cortex_m t) ->
      cortex_m_set_maskints_for_halt t w = (Done ERROR_OK, t, w))
  /\ (has_bits (dcb_dhcsr (cortex_m t)) C_MASKINTS = maskints_for_run (cortex_m t) ->
      cortex_m_set_maskints_for_run t w = (Done ERROR_OK, t, w))
  /\ (has_bits (dcb_dhcsr (cortex_m t)) C_MASKINTS = maskints_for_step (cortex_m t) ->
      cortex_m_set_maskints_for_step t w = (Done ERROR_OK, t, w)).
Proof.
  rewrite set_maskints_for_halt_run, set_maskints_for_run_run,
    set_maskints_for_step_run.
  split; [apply set_maskints_post|]. split; [apply set_maskints_post|].
  split; [apply set_maskints_post|].
  repeat split; intros H; rewrite set_maskints_run, H, eqb_reflx; reflexivity.
Qed.

Lemma set_maskints_follows_mode_witness :
  cortex_m_set_maskints_for_halt Samples.masked_core
    (Scenario.steady_world Scenario.halted_dhcsr)
  = (Done ERROR_OK, Samples.masked_core, Scenario.steady_world Scenario.halted_dhcsr)
  /\ cortex_m_set_maskints_for_run Scenario.halted_target
       (Scenario.steady_world Scenario.halted_dhcsr)
     = (Done ERROR_OK, Scenario.halted_target,
        Scenario.steady_world Scenario.halted_dhcsr)
  /\ cortex_m_set_maskints_for_step Samples.masked_core
       (Scenario.steady_world Scenario.halted_dhcsr)
     = (Done ERROR_OK, Samples.masked_core,
        Scenario.steady_world Scenario.halted_dhcsr).
Proof.
  split; [|split].
  - apply (set_maskints_follows_mode Samples.masked_core
             (Scenario.steady_world Scenario.halted_dhcsr)).
    reflexivity.
  - apply (set_maskints_follows_mode Scenario.halted_target
             (Scenario.steady_world Scenario.halted_dhcsr)).
    reflexivity.
  - apply (set_maskints_follows_mode Samples.masked_core
             (Scenario.steady_world Scenario.halted_dhcsr)).
    reflexivity.
Defined.

(** ** Halt request *)

(** Use a run equation whose left side is only convertible to the run in
    the goal. *)
Ltac rewrite_run E :=
  match type of E with
  | ?f ?s ?w = ?rhs =>
    match goal with
    | |- context [match ?m s w with _ => _ end] =>
      let E' := fresh in
      assert (E' : m s w = rhs) by exact E; rewrite E'; clear E'
    end
  end.

Ltac rewrite_run_in E H :=
  match type of E with
  | ?f ?s ?w = ?rhs =>
    match type of H with
    | context [match ?m s w with _ => _ end] =>
      let E' := fresh in
      assert (E' : m s w = rhs) by exact E; rewrite E' in H; clear E'
    end
  end.

Lemma halt_bit : C_HALT = Z.shiftl 1 1.
Proof. reflexivity. Qed.

Lemma log_run m t w :
  log m t w = (Done tt, t, mk_world (probe_of w) (tick w) (trace w ++ [EvLog (coreid t) m])).
Proof. reflexivity. Qed.

Lemma dhcsr_writes_app a b : dhcsr_writes (a ++ b) = dhcsr_writes a ++ dhcsr_writes b.
Proof. unfold dhcsr_writes. apply omap_app. Qed.

(** The events of cortex_m_set_maskints: nothing, or one DHCSR write. *)
Lemma set_maskints_trace mask t w :
  exists new,
    trace (cortex_m_set_maskints mask t w).2 = trace w ++ new
    /\ (length (dhcsr_writes new) <= 1)%nat
    /\ probe_of (cortex_m_set_maskints mask t w).2 = probe_of w.
Proof.
  rewrite set_maskints_run. destruct (eqb _ mask).
  - exists []. rewrite app_nil_r. cbn. auto.
  - rewrite write_debug_halt_mask_eq. cbv zeta. eexists [_]. cbn [snd trace probe_of].
    split; [reflexivity|]. split; [|reflexivity]. cbn.
    change (DCB_DHCSR =? DCB_DHCSR) with true. cbn. lia.
Qed.

(** What cortex_m_halt_one does in each state of the target. *)
Lemma halt_one_facts t w :
  state (cortex_m_halt_one t w).1.2 = state t
  /\ (state t = TARGET_RESET ->
      cortex_m_halt_one t w =
      if has_bits (jtag_reset_config (probe_of w)) RESET_SRST_PULLS_TRST
         && jtag_srst (probe_of w)
      then (Done ERROR_TARGET_FAILURE, t,
            mk_world (probe_of w) (tick w)
                     (trace w ++ [EvLog (coreid t) LOG_cant_halt_in_reset]))
      else (Done ERROR_OK, set_debug_reason DBG_REASON_DBGRQ t, w))
  /\ (state t <> TARGET_HALTED -> state t <> TARGET_RESET ->
      exists t' w' new rest,
        cortex_m_halt_one t w = (Done ERROR_OK, t', w')
        /\ debug_reason t' = DBG_REASON_DBGRQ
        /\ has_bits (dcb_dhcsr (cortex_m t')) C_HALT = true
        /\ trace w' = trace w ++ new
        /\ dhcsr_writes new
           = rebuilt_dhcsr (dcb_dhcsr (cortex_m t)) C_HALT 0 :: rest
        /\ (length rest <= 1)%nat).
Proof.
  assert (Hrun : state t <> TARGET_HALTED -> state t <> TARGET_RESET ->
      exists t' w' new rest,
        cortex_m_halt_one t w = (Done ERROR_OK, t', w')
        /\ state t' = state t
        /\ debug_reason t' = DBG_REASON_DBGRQ
        /\ has_bits (dcb_dhcsr (cortex_m t')) C_HALT = true
        /\ trace w' = trace w ++ new
        /\ dhcsr_writes new
           = rebuilt_dhcsr (dcb_dhcsr (cortex_m t)) C_HALT 0 :: rest
        /\ (length rest <= 1)%nat).
  { intros Hh Hr. unfold cortex_m_halt_one.
    unfold bind at 1. unfold gets at 1. cbn beta iota.
    assert (state_eqb (state t) TARGET_HALTED = false) as ->
      by (destruct (state t); try reflexivity; contradiction).
    assert (state_eqb (state t) TARGET_RESET = false) as Er
      by (destruct (state t); try reflexivity; contradiction).
    unfold bind at 1.
    assert (Hlog : exists pre,
      (if state_eqb (state t) TARGET_UNKNOWN
       then log LOG_halt_in_unknown_state else ret tt) t w
      = (Done tt, t, mk_world (probe_of w) (tick w) (trace w ++ pre))
      /\ dhcsr_writes pre = []).
    { destruct (state_eqb (state t) TARGET_UNKNOWN).
      - rewrite log_run. eexists [_]. split; reflexivity.
      - exists []. rewrite app_nil_r. destruct w. split; reflexivity. }
    destruct Hlog as (pre & Elog & Hpre). rewrite_run Elog. rewrite Er.
    unfold bind at 1. rewrite write_debug_halt_mask_eq. cbv zeta.
    unfold bind at 1. rewrite set_maskints_for_halt_run.
    match goal with
    | |- context [cortex_m_set_maskints ?m ?t0 ?w0] =>
      pose proof (set_maskints_post m t0 w0) as (_ & Hk & Hd & Hs & Hdr & _);
      destruct (set_maskints_trace m t0 w0) as (new2 & Htr & Hlen & _);
      destruct (cortex_m_set_maskints m t0 w0) as [[o2 t2] w2]
    end.
    cbn [fst snd] in *. destruct o2 as [r2|]; [|contradiction].
    unfold bind, modify, ret. cbn beta iota.
    eexists _, _, _, (dhcsr_writes new2). split; [reflexivity|].
    cbn [state debug_reason set_debug_reason cortex_m dcb_dhcsr].
    split; [exact Hs|]. split; [reflexivity|]. split.
    { specialize (Hk 1 ltac:(lia) ltac:(lia)). rewrite halt_bit, Hk.
      cbn [cortex_m upd_cm set_cortex_m dcb_dhcsr set_dcb_dhcsr].
      rewrite rebuilt_dhcsr_control_bit by lia. apply orb_true_r. }
    split; [rewrite Htr; cbn [trace]; rewrite <- !app_assoc; reflexivity|].
    split; [|exact Hlen].
    rewrite !dhcsr_writes_app, Hpre. cbn [app]. cbn [dhcsr_writes omap].
    change (DCB_DHCSR =? DCB_DHCSR) with true. reflexivity. }
  split; [|split].
  - destruct (state_eqb (state t) TARGET_HALTED) eqn:Eh.
    + unfold cortex_m_halt_one, bind, gets. cbn beta iota. rewrite Eh. reflexivity.
    + destruct (state_eqb (state t) TARGET_RESET) eqn:Er.
      * unfold cortex_m_halt_one, bind, gets, asks, log, emit, modify, ret.
        cbn beta iota. rewrite Eh, Er.
        assert (state_eqb (state t) TARGET_UNKNOWN = false) as ->
          by (destruct (state t); try reflexivity; discriminate Er).
        cbn beta iota. destruct (_ && _); reflexivity.
      * destruct Hrun as (t' & w' & new & rest & E & Hs & _).
        -- intros H. rewrite H in Eh. discriminate Eh.
        -- intros H. rewrite H in Er. discriminate Er.
        -- rewrite E. exact Hs.
  - intros Hr. unfold cortex_m_halt_one, bind, gets, asks, log, emit, modify, ret.
    cbn beta iota. rewrite Hr. cbn [state_eqb]. cbn beta iota.
    destruct (_ && _); reflexivity.
  - intros Hh Hr. destruct (Hrun Hh Hr) as (t' & w' & new & rest & E & _ & H).
    exists t', w', new, rest. split; [exact E|exact H].
Qed.



(** ** Single step of the core *)

Lemma step_bit : C_STEP = Z.shiftl 1 2.
Proof. reflexivity. Qed.

(** The events of cortex_m_clear_halt: its DHCSR write comes first and is
    the only one. *)
Lemma clear_halt_writes t w :
  exists new,
    trace (cortex_m_clear_halt t w).2 = trace w ++ new
    /\ dhcsr_writes new = [rebuilt_dhcsr (dcb_dhcsr (cortex_m t)) C_HALT C_STEP].
Proof.
  unfold cortex_m_clear_halt. unfold bind at 1.
  rewrite write_debug_halt_mask_eq. cbv zeta.
  unfold bind at 1. unfold mem_ap_read_atomic_u32 at 1.
  unfold bind at 1 2, emit at 1, consult at 1, ret at 1. cbn beta iota.
  cbn [probe_of tick trace fst snd].
  destruct (is_ok _); cbn [negb].
  - unfold bind at 1, modify at 1. cbn beta iota.
    unfold bind at 1, get_cm at 1, gets at 1. cbn beta iota.
    unfold on_ok, mem_ap_write_atomic_u32, bind, emit, consult, ret.
    cbn beta iota. cbn [probe_of tick trace].
    destruct (is_ok _); cbn [snd trace];
      eexists; (split; [rewrite <- !app_assoc; reflexivity|]);
      cbn [app dhcsr_writes omap];
      change (DCB_DHCSR =? DCB_DHCSR) with true;
      change (NVIC_DFSR =? DCB_DHCSR) with false; reflexivity.
  - unfold ret. cbn [snd trace].
    eexists. split; [rewrite <- !app_assoc; reflexivity|].
    cbn [app dhcsr_writes omap].
    change (DCB_DHCSR =? DCB_DHCSR) with true. reflexivity.
Qed.



(** ** Refused operations and restart *)

Lemma state_eqb_neq s s' : s <> s' -> state_eqb s s' = false.
Proof. destruct s, s'; intros H; try reflexivity; contradiction. Qed.

(** X9: the operations that are refused up front leave the group of
    targets untouched and issue no transaction, only their log lines:
    step and resume of a target that is not HALTED answer
    TARGET_NOT_HALTED (resume therefore restarts nothing), and
    soft_reset_halt of a core without VECTRESET answers ERROR_FAIL. *)
Theorem refused_operations_touch_nothing :
  (forall current address hb t w,
     state t <> TARGET_HALTED ->
     cortex_m_step current address hb t w =
     (Done ERROR_TARGET_NOT_HALTED, t,
      add_events [EvLog (coreid t) LOG_target_not_halted] w))
  /\ (forall i current address hb de ts t w,
        ts !! i = Some t -> state t <> TARGET_HALTED ->
        cortex_m_resume i current address hb de ts w =
        (Done ERROR_TARGET_NOT_HALTED, ts,
         add_events [EvLog (coreid t) LOG_target_not_halted;
                     EvLog (coreid t) LOG_context_restore_failed] w))
  /\ (forall i ts t w,
        ts !! i = Some t -> vectreset_supported (cortex_m t) = false ->
        cortex_m_soft_reset_halt i ts w =
        (Done ERROR_FAIL, ts,
         add_events [EvLog (coreid t) LOG_vectreset_not_supported] w)).
Proof.
  split; [|split].
  - intros current address hb t w Hs.
    unfold cortex_m_step, bind, gets, log, emit, ret. cbn beta iota.
    rewrite (state_eqb_neq _ _ Hs). reflexivity.
  - intros i current address hb de ts t w Hi Hs.
    unfold cortex_m_resume. unfold bind at 1. unfold on_target at 1. rewrite Hi.
    unfold cortex_m_restore_one. unfold bind at 1. unfold gets at 1.
    cbn beta iota. rewrite (state_eqb_neq _ _ Hs). cbn [negb].
    unfold log, bind, gets, emit, ret. cbn beta iota.
    rewrite list_insert_id by exact Hi. cbn [is_ok negb].
    unfold on_target. rewrite Hi. cbn beta iota.
    rewrite list_insert_id by exact Hi. unfold add_events.
    cbn [probe_of tick trace]. rewrite <- app_assoc. reflexivity.
  - intros i ts t w Hi Hv.
    unfold cortex_m_soft_reset_halt, on_ok. unfold bind at 1.
    unfold on_target at 1. rewrite Hi.
    unfold soft_reset_halt_request. unfold bind at 1.
    unfold get_cm at 1, gets at 1. cbn beta iota. unfold target_to_cm.
    rewrite Hv. cbn [negb].
    unfold log, bind, gets, emit, ret. cbn beta iota.
    rewrite list_insert_id by exact Hi. reflexivity.
Qed.

Lemma refused_operations_witness :
  cortex_m_step true 0 true Samples.dcc_core
    (Scenario.steady_world Scenario.running_dhcsr)
  = (Done ERROR_TARGET_NOT_HALTED, Samples.dcc_core,
     add_events [EvLog 0 LOG_target_not_halted]
       (Scenario.steady_world Scenario.running_dhcsr))
  /\ cortex_m_resume 0 true 0 true false [Samples.dcc_core]
       (Scenario.steady_world Scenario.running_dhcsr)
     = (Done ERROR_TARGET_NOT_HALTED, [Samples.dcc_core],
        add_events [EvLog 0 LOG_target_not_halted;
                    EvLog 0 LOG_context_restore_failed]
          (Scenario.steady_world Scenario.running_dhcsr))
  /\ cortex_m_soft_reset_halt 0 [Samples.no_vectreset_core]
       (Scenario.steady_world Scenario.halted_dhcsr)
     = (Done ERROR_FAIL, [Samples.no_vectreset_core],
        add_events [EvLog 0 LOG_vectreset_not_supported]
          (Scenario.steady_world Scenario.halted_dhcsr)).
Proof.
  destruct refused_operations_touch_nothing as (H1 & H2 & H3).
  split; [|split].
  - apply H1. intros E. discriminate E.
  - apply (H2 0%nat true 0 true false [Samples.dcc_core] Samples.dcc_core);
      [reflexivity|]. intros E. discriminate E.
  - apply (H3 0%nat [Samples.no_vectreset_core] Samples.no_vectreset_core);
      reflexivity.
Defined.

(** What cortex_m_restart_one leaves behind. *)
Lemma restart_one_facts de t w :
  exists t' w' new,
    cortex_m_restart_one de t w = (Done ERROR_OK, t', w')
    /\ state t' = (if de then TARGET_DEBUG_RUNNING else TARGET_RUNNING)
    /\ debug_reason t' = DBG_REASON_NOTHALTED
    /\ has_bits (dcb_dhcsr (cortex_m t')) C_HALT = false
    /\ has_bits (dcb_dhcsr (cortex_m t')) C_MASKINTS = maskints_for_run (cortex_m t)
    /\ trace w' = trace w ++ new
                  ++ [EvTargetEvent (coreid t)
                        (if de then TARGET_EVENT_DEBUG_RESUMED
                         else TARGET_EVENT_RESUMED)]
    /\ Forall quiet new.
Proof.
  unfold cortex_m_restart_one. unfold bind at 1.
  rewrite set_maskints_for_run_run.
  pose proof (set_maskints_post (maskints_for_run (cortex_m t)) t w)
    as (Hmask & _ & Hd & _).
  pose proof (set_maskints_quiet (maskints_for_run (cortex_m t)) t w)
    as (_ & Hf & new1 & Htr1 & Hq1).
  destruct (cortex_m_set_maskints (maskints_for_run (cortex_m t)) t w)
    as [[o1 t1] w1].
  cbn [fst snd] in *. destruct o1 as [r1|]; [|contradiction].
  destruct Hf as (Hid & _).
  unfold bind at 1. rewrite write_debug_halt_mask_eq. cbv zeta.
  unfold bind at 1, modify at 1. cbn beta iota.
  unfold bind at 1, register_cache_invalidate at 1, modify at 1. cbn beta iota.
  set (v := rebuilt_dhcsr (dcb_dhcsr (cortex_m t1)) 0 C_HALT).
  assert (Hh : has_bits v C_HALT = false).
  { unfold v. rewrite halt_bit, rebuilt_dhcsr_control_bit by lia.
    change (Z.testbit (Z.shiftl 1 1) 1) with true.
    rewrite andb_false_r. reflexivity. }
  assert (Hm : has_bits v C_MASKINTS = maskints_for_run (cortex_m t)).
  { unfold v. rewrite maskints_bit, rebuilt_dhcsr_control_bit by lia.
    rewrite maskints_bit, has_bits_testbit in Hmask by lia. rewrite Hmask.
    rewrite halt_bit. change (Z.testbit (Z.shiftl 1 1) 3) with false.
    change (Z.testbit 0 3) with false. cbn [negb].
    rewrite andb_true_r, orb_false_r. reflexivity. }
  destruct de; cbn [negb];
    unfold target_call_event_callbacks, bind, modify, gets, emit, ret;
    cbn beta iota;
    cbn [coreid set_state set_debug_reason upd_armv7m upd_cm set_cortex_m
         set_armv7m cortex_m probe_of tick trace];
    (eexists _, _, (new1 ++ [EvApWrite true DCB_DHCSR v]);
     split; [reflexivity|];
     cbn [state debug_reason cortex_m dcb_dhcsr set_dcb_dhcsr set_armv7m];
     split; [reflexivity|]; split; [reflexivity|];
     split; [exact Hh|]; split; [exact Hm|];
     split; [rewrite Htr1, Hid, <- !app_assoc; reflexivity|];
     apply Forall_app; split; [exact Hq1|];
     constructor; [|constructor];
     intros _; exists (dcb_dhcsr (cortex_m t1)), 0, C_HALT;
     split; [unfold low_half; lia|apply rebuilt_dhcsr_spec]).
Qed.


(** ** Poll: external resume and unknown state *)

(** A poll that finds neither a lockup nor a pending reset goes on with the
    state machine proper. *)
Lemma poll_one_plain t w d :
  ap_read (probe_of w) (tick w) DCB_DHCSR = (ERROR_OK, d) ->
  has_bits (u32 d) S_LOCKUP = false ->
  has_bits (Z.lor (sticky t) (u32 d)) S_RESET_ST = false ->
  cortex_m_poll_one t w =
  poll_one_tail (state t) ERROR_OK (seen_dhcsr d t) (after_read DCB_DHCSR w).
Proof.
  intros Hr Hl Hs. unfold cortex_m_poll_one.
  unfold bind at 1. unfold gets at 1. cbn beta iota.
  unfold bind at 1. rewrite read_dhcsr_run. cbv zeta. rewrite Hr.
  cbn [fst snd is_ok negb].
  unfold bind at 1. unfold get_cm at 1, gets at 1. cbn beta iota.
  cbn [target_to_cm cortex_m upd_cm set_cortex_m dcb_dhcsr set_dcb_dhcsr set_sticky].
  rewrite Hl. unfold bind at 1. unfold ret at 1. cbn beta iota. cbn [is_ok negb].
  unfold bind at 1. unfold get_cm at 1, gets at 1. cbn beta iota.
  cbn [target_to_cm cortex_m upd_cm set_cortex_m dcb_dhcsr_cumulated_sticky
       set_dcb_dhcsr set_sticky].
  unfold sticky in Hs. rewrite Hs. reflexivity.
Qed.

Lemma register_cache_invalidate_invalid t w :
  cache_invalid (register_cache_invalidate t w).1.2.
Proof.
  unfold register_cache_invalidate, modify, cache_invalid. cbn [fst snd].
  unfold upd_armv7m, upd_cm, target_to_armv7m, target_to_cm.
  cbn [cortex_m set_cortex_m armv7m set_armv7m core_cache set_core_cache].
  apply Forall_fmap, Forall_forall. intros r _. cbn.
  destruct (exist r) eqn:E; cbn; [intros _; split; reflexivity|].
  rewrite E. intros H. discriminate H.
Qed.

(** X11: external resume.  When a HALTED target is polled and DHCSR shows
    S_HALT clear (no lockup, no reset pending), cortex_m_poll_one marks the
    target RUNNING, invalidates the register cache, logs the external
    resume, delivers the RESUMED event and answers OK. *)
Theorem poll_one_detects_external_resume t w d :
  state t = TARGET_HALTED ->
  ap_read (probe_of w) (tick w) DCB_DHCSR = (ERROR_OK, d) ->
  has_bits (u32 d) S_HALT = false ->
  has_bits (u32 d) S_LOCKUP = false ->
  has_bits (Z.lor (sticky t) (u32 d)) S_RESET_ST = false ->
  exists t',
    cortex_m_poll_one t w =
    (Done ERROR_OK, t',
     add_events [EvLog (coreid t) LOG_external_resume_detected;
                 EvTargetEvent (coreid t) TARGET_EVENT_RESUMED]
                (after_read DCB_DHCSR w))
    /\ state t' = TARGET_RUNNING
    /\ cache_invalid t'.
Proof.
  intros Hst Hr Hh Hl Hs. rewrite (poll_one_plain t w d Hr Hl Hs). unfold seen_dhcsr.
  unfold poll_one_tail. unfold bind at 1. unfold gets at 1. cbn beta iota.
  cbn [state upd_cm set_cortex_m]. rewrite Hst. cbn [state_eqb].
  unfold poll_one_states. unfold bind at 1. unfold get_cm at 1, gets at 1.
  cbn beta iota.
  cbn [target_to_cm cortex_m upd_cm set_cortex_m dcb_dhcsr set_dcb_dhcsr set_sticky].
  rewrite Hh. unfold bind at 1. unfold ret at 1. cbn beta iota.
  unfold bind at 1. unfold gets at 1. cbn beta iota.
  unfold bind at 1. unfold get_cm at 1, gets at 1. cbn beta iota.
  cbn [state target_to_cm cortex_m upd_cm set_cortex_m dcb_dhcsr set_dcb_dhcsr
       set_sticky].
  rewrite Hst, Hh. cbn [state_eqb andb negb].
  unfold bind at 1. unfold ret at 1. cbn beta iota.
  unfold bind at 1. unfold bind at 1.
  match goal with
  | |- context [register_cache_invalidate ?t0 ?w0] =>
    pose proof (register_cache_invalidate_invalid t0 w0) as Hinv;
    assert (Hrun : exists t1, register_cache_invalidate t0 w0 = (Done tt, t1, w0)
                              /\ coreid t1 = coreid t)
      by (eexists; split; reflexivity);
    destruct Hrun as (t1 & Hrun & Hid); rewrite Hrun in *
  end.
  cbn [fst snd] in Hinv.
  unfold log, target_call_event_callbacks, bind, modify, gets, emit, ret.
  cbn beta iota. cbn [coreid set_state]. rewrite Hid.
  eexists. split.
  - unfold add_events, after_read. cbn [probe_of tick trace].
    rewrite <- !app_assoc. reflexivity.
  - split; [reflexivity|exact Hinv].
Qed.

Lemma poll_one_external_resume_witness :
  exists t',
    cortex_m_poll_one Scenario.halted_target
      (Scenario.steady_world Scenario.running_dhcsr)
    = (Done ERROR_OK, t',
       add_events [EvLog 0 LOG_external_resume_detected;
                   EvTargetEvent 0 TARGET_EVENT_RESUMED]
         (after_read DCB_DHCSR (Scenario.steady_world Scenario.running_dhcsr)))
    /\ state t' = TARGET_RUNNING.
Proof.
  destruct (poll_one_detects_external_resume Scenario.halted_target
              (Scenario.steady_world Scenario.running_dhcsr)
              Scenario.running_dhcsr)
    as (t' & E & Hs & _); [reflexivity..|].
  exists t'. split; [exact E|exact Hs].
Defined.



(** ** Poll: delivery of the HALTED event *)

(** The halt of a target outside an SMP group, seen from RUNNING: the
    HALTED event is delivered last, whatever the debug entry answered. *)
Lemma poll_one_halted_delivers retval t w o t' w' :
  smp t = false -> never_semihosted (probe_of w) ->
  poll_one_halted TARGET_RUNNING retval t w = (o, t', w') ->
  state t' = TARGET_HALTED
  /\ smp_halt_event_postponed t' = smp_halt_event_postponed t
  /\ probe_of w' = probe_of w
  /\ (forall x, o = Done x ->
      exists new, trace w' = trace w ++ new
                              ++ [EvTargetEvent (coreid t) TARGET_EVENT_HALTED]
                  /\ Forall quiet new)
  /\ (forall r returned, o = Done (r, returned) -> returned = negb (is_ok r)).
Proof.
  intros Hsmp Hsemi H. unfold poll_one_halted in H.
  cbn [state_eqb orb] in H. unfold bind at 1 in H. unfold modify at 1 in H.
  cbn beta iota in H. unfold bind at 1 in H. unfold bind at 1 in H.
  pose proof (debug_entry_quiet (set_state TARGET_HALTED t) w) as Hde.
  destruct (cortex_m_debug_entry (set_state TARGET_HALTED t) w) as [[o1 t1] w1].
  cbn [fst snd] in Hde. destruct Hde as ((Hp & _) & Hf & new & Htr & Hq).
  destruct Hf as (Hid & Hst & Hs & Hpp & _).
  cbn [coreid state smp smp_halt_event_postponed set_state] in *.
  destruct o1 as [r1|].
  2:{ injection H as <- <- <-. split; [exact Hst|]. split; [exact Hpp|].
      split; [exact Hp|]. split; intros; discriminate. }
  cbn beta iota in H. unfold bind at 1 in H.
  assert (Hsh : exists w2 mid,
    (if is_ok r1 then arm_semihosting else ret (false, r1)) t1 w1
    = (Done (false, if is_ok r1 then (semihosting (probe_of w1) (tick w1)).2 else r1),
       t1, w2)
    /\ probe_of w2 = probe_of w1 /\ trace w2 = trace w1 ++ mid /\ Forall quiet mid).
  { destruct (is_ok r1).
    - rewrite arm_semihosting_run. specialize (Hsemi (tick w1)). rewrite <- Hp in Hsemi.
      destruct (semihosting (probe_of w1) (tick w1)) as [handled code].
      cbn [fst snd] in *. subst handled. eexists _, [_].
      split; [reflexivity|]. split; [reflexivity|]. split; [reflexivity|].
      repeat constructor.
    - exists w1, []. unfold ret. rewrite app_nil_r. auto. }
  destruct Hsh as (w2 & mid & E & Hp2 & Htr2 & Hq2).
  rewrite_run_in E H. cbn beta iota in H.
  unfold bind at 1 in H. unfold gets at 1 in H. cbn beta iota in H.
  rewrite Hs, Hsmp in H.
  unfold target_call_event_callbacks, bind, gets, emit, ret in H.
  cbn beta iota in H. cbn [state_eqb] in H.
  assert (Hfin : o = Done (r1, negb (is_ok r1)) /\ t' = t1
                 /\ w' = mk_world (probe_of w2) (tick w2)
                           (trace w2 ++ [EvTargetEvent (coreid t1) TARGET_EVENT_HALTED])).
  { destruct (is_ok r1); cbn [negb] in H; injection H as <- <- <-; auto. }
  destruct Hfin as (-> & -> & ->). cbn [probe_of trace].
  split; [exact Hst|]. split; [exact Hpp|]. split; [congruence|].
  split.
  - intros x _. exists (new ++ mid). rewrite Htr2, Htr, Hid, <- !app_assoc.
    split; [reflexivity|]. apply Forall_app. auto.
  - intros r returned E'. injection E' as <- <-. reflexivity.
Qed.

(** The halt of a debug execution: the DEBUG_HALTED event is delivered
    last, in or outside an SMP group. *)
Lemma poll_one_halted_debug retval t w o t' w' :
  poll_one_halted TARGET_DEBUG_RUNNING retval t w = (o, t', w') ->
  state t' = TARGET_HALTED
  /\ smp_halt_event_postponed t' = smp_halt_event_postponed t
  /\ (forall x, o = Done x ->
      exists new, trace w' = trace w ++ new
                              ++ [EvTargetEvent (coreid t) TARGET_EVENT_DEBUG_HALTED]
                  /\ Forall quiet new)
  /\ (forall r returned, o = Done (r, returned) -> returned = negb (is_ok r)).
Proof.
  intros H. unfold poll_one_halted in H.
  cbn [state_eqb orb] in H. unfold bind at 1 in H. unfold modify at 1 in H.
  cbn beta iota in H. unfold bind at 1 in H. unfold ret at 1 in H.
  cbn beta iota in H. unfold bind at 1 in H. unfold bind at 1 in H.
  pose proof (debug_entry_quiet (set_state TARGET_HALTED t) w) as Hde.
  destruct (cortex_m_debug_entry (set_state TARGET_HALTED t) w) as [[o1 t1] w1].
  cbn [fst snd] in Hde. destruct Hde as ((Hp & _) & Hf & new & Htr & Hq).
  destruct Hf as (Hid & Hst & Hs & Hpp & _).
  cbn [coreid state smp smp_halt_event_postponed set_state] in *.
  destruct o1 as [r1|].
  2:{ injection H as <- <- <-. split; [exact Hst|]. split; [exact Hpp|].
      split; intros; discriminate. }
  unfold target_call_event_callbacks, bind, gets, emit, ret in H.
  cbn beta iota in H.
  assert (Hfin : o = Done (r1, negb (is_ok r1)) /\ t' = t1
                 /\ w' = mk_world (probe_of w1) (tick w1)
                           (trace w1 ++ [EvTargetEvent (coreid t1)
                                           TARGET_EVENT_DEBUG_HALTED])).
  { destruct (is_ok r1); cbn [negb] in H; injection H as <- <- <-; auto. }
  destruct Hfin as (-> & -> & ->). cbn [probe_of trace].
  split; [exact Hst|]. split; [exact Hpp|]. split.
  - intros x _. exists new. rewrite Htr, Hid, <- !app_assoc.
    split; [reflexivity|exact Hq].
  - intros r returned E'. injection E' as <- <-. reflexivity.
Qed.

(** What follows the S_HALT block when the target has just been marked
    HALTED from a state other than HALTED. *)
Lemma poll_one_states_after_halt prev retval t w o1 t1 w1 :
  has_bits (dcb_dhcsr (cortex_m t)) S_HALT = true ->
  prev <> TARGET_HALTED ->
  poll_one_halted prev retval t w = (o1, t1, w1) ->
  state t1 = TARGET_HALTED ->
  (forall r returned, o1 = Done (r, returned) -> returned = negb (is_ok r)) ->
  forall r t' w',
    poll_one_states prev retval ERROR_OK t w = (Done r, t', w') ->
    exists returned, o1 = Done (r, returned) /\ t' = t1 /\ w' = w1.
Proof.
  intros Hh Hprev E Hst Hret r t' w' H. unfold poll_one_states in H.
  unfold bind at 1 in H. unfold get_cm at 1, gets at 1 in H. cbn beta iota in H.
  unfold target_to_cm in H. rewrite Hh in H.
  unfold bind at 1 in H. rewrite E in H.
  destruct o1 as [[r1' returned]|]; [|discriminate H].
  cbn beta iota in H. specialize (Hret _ _ eq_refl). subst returned.
  destruct (is_ok r1') eqn:Eok; cbn [negb] in H.
  - unfold bind, gets, get_cm, ret, modify in H. cbn beta iota in H.
    rewrite Hst in H. cbn [state_eqb andb] in H.
    rewrite (state_eqb_neq _ _ Hprev) in H. cbn [andb is_ok negb] in H.
    injection H as <- <- <-. eexists. split; [reflexivity|]. split; reflexivity.
  - unfold ret in H. injection H as <- <- <-.
    eexists. split; [reflexivity|]. split; reflexivity.
Qed.

(** What a poll that returned has done on finding S_HALT. *)
Lemma poll_one_halted_delivery t w d r t' w' :
  ap_read (probe_of w) (tick w) DCB_DHCSR = (ERROR_OK, d) ->
  has_bits (u32 d) S_HALT = true ->
  has_bits (u32 d) S_LOCKUP = false ->
  has_bits (Z.lor (sticky t) (u32 d)) S_RESET_ST = false ->
  cortex_m_poll_one t w = (Done r, t', w') ->
  (state t = TARGET_RUNNING /\ smp t = false /\ never_semihosted (probe_of w)
   \/ state t = TARGET_DEBUG_RUNNING) ->
  state t' = TARGET_HALTED
  /\ smp_halt_event_postponed t' = smp_halt_event_postponed t
  /\ exists new,
       trace w' = trace w ++ new
                  ++ [EvTargetEvent (coreid t)
                        (if state_eqb (state t) TARGET_RUNNING
                         then TARGET_EVENT_HALTED else TARGET_EVENT_DEBUG_HALTED)]
       /\ Forall quiet new.
Proof.
  intros Hr Hh Hl Hs H Hcase. rewrite (poll_one_plain t w d Hr Hl Hs) in H.
  unfold poll_one_tail in H. unfold bind at 1 in H. unfold gets at 1 in H.
  cbn beta iota in H.
  assert (Hst1 : state (seen_dhcsr d t) = state t) by reflexivity.
  assert (Hh1 : has_bits (dcb_dhcsr (cortex_m (seen_dhcsr d t))) S_HALT = true)
    by exact Hh.
  rewrite Hst1 in H.
  destruct Hcase as [(Hst & Hsmp & Hsemi)|Hst]; rewrite Hst in *;
    cbn [state_eqb] in *.
  - destruct (poll_one_halted TARGET_RUNNING ERROR_OK (seen_dhcsr d t)
                (after_read DCB_DHCSR w)) as [[o1 t1] w1] eqn:E.
    destruct (poll_one_halted_delivers ERROR_OK (seen_dhcsr d t)
                (after_read DCB_DHCSR w) _ _ _ Hsmp Hsemi E)
      as (Hs1 & Hpp & _ & Hev & Hret).
    destruct (poll_one_states_after_halt TARGET_RUNNING ERROR_OK _ _ _ t1 w1
                Hh1 ltac:(discriminate) E Hs1 Hret r t' w' H)
      as (returned & -> & -> & ->).
    split; [exact Hs1|]. split; [exact Hpp|].
    destruct (Hev _ eq_refl) as (new & Htr & Hq).
    exists (EvApRead true DCB_DHCSR :: new). rewrite Htr.
    cbn [after_read trace]. rewrite <- !app_assoc.
    split; [reflexivity|]. constructor; [exact I|exact Hq].
  - destruct (poll_one_halted TARGET_DEBUG_RUNNING ERROR_OK (seen_dhcsr d t)
                (after_read DCB_DHCSR w)) as [[o1 t1] w1] eqn:E.
    destruct (poll_one_halted_debug _ _ _ _ _ _ E) as (Hs1 & Hpp & Hev & Hret).
    destruct (poll_one_states_after_halt TARGET_DEBUG_RUNNING ERROR_OK _ _ _ t1 w1
                Hh1 ltac:(discriminate) E Hs1 Hret r t' w' H)
      as (returned & -> & -> & ->).
    split; [exact Hs1|]. split; [exact Hpp|].
    destruct (Hev _ eq_refl) as (new & Htr & Hq).
    exists (EvApRead true DCB_DHCSR :: new). rewrite Htr.
    cbn [after_read trace]. rewrite <- !app_assoc.
    split; [reflexivity|]. constructor; [exact I|exact Hq].
Qed.



(** ** Poll: lockup *)

(** When arm_semihosting does not take the halt over, the S_HALT block
    makes cortex_m_poll_one return only with a code that is not OK. *)
Lemma poll_one_halted_returned prev retval t w r t' w' :
  never_semihosted (probe_of w) ->
  poll_one_halted prev retval t w = (Done (r, true), t', w') ->
  is_ok r = false.
Proof.
  intros Hsemi H. unfold poll_one_halted in H.
  unfold bind at 1 in H. unfold modify at 1 in H. cbn beta iota in H.
  unfold bind at 1 in H.
  assert (Hfirst : forall o1 t1 w1,
    (if state_eqb prev TARGET_RUNNING || state_eqb prev TARGET_RESET
     then
       do retval <- cortex_m_debug_entry;
       do '(handled, code) <-
         (if is_ok retval then arm_semihosting else ret (false, retval));
       if handled then ret (code, true) else
       do is_smp <- gets smp;
       run (if is_smp
            then modify (set_smp_halt_event_postponed true)
            else target_call_event_callbacks TARGET_EVENT_HALTED);
       ret (retval, false)
     else ret (retval, false)) (set_state TARGET_HALTED t) w = (o1, t1, w1) ->
    forall x returned, o1 = Done (x, returned) -> returned = false).
  { intros o1 t1 w1 E x returned ->.
    destruct (state_eqb prev TARGET_RUNNING || state_eqb prev TARGET_RESET).
    - unfold bind at 1 in E.
      pose proof (debug_entry_quiet (set_state TARGET_HALTED t) w) as Hde.
      destruct (cortex_m_debug_entry (set_state TARGET_HALTED t) w) as [[o2 t2] w2].
      cbn [fst snd] in Hde. destruct Hde as ((Hp & _) & _).
      destruct o2 as [r2|]; [|discriminate E].
      unfold bind at 1 in E. destruct (is_ok r2).
      + rewrite arm_semihosting_run in E. specialize (Hsemi (tick w2)).
        rewrite <- Hp in Hsemi.
        destruct (semihosting (probe_of w2) (tick w2)) as [handled code].
        cbn [fst] in Hsemi. subst handled. cbn beta iota in E.
        unfold bind at 1 in E. unfold gets at 1 in E. cbn beta iota in E.
        unfold bind at 1 in E.
        destruct (smp t2);
          unfold modify, target_call_event_callbacks, bind, gets, emit, ret in E;
          cbn beta iota in E; injection E as _ <- _ _; reflexivity.
      + unfold ret at 1 in E. cbn beta iota in E.
        unfold bind at 1 in E. unfold gets at 1 in E. cbn beta iota in E.
        unfold bind at 1 in E.
        destruct (smp t2);
          unfold modify, target_call_event_callbacks, bind, gets, emit, ret in E;
          cbn beta iota in E; injection E as _ <- _ _; reflexivity.
    - unfold ret in E. injection E as _ <- _ _. reflexivity. }
  match type of H with
  | context [match ?m ?s ?w0 with _ => _ end] =>
    specialize (Hfirst (m s w0).1.1 (m s w0).1.2 (m s w0).2);
    destruct (m s w0) as [[o1 t1] w1]
  end.
  cbn [fst snd] in Hfirst. specialize (Hfirst eq_refl).
  destruct o1 as [[r1 returned]|]; [|discriminate H].
  specialize (Hfirst _ _ eq_refl). subst returned. cbn beta iota in H.
  unfold bind at 1 in H.
  match type of H with
  | context [match ?m ?s ?w0 with _ => _ end] =>
    destruct (m s w0) as [[[r2|] t2] w2]
  end; [|discriminate H].
  destruct (is_ok r2) eqn:E2; cbn [negb] in H; unfold ret in H.
  - injection H as _ H _ _. discriminate H.
  - injection H as <- _ _. exact E2.
Qed.

Lemma poll_one_halted_probe prev retval t w :
  probe_of (poll_one_halted prev retval t w).2 = probe_of w.
Proof.
  assert (H : orderly (poll_one_halted prev retval)) by auto with steps_db.
  apply H.
Qed.

(** A failure detected and cleared earlier in the poll is what the poll
    reports in the end. *)
Lemma poll_one_states_reports prev retval df t w r t' w' :
  is_ok df = false -> never_semihosted (probe_of w) ->
  poll_one_states prev retval df t w = (Done r, t', w') ->
  is_ok r = false.
Proof.
  intros Hdf Hsemi H. unfold poll_one_states in H.
  unfold bind at 1 in H. unfold get_cm at 1, gets at 1 in H. cbn beta iota in H.
  unfold bind at 1 in H.
  assert (Hret : forall o1 t1 w1,
    (if has_bits (dcb_dhcsr (target_to_cm t)) S_HALT
     then poll_one_halted prev retval else ret (retval, false)) t w = (o1, t1, w1) ->
    forall x, o1 = Done (x, true) -> is_ok x = false).
  { intros o1 t1 w1 E x ->. destruct (has_bits _ S_HALT).
    - eapply poll_one_halted_returned; eauto.
    - unfold ret in E. injection E as _ E _ _. discriminate E. }
  match type of H with
  | context [match ?m ?s ?w0 with _ => _ end] =>
    destruct (m s w0) as [[o1 t1] w1] eqn:E
  end.
  specialize (Hret o1 t1 w1 E).
  destruct o1 as [[r1 returned]|]; [|discriminate H]. cbn beta iota in H.
  destruct returned.
  - unfold ret in H. injection H as <- _ _. apply Hret. reflexivity.
  - rewrite Hdf in H. cbn [negb] in H.
    cbv [bind gets get_cm modify register_cache_invalidate log
         target_call_event_callbacks emit ret] in H.
    repeat match type of H with
           | context [if ?b then _ else _] => destruct b
           end; injection H as <- _ _; exact Hdf.
Qed.

Lemma poll_one_tail_reports prev df t w r t' w' :
  is_ok df = false -> never_semihosted (probe_of w) ->
  poll_one_tail prev df t w = (Done r, t', w') ->
  is_ok r = false.
Proof.
  intros Hdf Hsemi H. unfold poll_one_tail in H.
  unfold bind at 1 in H. unfold gets at 1 in H. cbn beta iota in H.
  destruct (state_eqb (state t) TARGET_RESET).
  - unfold bind at 1 in H.
    pose proof (endreset_event_quiet t w) as He.
    destruct (cortex_m_endreset_event t w) as [[o1 t1] w1].
    cbn [fst snd] in He. destruct He as ((Hp & _) & _).
    destruct o1 as [r1|]; [|discriminate H].
    destruct (is_ok r1) eqn:E1; cbn [negb] in H.
    + unfold bind at 1, modify at 1 in H. cbn beta iota in H.
      eapply poll_one_states_reports; [exact Hdf| |exact H].
      rewrite Hp. exact Hsemi.
    + unfold bind, modify, ret in H. cbn beta iota in H.
      injection H as <- _ _. exact E1.
  - eapply poll_one_states_reports; eauto.
Qed.

(** What a poll that returned has done on reading S_LOCKUP. *)
Lemma poll_one_lockup_report t w d r t' w' :
  ap_read (probe_of w) (tick w) DCB_DHCSR = (ERROR_OK, d) ->
  has_bits (u32 d) S_LOCKUP = true ->
  never_semihosted (probe_of w) ->
  cortex_m_poll_one t w = (Done r, t', w') ->
  (exists new,
     trace w' = trace w
                ++ [EvApRead true DCB_DHCSR;
                    EvLog (coreid t) LOG_clearing_lockup;
                    EvApWrite true DCB_DHCSR (rebuilt_dhcsr (u32 d) C_HALT 0)]
                ++ new)
  /\ (r = ERROR_OK -> state t' = TARGET_RESET).
Proof.
  intros Hr Hl Hsemi H. unfold cortex_m_poll_one in H.
  unfold bind at 1 in H. unfold gets at 1 in H. cbn beta iota in H.
  unfold bind at 1 in H. rewrite read_dhcsr_run in H. cbv zeta in H.
  rewrite Hr in H. cbn [fst snd is_ok negb] in H.
  unfold bind at 1 in H. unfold get_cm at 1, gets at 1 in H. cbn beta iota in H.
  cbn [target_to_cm cortex_m upd_cm set_cortex_m dcb_dhcsr set_dcb_dhcsr set_sticky]
    in H.
  rewrite Hl in H. unfold bind at 1 in H. unfold bind at 1 in H.
  rewrite log_run in H. unfold bind at 1 in H.
  rewrite write_debug_halt_mask_eq in H. cbv zeta in H.
  unfold bind at 1, modify at 1 in H. cbn beta iota in H.
  unfold bind at 1 in H. rewrite read_dhcsr_run in H. cbv zeta in H.
  cbn [probe_of tick trace coreid cortex_m upd_cm set_cortex_m dcb_dhcsr
       set_dcb_dhcsr set_sticky set_debug_reason] in H.
  match type of H with
  | context [mk_world (probe_of w) (S (S (S (tick w)))) ?tr] =>
    remember (mk_world (probe_of w) (S (S (S (tick w)))) tr) as w2 eqn:Hw2
  end.
  assert (Htr2 : exists mid, trace w2 = trace w
                ++ [EvApRead true DCB_DHCSR;
                    EvLog (coreid t) LOG_clearing_lockup;
                    EvApWrite true DCB_DHCSR (rebuilt_dhcsr (u32 d) C_HALT 0)]
                ++ mid).
  { eexists [_]. rewrite Hw2. cbn [trace]. rewrite <- !app_assoc. reflexivity. }
  assert (Hp2 : probe_of w2 = probe_of w) by (rewrite Hw2; reflexivity).
  clear Hw2. destruct Htr2 as (mid & Htr2).
  assert (Hext : forall (m : M retcode) s,
            orderly m -> exists new, trace (m s w2).2 = trace w
                ++ [EvApRead true DCB_DHCSR;
                    EvLog (coreid t) LOG_clearing_lockup;
                    EvApWrite true DCB_DHCSR (rebuilt_dhcsr (u32 d) C_HALT 0)]
                ++ new).
  { intros m s Hm. destruct (Hm s w2) as (_ & _ & new & Htr & _).
    exists (mid ++ new). rewrite Htr, Htr2, <- !app_assoc. reflexivity. }
  destruct (ap_read (probe_of w) (S (S (tick w))) DCB_DHCSR) as [r2 d2].
  cbn [fst snd] in H.
  destruct (is_ok r2) eqn:E2;
    match type of H with
    | context [ret _ ?s _] => revert H; generalize s; intros s2 H
    end;
    unfold ret at 1 in H; cbn beta iota in H; rewrite ?E2 in H.
  - cbn [is_ok negb] in H. cbn beta iota in H.
    unfold bind at 1 in H. unfold get_cm at 1, gets at 1 in H. cbn beta iota in H.
    match type of H with
    | context [has_bits ?x S_RESET_ST] => destruct (has_bits x S_RESET_ST)
    end.
    + unfold log, bind, modify, gets, emit, ret in H. cbn beta iota in H.
      destruct (state_eqb _ TARGET_RESET) eqn:Es; cbn [negb] in H;
        injection H as <- <- <-.
      * split; [exists mid; exact Htr2|]. intros _.
        match type of Es with
        | state_eqb ?s _ = _ => change (s = TARGET_RESET); destruct s
        end; try discriminate Es. reflexivity.
      * split; [|intros _; reflexivity].
        cbn [trace]. rewrite Htr2. eexists (mid ++ [_]).
        rewrite <- !app_assoc. reflexivity.
    + split.
      * match type of H with
        | poll_one_tail ?p ?df ?s w2 = _ =>
          destruct (Hext (poll_one_tail p df) s) as (new & Hn);
            [auto with steps_db|]
        end.
        rewrite H in Hn. exists new. exact Hn.
      * intros ->. apply poll_one_tail_reports in H;
          [discriminate H|reflexivity|rewrite Hp2; exact Hsemi].
  - cbn [negb] in H. unfold ret in H. injection H as <- <- <-.
    split; [exists mid; exact Htr2|intros ->; discriminate E2].
Qed.

(** X14: a poll that reads S_LOCKUP in DHCSR returns; it logs the lockup,
    writes DHCSR with C_HALT set right after the read, and reports a
    failure in the end: it answers OK only when the same poll found a reset
    pending, and then leaves the target in state RESET (arm_semihosting
    taking the halt over set aside). *)
Theorem poll_one_lockup_reports_failure t w d :
  ap_read (probe_of w) (tick w) DCB_DHCSR = (ERROR_OK, d) ->
  has_bits (u32 d) S_LOCKUP = true ->
  never_semihosted (probe_of w) ->
  timely (probe_of w) ->
  exists r t' w' new,
    cortex_m_poll_one t w = (Done r, t', w')
    /\ trace w' = trace w
                  ++ [EvApRead true DCB_DHCSR;
                      EvLog (coreid t) LOG_clearing_lockup;
                      EvApWrite true DCB_DHCSR (rebuilt_dhcsr (u32 d) C_HALT 0)]
                  ++ new
    /\ (r = ERROR_OK -> state t' = TARGET_RESET).
Proof.
  intros H1 H2 Hs Hw.
  destruct (proj2 (returns_run _) poll_one_returns t w Hw) as (r & t' & w' & E & _).
  destruct (poll_one_lockup_report t w d r t' w' H1 H2 Hs E) as ((new & Htr) & Hr).
  exists r, t', w', new. auto.
Qed.

Lemma poll_one_lockup_witness :
  exists t' w' new,
    cortex_m_poll_one Samples.dcc_core (Scenario.steady_world Samples.lockup_dhcsr)
    = (Done ERROR_FAIL, t', w')
    /\ trace w'
       = [EvApRead true DCB_DHCSR; EvLog 0 LOG_clearing_lockup;
          EvApWrite true DCB_DHCSR
            (rebuilt_dhcsr (u32 Samples.lockup_dhcsr) C_HALT 0)] ++ new.
Proof.
  edestruct (poll_one_lockup_reports_failure Samples.dcc_core
               (Scenario.steady_world Samples.lockup_dhcsr)
               Samples.lockup_dhcsr) as (r & t' & w' & new & E & Htr & _).
  - reflexivity.
  - reflexivity.
  - intros n. reflexivity.
  - apply steady_timely.
  - pose proof (f_equal (fun x => x.1.1) E) as Er.
    cbn [fst snd] in Er. vm_compute in Er. injection Er as <-.
    exists t', w', new. split; [exact E|exact Htr].
Defined.

(** ** DCRDR across register transfers *)

Lemma dcrdr_writes_app a b : dcrdr_writes (a ++ b) = dcrdr_writes a ++ dcrdr_writes b.
Proof. apply omap_app. Qed.

Lemma leaves_dcrdr_writes l : Forall leaves_dcrdr l -> dcrdr_writes l = [].
Proof.
  induction 1 as [|e l He _ IH]; [reflexivity|].
  unfold dcrdr_writes in *. cbn [omap list_omap]. rewrite IH.
  destruct e; try reflexivity. cbn in He.
  destruct (Z.eqb_spec address DCB_DCRDR); [contradiction|reflexivity].
Qed.

Abbreviation sparing m := (steps leaves_dcrdr (fun (_ : world) (_ _ : target) => True) m).

Lemma read_dhcsr_sparing : sparing cortex_m_read_dhcsr_atomic_sticky.
Proof.
  unfold cortex_m_read_dhcsr_atomic_sticky, mem_ap_read_atomic_u32,
    cortex_m_cumulate_dhcsr_sticky.
  steps_auto.
Qed.

Lemma store_core_reg_wait_sparing fuel then_ : sparing (store_core_reg_wait fuel then_).
Proof.
  induction fuel as [|fuel IH]; cbn [store_core_reg_wait]; [steps_auto|].
  apply steps_on_ok; [exact _|apply read_dhcsr_sparing|].
  unfold log, keep_alive, call. steps_auto.
Qed.

Lemma load_core_reg_wait_sparing fuel then_ : sparing (load_core_reg_wait fuel then_).
Proof.
  induction fuel as [|fuel IH]; cbn [load_core_reg_wait]; [steps_auto|].
  unfold mem_ap_read_u32, mem_ap_read_atomic_u32, cortex_m_cumulate_dhcsr_sticky,
    log, keep_alive, call.
  steps_auto.
Qed.

Lemma done_inv {St A} (a a' : A) (s s' : St) (w w' : world) :
  (Done a, s, w) = (Done a', s', w') -> a = a' /\ s = s' /\ w = w'.
Proof. intros H. injection H as -> -> ->. auto. Qed.

Lemma mem_ap_read_u32_run a t w :
  mem_ap_read_u32 a t w =
  (Done ((ap_read (probe_of w) (tick w) a).1, u32 (ap_read (probe_of w) (tick w) a).2),
   t, mk_world (probe_of w) (S (tick w)) (trace w ++ [EvApRead false a])).
Proof. reflexivity. Qed.

Lemma mem_ap_write_u32_run a v t w :
  mem_ap_write_u32 a v t w =
  (Done (ap_write (probe_of w) (tick w) a v), t,
   mk_world (probe_of w) (S (tick w)) (trace w ++ [EvApWrite false a v])).
Proof. reflexivity. Qed.

Lemma mem_ap_write_atomic_u32_run a v t w :
  mem_ap_write_atomic_u32 a v t w =
  (Done (ap_write (probe_of w) (tick w) a v), t,
   mk_world (probe_of w) (S (tick w)) (trace w ++ [EvApWrite true a v])).
Proof. reflexivity. Qed.

(** The S_REGRDY wait of a register write returns before its polls are
    used up: each poll takes three consultations of the probe. *)
Lemma store_core_reg_wait_returns p d n0 :
  clock_runs p d ->
  forall fuel t w,
    probe_of w = p -> (0 < fuel)%nat -> (n0 + d + 2 <= tick w + 3 * fuel)%nat ->
    exists a t' w',
      store_core_reg_wait fuel (clock_ms p n0) t w = (Done a, t', w')
      /\ probe_of w' = p.
Proof.
  intros Hc. induction fuel as [|fuel IH]; intros t w Hp Hf Hn; [lia|].
  cbn [store_core_reg_wait].
  unfold on_ok; unfold bind at 1; rewrite read_dhcsr_run; cbv zeta.
  destruct (ap_read (probe_of w) (tick w) DCB_DHCSR) as [r1 v1]. cbn [fst snd].
  destruct (is_ok r1) eqn:Eok; cbn beta iota.
  2:{ rewrite Eok. eexists _, _, _. split; [reflexivity|exact Hp]. }
  cbn [is_ok].
  unfold bind, get_cm, gets, timeval_ms, consult; cbn beta iota;
    cbn [target_to_cm cortex_m upd_cm set_cortex_m dcb_dhcsr set_dcb_dhcsr
         set_sticky probe_of tick trace].
  destruct (has_bits (u32 v1) S_REGRDY);
    [eexists _, _, _; split; [reflexivity|exact Hp]|].
  cbn beta iota; cbn [probe_of tick trace]. rewrite Hp.
  destruct (clock_ms p (S (tick w)) >? clock_ms p n0 + DHCSR_S_REGRDY_TIMEOUT)
    eqn:Et.
  - unfold log, bind, gets, emit. cbn beta iota.
    eexists _, _, _. split; reflexivity.
  - unfold keep_alive, call, bind, emit, consult, ret. cbn beta iota.
    cbn [probe_of tick trace].
    assert (Hlt : (S (tick w) < n0 + d)%nat).
    { destruct (Nat.lt_ge_cases (S (tick w)) (n0 + d)) as [H|H]; [exact H|].
      specialize (Hc n0 (S (tick w)) H).
      rewrite Z.gtb_ltb in Et. apply Z.ltb_ge in Et.
      unfold DHCSR_S_REGRDY_TIMEOUT in Et. lia. }
    apply IH; cbn [probe_of tick]; [reflexivity|lia|lia].
Qed.

Lemma store_core_reg_u32_returns regsel v : returns (cortex_m_store_core_reg_u32 regsel v).
Proof.
  unfold cortex_m_store_core_reg_u32.
  apply returns_bind; [returns_auto|]. intros dbg.
  apply returns_bind; [returns_auto|]. intros [retval dcrdr].
  destruct (negb (is_ok retval)); [returns_auto|].
  apply returns_on_ok; [returns_auto|].
  apply returns_on_ok; [returns_auto|].
  apply returns_run. intros t w Hw.
  pose proof (timely_bound _ Hw) as Hb.
  unfold bind at 1. unfold timeval_ms at 1, consult. cbn beta iota.
  unfold bind at 1. unfold asks at 1. cbn beta iota. cbn [probe_of].
  unfold on_ok. unfold bind at 1.
  match goal with
  | |- context [store_core_reg_wait ?f (clock_ms ?p ?n) ?s ?w0] =>
    destruct (store_core_reg_wait_returns p f n Hw f s w0)
      as (a & t1 & w1 & E & Hp);
      [reflexivity|exact Hb|cbn [tick]; lia|rewrite E]
  end.
  assert (Hw1 : timely (probe_of w1)) by (rewrite Hp; exact Hw).
  destruct (is_ok a); [|eexists _, _, _; split; [reflexivity|exact Hp]].
  destruct dbg.
  - destruct (proj2 (returns_run _) (mem_ap_write_atomic_u32_returns DCB_DCRDR dcrdr)
                t1 w1 Hw1) as (a2 & t2 & w2 & E2 & Hp2).
    rewrite E2. eexists _, _, _. split; [reflexivity|congruence].
  - eexists _, _, _. split; [reflexivity|exact Hp].
Qed.

(** What a register write that answered OK has done to DCRDR. *)
Lemma store_core_reg_dcrdr regsel value t w t' w' :
  cortex_m_store_core_reg_u32 regsel value t w = (Done ERROR_OK, t', w') ->
  exists new,
    trace w' = trace w ++ new
    /\ if dbg_msg_enabled t
       then hd_error new = Some (EvApRead false DCB_DCRDR)
            /\ dcrdr_writes new = [value; saved_dcrdr w]
            /\ last new = Some (EvApWrite true DCB_DCRDR (saved_dcrdr w))
       else dcrdr_writes new = [value].
Proof.
  intros H. unfold cortex_m_store_core_reg_u32 in H.
  unfold bind at 1 in H. unfold gets at 1 in H. cbn beta iota in H.
  unfold bind at 1 in H.
  assert (Hfirst : exists w1 pre,
    (if dbg_msg_enabled t then mem_ap_read_u32 DCB_DCRDR else ret (ERROR_OK, 0)) t w
    = (Done (if dbg_msg_enabled t
             then ((ap_read (probe_of w) (tick w) DCB_DCRDR).1, saved_dcrdr w)
             else (ERROR_OK, 0)), t, w1)
    /\ trace w1 = trace w ++ pre
    /\ pre = (if dbg_msg_enabled t then [EvApRead false DCB_DCRDR] else [])).
  { destruct (dbg_msg_enabled t).
    - rewrite mem_ap_read_u32_run. eexists _, _. repeat split.
    - exists w, []. rewrite app_nil_r. repeat split. }
  destruct Hfirst as (w1 & pre & E1 & Htr1 & Hpre).
  rewrite_run_in E1 H. clear E1.
  revert H. generalize dependent w1. intros w1 Htr1.
  set (saved := saved_dcrdr w) in *. clearbody saved.
  intros H.
  assert (Hcode : exists r1 d1,
    (if dbg_msg_enabled t
     then ((ap_read (probe_of w) (tick w) DCB_DCRDR).1, saved)
     else (ERROR_OK, 0)) = (r1, d1)
    /\ (dbg_msg_enabled t = true -> d1 = saved)).
  { destruct (dbg_msg_enabled t); eexists _, _;
      (split; [reflexivity|intros E; try discriminate E; reflexivity]). }
  destruct Hcode as (r1 & d1 & Ec & Hd1). rewrite Ec in H. clear Ec.
  cbn beta iota in H.
  destruct (is_ok r1) eqn:Er1; cbn [negb] in H;
    [|unfold ret in H; apply done_inv in H as (E & _); subst r1; discriminate Er1].
  unfold on_ok at 1 in H. unfold bind at 1 in H.
  rewrite mem_ap_write_u32_run in H.
  destruct (is_ok (ap_write (probe_of w1) (tick w1) DCB_DCRDR value)) eqn:Ew1;
    [|unfold ret in H; apply done_inv in H as (E & _); rewrite E in Ew1; discriminate Ew1].
  unfold on_ok at 1 in H. unfold bind at 1 in H.
  rewrite mem_ap_write_u32_run in H.
  cbn [probe_of tick trace] in H.
  destruct (is_ok (ap_write (probe_of w1) (S (tick w1)) DCB_DCRSR
                     (Z.lor regsel DCRSR_WNR))) eqn:Ew2;
    [|unfold ret in H; apply done_inv in H as (E & _); rewrite E in Ew2; discriminate Ew2].
  unfold bind at 1 in H. unfold timeval_ms at 1, consult at 1 in H.
  cbn beta iota in H. cbn [probe_of tick trace] in H.
  unfold bind at 1 in H. unfold asks at 1 in H. cbn beta iota in H.
  cbn [probe_of tick trace] in H.
  unfold on_ok at 1 in H. unfold bind at 1 in H.
  match type of H with
  | context [store_core_reg_wait ?f ?th ?s ?w0] =>
    pose proof (store_core_reg_wait_sparing f th s w0) as (_ & _ & mid & Hmid & Hsp);
      destruct (store_core_reg_wait f th s w0) as [[o2 t2] w2]
  end.
  cbn [fst snd trace] in Hmid.
  destruct o2 as [r2|]; [|discriminate H].
  destruct (is_ok r2) eqn:Er2;
    [|unfold ret in H; apply done_inv in H as (E & _); subst r2; discriminate Er2].
  apply leaves_dcrdr_writes in Hsp.
  destruct (dbg_msg_enabled t).
  - rewrite mem_ap_write_atomic_u32_run in H. apply done_inv in H as (_ & _ & <-).
    cbn [trace]. rewrite Hmid, Htr1, Hpre, Hd1 by reflexivity.
    eexists. split; [rewrite <- !app_assoc; reflexivity|].
    split; [reflexivity|]. split.
    + cbn [app]. unfold dcrdr_writes at 1. cbn [omap list_omap].
      change (DCB_DCRDR =? DCB_DCRDR) with true.
      change (DCB_DCRSR =? DCB_DCRDR) with false. cbn beta iota.
      fold (dcrdr_writes (mid ++ [EvApWrite true DCB_DCRDR saved])).
      rewrite dcrdr_writes_app, Hsp. reflexivity.
    + cbn [app]. rewrite !last_cons, last_snoc. reflexivity.
  - unfold ret in H. apply done_inv in H as (_ & _ & <-).
    rewrite Hmid, Htr1, Hpre.
    eexists. split; [rewrite <- !app_assoc; reflexivity|].
    cbn [app]. unfold dcrdr_writes at 1. cbn [omap list_omap].
    change (DCB_DCRDR =? DCB_DCRDR) with true.
    change (DCB_DCRSR =? DCB_DCRDR) with false. cbn beta iota.
    fold (dcrdr_writes mid). rewrite Hsp. reflexivity.
Qed.

(** X15: a register write returns, and when it answers OK it leaves DCRDR
    as the emulated DCC channel needs it.  With debug messages enabled it
    reads DCRDR first, and the only writes to DCRDR are the value for the
    register and then, as the last transaction of all, the content read at
    the start; with debug messages disabled the value for the register is
    the only write. *)
Theorem store_core_reg_restores_dcrdr regsel value t w :
  timely (probe_of w) ->
  exists r t' w',
    cortex_m_store_core_reg_u32 regsel value t w = (Done r, t', w')
    /\ (r = ERROR_OK ->
        exists new,
          trace w' = trace w ++ new
          /\ if dbg_msg_enabled t
             then hd_error new = Some (EvApRead false DCB_DCRDR)
                  /\ dcrdr_writes new = [value; saved_dcrdr w]
                  /\ last new = Some (EvApWrite true DCB_DCRDR (saved_dcrdr w))
             else dcrdr_writes new = [value]).
Proof.
  intros Hw.
  destruct (proj2 (returns_run _) (store_core_reg_u32_returns regsel value) t w Hw)
    as (r & t' & w' & E & _).
  exists r, t', w'. split; [exact E|].
  intros ->. exact (store_core_reg_dcrdr regsel value t w t' w' E).
Qed.

Lemma store_core_reg_restores_dcrdr_witness :
  exists t' w' new,
    cortex_m_store_core_reg_u32 0 7 Samples.dcc_core Samples.ready_world
    = (Done ERROR_OK, t', w')
    /\ trace w' = new
    /\ dcrdr_writes new = [7; 0xBEEF].
Proof.
  edestruct (store_core_reg_restores_dcrdr 0 7 Samples.dcc_core Samples.ready_world)
    as (r & t' & w' & E & H).
  - intros m n Hmn. cbn in *. lia.
  - pose proof (f_equal (fun x => x.1.1) E) as Er.
    cbn [fst snd] in Er. vm_compute in Er. injection Er as <-.
    destruct (H eq_refl) as (new & Htr & _ & Hwr & _).
    exists t', w', new. split; [exact E|]. split; [exact Htr|exact Hwr].
Defined.

(** What a register read that answered OK has done to DCRDR. *)
Lemma load_core_reg_dcrdr regsel t w v t' w' :
  cortex_m_load_core_reg_u32 regsel t w = (Done (ERROR_OK, v), t', w') ->
  exists new,
    trace w' = trace w ++ new
    /\ In (EvApWrite false DCB_DCRSR regsel) new
    /\ if dbg_msg_enabled t
       then hd_error new = Some (EvApRead false DCB_DCRDR)
            /\ dcrdr_writes new = [saved_dcrdr w]
            /\ last new = Some (EvApWrite true DCB_DCRDR (saved_dcrdr w))
       else dcrdr_writes new = [].
Proof.
  intros H. unfold cortex_m_load_core_reg_u32 in H.
  unfold bind at 1 in H. unfold gets at 1 in H. cbn beta iota in H.
  unfold bind at 1 in H.
  assert (Hfirst : exists w1 pre,
    (if dbg_msg_enabled t then mem_ap_read_u32 DCB_DCRDR else ret (ERROR_OK, 0)) t w
    = (Done (if dbg_msg_enabled t
             then ((ap_read (probe_of w) (tick w) DCB_DCRDR).1, saved_dcrdr w)
             else (ERROR_OK, 0)), t, w1)
    /\ trace w1 = trace w ++ pre
    /\ pre = (if dbg_msg_enabled t then [EvApRead false DCB_DCRDR] else [])).
  { destruct (dbg_msg_enabled t).
    - rewrite mem_ap_read_u32_run. eexists _, _. repeat split.
    - exists w, []. rewrite app_nil_r. repeat split. }
  destruct Hfirst as (w1 & pre & E1 & Htr1 & Hpre).
  rewrite_run_in E1 H. clear E1.
  revert H. generalize dependent w1. intros w1 Htr1.
  set (saved := saved_dcrdr w) in *. clearbody saved.
  intros H.
  assert (Hcode : exists r1 d1,
    (if dbg_msg_enabled t
     then ((ap_read (probe_of w) (tick w) DCB_DCRDR).1, saved)
     else (ERROR_OK, 0)) = (r1, d1)
    /\ (dbg_msg_enabled t = true -> d1 = saved)).
  { destruct (dbg_msg_enabled t); eexists _, _;
      (split; [reflexivity|intros E; try discriminate E; reflexivity]). }
  destruct Hcode as (r1 & d1 & Ec & Hd1). rewrite Ec in H. clear Ec.
  cbn beta iota in H.
  destruct (is_ok r1) eqn:Er1; cbn [negb] in H;
    [|unfold ret in H; apply done_inv in H as (E & _); injection E as E _;
      subst r1; discriminate Er1].
  unfold bind at 1 in H. rewrite mem_ap_write_u32_run in H.
  destruct (is_ok (ap_write (probe_of w1) (tick w1) DCB_DCRSR regsel)) eqn:Ew1;
    cbn [negb] in H;
    [|unfold ret in H; apply done_inv in H as (E & _); injection E as E _;
      rewrite E in Ew1; discriminate Ew1].
  unfold bind at 1 in H. unfold timeval_ms at 1, consult at 1 in H.
  cbn beta iota in H. cbn [probe_of tick trace] in H.
  unfold bind at 1 in H. unfold asks at 1 in H. cbn beta iota in H.
  cbn [probe_of tick trace] in H.
  unfold bind at 1 in H.
  match type of H with
  | context [load_core_reg_wait ?f ?th ?s ?w0] =>
    pose proof (load_core_reg_wait_sparing f th s w0) as (_ & _ & mid & Hmid & Hsp);
      destruct (load_core_reg_wait f th s w0) as [[o2 t2] w2]
  end.
  cbn [fst snd trace] in Hmid.
  destruct o2 as [[r2 v2]|]; [|discriminate H]. cbn beta iota in H.
  destruct (is_ok r2) eqn:Er2; cbn [negb] in H;
    [|unfold ret in H; apply done_inv in H as (E & _); injection E as E _;
      subst r2; discriminate Er2].
  apply leaves_dcrdr_writes in Hsp.
  destruct (dbg_msg_enabled t).
  - unfold bind at 1 in H. rewrite mem_ap_write_atomic_u32_run in H.
    unfold ret in H. apply done_inv in H as (_ & _ & <-).
    cbn [trace]. rewrite Hmid, Htr1, Hpre, Hd1 by reflexivity.
    eexists. split; [rewrite <- !app_assoc; reflexivity|].
    split; [cbn [app]; right; left; reflexivity|].
    split; [reflexivity|]. split.
    + cbn [app]. unfold dcrdr_writes at 1. cbn [omap list_omap].
      change (DCB_DCRSR =? DCB_DCRDR) with false. cbn beta iota.
      fold (dcrdr_writes (mid ++ [EvApWrite true DCB_DCRDR saved])).
      rewrite dcrdr_writes_app, Hsp. reflexivity.
    + cbn [app]. rewrite !last_cons, last_snoc. reflexivity.
  - unfold ret in H. apply done_inv in H as (_ & _ & <-).
    rewrite Hmid, Htr1, Hpre.
    eexists. split; [rewrite <- !app_assoc; reflexivity|].
    split; [cbn [app]; left; reflexivity|].
    cbn [app]. unfold dcrdr_writes at 1. cbn [omap list_omap].
    change (DCB_DCRSR =? DCB_DCRDR) with false. cbn beta iota.
    fold (dcrdr_writes mid). rewrite Hsp. reflexivity.
Qed.

(** X16: a register read returns, and when it answers OK it has restored
    DCRDR as well.  With debug messages enabled it reads DCRDR before it
    selects the register, and its only write to DCRDR, the last transaction
    of all, puts back the content read at the start; with debug messages
    disabled it never writes DCRDR. *)
Theorem load_core_reg_restores_dcrdr regsel t w :
  timely (probe_of w) ->
  exists r v t' w',
    cortex_m_load_core_reg_u32 regsel t w = (Done (r, v), t', w')
    /\ (r = ERROR_OK ->
        exists new,
          trace w' = trace w ++ new
          /\ In (EvApWrite false DCB_DCRSR regsel) new
          /\ if dbg_msg_enabled t
             then hd_error new = Some (EvApRead false DCB_DCRDR)
                  /\ dcrdr_writes new = [saved_dcrdr w]
                  /\ last new = Some (EvApWrite true DCB_DCRDR (saved_dcrdr w))
             else dcrdr_writes new = []).
Proof.
  intros Hw.
  destruct (proj2 (returns_run _) (load_core_reg_u32_returns regsel) t w Hw)
    as ([r v] & t' & w' & E & _).
  exists r, v, t', w'. split; [exact E|].
  intros ->. exact (load_core_reg_dcrdr regsel t w v t' w' E).
Qed.

Lemma load_core_reg_restores_dcrdr_witness :
  exists v t' w' new,
    cortex_m_load_core_reg_u32 0 Samples.dcc_core Samples.ready_world
    = (Done (ERROR_OK, v), t', w')
    /\ trace w' = new
    /\ dcrdr_writes new = [0xBEEF].
Proof.
  edestruct (load_core_reg_restores_dcrdr 0 Samples.dcc_core Samples.ready_world)
    as (r & v & t' & w' & E & H).
  - intros m n Hmn. cbn in *. lia.
  - pose proof (f_equal (fun x => x.1.1) E) as Er.
    cbn [fst snd] in Er. vm_compute in Er. injection Er as <- _.
    destruct (H eq_refl) as (new & Htr & _ & _ & Hwr & _).
    exists v, t', w', new. split; [exact E|]. split; [exact Htr|exact Hwr].
Defined.

(** ** Halting the SMP group *)

Lemma state_eqb_eq s s' : state_eqb s s' = true -> s = s'.
Proof. destruct s, s'; intros E; try discriminate E; reflexivity. Qed.

Lemma smp_halt_all_body_facts t w :
  exists r t' w',
    smp_halt_all_body t w = (Done r, t', w')
    /\ halt_requested t t'
    /\ (r <> ERROR_OK -> halt_refused r [t]).
Proof.
  rewrite smp_halt_all_body_run.
  destruct (examined t) eqn:Ex; cbn [negb orb].
  - destruct (state_eqb (state t) TARGET_HALTED) eqn:Eh.
    + apply state_eqb_eq in Eh.
      exists ERROR_OK, t, w. split; [reflexivity|].
      split; [|intros E; contradiction].
      split; [reflexivity|]. split; [reflexivity|]. intros _ E. contradiction.
    + assert (Hh : state t <> TARGET_HALTED).
      { intros E. rewrite E in Eh. discriminate Eh. }
      destruct (halt_one_facts t w) as (Hst & Hreset & Hrun).
      destruct (state_eqb (state t) TARGET_RESET) eqn:Er.
      * apply state_eqb_eq in Er. rewrite (Hreset Er) in Hst |- *.
        destruct (has_bits _ RESET_SRST_PULLS_TRST && jtag_srst _).
        -- eexists _, _, _. split; [reflexivity|]. split.
           ++ split; [reflexivity|]. split; [reflexivity|].
              intros _ _ E. contradiction.
           ++ intros _. split; [reflexivity|].
              exists t. split; [left; reflexivity|]. split; [exact Ex|exact Er].
        -- eexists _, _, _. split; [reflexivity|]. split.
           ++ split; [reflexivity|]. split.
              ** intros [E|E]; [congruence|contradiction].
              ** intros _ _ E. contradiction.
           ++ intros E. contradiction.
      * assert (Hr : state t <> TARGET_RESET).
        { intros E. rewrite E in Er. discriminate Er. }
        destruct (Hrun Hh Hr) as (t' & w' & new & rest & E & Hd & Hc & _).
        rewrite E in Hst. cbn [fst snd] in Hst.
        exists ERROR_OK, t', w'. split; [exact E|]. split.
        -- split; [exact Hst|]. split.
           ++ intros [E'|E']; [congruence|contradiction].
           ++ intros _ _ _. split; [exact Hd|exact Hc].
        -- intros E'. contradiction.
  - exists ERROR_OK, t, w. split; [reflexivity|].
    split; [|intros E; contradiction].
    split; [reflexivity|]. split; [reflexivity|]. intros E. congruence.
Qed.

Lemma foreach_smp_halt_all ts : forall r0 w,
  exists r ts' w',
    foreach_smp_target smp_halt_all_body r0 ts w = (Done r, ts', w')
    /\ Forall2 halt_requested ts ts'
    /\ (r <> ERROR_OK -> r = r0 \/ halt_refused r ts)
    /\ (r0 <> ERROR_OK -> r = r0).
Proof.
  induction ts as [|t ts IH]; intros r0 w.
  - exists r0, [], w. split; [reflexivity|]. split; [constructor|].
    split; [intros _; left; reflexivity|intros _; reflexivity].
  - cbn [foreach_smp_target].
    destruct (smp_halt_all_body_facts t w) as (r1 & t1 & w1 & E1 & Hreq & Hfail).
    rewrite E1.
    destruct (IH (if is_ok r0 then r1 else r0) w1)
      as (r & ts' & w' & E & Hall & Hr & Hkeep).
    rewrite E. exists r, (t1 :: ts'), w'. split; [reflexivity|].
    split; [constructor; assumption|].
    split.
    + intros Hne. destruct r0; cbn [is_ok] in *;
        try (left; apply Hkeep; intros E'; discriminate E').
      destruct (Hr Hne) as [->|(Er & t0 & Hin & Hx & Hs)].
      * right. destruct (Hfail Hne) as (Er & t0 & Hin & Hx & Hs).
        split; [exact Er|]. exists t0. split; [|split; assumption].
        destruct Hin as [<-|[]]. left. reflexivity.
      * right. split; [exact Er|]. exists t0.
        split; [right; exact Hin|split; assumption].
    + intros Hne. destruct r0; cbn [is_ok] in *;
        try (apply Hkeep; intros E'; discriminate E').
      contradiction.
Qed.

(** X17: cortex_m_smp_halt_all always completes and visits every core of
    the group, also after a failure.  It leaves the state of every core as
    it is; cores that are not examined or already HALTED are untouched;
    every other core that is not in RESET ends with debug reason DBGRQ and
    C_HALT in its cached DHCSR.  The code is OK unless an examined core of
    the group is held in RESET, and then it is TARGET_FAILURE. *)
Theorem smp_halt_all_requests_every_core ts w :
  exists r ts' w',
    cortex_m_smp_halt_all ts w = (Done r, ts', w')
    /\ Forall2 halt_requested ts ts'
    /\ (r <> ERROR_OK -> halt_refused r ts).
Proof.
  destruct (foreach_smp_halt_all ts ERROR_OK w) as (r & ts' & w' & E & Hall & Hr & _).
  exists r, ts', w'. split; [exact E|]. split; [exact Hall|].
  intros Hne. destruct (Hr Hne) as [->|H]; [contradiction|exact H].
Qed.

(** ** Reset with SRST *)

(** A run that completes and only appends to the trace can be stepped
    over; [acc] is what has been appended since [w0]. *)
Lemma pass_bind {A B} (m : M A) (k : A -> M B) t w w0 acc :
  completes m -> lawful m ->
  probe_of w = probe_of w0 -> trace w = trace w0 ++ acc ->
  exists a t1 w1 new,
    probe_of w1 = probe_of w0 /\ trace w1 = trace w0 ++ (acc ++ new)
    /\ bind m k t w = k a t1 w1.
Proof.
  intros Hc Hl Hp0 Htr0. destruct (Hc t w) as (a & Ea & _).
  destruct (Hl t w) as ((Hp & _) & _ & new & Htr & _).
  unfold bind. destruct (m t w) as [[o t1] w1]. cbn [fst snd] in *. subst o.
  exists a, t1, w1, new. split; [congruence|].
  split; [rewrite Htr, Htr0, app_assoc; reflexivity|reflexivity].
Qed.

Ltac pass :=
  match goal with
  | Hp : probe_of ?w = probe_of ?w0, Htr : trace ?w = trace ?w0 ++ ?acc
    |- context [bind ?m ?k ?t ?w] =>
    let a := fresh "a" in
    let t1 := fresh "t" in
    let w1 := fresh "w" in
    let new := fresh "new" in
    let Hp' := fresh "Hp" in
    let Htr' := fresh "Htr" in
    let E := fresh "E" in
    destruct (pass_bind m k t w w0 acc) as (a & t1 & w1 & new & Hp' & Htr' & E);
    [ yields_auto | steps_high | exact Hp | exact Htr
    | rewrite E; clear E Hp Htr; cbn beta iota ]
  end.

Lemma read_dhcsr_completes : completes cortex_m_read_dhcsr_atomic_sticky.
Proof.
  unfold cortex_m_read_dhcsr_atomic_sticky, cortex_m_cumulate_dhcsr_sticky.
  yields_auto.
Qed.

Lemma jtag_sleep_completes us : completes (jtag_sleep us).
Proof. unfold jtag_sleep. yields_auto. Qed.

Lemma target_examine_one_completes : completes target_examine_one.
Proof. unfold target_examine_one. yields_auto. Qed.

#[global] Hint Resolve read_dhcsr_completes jtag_sleep_completes
  target_examine_one_completes : yields_db.

(** An examination never takes the debug AP away. *)
Lemma target_examine_one_ap t w :
  exists r t1 w1,
    target_examine_one t w = (Done r, t1, w1)
    /\ probe_of w1 = probe_of w
    /\ trace w1 = trace w ++ [EvCall CALL_target_examine_one]
    /\ (debug_ap (armv7m (cortex_m t1)) = false ->
        debug_ap (armv7m (cortex_m t)) = false).
Proof.
  unfold target_examine_one. unfold bind at 1. rewrite call_run.
  unfold bind at 1.
  destruct (is_ok (collab (probe_of w) (tick w) CALL_target_examine_one)).
  - unfold modify, ret. eexists _, _, _. split; [reflexivity|].
    split; [reflexivity|]. split; [reflexivity|].
    intros E. discriminate E.
  - unfold ret. eexists _, _, _. split; [reflexivity|].
    split; [reflexivity|]. split; [reflexivity|]. auto.
Qed.

Lemma register_cache_invalidate_facts t w :
  exists t',
    register_cache_invalidate t w = (Done tt, t', w)
    /\ cache_invalid t' /\ state t' = state t /\ examined t' = examined t.
Proof.
  pose proof (register_cache_invalidate_invalid t w) as H.
  unfold register_cache_invalidate, modify in *. cbn [fst snd] in H.
  eexists. split; [reflexivity|]. split; [exact H|]. split; reflexivity.
Qed.

Lemma assert_reset_body_srst t w :
  reset_assert_action t = false ->
  has_bits (jtag_reset_config (probe_of w)) RESET_HAS_SRST = true ->
  exists halt_now t' w' new,
    assert_reset_body t w = (Done (ERROR_OK, halt_now), t', w')
    /\ state t' = TARGET_RESET /\ cache_invalid t'
    /\ (halt_now = true -> examined t' = true)
    /\ probe_of w' = probe_of w
    /\ trace w' = trace w ++ new
    /\ In (EvCall CALL_adapter_assert_reset) new.
Proof.
  intros Hscript Hsrst. unfold assert_reset_body.
  unfold bind at 1. unfold get_cm at 1, gets at 1. cbn beta iota.
  unfold bind at 1. unfold asks at 1. cbn beta iota.
  unfold bind at 1. unfold gets at 1. cbn beta iota. rewrite Hscript.
  unfold bind at 1. unfold get_armv7m at 1, gets at 1. cbn beta iota.
  rewrite Hsrst. rewrite !andb_true_l.
  unfold bind at 1.
  set (sa := has_bits (jtag_reset_config (probe_of w)) RESET_SRST_NO_GATING
             || negb (debug_ap (target_to_armv7m t))).
  assert (Hsa : exists w1 new1,
    (if sa then run call CALL_adapter_assert_reset; ret true else ret false) t w
    = (Done sa, t, w1)
    /\ probe_of w1 = probe_of w /\ trace w1 = trace w ++ new1
    /\ (sa = true -> In (EvCall CALL_adapter_assert_reset) new1)).
  { destruct sa.
    - unfold bind at 1. rewrite call_run. unfold ret.
      eexists _, [_]. split; [reflexivity|]. split; [reflexivity|].
      split; [reflexivity|]. intros _. left. reflexivity.
    - exists w, []. split; [reflexivity|]. split; [reflexivity|].
      split; [rewrite app_nil_r; reflexivity|]. intros E. discriminate E. }
  destruct Hsa as (w1 & new1 & E1 & Hp1 & Htr1 & Hin1).
  rewrite E1. clear E1.
  assert (Hap : debug_ap (target_to_armv7m t) = false -> sa = true).
  { intros E. unfold sa. rewrite E. apply orb_true_r. }
  clearbody sa.
  unfold bind at 1. unfold gets at 1. cbn beta iota.
  unfold bind at 1. unfold gets at 1. cbn beta iota.
  unfold bind at 1.
  assert (Hex : exists r t2 w2 new2,
    (if negb (examined t) && negb (defer_examine t) && sa
        && has_bits (jtag_reset_config (probe_of w)) RESET_SRST_NO_GATING
     then target_examine_one else ret ERROR_OK) t w1 = (Done r, t2, w2)
    /\ probe_of w2 = probe_of w /\ trace w2 = trace w ++ (new1 ++ new2)
    /\ (debug_ap (target_to_armv7m t2) = false ->
        debug_ap (target_to_armv7m t) = false)).
  { destruct (_ && has_bits _ RESET_SRST_NO_GATING).
    - destruct (target_examine_one_ap t w1) as (r & t2 & w2 & E & Hp & Htr & Hd).
      exists r, t2, w2, [EvCall CALL_target_examine_one].
      split; [exact E|]. split; [congruence|].
      split; [rewrite Htr, Htr1, app_assoc; reflexivity|exact Hd].
    - exists ERROR_OK, t, w1, []. split; [reflexivity|]. split; [exact Hp1|].
      split; [rewrite app_nil_r; exact Htr1|]. auto. }
  destruct Hex as (r2 & t2 & w2 & new2 & E2 & Hp2 & Htr2 & Hd2).
  rewrite_run E2. clear E2.
  unfold bind at 1. unfold get_armv7m at 1, gets at 1. cbn beta iota.
  destruct (debug_ap (target_to_armv7m t2)) eqn:Eap; cbn [negb].
  - (* the debug AP is there *)
    pass. pass. pass. pass. pass. pass. pass. pass.
    unfold bind at 1. unfold bind at 1.
    assert (Hcall : exists w10 new9,
      (if negb sa then call CALL_adapter_assert_reset else ret ERROR_OK) t8 w9
      = (Done (if negb sa then collab (probe_of w9) (tick w9) CALL_adapter_assert_reset
               else ERROR_OK), t8, w10)
      /\ probe_of w10 = probe_of w
      /\ trace w10 = trace w ++ new9
      /\ In (EvCall CALL_adapter_assert_reset) new9).
    { destruct sa; cbn [negb].
      - eexists w9, _. split; [reflexivity|]. split; [exact Hp0|].
        split; [exact Htr0|].
        repeat (apply in_or_app; left). apply Hin1. reflexivity.
      - rewrite call_run. eexists _, _. split; [reflexivity|].
        split; [exact Hp0|]. cbn [trace]. rewrite Htr0.
        split; [rewrite <- app_assoc; reflexivity|].
        apply in_or_app. right. left. reflexivity. }
    destruct Hcall as (w10 & new9 & E & Hp10 & Htr10 & Hin).
    rewrite_run E. clear E.
    unfold ret at 1. cbn beta iota.
    unfold bind at 1, modify at 1. cbn beta iota.
    unfold bind at 1, jtag_sleep at 1. unfold bind at 1. rewrite call_run.
    unfold ret at 1. cbn beta iota.
    unfold bind at 1.
    match goal with
    | |- context [register_cache_invalidate ?s ?w0] =>
      destruct (register_cache_invalidate_facts s w0) as (t9 & E & Hc & Hs & Hx);
        rewrite E; clear E
    end.
    cbn [is_ok negb]. unfold bind at 1, gets at 1. cbn beta iota.
    destruct (a5 && examined t9) eqn:Eh; unfold ret.
    + eexists true, t9, _, _. split; [reflexivity|]. split; [exact Hs|].
      split; [exact Hc|].
      split; [intros _; apply andb_true_iff in Eh; apply Eh|].
      split; [exact Hp10|]. cbn [trace]. rewrite Htr10.
      split; [rewrite <- app_assoc; reflexivity|].
      apply in_or_app. left. exact Hin.
    + eexists false, t9, _, _. split; [reflexivity|]. split; [exact Hs|].
      split; [exact Hc|].
      split; [intros E; discriminate E|].
      split; [exact Hp10|]. cbn [trace]. rewrite Htr10.
      split; [rewrite <- app_assoc; reflexivity|].
      apply in_or_app. left. exact Hin.
  - (* no debug AP: SRST is all there is *)
    rewrite (Hap (Hd2 eq_refl)) in *.
    unfold bind at 1, gets at 1. cbn beta iota.
    unfold bind at 1.
    assert (Hlog : exists w3 new3,
      (if reset_halt t2 then log LOG_no_debug_ap_will_not_halt else ret tt) t2 w2
      = (Done tt, t2, w3)
      /\ probe_of w3 = probe_of w /\ trace w3 = trace w ++ ((new1 ++ new2) ++ new3)).
    { destruct (reset_halt t2).
      - rewrite log_run. eexists _, _. split; [reflexivity|].
        split; [exact Hp2|]. cbn [trace]. rewrite Htr2, <- app_assoc. reflexivity.
      - exists w2, []. split; [reflexivity|]. split; [exact Hp2|].
        rewrite app_nil_r. exact Htr2. }
    destruct Hlog as (w3 & new3 & E & Hp3 & Htr3).
    rewrite_run E. clear E.
    unfold bind at 1, modify at 1. cbn beta iota.
    unfold bind at 1.
    match goal with
    | |- context [register_cache_invalidate ?s ?w0] =>
      destruct (register_cache_invalidate_facts s w0) as (t9 & E & Hc & Hs & Hx);
        rewrite E; clear E
    end.
    unfold ret.
    eexists false, t9, w3, _. split; [reflexivity|]. split; [exact Hs|].
    split; [exact Hc|]. split; [intros E; discriminate E|].
    split; [exact Hp3|]. split; [exact Htr3|].
    apply in_or_app. left. apply in_or_app. left. apply Hin1. reflexivity.
Qed.

Lemma halt_one_code t w :
  exists r t' w',
    cortex_m_halt_one t w = (Done r, t', w')
    /\ state t' = state t
    /\ (r = ERROR_OK \/ r = ERROR_TARGET_FAILURE).
Proof.
  destruct (halt_one_facts t w) as (Hst & Hreset & Hrun).
  destruct (state_eqb (state t) TARGET_HALTED) eqn:Eh.
  - unfold cortex_m_halt_one, bind, gets. cbn beta iota. rewrite Eh.
    eexists _, _, _. split; [reflexivity|]. split; [reflexivity|]. left. reflexivity.
  - assert (Hh : state t <> TARGET_HALTED).
    { intros E. rewrite E in Eh. discriminate Eh. }
    destruct (state_eqb (state t) TARGET_RESET) eqn:Er.
    + apply state_eqb_eq in Er. rewrite (Hreset Er) in Hst |- *.
      destruct (has_bits _ RESET_SRST_PULLS_TRST && jtag_srst _);
        eexists _, _, _; (split; [reflexivity|]); (split; [reflexivity|]);
        [right|left]; reflexivity.
    + assert (Hr : state t <> TARGET_RESET).
      { intros E. rewrite E in Er. discriminate Er. }
      destruct (Hrun Hh Hr) as (t' & w' & new & rest & E & _).
      rewrite E in Hst. exists ERROR_OK, t', w'.
      split; [exact E|]. split; [exact Hst|]. left. reflexivity.
Qed.

Lemma halt_code i ts w t :
  ts !! i = Some t ->
  exists r ts' w' t',
    cortex_m_halt i ts w = (Done r, ts', w')
    /\ ts' !! i = Some t' /\ state t' = state t
    /\ (r = ERROR_OK \/ r = ERROR_TARGET_FAILURE).
Proof.
  intros Hi. unfold cortex_m_halt. unfold bind at 1, gets at 1. cbn beta iota.
  rewrite Hi. cbn [from_option].
  destruct (smp t).
  - destruct (foreach_smp_halt_all ts ERROR_OK w) as (r & ts' & w' & E & Hall & Hr & _).
    destruct (Forall2_lookup_l _ _ _ _ _ Hall Hi) as (t' & Hi' & Hst & _).
    exists r, ts', w', t'. split; [exact E|]. split; [exact Hi'|].
    split; [exact Hst|].
    destruct r; try (left; reflexivity);
      (right; destruct Hr as [E'|[E' _]]; [discriminate|discriminate E'|exact E']).
  - rewrite (on_target_run _ _ _ _ _ _ Hi).
    destruct (halt_one_code t w) as (r & t' & w' & E & Hst & Hr).
    rewrite E. exists r, (<[i := t']> ts), w', t'.
    split; [reflexivity|].
    split; [apply list_lookup_insert_eq; apply lookup_lt_Some in Hi; exact Hi|].
    split; [exact Hst|exact Hr].
Qed.

(** X18: when the adapter has SRST and no script takes the reset over,
    cortex_m_assert_reset always completes, calls adapter_assert_reset and
    leaves the target in state RESET, whatever the transport, the
    examination under reset or the DP answered: errors of the debug
    accesses are not propagated.  The only failure it can answer is
    TARGET_FAILURE, from the halt it requests at the end for reset_halt. *)
Theorem assert_reset_with_srst i ts w t :
  ts !! i = Some t ->
  reset_assert_action t = false ->
  has_bits (jtag_reset_config (probe_of w)) RESET_HAS_SRST = true ->
  exists r ts' w' t' new,
    cortex_m_assert_reset i ts w = (Done r, ts', w')
    /\ ts' !! i = Some t' /\ state t' = TARGET_RESET
    /\ trace w' = trace w ++ new
    /\ In (EvCall CALL_adapter_assert_reset) new
    /\ (r = ERROR_OK \/ r = ERROR_TARGET_FAILURE).
Proof.
  intros Hi Hscript Hsrst. unfold cortex_m_assert_reset.
  unfold bind at 1. rewrite (on_target_run _ _ _ _ _ _ Hi).
  destruct (assert_reset_body_srst t w Hscript Hsrst)
    as (hn & t1 & w1 & new1 & E & Hst & _ & Hx & Hp & Htr & Hin).
  rewrite E. cbn beta iota.
  assert (Hi1 : <[i := t1]> ts !! i = Some t1).
  { apply list_lookup_insert_eq. apply lookup_lt_Some in Hi. exact Hi. }
  destruct hn.
  - unfold on_ok, bind at 1. unfold target_halt.
    unfold bind at 1, gets at 1. cbn beta iota. rewrite Hi1. cbn [from_option].
    rewrite Hx by reflexivity. cbn [negb].
    destruct (halt_code i (<[i := t1]> ts) w1 t1 Hi1)
      as (r & ts' & w' & t' & E' & Hi' & Hst' & Hr).
    destruct (halt_lawful i (<[i := t1]> ts) w1) as (_ & _ & new2 & Htr2 & _).
    rewrite E' in Htr2 |- *. cbn [fst snd] in Htr2.
    destruct Hr as [-> | ->]; cbn [is_ok]; unfold ret;
      (eexists _, ts', w', t', (new1 ++ new2);
       split; [reflexivity|]; split; [exact Hi'|];
       split; [congruence|];
       split; [rewrite Htr2, Htr, app_assoc; reflexivity|];
       split; [apply in_or_app; left; exact Hin|]);
      [left|right]; reflexivity.
  - unfold ret. exists ERROR_OK, (<[i := t1]> ts), w1, t1, new1.
    split; [reflexivity|]. split; [exact Hi1|]. split; [exact Hst|].
    split; [exact Htr|]. split; [exact Hin|]. left. reflexivity.
Qed.

Lemma assert_reset_with_srst_witness :
  exists ts' w' t',
    cortex_m_assert_reset 0 [Scenario.halted_target] Samples.srst_world
    = (Done ERROR_OK, ts', w')
    /\ ts' !! 0%nat = Some t' /\ state t' = TARGET_RESET
    /\ In (EvCall CALL_adapter_assert_reset) (trace w').
Proof.
  destruct (assert_reset_with_srst 0 [Scenario.halted_target] Samples.srst_world
              Scenario.halted_target)
    as (r & ts' & w' & t' & new & E & Hi & Hst & Htr & Hin & _);
    [reflexivity..|].
  exists ts', w', t'.
  assert (Hr : r = ERROR_OK).
  { vm_compute in E. injection E as E _ _. symmetry. exact E. }
  subst r. split; [exact E|]. split; [exact Hi|]. split; [exact Hst|].
  rewrite Htr. exact Hin.
Defined.

(** ** Reset by software *)

#[global] Instance same_reset_support_rel :
  FrameRel (fun _ : world => same_reset_support).
Proof.
  split.
  - intros _ s. reflexivity.
  - intros _ _ s s' s'' _ H1 H2. unfold same_reset_support in *. congruence.
Qed.

Abbreviation preparing m :=
  (steps no_reset_request (fun _ : world => same_reset_support) m).

Lemma read_dhcsr_preparing : preparing cortex_m_read_dhcsr_atomic_sticky.
Proof.
  unfold cortex_m_read_dhcsr_atomic_sticky, mem_ap_read_atomic_u32,
    cortex_m_cumulate_dhcsr_sticky.
  steps_auto.
Qed.

Lemma write_debug_halt_mask_preparing on off :
  preparing (cortex_m_write_debug_halt_mask on off).
Proof.
  unfold cortex_m_write_debug_halt_mask, mem_ap_write_atomic_u32. steps_auto.
Qed.

Lemma set_maskints_preparing mask : preparing (cortex_m_set_maskints mask).
Proof.
  unfold cortex_m_set_maskints.
  pose proof write_debug_halt_mask_preparing. steps_auto.
Qed.

Lemma set_maskints_for_run_preparing : preparing cortex_m_set_maskints_for_run.
Proof.
  unfold cortex_m_set_maskints_for_run.
  pose proof set_maskints_preparing. steps_auto.
Qed.

Lemma clear_halt_preparing : preparing cortex_m_clear_halt.
Proof.
  unfold cortex_m_clear_halt.
  pose proof read_dhcsr_preparing. pose proof write_debug_halt_mask_preparing.
  unfold mem_ap_read_atomic_u32, mem_ap_write_atomic_u32. steps_auto.
Qed.

Lemma mem_ap_write_u32_preparing a v :
  a <> NVIC_AIRCR -> preparing (mem_ap_write_u32 a v).
Proof.
  intros Ha. unfold mem_ap_write_u32.
  apply steps_bind; [exact _|apply steps_emit; [exact _|exact Ha]|].
  intros _. steps_auto.
Qed.

Lemma mem_ap_write_atomic_u32_preparing a v :
  a <> NVIC_AIRCR -> preparing (mem_ap_write_atomic_u32 a v).
Proof.
  intros Ha. unfold mem_ap_write_atomic_u32.
  apply steps_bind; [exact _|apply steps_emit; [exact _|exact Ha]|].
  intros _. steps_auto.
Qed.

Lemma log_preparing m : preparing (log m).
Proof. unfold log. steps_auto. Qed.

#[global] Hint Extern 1 (_ <> NVIC_AIRCR) => addr_ne : steps_db.

#[global] Hint Resolve read_dhcsr_preparing write_debug_halt_mask_preparing
  set_maskints_for_run_preparing clear_halt_preparing mem_ap_write_u32_preparing
  mem_ap_write_atomic_u32_preparing log_preparing : steps_db.

(** Stepping over a run that prepares the reset; [acc] is what has been
    appended since [w0], [t0] the target at that point. *)
Lemma pass_preparing {A B} (m : M A) (k : A -> M B) t w t0 w0 acc :
  completes m -> preparing m ->
  probe_of w = probe_of w0 -> trace w = trace w0 ++ acc ->
  Forall no_reset_request acc -> same_reset_support t0 t ->
  exists a t1 w1 new,
    probe_of w1 = probe_of w0 /\ trace w1 = trace w0 ++ (acc ++ new)
    /\ Forall no_reset_request (acc ++ new) /\ same_reset_support t0 t1
    /\ bind m k t w = k a t1 w1.
Proof.
  intros Hc Hl Hp0 Htr0 Hf0 Hr0. destruct (Hc t w) as (a & Ea & _).
  destruct (Hl t w) as ((Hp & _) & Hr & new & Htr & Hf).
  unfold bind. destruct (m t w) as [[o t1] w1]. cbn [fst snd] in *. subst o.
  exists a, t1, w1, new. split; [congruence|].
  split; [rewrite Htr, Htr0, app_assoc; reflexivity|].
  split; [apply Forall_app; auto|].
  split; [unfold same_reset_support in *; congruence|reflexivity].
Qed.

Ltac prepare :=
  match goal with
  | Hp : probe_of ?w = probe_of ?w0, Htr : trace ?w = trace ?w0 ++ ?acc,
    Hf : Forall no_reset_request ?acc, Hr : same_reset_support ?t0 ?t
    |- context [bind ?m ?k ?t ?w] =>
    let a := fresh "a" in
    let t1 := fresh "t" in
    let w1 := fresh "w" in
    let new := fresh "new" in
    let Hp' := fresh "Hp" in
    let Htr' := fresh "Htr" in
    let Hf' := fresh "Hf" in
    let Hr' := fresh "Hr" in
    let E := fresh "E" in
    destruct (pass_preparing m k t w t0 w0 acc)
      as (a & t1 & w1 & new & Hp' & Htr' & Hf' & Hr' & E);
    [ yields_auto | steps_auto | exact Hp | exact Htr | exact Hf | exact Hr
    | rewrite E; clear E Hp Htr Hf Hr; cbn beta iota ]
  end.

Lemma jtag_sleep_run us t w :
  jtag_sleep us t w =
  (Done tt, t, mk_world (probe_of w) (S (tick w))
                        (trace w ++ [EvCall (CALL_jtag_sleep us)])).
Proof. reflexivity. Qed.

Lemma assert_reset_body_software t w :
  reset_assert_action t = false ->
  has_bits (jtag_reset_config (probe_of w)) RESET_HAS_SRST = false ->
  debug_ap (target_to_armv7m t) = true ->
  exists r hn t' w' pre post,
    assert_reset_body t w = (Done (r, hn), t', w')
    /\ state t' = TARGET_RESET
    /\ (hn = true -> examined t' = true)
    /\ probe_of w' = probe_of w
    /\ trace w' = trace w ++ pre ++ [EvApWrite true NVIC_AIRCR (reset_request t)] ++ post
    /\ Forall no_reset_request pre.
Proof.
  intros Hscript Hsrst Hap. unfold assert_reset_body.
  unfold bind at 1. unfold get_cm at 1, gets at 1. cbn beta iota.
  unfold bind at 1. unfold asks at 1. cbn beta iota.
  unfold bind at 1. unfold gets at 1. cbn beta iota. rewrite Hscript.
  unfold bind at 1. unfold get_armv7m at 1, gets at 1. cbn beta iota.
  rewrite Hsrst. cbn [andb].
  unfold bind at 1. unfold ret at 1. cbn beta iota.
  unfold bind at 1. unfold gets at 1. cbn beta iota.
  unfold bind at 1. unfold gets at 1. cbn beta iota.
  rewrite andb_false_r. cbn [andb].
  unfold bind at 1. unfold ret at 1. cbn beta iota.
  unfold bind at 1. unfold get_armv7m at 1, gets at 1. cbn beta iota.
  rewrite Hap. cbn [negb].
  assert (Hp : probe_of w = probe_of w) by reflexivity.
  assert (Htr : trace w = trace w ++ []) by (rewrite app_nil_r; reflexivity).
  assert (Hf : Forall no_reset_request []) by constructor.
  assert (Hr : same_reset_support t t) by reflexivity.
  prepare. prepare. prepare. prepare. prepare. prepare. prepare. prepare.
  match type of Htr with
  | _ = _ ++ ?acc => set (pre0 := acc) in *; clearbody pre0
  end.
  unfold bind at 1. unfold bind at 1. unfold get_cm at 1, gets at 1. cbn beta iota.
  replace (vectreset_supported (target_to_cm t7))
    with (vectreset_supported (cortex_m t)) by (symmetry; exact Hr).
  change (target_to_cm t) with (cortex_m t).
  unfold bind at 1.
  assert (Hsel : exists rc w8 logs,
    (if negb (vectreset_supported (cortex_m t))
        && is_vectreset (soft_reset_config (cortex_m t))
     then run log LOG_vectreset_using_sysresetreq; ret CORTEX_M_RESET_SYSRESETREQ
     else ret (soft_reset_config (cortex_m t))) t7 w7 = (Done rc, t7, w8)
    /\ probe_of w8 = probe_of w
    /\ trace w8 = trace w ++ (pre0 ++ logs)
    /\ Forall no_reset_request logs
    /\ Z.lor AIRCR_VECTKEY
         (if is_vectreset rc then AIRCR_VECTRESET else AIRCR_SYSRESETREQ)
       = reset_request t).
  { unfold reset_request.
    destruct (vectreset_supported (cortex_m t));
      destruct (is_vectreset (soft_reset_config (cortex_m t))) eqn:Ev;
      cbn [negb andb].
    - eexists _, w7, []. split; [reflexivity|]. split; [exact Hp|].
      split; [rewrite app_nil_r; exact Htr|]. split; [constructor|].
      rewrite Ev. reflexivity.
    - eexists _, w7, []. split; [reflexivity|]. split; [exact Hp|].
      split; [rewrite app_nil_r; exact Htr|]. split; [constructor|].
      rewrite Ev. reflexivity.
    - unfold bind at 1. rewrite log_run. unfold ret.
      eexists _, _, [_]. split; [reflexivity|]. split; [exact Hp|].
      cbn [trace]. split; [rewrite Htr, app_assoc; reflexivity|].
      split; [repeat constructor|reflexivity].
    - eexists _, w7, []. split; [reflexivity|]. split; [exact Hp|].
      split; [rewrite app_nil_r; exact Htr|]. split; [constructor|].
      rewrite Ev. reflexivity. }
  destruct Hsel as (rc & w8 & logs & E & Hp8 & Htr8 & Hf8 & Hreq).
  rewrite_run E. clear E.
  unfold bind at 1.
  assert (Hcore : exists w9 logs2,
    (if is_vectreset rc then log LOG_only_resetting_core else ret tt) t7 w8
    = (Done tt, t7, w9)
    /\ probe_of w9 = probe_of w
    /\ trace w9 = trace w ++ ((pre0 ++ logs) ++ logs2)
    /\ Forall no_reset_request logs2).
  { destruct (is_vectreset rc).
    - rewrite log_run. eexists _, [_]. split; [reflexivity|]. split; [exact Hp8|].
      cbn [trace]. split; [rewrite Htr8, <- app_assoc; reflexivity|].
      repeat constructor.
    - exists w8, []. split; [reflexivity|]. split; [exact Hp8|].
      split; [rewrite app_nil_r; exact Htr8|constructor]. }
  destruct Hcore as (w9 & logs2 & E & Hp9 & Htr9 & Hf9).
  rewrite_run E. clear E.
  unfold bind at 1. rewrite mem_ap_write_atomic_u32_run. rewrite Hreq.
  match goal with
  | |- context [mk_world (probe_of w9) ?n ?tr] =>
    remember (mk_world (probe_of w9) n tr) as wa eqn:Ewa
  end.
  assert (Hpa : probe_of wa = probe_of wa) by reflexivity.
  assert (Htra : trace wa = trace wa ++ []) by (rewrite app_nil_r; reflexivity).
  pass. pass. unfold ret at 1. cbn beta iota.
  unfold bind at 1, modify at 1. cbn beta iota.
  unfold bind at 1. rewrite jtag_sleep_run. unfold bind at 1.
  match goal with
  | |- context [register_cache_invalidate ?s ?w0] =>
    destruct (register_cache_invalidate_facts s w0) as (tz & E & Hc & Hs & Hx);
      rewrite E; clear E
  end.
  cbn [state set_state] in Hs.
  match goal with
  | Hq : trace ?wl = trace wa ++ ?acc, Hq' : probe_of ?wl = probe_of wa
    |- context [mk_world (probe_of ?wl) ?n (trace ?wl ++ ?l)] =>
    remember (mk_world (probe_of wl) n (trace wl ++ l)) as wz eqn:Ewz;
    assert (Htrz : trace wz = trace wa ++ (acc ++ l))
      by (rewrite Ewz; cbn [trace]; rewrite Hq, <- app_assoc; reflexivity);
    assert (Hpz : probe_of wz = probe_of wa) by (rewrite Ewz; exact Hq');
    set (post := acc ++ l) in *; clearbody post; clear Ewz
  end.
  assert (Hfinal : trace wz = trace w
            ++ ((pre0 ++ logs) ++ logs2)
            ++ [EvApWrite true NVIC_AIRCR (reset_request t)] ++ post).
  { rewrite Htrz, Ewa. cbn [trace]. rewrite Htr9, <- !app_assoc. reflexivity. }
  assert (Hpf : probe_of wz = probe_of w).
  { rewrite Hpz, Ewa. exact Hp9. }
  assert (Hpre : Forall no_reset_request ((pre0 ++ logs) ++ logs2)).
  { apply Forall_app. split; [apply Forall_app; split; assumption|assumption]. }
  destruct (is_ok a3); cbn [negb].
  - unfold bind at 1, gets at 1. cbn beta iota.
    destruct (a5 && examined tz) eqn:Eh; unfold ret;
      eexists _, _, tz, wz, _, post;
      (split; [reflexivity|]); (split; [exact Hs|]);
      (split; [first [intros _; apply andb_true_iff in Eh; apply Eh
                     |intros E; discriminate E]|]);
      (split; [exact Hpf|]); (split; [exact Hfinal|exact Hpre]).
  - unfold ret. eexists _, _, tz, wz, _, post.
    split; [reflexivity|]. split; [exact Hs|].
    split; [intros E; discriminate E|].
    split; [exact Hpf|]. split; [exact Hfinal|exact Hpre].
Qed.

Lemma assert_reset_body_no_ap t w :
  reset_assert_action t = false ->
  has_bits (jtag_reset_config (probe_of w)) RESET_HAS_SRST = false ->
  debug_ap (target_to_armv7m t) = false ->
  assert_reset_body t w =
  (Done (ERROR_FAIL, false), t,
   add_events [EvLog (coreid t) LOG_no_debug_ap_reset_not_asserted] w).
Proof.
  intros Hscript Hsrst Hap. unfold assert_reset_body.
  unfold bind at 1. unfold get_cm at 1, gets at 1. cbn beta iota.
  unfold bind at 1. unfold asks at 1. cbn beta iota.
  unfold bind at 1. unfold gets at 1. cbn beta iota. rewrite Hscript.
  unfold bind at 1. unfold get_armv7m at 1, gets at 1. cbn beta iota.
  rewrite Hsrst. cbn [andb].
  unfold bind at 1. unfold ret at 1. cbn beta iota.
  unfold bind at 1. unfold gets at 1. cbn beta iota.
  unfold bind at 1. unfold gets at 1. cbn beta iota.
  rewrite andb_false_r. cbn [andb].
  unfold bind at 1. unfold ret at 1. cbn beta iota.
  unfold bind at 1. unfold get_armv7m at 1, gets at 1. cbn beta iota.
  rewrite Hap. cbn [negb].
  unfold bind at 1. rewrite log_run. reflexivity.
Qed.

(** X19: without SRST and without a script, cortex_m_assert_reset resets by
    software.  With no debug AP it fails with ERROR_FAIL, logs that the
    reset was not asserted and leaves the group as it is.  With a debug AP
    it always completes, and the first thing that requests a reset is one
    atomic write to AIRCR of VECTKEY with VECTRESET when that is configured
    and the core supports it, with SYSRESETREQ otherwise; the target ends
    in state RESET whatever the transport answered. *)
Theorem assert_reset_by_software i ts w t :
  ts !! i = Some t ->
  reset_assert_action t = false ->
  has_bits (jtag_reset_config (probe_of w)) RESET_HAS_SRST = false ->
  (debug_ap (target_to_armv7m t) = false ->
   cortex_m_assert_reset i ts w =
   (Done ERROR_FAIL, ts,
    add_events [EvLog (coreid t) LOG_no_debug_ap_reset_not_asserted] w))
  /\ (debug_ap (target_to_armv7m t) = true ->
      exists r ts' w' t' pre post,
        cortex_m_assert_reset i ts w = (Done r, ts', w')
        /\ ts' !! i = Some t' /\ state t' = TARGET_RESET
        /\ trace w' = trace w ++ pre
                      ++ [EvApWrite true NVIC_AIRCR (reset_request t)] ++ post
        /\ Forall no_reset_request pre).
Proof.
  intros Hi Hscript Hsrst. split; intros Hap; unfold cortex_m_assert_reset;
    unfold bind at 1; rewrite (on_target_run _ _ _ _ _ _ Hi).
  - rewrite (assert_reset_body_no_ap t w Hscript Hsrst Hap).
    cbn beta iota. rewrite list_insert_id by exact Hi. reflexivity.
  - destruct (assert_reset_body_software t w Hscript Hsrst Hap)
      as (r & hn & t1 & w1 & pre & post & E & Hst & Hx & Hp & Htr & Hpre).
    rewrite E. cbn beta iota.
    assert (Hi1 : <[i := t1]> ts !! i = Some t1).
    { apply list_lookup_insert_eq. apply lookup_lt_Some in Hi. exact Hi. }
    destruct hn.
    + unfold on_ok, bind at 1. unfold target_halt.
      unfold bind at 1, gets at 1. cbn beta iota. rewrite Hi1. cbn [from_option].
      rewrite Hx by reflexivity. cbn [negb].
      destruct (halt_code i (<[i := t1]> ts) w1 t1 Hi1)
        as (r' & ts' & w' & t' & E' & Hi' & Hst' & Hr).
      destruct (halt_lawful i (<[i := t1]> ts) w1) as (_ & _ & new2 & Htr2 & _).
      rewrite E' in Htr2 |- *. cbn [fst snd] in Htr2.
      destruct (is_ok r'); unfold ret;
        (eexists _, ts', w', t', pre, (post ++ new2);
         split; [reflexivity|]; split; [exact Hi'|];
         split; [congruence|];
         split; [rewrite Htr2, Htr, <- !app_assoc; reflexivity|exact Hpre]).
    + unfold ret. exists r, (<[i := t1]> ts), w1, t1, pre, post.
      split; [reflexivity|]. split; [exact Hi1|]. split; [exact Hst|].
      split; [exact Htr|exact Hpre].
Qed.

Lemma assert_reset_by_software_witness :
  cortex_m_assert_reset 0 [Samples.no_ap_core]
    (Scenario.steady_world Scenario.running_dhcsr)
  = (Done ERROR_FAIL, [Samples.no_ap_core],
     add_events [EvLog 0 LOG_no_debug_ap_reset_not_asserted]
       (Scenario.steady_world Scenario.running_dhcsr))
  /\ exists r ts' w' pre post,
       cortex_m_assert_reset 0 [Samples.no_vectreset_core]
         (Scenario.steady_world Scenario.halted_dhcsr)
       = (Done r, ts', w')
       /\ trace w'
          = pre ++ [EvApWrite true NVIC_AIRCR (Z.lor AIRCR_VECTKEY AIRCR_SYSRESETREQ)]
                ++ post
       /\ Forall no_reset_request pre.
Proof.
  split.
  - apply (assert_reset_by_software 0 [Samples.no_ap_core]
             (Scenario.steady_world Scenario.running_dhcsr) Samples.no_ap_core);
      reflexivity.
  - destruct (assert_reset_by_software 0 [Samples.no_vectreset_core]
                (Scenario.steady_world Scenario.halted_dhcsr)
                Samples.no_vectreset_core) as (_ & H); [reflexivity..|].
    destruct H as (r & ts' & w' & t' & pre & post & E & _ & _ & Htr & Hpre);
      [reflexivity|].
    exists r, ts', w', pre, post. split; [exact E|]. split; [exact Htr|exact Hpre].
Defined.

(** ** End of reset *)

#[global] Instance same_debug_units_rel :
  FrameRel (fun _ : world => same_debug_units).
Proof.
  split.
  - intros _ s. unfold same_debug_units. repeat split.
  - intros _ _ s s' s'' _ H1 H2. unfold same_debug_units in *.
    destruct H1 as (?&?&?&?&?&?&?), H2 as (?&?&?&?&?&?&?).
    repeat split; congruence.
Qed.

Abbreviation settling m :=
  (steps no_target_write (fun _ : world => same_debug_units) m).

Lemma target_writes_app a b : target_writes (a ++ b) = target_writes a ++ target_writes b.
Proof. apply omap_app. Qed.

Lemma no_target_writes l : Forall no_target_write l -> target_writes l = [].
Proof.
  induction 1 as [|e l He _ IH]; [reflexivity|].
  unfold target_writes in *. cbn [omap list_omap]. rewrite IH.
  destruct e; try reflexivity. destruct write; [contradiction|reflexivity].
Qed.

Lemma read_dhcsr_settling : settling cortex_m_read_dhcsr_atomic_sticky.
Proof.
  unfold cortex_m_read_dhcsr_atomic_sticky, mem_ap_read_atomic_u32,
    cortex_m_cumulate_dhcsr_sticky.
  steps_auto.
Qed.

Lemma write_debug_halt_mask_settling on off :
  settling (cortex_m_write_debug_halt_mask on off).
Proof.
  unfold cortex_m_write_debug_halt_mask, mem_ap_write_atomic_u32. steps_auto.
Qed.

Lemma set_maskints_for_run_settling : settling cortex_m_set_maskints_for_run.
Proof.
  unfold cortex_m_set_maskints_for_run, cortex_m_set_maskints.
  pose proof write_debug_halt_mask_settling. steps_auto.
Qed.

Lemma mem_ap_read_atomic_u32_settling a : settling (mem_ap_read_atomic_u32 a).
Proof. unfold mem_ap_read_atomic_u32. steps_auto. Qed.

Lemma mem_ap_write_u32_settling a v : settling (mem_ap_write_u32 a v).
Proof. unfold mem_ap_write_u32. steps_auto. Qed.

Lemma dap_run_settling : settling dap_run.
Proof. unfold dap_run. steps_auto. Qed.

Lemma register_cache_invalidate_settling : settling register_cache_invalidate.
Proof. unfold register_cache_invalidate. steps_auto. Qed.

(** A run that ended OK went through each of its steps. *)
Lemma bind_settled {A B} (m : M A) (k : A -> M B) t w acc t0 w0 r t' w' :
  settling m ->
  same_debug_units t0 t -> trace w = trace w0 ++ acc ->
  Forall no_target_write acc ->
  bind m k t w = (Done r, t', w') ->
  exists a t1 w1 new,
    same_debug_units t0 t1 /\ trace w1 = trace w0 ++ (acc ++ new)
    /\ Forall no_target_write (acc ++ new)
    /\ k a t1 w1 = (Done r, t', w').
Proof.
  intros Hm Hr0 Htr0 Hf0 H. unfold bind in H.
  destruct (Hm t w) as (_ & Hr & new & Htr & Hf).
  destruct (m t w) as [[[a|] t1] w1]; [|discriminate H].
  cbn [fst snd] in *. exists a, t1, w1, new.
  split; [unfold same_debug_units in *;
          destruct Hr0 as (?&?&?&?&?&?&?), Hr as (?&?&?&?&?&?&?);
          repeat split; congruence|].
  split; [rewrite Htr, Htr0, app_assoc; reflexivity|].
  split; [apply Forall_app; auto|exact H].
Qed.

Lemma is_ok_eq r : is_ok r = true -> r = ERROR_OK.
Proof. destruct r; intros E; try discriminate E; reflexivity. Qed.

Lemma must_settled (m k : M retcode) t w acc t0 w0 t' w' :
  settling m ->
  same_debug_units t0 t -> trace w = trace w0 ++ acc ->
  Forall no_target_write acc ->
  on_ok m k t w = (Done ERROR_OK, t', w') ->
  exists t1 w1 new,
    same_debug_units t0 t1 /\ trace w1 = trace w0 ++ (acc ++ new)
    /\ Forall no_target_write (acc ++ new)
    /\ k t1 w1 = (Done ERROR_OK, t', w').
Proof.
  intros Hm Hr0 Htr0 Hf0 H. unfold on_ok in H.
  destruct (bind_settled _ _ _ _ _ _ _ _ _ _ Hm Hr0 Htr0 Hf0 H)
    as (a & t1 & w1 & new & Hr & Htr & Hf & Hk).
  exists t1, w1, new. split; [exact Hr|]. split; [exact Htr|].
  split; [exact Hf|].
  destruct (is_ok a) eqn:Ea; [exact Hk|].
  unfold ret in Hk. apply done_inv in Hk as (-> & _). discriminate Ea.
Qed.

Lemma target_write_u32_run a v t w :
  target_write_u32 a v t w =
  (Done (ap_write (probe_of w) (tick w) a v), t,
   mk_world (probe_of w) (S (tick w)) (trace w ++ [EvTargetU32 true a v])).
Proof. reflexivity. Qed.

(** A loop of restoring writes that ended OK has issued the writes of
    every index, in order, and nothing else. *)
Lemma for_index_restores (f : nat -> list (Z * Z)) (body : nat -> M retcode) :
  (forall j t w t1 w1,
     body j t w = (Done ERROR_OK, t1, w1) ->
     t1 = t /\ exists new, trace w1 = trace w ++ new /\ target_writes new = f j) ->
  forall n i t w t' w',
    for_index n i body t w = (Done ERROR_OK, t', w') ->
    t' = t /\ exists new, trace w' = trace w ++ new
                         /\ target_writes new = flat_map f (seq i n).
Proof.
  intros Hb. induction n as [|n IH]; intros i t w t' w' H.
  - cbn [for_index] in H. unfold ret in H. apply done_inv in H as (_ & <- & <-).
    split; [reflexivity|]. exists []. rewrite app_nil_r. split; reflexivity.
  - cbn [for_index] in H. unfold on_ok, bind in H.
    destruct (body i t w) as [[[r|] t1] w1] eqn:Eb; [|discriminate H].
    destruct (is_ok r) eqn:Er.
    + apply is_ok_eq in Er. subst r.
      destruct (Hb _ _ _ _ _ Eb) as (-> & new1 & Htr1 & Hw1).
      destruct (IH _ _ _ _ _ H) as (-> & new2 & Htr2 & Hw2).
      split; [reflexivity|]. exists (new1 ++ new2).
      split; [rewrite Htr2, Htr1, app_assoc; reflexivity|].
      rewrite target_writes_app, Hw1, Hw2. reflexivity.
    + unfold ret in H. apply done_inv in H as (-> & _). discriminate Er.
Qed.

#[global] Hint Resolve read_dhcsr_settling write_debug_halt_mask_settling
  set_maskints_for_run_settling mem_ap_read_atomic_u32_settling
  mem_ap_write_u32_settling dap_run_settling register_cache_invalidate_settling
  : steps_db.

Ltac settle_must :=
  match goal with
  | Hr : same_debug_units ?t0 ?t, Htr : trace ?w = trace ?w0 ++ ?acc,
    Hf : Forall no_target_write ?acc,
    H : on_ok ?m ?k ?t ?w = (Done ERROR_OK, _, _) |- _ =>
    let t1 := fresh "t" in
    let w1 := fresh "w" in
    let new := fresh "new" in
    let Hr' := fresh "Hr" in
    let Htr' := fresh "Htr" in
    let Hf' := fresh "Hf" in
    let H' := fresh "H" in
    assert (H' : settling m) by steps_auto;
    destruct (must_settled m k t w acc t0 w0 _ _ H' Hr Htr Hf H)
      as (t1 & w1 & new & Hr' & Htr' & Hf' & ?);
    clear H H' Hr Htr Hf
  end.

Ltac settle_bind :=
  match goal with
  | Hr : same_debug_units ?t0 ?t, Htr : trace ?w = trace ?w0 ++ ?acc,
    Hf : Forall no_target_write ?acc,
    H : bind ?m ?k ?t ?w = (Done _, _, _) |- _ =>
    let a := fresh "a" in
    let t1 := fresh "t" in
    let w1 := fresh "w" in
    let new := fresh "new" in
    let Hr' := fresh "Hr" in
    let Htr' := fresh "Htr" in
    let Hf' := fresh "Hf" in
    let H' := fresh "H" in
    assert (H' : settling m) by steps_auto;
    destruct (bind_settled m k t w acc t0 w0 _ _ _ H' Hr Htr Hf H)
      as (a & t1 & w1 & new & Hr' & Htr' & Hf' & ?);
    clear H H' Hr Htr Hf
  end.

(** The FPB is switched on with one write, checked with one read. *)
Lemma enable_fpb_writes t w r t1 w1 :
  cortex_m_enable_fpb t w = (Done r, t1, w1) ->
  t1 = t /\ exists new, trace w1 = trace w ++ new
                       /\ target_writes new = [(FP_CTRL, 3)].
Proof.
  unfold cortex_m_enable_fpb, on_ok. unfold bind at 1.
  rewrite target_write_u32_run.
  destruct (is_ok (ap_write (probe_of w) (tick w) FP_CTRL 3)).
  - unfold bind at 1. rewrite target_read_u32_run. cbn beta iota.
    cbn [probe_of tick trace fst snd].
    destruct (is_ok _); cbn [negb];
      [destruct (has_bits _ 1)|]; unfold ret; intros H;
      apply done_inv in H as (_ & <- & <-);
      (split; [reflexivity|]); eexists;
      (split; [cbn [trace]; rewrite <- app_assoc; reflexivity|reflexivity]).
  - unfold ret. intros H. apply done_inv in H as (_ & <- & <-).
    split; [reflexivity|]. eexists. split; [reflexivity|reflexivity].
Qed.

(** cortex_m_endreset_event has no timed wait: it always returns. *)
Lemma target_write_u32_completes a v : completes (target_write_u32 a v).
Proof. unfold target_write_u32. yields_auto. Qed.
Lemma target_read_u32_completes a : completes (target_read_u32 a).
Proof. unfold target_read_u32. yields_auto. Qed.
Lemma dap_run_completes : completes dap_run.
Proof. unfold dap_run. yields_auto. Qed.
#[global] Hint Resolve target_write_u32_completes target_read_u32_completes
  dap_run_completes : yields_db.

Lemma enable_fpb_completes : completes cortex_m_enable_fpb.
Proof. unfold cortex_m_enable_fpb. yields_auto. Qed.
#[global] Hint Resolve enable_fpb_completes : yields_db.

Lemma for_index_completes n i (body : nat -> M retcode) :
  (forall j, completes (body j)) -> completes (for_index n i body).
Proof.
  intros Hb. revert i. induction n as [|n IH]; intros i; cbn [for_index].
  - apply yields_ret. exact I.
  - unfold on_ok. apply yields_bind; [apply Hb|].
    intros r. destruct (is_ok r); [apply IH|apply yields_ret; exact I].
Qed.

Lemma endreset_event_completes : completes cortex_m_endreset_event.
Proof.
  unfold cortex_m_endreset_event. yields_auto.
  - apply for_index_completes. intros j. yields_auto.
  - apply for_index_completes. intros j. yields_auto.
Qed.

(** What a cortex_m_endreset_event that answered OK has written. *)
Lemma endreset_event_restores t w t' w' :
  cortex_m_endreset_event t w = (Done ERROR_OK, t', w') ->
  exists new,
    trace w' = trace w ++ new
    /\ target_writes new
       = (FP_CTRL, 3) :: fp_restores (cortex_m t) ++ dwt_restores (cortex_m t)
    /\ fpb_enabled (cortex_m t') = true.
Proof.
  intros H. unfold cortex_m_endreset_event in H.
  assert (Hr : same_debug_units t t) by (unfold same_debug_units; repeat split).
  assert (Htr : trace w = trace w ++ []) by (rewrite app_nil_r; reflexivity).
  assert (Hf : Forall no_target_write []) by constructor.
  settle_bind. destruct a as [retval dcb_demcr].
  destruct (is_ok retval) eqn:E0; cbn [negb] in *;
    [|unfold ret in *;
      match goal with
      | Hq : (Done retval, _, _) = _ |- _ =>
        apply done_inv in Hq as (-> & _); discriminate E0
      end].
  settle_must. settle_must. settle_bind. settle_must. settle_bind.
  settle_bind. settle_must.
  match goal with
  | Hq : _ = (Done ERROR_OK, t', w') |- _ => rename Hq into H
  end.
  match type of Htr with
  | _ = _ ++ ?acc => set (pre := acc) in *; clearbody pre
  end.
  unfold bind at 1 in H.
  match type of H with
  | context [cortex_m_enable_fpb ?s ?w0] =>
    destruct (cortex_m_enable_fpb s w0) as [[[r1|] ta] wa] eqn:Ea;
      [|discriminate H];
      apply enable_fpb_writes in Ea as (-> & newa & Htra & Hwa)
  end.
  destruct (is_ok r1) eqn:E1; cbn [negb] in H.
  2:{ unfold bind at 1 in H. rewrite log_run in H. unfold ret in H.
      apply done_inv in H as (-> & _). discriminate E1. }
  unfold bind at 1, modify at 1 in H. cbn beta iota in H.
  unfold bind at 1 in H. unfold get_cm at 1, gets at 1 in H. cbn beta iota in H.
  unfold bind at 1 in H. unfold get_cm at 1, gets at 1 in H. cbn beta iota in H.
  match goal with
  | Hq : same_debug_units t _ |- _ =>
    destruct Hq as (Hfp & Hnc & Hnl & Hnd & Hdl & Hfe & Hdm)
  end.
  cbn [target_to_cm upd_cm set_cortex_m cortex_m set_fpb_enabled
       fp_comparator_list fp_num_code fp_num_lit dwt_num_comp
       dwt_comparator_list] in H.
  rewrite Hfp, Hnc, Hnl in H.
  unfold on_ok at 1, bind at 1 in H.
  match type of H with
  | context [for_index ?n 0%nat ?body ?s ?w0] =>
    destruct (for_index n 0%nat body s w0) as [[[r2|] tb] wb] eqn:Eb;
      [|discriminate H]
  end.
  destruct (is_ok r2) eqn:E2;
    [|unfold ret in H; apply done_inv in H as (-> & _); discriminate E2].
  apply is_ok_eq in E2. subst r2.
  eapply (for_index_restores
            (fun i => let fp := default (mk_fp_comparator 0 0)
                                  (fp_comparator_list (cortex_m t) !! i) in
                      [(fpcr_address fp, fpcr_value fp)])) in Eb.
  2:{ intros j sj wj sj' wj' Hb. rewrite target_write_u32_run in Hb.
      apply done_inv in Hb as (_ & <- & <-). split; [reflexivity|].
      eexists. split; reflexivity. }
  destruct Eb as (-> & newb & Htrb & Hwb).
  unfold bind at 1 in H. unfold get_cm at 1, gets at 1 in H. cbn beta iota in H.
  unfold bind at 1 in H. unfold get_cm at 1, gets at 1 in H. cbn beta iota in H.
  cbn [target_to_cm upd_cm set_cortex_m cortex_m set_fpb_enabled
       dwt_num_comp dwt_comparator_list] in H.
  rewrite Hnd, Hdl in H.
  unfold on_ok at 1, bind at 1 in H.
  match type of H with
  | context [for_index ?n 0%nat ?body ?s ?w0] =>
    destruct (for_index n 0%nat body s w0) as [[[r3|] tc] wc] eqn:Ec;
      [|discriminate H]
  end.
  destruct (is_ok r3) eqn:E3;
    [|unfold ret in H; apply done_inv in H as (-> & _); discriminate E3].
  apply is_ok_eq in E3. subst r3.
  eapply (for_index_restores
            (fun i => let dwt := default (mk_dwt_comparator 0 0 0 0)
                                   (dwt_comparator_list (cortex_m t) !! i) in
                      [(u32 (dwt_comparator_address dwt + 0), dwt_comp dwt);
                       (u32 (dwt_comparator_address dwt + 4), dwt_mask dwt);
                       (u32 (dwt_comparator_address dwt + 8), dwt_function dwt)]))
    in Ec.
  2:{ intros j sj wj sj' wj' Hb. unfold on_ok in Hb.
      unfold bind at 1 in Hb. rewrite target_write_u32_run in Hb.
      match type of Hb with
      | context [is_ok ?x] => destruct (is_ok x) eqn:Eq
      end;
        [clear Eq
        |unfold ret in Hb; apply done_inv in Hb as (Eq' & _);
         rewrite Eq' in Eq; discriminate Eq].
      unfold bind at 1 in Hb. rewrite target_write_u32_run in Hb.
      match type of Hb with
      | context [is_ok ?x] => destruct (is_ok x) eqn:Eq
      end;
        [clear Eq
        |unfold ret in Hb; apply done_inv in Hb as (Eq' & _);
         rewrite Eq' in Eq; discriminate Eq].
      rewrite target_write_u32_run in Hb.
      apply done_inv in Hb as (_ & <- & <-). split; [reflexivity|].
      eexists. cbn [trace]. split; [rewrite <- !app_assoc; reflexivity|].
      reflexivity. }
  destruct Ec as (-> & newc & Htrc & Hwc).
  rename Htr into Htrp. rename Hf into Hfpre.
  match type of H with
  | on_ok _ _ ?s _ = _ =>
    assert (Hr : same_debug_units s s) by (unfold same_debug_units; repeat split)
  end.
  assert (Htr : trace wc = trace wc ++ []) by (rewrite app_nil_r; reflexivity).
  assert (Hf : Forall no_target_write []) by constructor.
  settle_must. settle_bind.
  match goal with
  | Hq : cortex_m_read_dhcsr_atomic_sticky ?s ?w0 = _ |- _ =>
    destruct (read_dhcsr_settling s w0) as (_ & Hrz & newz & Htrz & Hfz);
      rewrite Hq in Hrz, Htrz; cbn [fst snd] in Hrz, Htrz
  end.
  match goal with
  | Hq : trace ?wl = trace wc ++ ?acc, Hq' : Forall no_target_write ?acc |- _ =>
    rewrite Hq in Htrz;
      pose proof (Forall_app_2 _ _ _ Hq' Hfz) as Hpost;
      set (post := acc ++ newz) in *
  end.
  exists (pre ++ newa ++ newb ++ newc ++ post).
  split.
  - rewrite Htrz, Htrc, Htrb, Htra, Htrp. unfold post.
    rewrite <- !app_assoc. reflexivity.
  - split.
    + rewrite !target_writes_app, (no_target_writes pre Hfpre),
        (no_target_writes post Hpost), Hwa, Hwb, Hwc, app_nil_r.
      reflexivity.
    + match goal with
      | Hq : same_debug_units (upd_cm (set_fpb_enabled true) t7) ?s |- _ =>
        destruct Hq as (_ & _ & _ & _ & _ & Hq1 & _);
          destruct Hrz as (_ & _ & _ & _ & _ & Hq2 & _);
          rewrite Hq2, Hq1; reflexivity
      end.
Qed.

(** X20: cortex_m_endreset_event always returns, and when it answers OK it
    has restored the debug units from the cache: the words it wrote through
    target_write_u32 are FP_CTRL := 3, then the FPB comparators
    (fp_num_code + fp_num_lit of them), then COMP, MASK and FUNCTION of
    each of the dwt_num_comp DWT comparators, in that order and nothing
    else; and the FPB is marked enabled. *)
Theorem endreset_event_restores_comparators t w :
  exists r t' w',
    cortex_m_endreset_event t w = (Done r, t', w')
    /\ (r = ERROR_OK ->
        exists new,
          trace w' = trace w ++ new
          /\ target_writes new
             = (FP_CTRL, 3) :: fp_restores (cortex_m t) ++ dwt_restores (cortex_m t)
          /\ fpb_enabled (cortex_m t') = true).
Proof.
  destruct (endreset_event_completes t w) as (r & Hr & _).
  destruct (cortex_m_endreset_event t w) as [[o t'] w'] eqn:E.
  cbn [fst snd] in Hr. subst o.
  exists r, t', w'. split; [reflexivity|].
  intros ->. exact (endreset_event_restores t w t' w' E).
Qed.

Lemma endreset_event_restores_witness :
  exists t' w' new,
    cortex_m_endreset_event Samples.debug_core Samples.fpb_world
    = (Done ERROR_OK, t', w')
    /\ trace w' = new
    /\ target_writes new
       = [(FP_CTRL, 3); (0xE0002008, 0x08000101);
          (0xE0001020, 0x20000000); (0xE0001024, 0); (0xE0001028, 5);
          (0xE0001030, 0x20000100); (0xE0001034, 0); (0xE0001038, 5)].
Proof.
  destruct (endreset_event_restores_comparators Samples.debug_core
              Samples.fpb_world) as (r & t' & w' & E & H).
  pose proof (f_equal (fun x => x.1.1) E) as Er.
  cbn [fst snd] in Er. vm_compute in Er. injection Er as <-.
  destruct (H eq_refl) as (new & Htr & Hwr & _).
  exists t', w', new. split; [exact E|]. split; [exact Htr|exact Hwr].
Defined.

(** ** Debug entry: core mode *)

#[global] Instance unchanged_rel : FrameRel (fun (_ : world) (t t' : target) => t' = t).
Proof.
  split.
  - reflexivity.
  - intros _ _ s s' s'' _ -> ->. reflexivity.
Qed.

Abbreviation reading m :=
  (steps (fun _ : event => True) (fun (_ : world) (t t' : target) => t' = t) m).

Lemma read_status_reading atomic a : reading (read_status atomic a).
Proof.
  unfold read_status, mem_ap_read_atomic_u32, mem_ap_read_u32. steps_auto.
Qed.

Lemma examine_exception_reason_reading : reading cortex_m_examine_exception_reason.
Proof.
  unfold cortex_m_examine_exception_reason.
  pose proof read_status_reading.
  unfold mem_ap_read_atomic_u32, dap_run. steps_auto.
Qed.

Lemma bind_inv {St A B} (m : ST St A) (k : A -> ST St B) s w r s' w' :
  bind m k s w = (Done r, s', w') ->
  exists a s1 w1, m s w = (Done a, s1, w1) /\ k a s1 w1 = (Done r, s', w').
Proof.
  unfold bind. destruct (m s w) as [[[a|] s1] w1]; [|discriminate].
  intros H. exists a, s1, w1. auto.
Qed.

Lemma must_inv {St} (m k : ST St retcode) s w s' w' :
  on_ok m k s w = (Done ERROR_OK, s', w') ->
  exists s1 w1, m s w = (Done ERROR_OK, s1, w1) /\ k s1 w1 = (Done ERROR_OK, s', w').
Proof.
  unfold on_ok. intros H. apply bind_inv in H as (a & s1 & w1 & Em & Hk).
  destruct (is_ok a) eqn:Ea.
  - apply is_ok_eq in Ea. subst a. exists s1, w1. auto.
  - unfold ret in Hk. apply done_inv in Hk as (-> & _). discriminate Ea.
Qed.

(** What a cortex_m_debug_entry that answered OK has left in the core. *)
Lemma debug_entry_core_mode t w t' w' :
  cortex_m_debug_entry t w = (Done ERROR_OK, t', w') ->
  mode_of_registers (probe_of w') (armv7m (cortex_m t')).
Proof.
  intros H. unfold cortex_m_debug_entry in H.
  apply bind_inv in H as (_ & t1 & w1 & _ & H).
  apply bind_inv in H as (_ & t2 & w2 & _ & H).
  apply must_inv in H as (t3 & w3 & _ & H).
  apply must_inv in H as (t4 & w4 & _ & H).
  apply bind_inv in H as (a & t5 & w5 & _ & H).
  apply must_inv in H as (t6 & w6 & _ & H).
  apply must_inv in H as (t7 & w7 & _ & H).
  unfold bind at 1 in H. unfold get_armv7m at 1, gets at 1 in H. cbn beta iota in H.
  unfold bind at 1 in H. unfold get_reg at 1, gets at 1 in H. cbn beta iota in H.
  cbv zeta in H.
  apply bind_inv in H as (u & t8 & w8 & Emode & H).
  unfold bind at 1 in H. unfold get_armv7m at 1, gets at 1 in H. cbn beta iota in H.
  apply bind_inv in H as (r & t9 & w9 & Eex & H).
  unfold ret in H. apply done_inv in H as (_ & <- & <-).
  assert (Hsame : t9 = t8 /\ probe_of w9 = probe_of w8).
  { destruct (negb _).
    - destruct (examine_exception_reason_reading t8 w8) as ((Hp & _) & Ht & _).
      rewrite Eex in Hp, Ht. cbn [fst snd] in Hp, Ht. auto.
    - unfold ret in Eex. apply done_inv in Eex as (_ & <- & <-). auto. }
  destruct Hsame as (-> & Hp9). rewrite Hp9. clear Eex Hp9.
  unfold mode_of_registers. unfold target_to_armv7m in Emode.
  destruct (has_bits _ 511) eqn:Ex in Emode.
  - unfold modify in Emode. apply done_inv in Emode as (_ & <- & <-).
    cbn [upd_armv7m upd_cm set_cortex_m set_armv7m cortex_m armv7m set_map
         set_core_mode set_exception_number core_cache arm_cpsr core_mode
         exception_number map].
    rewrite Ex. repeat split.
  - unfold bind at 1, asks at 1 in Emode. cbn beta iota in Emode.
    unfold bind at 1, get_reg at 1, gets at 1 in Emode. cbn beta iota in Emode.
    unfold modify in Emode. apply done_inv in Emode as (_ & <- & <-).
    cbn [upd_armv7m upd_cm set_cortex_m set_armv7m cortex_m armv7m set_map
         set_core_mode set_exception_number core_cache arm_cpsr core_mode
         exception_number map target_to_armv7m].
    rewrite Ex. repeat split.
Qed.

(** X21: cortex_m_debug_entry returns, and when it answers OK it leaves the
    core mode, the exception number and the register map as the loaded
    registers say: handler mode, the exception number of xPSR and the main
    stack when xPSR[8:0] is not zero; otherwise thread mode, unprivileged
    when CONTROL bit 0 is set, on the process stack when CONTROL bit 1 is
    set, and exception number 0. *)
Theorem debug_entry_sets_core_mode t w :
  timely (probe_of w) ->
  exists r t' w',
    cortex_m_debug_entry t w = (Done r, t', w')
    /\ (r = ERROR_OK -> mode_of_registers (probe_of w') (armv7m (cortex_m t'))).
Proof.
  intros Hw.
  destruct (proj2 (returns_run _) debug_entry_returns t w Hw)
    as (r & t' & w' & E & _).
  exists r, t', w'. split; [exact E|].
  intros ->. exact (debug_entry_core_mode t w t' w' E).
Qed.

Lemma debug_entry_sets_core_mode_witness :
  exists t' w',
    cortex_m_debug_entry Scenario.halted_target Samples.ready_world
    = (Done ERROR_OK, t', w')
    /\ core_mode (armv7m (cortex_m t')) = ARM_MODE_HANDLER
    /\ exception_number (armv7m (cortex_m t')) = 0xEF.
Proof.
  edestruct (debug_entry_sets_core_mode Scenario.halted_target Samples.ready_world)
    as (r & t' & w' & E & H).
  - intros m n Hmn. cbn in *. lia.
  - pose proof (f_equal (fun x => x.1.1) E) as Er.
    pose proof (f_equal (fun x => x.1.2) E) as Et.
    cbn [fst snd] in Er, Et. vm_compute in Er. injection Er as <-.
    specialize (H eq_refl). unfold mode_of_registers in H. cbv zeta in H.
    assert (Ex : buf_get_u32
                   (value (reg_at (core_cache (armv7m (cortex_m t')))
                                  (arm_cpsr (armv7m (cortex_m t'))))) 0 32
                 = 0xBEEF)
      by (rewrite <- Et; vm_compute; reflexivity).
    rewrite Ex in H. change (has_bits 0xBEEF 0x1FF) with true in H.
    cbv iota in H. destruct H as (Hm & He & _).
    exists t', w'. split; [exact E|]. split; [exact Hm|exact He].
Defined.

(** ** Restore: stepping over a breakpoint *)

Abbreviation sparing_breakpoints m :=
  (steps keeps_breakpoints (fun (_ : world) (_ _ : target) => True) m).

Lemma breakpoint_calls_app a b :
  breakpoint_calls (a ++ b) = breakpoint_calls a ++ breakpoint_calls b.
Proof. apply omap_app. Qed.

Lemma keeps_breakpoints_calls l : Forall keeps_breakpoints l -> breakpoint_calls l = [].
Proof.
  induction 1 as [|e l He _ IH]; [reflexivity|].
  unfold breakpoint_calls in *. cbn [omap list_omap]. rewrite IH.
  destruct e; try reflexivity. destruct c; try reflexivity; contradiction.
Qed.

Lemma single_step_core_sparing : sparing_breakpoints cortex_m_single_step_core.
Proof.
  unfold cortex_m_single_step_core, cortex_m_clear_halt,
    cortex_m_write_debug_halt_mask, mem_ap_write_atomic_u32,
    mem_ap_read_atomic_u32.
  steps_auto.
Qed.

(** Stepping over a run that completes and makes no breakpoint call. *)
Lemma pass_sparing {A B} (m : M A) (k : A -> M B) t w w0 acc :
  completes m -> sparing_breakpoints m ->
  trace w = trace w0 ++ acc -> Forall keeps_breakpoints acc ->
  exists a t1 w1 new,
    trace w1 = trace w0 ++ (acc ++ new)
    /\ Forall keeps_breakpoints (acc ++ new)
    /\ bind m k t w = k a t1 w1.
Proof.
  intros Hc Hl Htr0 Hf0. destruct (Hc t w) as (a & Ea & _).
  destruct (Hl t w) as (_ & _ & new & Htr & Hf).
  unfold bind. destruct (m t w) as [[o t1] w1]. cbn [fst snd] in *. subst o.
  exists a, t1, w1, new.
  split; [rewrite Htr, Htr0, app_assoc; reflexivity|].
  split; [apply Forall_app; auto|reflexivity].
Qed.

Ltac spare :=
  match goal with
  | Htr : trace ?w = trace ?w0 ++ ?acc, Hf : Forall keeps_breakpoints ?acc
    |- context [bind ?m ?k ?t ?w] =>
    let a := fresh "a" in
    let t1 := fresh "t" in
    let w1 := fresh "w" in
    let new := fresh "new" in
    let Htr' := fresh "Htr" in
    let Hf' := fresh "Hf" in
    let E := fresh "E" in
    destruct (pass_sparing m k t w w0 acc) as (a & t1 & w1 & new & Htr' & Hf' & E);
    [ unfold set_reg_bits, armv7m_maybe_skip_bkpt_inst, armv7m_restore_context;
      yields_auto
    | unfold set_reg_bits, armv7m_maybe_skip_bkpt_inst, armv7m_restore_context,
        call;
      pose proof single_step_core_sparing; steps_auto
    | exact Htr | exact Hf
    | rewrite E; clear E Htr Hf; cbn beta iota ]
  end.

Lemma unset_breakpoint_run b t w :
  exists r t1,
    cortex_m_unset_breakpoint b t w =
    (Done r, t1,
     mk_world (probe_of w) (S (tick w))
       (trace w ++ [EvCall (CALL_cortex_m_unset_breakpoint (bp_address b))])).
Proof.
  unfold cortex_m_unset_breakpoint. unfold bind at 1. rewrite call_run.
  unfold bind at 1. destruct (is_ok _); unfold modify, ret; eauto.
Qed.

Lemma set_breakpoint_run b t w :
  exists r t1,
    cortex_m_set_breakpoint b t w =
    (Done r, t1,
     mk_world (probe_of w) (S (tick w))
       (trace w ++ [EvCall (CALL_cortex_m_set_breakpoint (bp_address b))])).
Proof.
  unfold cortex_m_set_breakpoint. unfold bind at 1. rewrite call_run.
  unfold bind at 1. destruct (is_ok _); unfold modify, ret; eauto.
Qed.

